(** * nexus-crate-flow: reconciliation, log lifecycle and channel service

    A shallow embedding of the backend services of the repository
    (backend/services/dockerService.js, backend/services/logService.js,
    backend/models/Container.js, the Docker manager and the WebSocket
    service) and the properties of the specification that concern them
    (Part II), followed by properties of the functions around them that
    the code itself shows (Part III).

    JavaScript values are modelled as follows.  Strings are [string],
    that is, strings whose code units are below 256;
    [null]/[undefined] is [None]; an [async] method
    is a state transformer over the [World] (database, log directory,
    sockets) that either completes normally or throws, the world
    surviving the exception so that [try]/[catch] sees every write made
    before the throw.  What the outside world answers (the Docker engine,
    the clock, the uuid generator, the token verifier, the rank at
    which the database lists a row it has just stamped) is an explicit
    argument.  Numbers that the code computes with are IEEE 754
    doubles. *)

From Stdlib Require Import ZArith String Ascii List Bool Lia SpecFloat.
From stdpp Require Import base tactics option list gmap strings pretty.

Set Default Proof Using "Type".
Set Warnings "-clear-no-such-hyp".
Local Open Scope Z_scope.

(* ===================================================================== *)
(** * Part I: the program *)
(* ===================================================================== *)

(** ** JavaScript idioms *)

Module Js.

(** An [Error] object: [message], and [code] for system errors
    ([ENOENT]); [code] is empty when the error has none. *)
Record Error := mkError { message : string; code : string }.

Definition error (msg : string) : Error := mkError msg "".

(** How a call ends: with a value, or with a thrown error. *)
Inductive completion (A : Type) : Type :=
| Normal (a : A)
| Abrupt (e : Error).
Arguments Normal {A} a.
Arguments Abrupt {A} e.

(** An effectful computation over a store [S]. *)
Definition M (S A : Type) : Type := S -> completion A * S.

Global Instance M_ret {S} : MRet (M S) := fun A a s => (Normal a, s).

Global Instance M_bind {S} : MBind (M S) := fun A B k m s =>
  match m s with
  | (Normal a, s') => k a s'
  | (Abrupt e, s') => (Abrupt e, s')
  end.

Global Instance M_throw {S} : MThrow Error (M S) := fun A e s => (Abrupt e, s).

(** [try { m } catch (e) { h e }] *)
Definition try_catch {S A} (m : M S A) (h : Error -> M S A) : M S A :=
  fun s => match m s with
           | (Normal a, s') => (Normal a, s')
           | (Abrupt e, s') => h e s'
           end.

Definition get {S} : M S S := fun s => (Normal s, s).
Definition modify {S} (f : S -> S) : M S unit := fun s => (Normal tt, f s).

(** [if (c) { m }] *)
Definition when {S} (c : bool) (m : M S unit) : M S unit :=
  if c then m else mret tt.

(** Truthiness of a nullable string: [null], [undefined] and the empty
    string are falsy. *)
Definition truthy (o : option string) : bool :=
  match o with
  | Some s => negb (bool_decide (s = ""))
  | None => false
  end.

(** [a || b] on strings: the first operand when truthy. *)
Definition or_else (a b : string) : string :=
  if bool_decide (a = "") then b else a.

(** [a === b] where [a] is a string and [b] a nullable string. *)
Definition strict_eq (a : string) (b : option string) : bool :=
  bool_decide (b = Some a).

(** Every run of [m] from a store satisfying [I] ends, normally or
    not, in a store related to the initial one by [R]. *)
Definition preserves {S A} (I : S -> Prop) (R : S -> S -> Prop) (m : M S A) : Prop :=
  forall s, I s -> R s (m s).2.

End Js.

(** ** The persisted store (backend/config/database.js, [createTables]) *)

Module Schema.

(** A row of [containers].  [id] is the primary key, [docker_id] is
    [UNIQUE] (and nullable), [name] is [NOT NULL] but not unique.
    The columns [port_mappings], [environment_vars], [created_at] and
    [updated_at] are read by none of the functions below and are left
    out; the table is kept in the order in which
    [ORDER BY created_at DESC] lists its rows. *)
Record containers_row := mkContainer {
  id : string;
  name : string;
  docker_id : option string;
  image : string;
  status : string;
  folder_path : string;
  startup_script : option string;
  created_by : Z
}.

(** A row of [container_logs]. *)
Record container_logs_row := mkLog {
  container_id : string;
  log_content : string;
  log_type : string
}.

(** A row of [container_settings]; [auto_restart] is a SQLite
    [BOOLEAN], an integer read back as a JS number. *)
Record container_settings_row := mkSettings {
  settings_container_id : string;
  auto_restart : Z;
  tunnel_enabled : Z;
  settings_json : option string
}.

Record Database := mkDatabase {
  containers : list containers_row;
  container_logs : list container_logs_row;
  container_settings : list container_settings_row
}.

Definition set_status (s : string) (c : containers_row) : containers_row :=
  mkContainer (id c) (name c) (docker_id c) (image c) s
              (folder_path c) (startup_script c) (created_by c).

Definition set_docker_id (d : option string) (c : containers_row) : containers_row :=
  mkContainer (id c) (name c) d (image c) (status c)
              (folder_path c) (startup_script c) (created_by c).

Definition set_containers (rows : list containers_row) (db : Database) : Database :=
  mkDatabase rows (container_logs db) (container_settings db).

Definition set_container_logs (logs : list container_logs_row) (db : Database) : Database :=
  mkDatabase (containers db) logs (container_settings db).

End Schema.

(** ** The log directory *)

Module Fs.

(** A regular file: modification time (milliseconds since the epoch)
    and content. *)
Record File := mkFile { mtime : Z; content : string }.

End Fs.

(** ** Values exchanged with clients *)

Module Wire.

(** A parsed log line or a fresh log notification:
    [{timestamp, content, source, type}]. *)
Record LogEntry := mkLogEntry {
  timestamp : string;
  content : string;
  source : string;
  type : string
}.

(** [{status, running, created}] inside a [container_status] event;
    [created] is left out. *)
Record DockerStatus := mkDockerStatus {
  ds_status : string;
  ds_running : bool
}.

(** Events sent by the server; the constructor is the [type] field. *)
Inductive Message :=
| welcome (message timestamp : string)
| authenticated (client_id : string) (user_id : Z) (username role timestamp : string)
| error (error timestamp : string)
| log_subscription_success (container_id container_name timestamp : string)
| log_entry (container_id : string) (log : LogEntry)
| log_unsubscription_success (container_id timestamp : string)
| command_started (container_id command timestamp : string)
| command_output (container_id output timestamp : string)
| command_completed (container_id command timestamp : string)
| command_error (container_id error timestamp : string)
| container_status (container_id container_name database_status : string)
                   (docker_status : option DockerStatus) (timestamp : string)
| container_status_change (container_id status timestamp : string).

(** A client message after [JSON.parse]; absent fields are [None]. *)
Record ClientMessage := mkClientMessage {
  msg_type : option string;
  token : option string;
  msg_container_id : option string;
  command : option string;
  working_dir : option string
}.

(** [ws.readyState] *)
Inductive ReadyState := CONNECTING | OPEN | CLOSING | CLOSED.

Global Instance ReadyState_eq_dec : EqDecision ReadyState.
Proof. solve_decision. Defined.

(** A WebSocket object, named by a number: its state and what has
    been sent on it, oldest first. *)
Record Socket := mkSocket { readyState : ReadyState; sent : list Message }.

(** An entry of [this.clients]; [connectedAt] is left out. *)
Record Client := mkClient {
  ws : nat;
  userId : Z;
  username : string;
  role : string
}.

(** The variables closed over by the handlers of one connection
    ([setupConnection]). *)
Record Connection := mkConnection {
  clientId : option string;
  conn_userId : option Z;
  is_authenticated : bool;
  subscribedContainers : gset string
}.

End Wire.

(** ** The world the services act on *)

(** Calls that leave the process, and deferred work, in the order made. *)
Inductive Call :=
| EngineRestart (docker_id : string) (timeout : Z)
| EngineExec (docker_id : string) (argv : list string)
| RestartInvoked (containerId : string)
| SetTimeout (ms : Z) (containerId script : string).

Record World := mkWorld {
  db : Schema.Database;
  (** directories under [logPath], by name, each a map from file name
      to file *)
  fs : gmap string (gmap string Fs.File);
  (** [LogService.logStreams] and what was written to each stream *)
  logStreams : gmap string (gset nat);
  streamed : list (nat * Wire.LogEntry);
  (** the WebSocket objects, [WebSocketService.clients] in insertion
      order, [WebSocketService.containerStreams] and the per-connection
      closures *)
  sockets : gmap nat Wire.Socket;
  clients : list (string * Wire.Client);
  containerStreams : gmap string (gset nat);
  connections : gmap nat Wire.Connection;
  calls : list Call
}.

Definition set_db (f : Schema.Database -> Schema.Database) (w : World) : World :=
  mkWorld (f (db w)) (fs w) (logStreams w) (streamed w) (sockets w) (clients w)
          (containerStreams w) (connections w) (calls w).

Definition set_fs (f : gmap string (gmap string Fs.File) -> gmap string (gmap string Fs.File))
    (w : World) : World :=
  mkWorld (db w) (f (fs w)) (logStreams w) (streamed w) (sockets w) (clients w)
          (containerStreams w) (connections w) (calls w).

Definition set_logStreams (f : gmap string (gset nat) -> gmap string (gset nat))
    (w : World) : World :=
  mkWorld (db w) (fs w) (f (logStreams w)) (streamed w) (sockets w) (clients w)
          (containerStreams w) (connections w) (calls w).

Definition set_streamed (f : list (nat * Wire.LogEntry) -> list (nat * Wire.LogEntry))
    (w : World) : World :=
  mkWorld (db w) (fs w) (logStreams w) (f (streamed w)) (sockets w) (clients w)
          (containerStreams w) (connections w) (calls w).

Definition set_sockets (f : gmap nat Wire.Socket -> gmap nat Wire.Socket) (w : World) : World :=
  mkWorld (db w) (fs w) (logStreams w) (streamed w) (f (sockets w)) (clients w)
          (containerStreams w) (connections w) (calls w).

Definition set_clients (f : list (string * Wire.Client) -> list (string * Wire.Client))
    (w : World) : World :=
  mkWorld (db w) (fs w) (logStreams w) (streamed w) (sockets w) (f (clients w))
          (containerStreams w) (connections w) (calls w).

Definition set_containerStreams (f : gmap string (gset nat) -> gmap string (gset nat))
    (w : World) : World :=
  mkWorld (db w) (fs w) (logStreams w) (streamed w) (sockets w) (clients w)
          (f (containerStreams w)) (connections w) (calls w).

Definition set_connections (f : gmap nat Wire.Connection -> gmap nat Wire.Connection)
    (w : World) : World :=
  mkWorld (db w) (fs w) (logStreams w) (streamed w) (sockets w) (clients w)
          (containerStreams w) (f (connections w)) (calls w).

Definition record_call (c : Call) (w : World) : World :=
  mkWorld (db w) (fs w) (logStreams w) (streamed w) (sockets w) (clients w)
          (containerStreams w) (connections w) (calls w ++ [c]).

(** The file [file] of directory [dir], if any. *)
Definition file_at (tree : gmap string (gmap string Fs.File)) (dir file : string)
    : option Fs.File :=
  tree !! dir ≫= (.!! file).

(** ** backend/models/Container.js *)

Module Container.

Import Schema.

(** [new Container(data)]: [this.status = data.status || 'stopped']. *)
Definition new (data : containers_row) : containers_row :=
  set_status (Js.or_else (status data) "stopped") data.

(** [SELECT * FROM containers WHERE id = ?] *)
Definition findById (cid : string) : Js.M World (option containers_row) :=
  w ← Js.get;
  mret (new <$> List.find (fun r => bool_decide (id r = cid)) (containers (db w))).

(** Some row has the primary key [cid]. *)
Definition has_id (cid : string) (rows : Datatypes.list containers_row) : bool :=
  existsb (fun r => bool_decide (id r = cid)) rows.

(** The table with [row] listed after the first [rank] rows. *)
Definition insert_at (rank : nat) (row : containers_row)
    (rows : Datatypes.list containers_row) : Datatypes.list containers_row :=
  take rank rows ++ row :: drop rank rows.

(** [Container.create(containerData, userId)]; [newId] is the value of
    [uuidv4().replace(/-/g, '').substring(0, 12)].  The [INSERT] fails
    when the primary key is taken; an [INSERT] that does not fail
    changes one row, so the result is that of [Container.findById(id)].
    [rank] is the number of rows that [ORDER BY created_at DESC] lists
    before the new one: [created_at] is [CURRENT_TIMESTAMP], which
    counts in seconds, so the new row comes first only when the clock
    has moved on since the last insertion, and follows the rows created
    in the same second. *)
Definition create (newId : string) (rank : nat) (cname cimage : string)
    (cfolder_path : option string) (cstartup_script : option string)
    (userId : Z) : Js.M World (option containers_row) :=
  let folderPath :=
    if Js.truthy cfolder_path then default "" cfolder_path
    else "/home/containers/" +:+ newId in
  w ← Js.get;
  if has_id newId (containers (db w)) then
    mthrow (Js.mkError "SQLITE_CONSTRAINT: UNIQUE constraint failed: containers.id"
                       "SQLITE_CONSTRAINT")
  else
    Js.modify (set_db (fun d => set_containers
      (insert_at rank
         (mkContainer newId cname None cimage "created" folderPath
            (if Js.truthy cstartup_script then cstartup_script else None) userId)
         (containers d)) d));;
    findById newId.

(** [UPDATE containers SET status = ? WHERE id = ?]; the object is
    updated too when a row was changed.  The method returns whether a
    row was changed, which no caller reads; the model returns the
    object as the call leaves it. *)
Definition updateStatus (self : containers_row) (s : string)
    : Js.M World containers_row :=
  w ← Js.get;
  if has_id (id self) (containers (db w)) then
    Js.modify (set_db (fun d => set_containers
      (map (fun r => if bool_decide (id r = id self) then set_status s r else r)
           (containers d)) d));;
    mret (set_status s self)
  else mret self.

(** [UPDATE containers SET docker_id = ? WHERE id = ?]; rejected when
    another row holds the same [docker_id] (the column is [UNIQUE]).
    Returns the object as the call leaves it. *)
Definition updateDockerId (self : containers_row) (dockerId : string)
    : Js.M World containers_row :=
  w ← Js.get;
  if has_id (id self) (containers (db w)) then
    if existsb (fun r => negb (bool_decide (id r = id self))
                         && bool_decide (docker_id r = Some dockerId))
               (containers (db w)) then
      mthrow (Js.mkError "SQLITE_CONSTRAINT: UNIQUE constraint failed: containers.docker_id"
                         "SQLITE_CONSTRAINT")
    else
      Js.modify (set_db (fun d => set_containers
        (map (fun r => if bool_decide (id r = id self)
                       then set_docker_id (Some dockerId) r else r)
             (containers d)) d));;
      mret (set_docker_id (Some dockerId) self)
  else mret self.

(** [INSERT INTO container_logs (container_id, log_content, log_type)] *)
Definition addLog (self : containers_row) (content logType : string)
    : Js.M World unit :=
  Js.modify (set_db (fun d => set_container_logs
    (container_logs d ++ [mkLog (id self) content logType]) d)).

(** [SELECT * FROM container_settings WHERE container_id = ?] *)
Definition getSettings (self : containers_row)
    : Js.M World (option container_settings_row) :=
  w ← Js.get;
  mret (List.find (fun r => bool_decide (settings_container_id r = id self))
                  (container_settings (db w))).

(** [Container.list({limit, status})]:
    [SELECT * FROM containers [WHERE status = ?]
     ORDER BY created_at DESC LIMIT ? OFFSET 0], the [WHERE] clause
    under [if (status)]. *)
Definition list (limit : nat) (wanted : option string)
    : Js.M World (Datatypes.list containers_row) :=
  w ← Js.get;
  let rows := if Js.truthy wanted
              then filter (fun r => status r = default "" wanted) (containers (db w))
              else containers (db w) in
  mret (map new (take limit rows)).

(** *** Paging, deletion and settings *)

(** The options of [Container.list] other than [sort] and [order],
    which every caller leaves at [created_at] and [desc]; a field left
    out is [None]. *)
Record ListOptions := mkListOptions {
  opt_page : option Z;
  opt_limit : option Z;
  opt_status : option string;
  opt_userId : option Z
}.

(** The [pagination] object; [pages] is
    [Math.ceil(total.count / limit)], [None] when that is not a finite
    number. *)
Record Pagination := mkPagination {
  page : Z;
  limit : Z;
  total : Z;
  pages : option Z
}.

(** The rows that the [WHERE] clause keeps: [status = ?] under
    [if (status)] and [created_by = ?] under [if (userId)]. *)
Definition selected (wanted : option string) (userId : option Z)
    (rows : Datatypes.list containers_row) : Datatypes.list containers_row :=
  List.filter
    (fun r =>
       (if Js.truthy wanted then bool_decide (status r = default "" wanted) else true)
       && (match userId with
           | Some u => if u =? 0 then true else bool_decide (created_by r = u)
           | None => true
           end))
    rows.

(** [LIMIT ? OFFSET ?]: a negative limit is no limit, a negative
    offset is no offset. *)
Definition limit_offset {A} (limit offset : Z) (rows : Datatypes.list A)
    : Datatypes.list A :=
  let rows := drop (Z.to_nat offset) rows in
  if limit <? 0 then rows else take (Z.to_nat limit) rows.

(** [Container.list(options)] with its [pagination]. *)
Definition listPage (options : ListOptions)
    : Js.M World (Datatypes.list containers_row * Pagination) :=
  let page := default 1 (opt_page options) in
  let limit := default 10 (opt_limit options) in
  let offset := (page - 1) * limit in
  w ← Js.get;
  let rows := selected (opt_status options) (opt_userId options) (containers (db w)) in
  let total := Z.of_nat (length rows) in
  mret (map new (limit_offset limit offset rows),
        mkPagination page limit total
          (if limit =? 0 then None else Some (- (- total / limit)))).

(** The [containers] of page [p]. *)
Definition pageRows (limit : Z) (wanted : option string) (userId : option Z)
    (w : World) (p : Z) : Datatypes.list containers_row :=
  match (listPage (mkListOptions (Some p) (Some limit) wanted userId) w).1 with
  | Js.Normal (rows, _) => rows
  | Js.Abrupt _ => []
  end.

(** [Container.delete(id)]: [DELETE FROM containers WHERE id = ?];
    foreign keys are not enforced (no [PRAGMA foreign_keys]), so the
    other tables are left alone. *)
Definition delete (cid : string) : Js.M World bool :=
  w ← Js.get;
  if has_id cid (containers (db w)) then
    Js.modify (set_db (fun d => set_containers
      (List.filter (fun r => negb (bool_decide (id r = cid))) (containers d)) d));;
    mret true
  else mret false.

(** A value given for [settings_json]: whether it is truthy, and its
    [JSON.stringify] text. *)
Record JsonValue := mkJsonValue { json_truthy : bool; json_text : string }.

(** The argument of [updateSettings], with the keys that the settings
    route puts in it: for a column of the model the value given,
    [None] when the key is absent; [sd_others] is the number of keys
    given among the columns that the model leaves out
    ([cloudflare_token], [tunnel_url], [max_memory], [max_cpu]). *)
Record SettingsData := mkSettingsData {
  sd_tunnel_enabled : option bool;
  sd_auto_restart : option bool;
  sd_settings_json : option JsonValue;
  sd_others : nat
}.

(** [Object.entries(settingsData).length === 0] *)
Definition no_keys (sd : SettingsData) : bool :=
  match sd_tunnel_enabled sd, sd_auto_restart sd, sd_settings_json sd, sd_others sd with
  | None, None, None, O => true
  | _, _, _, _ => false
  end.

(** A boolean bound to a statement parameter is stored as [1] or [0]. *)
Definition stored_bool (b : bool) : Z := if b then 1 else 0.

(** The [UPDATE container_settings SET ...] built from the keys. *)
Definition updated_settings (sd : SettingsData) (r : container_settings_row)
    : container_settings_row :=
  mkSettings (settings_container_id r)
    (match sd_auto_restart sd with Some b => stored_bool b | None => auto_restart r end)
    (match sd_tunnel_enabled sd with Some b => stored_bool b | None => tunnel_enabled r end)
    (match sd_settings_json sd with Some v => Some (json_text v) | None => settings_json r end).

(** The row of the [INSERT INTO container_settings]:
    [tunnel_enabled || false],
    [auto_restart !== undefined ? auto_restart : true],
    [settings_json ? JSON.stringify(settings_json) : null]. *)
Definition inserted_settings (cid : string) (sd : SettingsData) : container_settings_row :=
  mkSettings cid
    (match sd_auto_restart sd with Some b => stored_bool b | None => 1 end)
    (stored_bool (default false (sd_tunnel_enabled sd)))
    (match sd_settings_json sd with
     | Some v => if json_truthy v then Some (json_text v) else None
     | None => None
     end).

Definition set_container_settings (rows : Datatypes.list container_settings_row)
    (d : Database) : Database :=
  mkDatabase (containers d) (container_logs d) rows.

(** [updateSettings(settingsData)].  With a row present and no key
    given the statement reads [SET , updated_at = ...] and is
    rejected. *)
Definition updateSettings (self : containers_row) (settingsData : SettingsData)
    : Js.M World (option container_settings_row) :=
  existingSettings ← getSettings self;
  match existingSettings with
  | Some _ =>
      if no_keys settingsData then
        mthrow (Js.mkError ("SQLITE_ERROR: near " +:+ String "034" ("," +:+ String "034"
                              ": syntax error")) "SQLITE_ERROR")
      else
        Js.modify (set_db (fun d => set_container_settings
          (map (fun r => if bool_decide (settings_container_id r = id self)
                         then updated_settings settingsData r else r)
               (container_settings d)) d))
  | None =>
      Js.modify (set_db (fun d => set_container_settings
        (container_settings d ++ [inserted_settings (id self) settingsData]) d))
  end;;
  getSettings self.

End Container.

(** ** The Docker manager (config/docker.js) *)

Module DockerManager.

(** An element of [listContainers()]; [id], [state], [ports] and
    [created] are read by no caller and are left out. *)
Record Summary := mkSummary {
  dockerId : string;
  name : string;
  image : string;
  status : string;
  labels : gmap string string
}.

(** The result of [getContainer()], with the fields its callers read. *)
Record Info := mkInfo {
  info_dockerId : string;
  info_name : string;
  info_status : string;
  running : bool
}.

(** What the engine answers during one task: the manager's connection
    flag, and the outcome of each dockerode call. *)
Record Engine := mkEngine {
  isConnected : bool;
  docker_listContainers : bool -> Js.completion (list Summary);
  docker_inspect : string -> Js.completion Info;
  docker_restart : string -> Z -> Js.completion unit;
  docker_exec : string -> list string -> Js.completion unit
}.

Definition lift {A} (c : Js.completion A) : Js.M World A := fun w => (c, w).

Definition listContainers (e : Engine) (all : bool) : Js.M World (list Summary) :=
  if negb (isConnected e) then mthrow (Js.error "Docker not connected")
  else lift (docker_listContainers e all).

Definition getContainer (e : Engine) (containerId : string) : Js.M World Info :=
  if negb (isConnected e) then mthrow (Js.error "Docker not connected")
  else lift (docker_inspect e containerId).

Definition restartContainer (e : Engine) (containerId : string) (timeout : Z)
    : Js.M World bool :=
  if negb (isConnected e) then mthrow (Js.error "Docker not connected")
  else
    Js.modify (record_call (EngineRestart containerId timeout));;
    lift (docker_restart e containerId timeout);;
    mret true.

(** [executeCommand]: the stream it returns is driven by the engine;
    its events reach the callbacks registered by the caller later. *)
Definition executeCommand (e : Engine) (containerId : string) (argv : list string)
    : Js.M World unit :=
  if negb (isConnected e) then mthrow (Js.error "Docker not connected")
  else
    Js.modify (record_call (EngineExec containerId argv));;
    lift (docker_exec e containerId argv).

(** A JS number: an IEEE 754 double (binary64: 53 bits of precision,
    exponents up to 1024), with its signed zeros, infinities and
    [NaN]. *)
Definition number := spec_float.

(** The double that an integer of the [stats] object is read as:
    the nearest one, ties to even; exact up to [2^53]. *)
Definition ofZ (z : Z) : number := binary_normalize 53 1024 z 0 false.

(** [a + b], [a - b], [a * b] and [a / b] on doubles, each rounded to
    nearest, ties to even; [NaN] propagates, and a division by zero
    gives an infinity or [NaN]. *)
Definition add (a b : number) : number := SFadd 53 1024 a b.
Definition sub (a b : number) : number := SFsub 53 1024 a b.
Definition mul (a b : number) : number := SFmul 53 1024 a b.
Definition div (a b : number) : number := SFdiv 53 1024 a b.

(** [a > 0]: false on [NaN]. *)
Definition gt0 (a : number) : bool := SFltb (S754_zero false) a.


(** A counter read from the [stats] object: the engine reports an
    integer; a missing field reads as [undefined], which the
    arithmetic turns into [NaN]. *)
Definition toNumber (x : option Z) : number :=
  match x with
  | Some z => ofZ z
  | None => S754_nan
  end.

(** [x || 0] for a counter of the [stats] object. *)
Definition orZero (x : option Z) : number :=
  match x with
  | Some z => ofZ z
  | None => ofZ 0
  end.

(** The number is finite and not negative: [+0], or a positive
    finite number. *)
Definition finiteNonNegative (x : number) : Prop :=
  x = S754_zero false \/ exists m e, x = S754_finite false m e.

(** The sign of a number is [s]; [NaN] has none. *)
Definition signedAs (s : bool) (x : number) : Prop :=
  match x with
  | S754_nan => False
  | S754_zero s' | S754_infinity s' | S754_finite s' _ _ => s' = s
  end.


(** A zero of sign [s], or a finite number of sign [s] whose mantissa
    is at most [2^k] and whose exponent is at most [emx]. *)
Definition within (k emx : Z) (s : bool) (x : number) : Prop :=
  x = S754_zero s
  \/ exists m e, x = S754_finite s m e /\ Zpos m <= 2 ^ k /\ e <= emx.

(** A bound on the exponent of a rounded mantissa below [2^k] with
    exponent at most [emx]. *)
Definition roundedExp (k emx : Z) : Z :=
  let e1 := Z.max emx (fexp 53 1024 (k + emx)) in
  Z.max e1 (fexp 53 1024 (k + 1 + e1)).

(** A positive normal number with exponent between [lo] and [hi]. *)
Definition normalIn (lo hi : Z) (x : number) : Prop :=
  exists m e, x = S754_finite false m e /\ 2 ^ 52 <= Zpos m < 2 ^ 53 /\ lo <= e <= hi.

(** The mantissa of the double of a positive integer below [2^53]. *)
Definition normal (p : positive) : positive :=
  Z.to_pos (Zpos p * 2 ^ (53 - Zpos (digits2_pos p))).

(** The fields of a [stats] sample that [calculateCpuPercent] reads:
    [cpu_stats.cpu_usage.total_usage],
    [precpu_stats.cpu_usage.total_usage], [cpu_stats.system_cpu_usage],
    [precpu_stats.system_cpu_usage] and [cpu_stats.online_cpus]. *)
Record Stats := mkStats {
  cpu_total_usage : option Z;
  precpu_total_usage : option Z;
  system_cpu_usage : option Z;
  presystem_cpu_usage : option Z;
  online_cpus : option Z
}.

(** [stats.cpu_stats.online_cpus || 1] *)
Definition cpuCountOf (stats : Stats) : number :=
  match online_cpus stats with
  | Some n => if n =? 0 then ofZ 1 else ofZ n
  | None => ofZ 1
  end.

Definition calculateCpuPercent (stats : Stats) : number :=
  let cpuDelta := sub (toNumber (cpu_total_usage stats))
                      (toNumber (precpu_total_usage stats)) in
  let systemDelta := sub (toNumber (system_cpu_usage stats))
                         (toNumber (presystem_cpu_usage stats)) in
  let cpuCount := cpuCountOf stats in
  if gt0 systemDelta && gt0 cpuDelta
  then mul (mul (div cpuDelta systemDelta) cpuCount) (ofZ 100)
  else ofZ 0.

(** *** Resource strings and usage figures *)

(** [toLowerCase()] on a code unit below 256: the letters A to Z and
    the upper-case letters of the Latin-1 block (U+00C0 to U+00DE,
    the multiplication sign apart). *)
Definition toLowerCase_unit (c : ascii) : ascii :=
  let n := nat_of_ascii c in
  if ((65 <=? n)%nat && (n <=? 90)%nat)
     || ((192 <=? n)%nat && (n <=? 222)%nat && negb (n =? 215)%nat)
  then ascii_of_nat (n + 32) else c.

Fixpoint toLowerCase (s : string) : string :=
  match s with
  | EmptyString => EmptyString
  | String c rest => String (toLowerCase_unit c) (toLowerCase rest)
  end.

(** What [\d] matches. *)
Definition is_digit (c : ascii) : bool :=
  (48 <=? nat_of_ascii c)%nat && (nat_of_ascii c <=? 57)%nat.

Fixpoint allDigits (s : string) : bool :=
  match s with
  | EmptyString => true
  | String c rest => is_digit c && allDigits rest
  end.

(** The longest prefix of digits, and what follows. *)
Fixpoint span_digits (s : string) : string * string :=
  match s with
  | EmptyString => (EmptyString, EmptyString)
  | String c rest =>
      if is_digit c then let '(ds, r) := span_digits rest in (String c ds, r)
      else (EmptyString, s)
  end.

(** [parseInt(ds)] on a run of digits, as an exact integer: the value
    that [parseInt] returns for the numerals up to [2^53], which a
    double holds exactly; beyond them [parseInt] rounds. *)
Fixpoint parseInt_digits (acc : Z) (ds : string) : Z :=
  match ds with
  | EmptyString => acc
  | String c rest => parseInt_digits (acc * 10 + (Z.of_nat (nat_of_ascii c) - 48)) rest
  end.

(** The match of the pattern of [parseMemory], digits then at most
    one of [b], [k], [m], [g] up to the end of the string: the two
    captured groups. *)
Definition match_memory (s : string) : option (string * string) :=
  let '(ds, rest) := span_digits s in
  if bool_decide (ds = "") then None
  else match rest with
       | EmptyString => Some (ds, "")
       | String c EmptyString =>
           if bool_decide (c ∈ ["b"; "k"; "m"; "g"]%char) then Some (ds, rest) else None
       | _ => None
       end.

(** The table [units] of [parseMemory]; a key it does not hold reads
    as [undefined]. *)
Definition units (u : string) : option Z :=
  if bool_decide (u = "b") then Some 1
  else if bool_decide (u = "k") then Some 1024
  else if bool_decide (u = "m") then Some (1024 * 1024)
  else if bool_decide (u = "g") then Some (1024 * 1024 * 1024)
  else None.

(** [parseMemory(memory)] for a text or a missing value;
    [units[match[2]] || 1] is the factor, a power of two, so that the
    product is exact whenever the numeral is. *)
Definition parseMemory (memory : option string) : Z :=
  if negb (Js.truthy memory) then 0
  else match match_memory (toLowerCase (default "" memory)) with
       | None => 0
       | Some (ds, u) => parseInt_digits 0 ds * default 1 (units u)
       end.

(** [stats.memory_stats]: [usage] and [limit], [None] when the field is
    missing. *)
Record MemoryStats := mkMemoryStats {
  mem_usage : option Z;
  mem_limit : option Z
}.

Record MemoryUsage := mkMemoryUsage {
  usage : number;
  limit : number;
  percent : number
}.

(** [calculateMemoryUsage(stats)] *)
Definition calculateMemoryUsage (stats : MemoryStats) : MemoryUsage :=
  let usage := orZero (mem_usage stats) in
  let limit := orZero (mem_limit stats) in
  mkMemoryUsage usage limit
    (if gt0 limit then mul (div usage limit) (ofZ 100) else ofZ 0).

(** An element of [stats.networks]. *)
Record Network := mkNetwork {
  rx_bytes : option Z;
  tx_bytes : option Z
}.

(** The loop of [calculateNetworkUsage] over
    [Object.values(networks)]. *)
Fixpoint sumNetworks (networks : list Network) (rxBytes txBytes : number)
    : number * number :=
  match networks with
  | [] => (rxBytes, txBytes)
  | network :: rest =>
      sumNetworks rest (add rxBytes (orZero (rx_bytes network)))
                       (add txBytes (orZero (tx_bytes network)))
  end.

(** [calculateNetworkUsage(stats)]: [stats.networks || {}], the values
    in the order of the object's keys. *)
Definition calculateNetworkUsage (networks : option (list Network)) : number * number :=
  sumNetworks (default [] networks) (ofZ 0) (ofZ 0).

(** The counters of an interface as integers, a missing one counting
    as [0]. *)
Definition rxOf (n : Network) : Z := default 0 (rx_bytes n).
Definition txOf (n : Network) : Z := default 0 (tx_bytes n).

End DockerManager.

(** ** backend/services/dockerService.js *)

Module DockerService.

Import Schema.

(** The value returned by [syncContainers]. *)
Record SyncResult := mkSyncResult {
  synced : nat;
  updated : nat;
  created : nat;
  total_docker : nat;
  total_db : nat
}.

(** [dc => dc.dockerId === dbContainer.docker_id ||
          dc.name === dbContainer.name] *)
Definition matchesRecord (dbContainer : containers_row) (dc : DockerManager.Summary) : bool :=
  Js.strict_eq (DockerManager.dockerId dc) (docker_id dbContainer)
  || bool_decide (DockerManager.name dc = name dbContainer).

(** [dc => dc.docker_id === dockerContainer.dockerId ||
          dc.name === dockerContainer.name] *)
Definition matchesEngine (dockerContainer : DockerManager.Summary) (dc : containers_row) : bool :=
  Js.strict_eq (DockerManager.dockerId dockerContainer) (docker_id dc)
  || bool_decide (name dc = DockerManager.name dockerContainer).

(** The body of the first loop.  It returns the record object as the
    updates left it (the second loop reads these objects) and the
    counters [(syncedCount, updatedCount)]. *)
Definition syncRecord (dockerContainers : list DockerManager.Summary)
    (dbContainer : containers_row) (counts : nat * nat)
    : Js.M World (containers_row * (nat * nat)) :=
  let '(syncedCount, updatedCount) := counts in
  match List.find (matchesRecord dbContainer) dockerContainers with
  | Some dockerContainer =>
      '(c1, u1) ←
        (if negb (bool_decide (status dbContainer = DockerManager.status dockerContainer))
         then c ← Container.updateStatus dbContainer (DockerManager.status dockerContainer);
              mret (c, S updatedCount)
         else mret (dbContainer, updatedCount));
      '(c2, u2) ←
        (if negb (Js.truthy (docker_id c1))
            && Js.truthy (Some (DockerManager.dockerId dockerContainer))
         then c ← Container.updateDockerId c1 (DockerManager.dockerId dockerContainer);
              mret (c, S u1)
         else mret (c1, u1));
      mret (c2, (S syncedCount, u2))
  | None =>
      if negb (bool_decide (status dbContainer = "stopped"))
      then c ← Container.updateStatus dbContainer "stopped";
           Container.addLog c "Container not found in Docker, marked as stopped" "warning";;
           mret (c, (syncedCount, S updatedCount))
      else mret (dbContainer, (syncedCount, updatedCount))
  end.

(** [for (const dbContainer of dbContainers.containers) ...] *)
Fixpoint syncRecords (dockerContainers : list DockerManager.Summary)
    (dbContainers : list containers_row) (counts : nat * nat)
    : Js.M World (list containers_row * (nat * nat)) :=
  match dbContainers with
  | [] => mret ([], counts)
  | dbContainer :: rest =>
      '(c, counts1) ← syncRecord dockerContainers dbContainer counts;
      '(cs, counts2) ← syncRecords dockerContainers rest counts1;
      mret (c :: cs, counts2)
  end.

(** The body of the second loop; [draws] counts the identifiers drawn
    from the generator [uuid] so far, and [rank] gives the rank at
    which the row created at each draw is listed. *)
Definition importContainer (uuid : nat -> string) (rank : nat -> nat)
    (dbContainers : list containers_row)
    (dockerContainer : DockerManager.Summary) (st : nat * nat)
    : Js.M World (nat * nat) :=
  let '(draws, createdCount) := st in
  match List.find (matchesEngine dockerContainer) dbContainers with
  | None =>
      if bool_decide (DockerManager.labels dockerContainer !! "nexus-crate-flow" = Some "true")
      then
        Js.try_catch
          (created ← Container.create (uuid draws) (rank draws)
             (DockerManager.name dockerContainer) (DockerManager.image dockerContainer)
             (Some ("/home/containers/" +:+ DockerManager.name dockerContainer)) None 1;
           match created with
           | Some newContainer =>
               c1 ← Container.updateDockerId newContainer
                      (DockerManager.dockerId dockerContainer);
               c2 ← Container.updateStatus c1 (DockerManager.status dockerContainer);
               Container.addLog c2 "Container auto-imported from Docker" "info";;
               mret (S draws, S createdCount)
           | None =>
               mthrow (Js.error "TypeError: Cannot read properties of null")
           end)
          (fun _ => mret (S draws, createdCount))
      else mret (draws, createdCount)
  | Some _ => mret (draws, createdCount)
  end.

(** [for (const dockerContainer of dockerContainers) ...] *)
Fixpoint importContainers (uuid : nat -> string) (rank : nat -> nat)
    (dbContainers : list containers_row)
    (dockerContainers : list DockerManager.Summary) (st : nat * nat)
    : Js.M World (nat * nat) :=
  match dockerContainers with
  | [] => mret st
  | dockerContainer :: rest =>
      st1 ← importContainer uuid rank dbContainers dockerContainer st;
      importContainers uuid rank dbContainers rest st1
  end.

Definition syncContainers (uuid : nat -> string) (rank : nat -> nat)
    (engine : DockerManager.Engine) : Js.M World SyncResult :=
  dockerContainers ← DockerManager.listContainers engine true;
  dbContainers ← Container.list 1000 None;
  '(objects, (syncedCount, updatedCount)) ←
    syncRecords dockerContainers dbContainers (0%nat, 0%nat);
  '(_, createdCount) ← importContainers uuid rank objects dockerContainers (0%nat, 0%nat);
  mret (mkSyncResult syncedCount updatedCount createdCount
          (length dockerContainers) (length dbContainers)).

(** [restartContainer(containerId, timeout = 10)].  The deferred
    [executeScript] of the startup script is recorded as a [SetTimeout]
    call; it runs after the method has returned. *)
Definition restartContainer (engine : DockerManager.Engine)
    (containerId : string) (timeout : Z) : Js.M World (bool * string) :=
  Js.modify (record_call (RestartInvoked containerId));;
  Js.try_catch
    (found ← Container.findById containerId;
     match found with
     | None => mthrow (Js.error "Container not found")
     | Some container =>
         if negb (Js.truthy (docker_id container))
         then mthrow (Js.error "Container has no Docker ID")
         else
           Container.addLog container "Container restart initiated" "info";;
           DockerManager.restartContainer engine (default "" (docker_id container)) timeout;;
           container ← Container.updateStatus container "running";
           Container.addLog container "Container restarted successfully" "info";;
           Js.when (Js.truthy (startup_script container))
             (Js.modify (record_call
                (SetTimeout 2000 containerId (default "" (startup_script container)))));;
           mret (true, "running")
     end)
    (fun error =>
       found ← Container.findById containerId;
       match found with
       | Some container =>
           Container.addLog container
             ("Container restart failed: " +:+ Js.message error) "error"
       | None => mret tt
       end;;
       mthrow error).

(** An element of the array returned by [monitorContainerHealth]. *)
Record HealthCheck := mkHealthCheck {
  hc_container_id : string;
  hc_name : string;
  expected_status : string;
  actual_status : string;
  healthy : bool;
  hc_error : option string
}.

(** The body of the loop of [monitorContainerHealth]. *)
Definition checkContainer (engine : DockerManager.Engine) (container : containers_row)
    : Js.M World (list HealthCheck) :=
  if Js.truthy (docker_id container) then
    Js.try_catch
      (dockerInfo ← DockerManager.getContainer engine (default "" (docker_id container));
       container ←
         (if negb (DockerManager.running dockerInfo)
             && bool_decide (status container = "running")
          then
            container ← Container.updateStatus container "stopped";
            Container.addLog container
              "Container health check: status updated to stopped" "warning";;
            settings ← Container.getSettings container;
            match settings with
            | Some s =>
                Js.when (negb (auto_restart s =? 0))
                  (Container.addLog container
                     "Auto-restart enabled, attempting to restart container" "info";;
                   Js.try_catch
                     (restartContainer engine (id container) 10;; mret tt)
                     (fun restartError =>
                        Container.addLog container
                          ("Auto-restart failed: " +:+ Js.message restartError) "error"))
            | None => mret tt
            end;;
            mret container
          else mret container);
       mret [mkHealthCheck (id container) (name container) (status container)
               (DockerManager.info_status dockerInfo)
               (eqb (DockerManager.running dockerInfo)
                    (bool_decide (status container = "running")))
               None])
      (fun error =>
         mret [mkHealthCheck (id container) (name container) (status container)
                 "unknown" false (Some (Js.message error))])
  else mret [].

Fixpoint checkContainers (engine : DockerManager.Engine)
    (dbContainers : list containers_row) : Js.M World (list HealthCheck) :=
  match dbContainers with
  | [] => mret []
  | container :: rest =>
      h ← checkContainer engine container;
      hs ← checkContainers engine rest;
      mret (h ++ hs)
  end.

Definition monitorContainerHealth (engine : DockerManager.Engine)
    : Js.M World (list HealthCheck) :=
  dbContainers ← Container.list 1000 (Some "running");
  checkContainers engine dbContainers.

(** Successive runs of the health monitor, as the scheduler makes
    them: one engine answer per tick; a tick that throws is logged by
    the scheduler and the next one runs all the same. *)
Fixpoint monitorTicks (engines : list DockerManager.Engine) (w : World) : World :=
  match engines with
  | [] => w
  | engine :: rest => monitorTicks rest (snd (monitorContainerHealth engine w))
  end.

(** *** What one Sync tick makes of a record *)








(** The auto-restart flag of container [c] is off: its settings row
    is absent, or holds a falsy [auto_restart]. *)
Definition autoRestartOff (w : World) (c : string) : Prop :=
  match List.find (fun r => bool_decide (settings_container_id r = c))
                  (container_settings (db w)) with
  | Some s => auto_restart s = 0
  | None => True
  end.

(** From [w] to [w'] the settings table is unchanged and the restart
    operation has not been invoked on container [c]. *)
Definition noRestartOf (c : string) (w w' : World) : Prop :=
  container_settings (db w') = container_settings (db w)
  /\ exists extra, calls w' = calls w ++ extra /\ RestartInvoked c ∉ extra.

End DockerService.

(** ** backend/services/logService.js *)

Module LogService.

(** *** String methods used on log lines *)

(** White space in the sense of [String.prototype.trim], among the
    8-bit code units: TAB, LF, VT, FF, CR, space and NBSP. *)
Definition is_white_space (c : ascii) : bool :=
  match c with
  | "009" | "010" | "011" | "012" | "013" | " " | "160" => true
  | _ => false
  end%char.

(** Truthiness of [line.trim()]: some code unit is not white space. *)
Fixpoint trim_is_truthy (line : string) : bool :=
  match line with
  | EmptyString => false
  | String c rest => negb (is_white_space c) || trim_is_truthy rest
  end.

(** [text.split(sep)] for a one-character separator *)
Fixpoint split (sep : ascii) (text : string) : list string :=
  match text with
  | EmptyString => [EmptyString]
  | String c rest =>
      if Ascii.eqb c sep then EmptyString :: split sep rest
      else match split sep rest with
           | piece :: pieces => String c piece :: pieces
           | [] => [String c EmptyString]
           end
  end.

(** [content.split('\n')] *)
Definition split_lines (content : string) : list string := split "010" content.

(** [hay.includes(needle)] *)
Fixpoint includes (needle hay : string) : bool :=
  String.prefix needle hay
  || match hay with
     | EmptyString => false
     | String _ rest => includes needle rest
     end.

(** The longest prefix free of the closing bracket, and what follows. *)
Fixpoint span_timestamp (s : string) : string * string :=
  match s with
  | EmptyString => (EmptyString, EmptyString)
  | String c rest =>
      if Ascii.eqb c "]" then (EmptyString, s)
      else let '(t, r) := span_timestamp rest in (String c t, r)
  end.

(** [line.match(/^\[([^\]]+)\]/)]: the captured group and the rest of
    the line after the closing bracket. *)
Definition match_timestamp (line : string) : option (string * string) :=
  match line with
  | String "[" rest =>
      match span_timestamp rest with
      | (String c t, String "]" after) => Some (String c t, after)
      | _ => None
      end
  | _ => None
  end.

(** Whether the pattern [.*] takes the whole of [s]: [.] matches
    every code unit but a line terminator, that is LF and CR among the
    8-bit code units (U+2028 and U+2029 lie above them). *)
Fixpoint dot_star_matches (s : string) : bool :=
  match s with
  | EmptyString => true
  | String c rest =>
      negb (Ascii.eqb c "010") && negb (Ascii.eqb c "013") && dot_star_matches rest
  end.

(** The match of a line against the entry pattern of [readLogs]: the
    timestamp group as above, a closing bracket, one space, and a
    second group that takes any run of [.] up to the end of the
    string.  The result is the two captured groups. *)
Definition match_entry (line : string) : option (string * string) :=
  match match_timestamp line with
  | Some (t, String " " text) => if dot_star_matches text then Some (t, text) else None
  | _ => None
  end.

(** [lines.slice(-tail)] for a positive integer [tail]. *)
Definition slice_last {A} (tail : Z) (lines : list A) : list A :=
  drop (length lines - Z.to_nat tail) lines.

(** *** Paths: a directory under [logPath] and a file in it *)

Definition getContainerLogPath (containerId : string) : string :=
  "container-" +:+ containerId.

Definition getLogFilePath (containerId logType : string) : string * string :=
  (getContainerLogPath containerId, logType +:+ ".log").

(** *** File operations on the log directory *)

Definition ENOENT : Js.Error :=
  Js.mkError "ENOENT: no such file or directory" "ENOENT".

(** [fs.mkdir(dir, {recursive: true})] *)
Definition mkdir (dir : string) : Js.M World unit :=
  Js.modify (set_fs (fun t => match t !! dir with
                              | Some _ => t
                              | None => <[dir := ∅]> t
                              end)).

(** [fs.access(path)] as a test *)
Definition exists_file (path : string * string) : Js.M World bool :=
  w ← Js.get;
  mret (match fs w !! path.1 with
        | Some d => bool_decide (is_Some (d !! path.2))
        | None => false
        end).

(** [fs.writeFile(path, data)] *)
Definition writeFile (now : Z) (path : string * string) (data : string)
    : Js.M World unit :=
  w ← Js.get;
  match fs w !! path.1 with
  | Some d => Js.modify (set_fs (<[path.1 := <[path.2 := Fs.mkFile now data]> d]>))
  | None => mthrow ENOENT
  end.

(** [fs.appendFile(path, data)] *)
Definition appendFile (now : Z) (path : string * string) (data : string)
    : Js.M World unit :=
  w ← Js.get;
  match fs w !! path.1 with
  | Some d =>
      let old := match d !! path.2 with
                 | Some f => Fs.content f
                 | None => ""
                 end in
      Js.modify (set_fs (<[path.1 := <[path.2 := Fs.mkFile now (old +:+ data)]> d]>))
  | None => mthrow ENOENT
  end.

(** [fs.readFile(path, 'utf8')] *)
Definition readFile (path : string * string) : Js.M World string :=
  w ← Js.get;
  match fs w !! path.1 ≫= (.!! path.2) with
  | Some f => mret (Fs.content f)
  | None => mthrow ENOENT
  end.

(** *** The service *)

Fixpoint createDefaultFiles (now : Z) (dir : string) (logFiles : list string)
    : Js.M World unit :=
  match logFiles with
  | [] => mret tt
  | logFile :: rest =>
      present ← exists_file (dir, logFile);
      Js.when (negb present) (writeFile now (dir, logFile) "");;
      createDefaultFiles now dir rest
  end.

Definition createContainerLogDirectory (now : Z) (containerId : string)
    : Js.M World unit :=
  let containerLogPath := getContainerLogPath containerId in
  mkdir containerLogPath;;
  createDefaultFiles now containerLogPath ["application.log"; "startup.log"; "error.log"].

(** [streams.forEach(stream => stream.write(JSON.stringify(logEntry) + '\n'))] *)
Definition notifyLogUpdate (containerId : string) (logEntry : Wire.LogEntry)
    : Js.M World unit :=
  w ← Js.get;
  match logStreams w !! containerId with
  | Some streams =>
      Js.modify (set_streamed (fun l =>
      l ++ map (fun stream => (stream, logEntry)) (elements streams)))
  | None => mret tt
  end.

(** [writeLog(containerId, content, logType)]; [now] is the clock
    reading and [timestamp] its [toISOString()]. *)
Definition writeLog (now : Z) (timestamp : string)
    (containerId content logType : string) : Js.M World unit :=
  createContainerLogDirectory now containerId;;
  let logFilePath := getLogFilePath containerId logType in
  let logEntry := "[" +:+ timestamp +:+ "] " +:+ content +:+ String "010" "" in
  appendFile now logFilePath logEntry;;
  container ← Container.findById containerId;
  match container with
  | Some c => Container.addLog c content logType
  | None => mret tt
  end;;
  notifyLogUpdate containerId (Wire.mkLogEntry timestamp content "application" logType).

(** The entry that [readLogs] makes of a line; [timestamp] is the
    clock reading given to a line that carries none. *)
Definition parseLine (timestamp logType line : string) : Wire.LogEntry :=
  match match_entry line with
  | Some (t, text) => Wire.mkLogEntry t text "file" logType
  | None => Wire.mkLogEntry timestamp line "file" logType
  end.

(** The options of [readLogs]; a field left out is [None]. *)
Record ReadOptions := mkReadOptions {
  opt_logType : option string;
  opt_tail : option Z;
  opt_since : option string
}.

Section WithDateParse.

(** [new Date(text).getTime()]; [None] is an invalid date. *)
Variable Date_parse : string -> option Z.

(** [logDate >= sinceDate] *)
Definition date_ge (a b : option Z) : bool :=
  match a, b with
  | Some x, Some y => y <=? x
  | _, _ => false
  end.

(** [readLogs(containerId, options)]; [timestamp] is the clock
    reading given to the lines that carry none. *)
Definition readLogs (timestamp : string) (containerId : string)
    (options : ReadOptions) : Js.M World (list Wire.LogEntry) :=
  let logType := default "application" (opt_logType options) in
  let tail := default 100 (opt_tail options) in
  let since := opt_since options in
  let logFilePath := getLogFilePath containerId logType in
  Js.try_catch
    (content ← readFile logFilePath;
     let lines := List.filter trim_is_truthy (split_lines content) in
     let lines :=
       if Js.truthy since then
         let sinceDate := Date_parse (default "" since) in
         List.filter (fun line =>
                        match match_timestamp line with
                        | Some (t, _) => date_ge (Date_parse t) sinceDate
                        | None => true
                        end) lines
       else lines in
     let lines := if 0 <? tail then slice_last tail lines else lines in
     mret (map (parseLine timestamp logType) lines))
    (fun error =>
       if bool_decide (Js.code error = "ENOENT") then mret []
       else mthrow error).

End WithDateParse.

(** [clearLogs(containerId, logType)] *)
Definition clearLogs (now : Z) (containerId logType : string) : Js.M World unit :=
  let logFilePath := getLogFilePath containerId logType in
  writeFile now logFilePath "";;
  container ← Container.findById containerId;
  match container with
  | Some c => Container.addLog c (logType +:+ " logs cleared") "info"
  | None => mret tt
  end.

(** The inner loop of [cleanupOldLogs] over the entries of one
    container directory: the files left and the number deleted. *)
Fixpoint cleanupFiles (cutoffDate : Z) (files : list (string * Fs.File))
    (dir : gmap string Fs.File) (cleanedCount : nat) : gmap string Fs.File * nat :=
  match files with
  | [] => (dir, cleanedCount)
  | (file, fileStat) :: rest =>
      if (Fs.mtime fileStat <? cutoffDate) && includes ".log." file
      then cleanupFiles cutoffDate rest (delete file dir) (S cleanedCount)
      else cleanupFiles cutoffDate rest dir cleanedCount
  end.

(** The outer loop, over the entries of [logPath]. *)
Fixpoint cleanupDirs (cutoffDate : Z) (containerDirs : list (string * gmap string Fs.File))
    (tree : gmap string (gmap string Fs.File)) (cleanedCount : nat)
    : gmap string (gmap string Fs.File) * nat :=
  match containerDirs with
  | [] => (tree, cleanedCount)
  | (containerDir, files) :: rest =>
      if String.prefix "container-" containerDir
      then
        let '(files', n) := cleanupFiles cutoffDate (map_to_list files) files cleanedCount in
        cleanupDirs cutoffDate rest (<[containerDir := files']> tree) n
      else cleanupDirs cutoffDate rest tree cleanedCount
  end.

(** [cleanupOldLogs(retentionDays)]; [now] is the clock reading.
    [setDate(getDate() - retentionDays)] moves the date back by that
    many calendar days, [retentionDays * 86400000] milliseconds. *)
Definition cleanupOldLogs (now : Z) (retentionDays : Z) : Js.M World nat :=
  let cutoffDate := now - retentionDays * 86400000 in
  w ← Js.get;
  let '(tree, cleanedCount) := cleanupDirs cutoffDate (map_to_list (fs w)) (fs w) 0%nat in
  Js.modify (set_fs (fun _ => tree));;
  mret cleanedCount.

(** *** A run of appends *)

(** One [writeLog] request on a category log: the clock reading at the
    call (as a number and as its [toISOString()]) and the content. *)
Record Append := mkAppend { at_ms : Z; at_iso : string; text : string }.

Fixpoint writeLogs (containerId logType : string) (appends : list Append)
    : Js.M World unit :=
  match appends with
  | [] => mret tt
  | a :: rest =>
      writeLog (at_ms a) (at_iso a) containerId (text a) logType;;
      writeLogs containerId logType rest
  end.

(** The content of a log file, empty when the file is absent. *)
Definition contentAt (w : World) (path : string * string) : string :=
  match file_at (fs w) path.1 path.2 with
  | Some f => Fs.content f
  | None => ""
  end.

(** The characters of an ISO 8601 timestamp as [toISOString()]
    produces it. *)
Definition isTimestampChar (c : ascii) : bool :=
  match c with
  | "0" | "1" | "2" | "3" | "4" | "5" | "6" | "7" | "8" | "9"
  | "T" | "Z" | ":" | "." | "-" | "+" => true
  | _ => false
  end%char.

Fixpoint allChars (p : ascii -> bool) (s : string) : bool :=
  match s with
  | EmptyString => true
  | String c rest => p c && allChars p rest
  end.

Definition isTimestamp (s : string) : bool :=
  negb (bool_decide (s = "")) && allChars isTimestampChar s.

(** The entry that [readLogs] is expected to return for an append. *)
Definition entryOf (logType : string) (a : Append) : Wire.LogEntry :=
  Wire.mkLogEntry (at_iso a) (text a) "file" logType.

(** The text of the line that [writeLog] writes, without its line
    feed. *)
Definition lineOf (a : Append) : string := "[" +:+ at_iso a +:+ "] " +:+ text a.

(** An append whose timestamp is an ISO timestamp and whose content
    has no line break. *)
Definition wellFormed (a : Append) : Prop :=
  isTimestamp (at_iso a) = true /\ dot_star_matches (text a) = true.

(** The file content after a run of appends. *)
Fixpoint fileOf (appends : list Append) : string :=
  match appends with
  | [] => ""
  | a :: rest => lineOf a +:+ String "010" (fileOf rest)
  end.

(** The last [n] elements of a list, in the order of the list. *)
Definition last_n {A} (n : nat) (l : list A) : list A := rev (take n (rev l)).

(** *** Log streams *)

Definition addLogStream (containerId : string) (stream : nat) : Js.M World unit :=
  Js.modify (set_logStreams (fun m =>
    let m := match m !! containerId with
             | Some _ => m
             | None => <[containerId := ∅]> m
             end in
    alter (fun streams => streams ∪ {[stream]}) containerId m)).

Definition removeLogStream (containerId : string) (stream : nat) : Js.M World unit :=
  Js.modify (set_logStreams (fun m =>
    match m !! containerId with
    | Some streams =>
        let streams := streams ∖ {[stream]} in
        if bool_decide (size streams = 0%nat) then delete containerId m
        else <[containerId := streams]> m
    | None => m
    end)).

(** The streams registered for a container. *)
Definition streamsOf (w : World) (containerId : string) : gset nat :=
  default ∅ (logStreams w !! containerId).

(** What has been written to [stream] since the state [w]. *)
Definition writtenSince (w w' : World) (stream : nat) : list Wire.LogEntry :=
  map snd (List.filter (fun d => bool_decide (d.1 = stream))
                       (drop (length (streamed w)) (streamed w'))).

(** *** Rotation *)

(** [file.endsWith(suffix)] *)
Fixpoint endsWith (suffix file : string) : bool :=
  String.eqb file suffix
  || match file with
     | EmptyString => false
     | String _ rest => endsWith suffix rest
     end.

(** [timestamp.replace(/[:.]/g, '-')] *)
Fixpoint replace_colons_and_dots (timestamp : string) : string :=
  match timestamp with
  | EmptyString => EmptyString
  | String c rest =>
      String (if Ascii.eqb c ":" || Ascii.eqb c "." then "-"%char else c)
             (replace_colons_and_dots rest)
  end.

(** The size in bytes of a text written as UTF-8: one byte for a code
    unit below 128 and two for the others. *)
Fixpoint byteLength (text : string) : Z :=
  match text with
  | EmptyString => 0
  | String c rest => (if (nat_of_ascii c <? 128)%nat then 1 else 2) + byteLength rest
  end.

(** [fileStat.size] *)
Definition stat_size (fileStat : Fs.File) : Z := byteLength (Fs.content fileStat).

(** [fs.rename(from, to)] between two names of one directory: the
    file keeps its modification time and replaces what was at [to]. *)
Definition rename (dir from to : string) : Js.M World unit :=
  w ← Js.get;
  match fs w !! dir with
  | Some d =>
      match d !! from with
      | Some f => Js.modify (set_fs (<[dir := <[to := f]> (delete from d)]>))
      | None => mthrow ENOENT
      end
  | None => mthrow ENOENT
  end.

(** The clock readings of the rotation of one file: the
    [toISOString()] taken for the rotated name, the time of the
    [writeFile] that empties the file, and the reading of the
    [writeLog] that records the rotation. *)
Record RotationClock := mkRotationClock {
  rotated_iso : string;
  truncated_ms : Z;
  logged_ms : Z;
  logged_iso : string
}.

(** [`${file}.${timestamp}`] *)
Definition rotatedName (file timestamp : string) : string :=
  file +:+ "." +:+ replace_colons_and_dots timestamp.

(** The body of the loop of [rotateLogs] for one directory entry. *)
Definition rotateFile (clock : string -> RotationClock) (containerId : string)
    (maxSize : Z) (file : string) : Js.M World unit :=
  let containerLogPath := getContainerLogPath containerId in
  if endsWith ".log" file then
    w ← Js.get;
    match file_at (fs w) containerLogPath file with
    | None => mthrow ENOENT
    | Some fileStat =>
        if maxSize <? stat_size fileStat then
          let timestamp := rotated_iso (clock file) in
          rename containerLogPath file (rotatedName file timestamp);;
          writeFile (truncated_ms (clock file)) (containerLogPath, file) "";;
          writeLog (logged_ms (clock file)) (logged_iso (clock file)) containerId
                   ("Log file rotated: " +:+ file) "info"
        else mret tt
    end
  else mret tt.

Fixpoint rotateFiles (clock : string -> RotationClock) (containerId : string)
    (maxSize : Z) (files : list string) : Js.M World unit :=
  match files with
  | [] => mret tt
  | file :: rest =>
      rotateFile clock containerId maxSize file;;
      rotateFiles clock containerId maxSize rest
  end.

(** [rotateLogs(containerId, maxSize)]; [clock file] gives the clock
    readings taken while [file] is rotated. *)
Definition rotateLogs (clock : string -> RotationClock) (containerId : string)
    (maxSize : Z) : Js.M World unit :=
  Js.try_catch
    (w ← Js.get;
     match fs w !! getContainerLogPath containerId with
     | Some d => rotateFiles clock containerId maxSize (map fst (map_to_list d))
     | None => mthrow ENOENT
     end)
    (fun error =>
       if bool_decide (Js.code error = "ENOENT") then mret tt
       else mthrow error).

(** Whether [rotateLogs] rotates a file of that name and content. *)
Definition rotates (maxSize : Z) (file content : string) : bool :=
  endsWith ".log" file && (maxSize <? byteLength content).

End LogService.

(** ** backend/services/dockerService.js: the other tasks *)

Module DockerTasks.

Import Schema.

(** The body of the loop of [cleanupOrphanedContainers]. *)
Definition cleanupOrphan (engine : DockerManager.Engine) (container : containers_row)
    (cleanedCount : nat) : Js.M World nat :=
  if Js.truthy (docker_id container) then
    Js.try_catch
      (DockerManager.getContainer engine (default "" (docker_id container));;
       mret cleanedCount)
      (fun error =>
         if LogService.includes "No such container" (Js.message error) then
           container ← Container.updateStatus container "removed";
           Container.addLog container
             "Container removed from Docker, status updated" "warning";;
           mret (S cleanedCount)
         else mret cleanedCount)
  else mret cleanedCount.

Fixpoint cleanupOrphans (engine : DockerManager.Engine)
    (dbContainers : list containers_row) (cleanedCount : nat) : Js.M World nat :=
  match dbContainers with
  | [] => mret cleanedCount
  | container :: rest =>
      n ← cleanupOrphan engine container cleanedCount;
      cleanupOrphans engine rest n
  end.

(** [cleanupOrphanedContainers()]; the result is [cleaned]. *)
Definition cleanupOrphanedContainers (engine : DockerManager.Engine) : Js.M World nat :=
  dbContainers ← Container.list 1000 None;
  cleanupOrphans engine dbContainers 0%nat.

(** The record has a [docker_id] that the engine, when asked, says
    it does not know. *)
Definition isOrphan (engine : DockerManager.Engine) (r : containers_row) : bool :=
  Js.truthy (docker_id r)
  && DockerManager.isConnected engine
  && match DockerManager.docker_inspect engine (default "" (docker_id r)) with
     | Js.Abrupt e => LogService.includes "No such container" (Js.message e)
     | Js.Normal _ => false
     end.

(** What the task makes of a row. *)
Definition markRemoved (engine : DockerManager.Engine) (r : containers_row)
    : containers_row :=
  if isOrphan engine r then set_status "removed" r else r.

(** The log row written for an orphan. *)
Definition removalLog (r : containers_row) : container_logs_row :=
  mkLog (id r) "Container removed from Docker, status updated" "warning".

(** From [w] to [w'] nothing but the database has changed. *)
Definition onlyDb (w w' : World) : Prop := w' = set_db (fun _ => db w') w.

(** *** Creating a container *)

(** The fields of [containerData] that [createAndStartContainer] and
    [Container.create] read. *)
Record ContainerData := mkContainerData {
  cd_name : string;
  cd_image : string;
  cd_folder_path : option string;
  cd_startup_script : option string;
  autoStart : bool
}.

(** [{container: container.toJSON(), docker_id, status}] *)
Record Created := mkCreated {
  created_container : containers_row;
  created_docker_id : string;
  created_status : string
}.

(** [createAndStartContainer(containerData, userId)].  [newId] is the
    identifier drawn by [Container.create] and [rank] the rank at which
    the new row is listed; [created] is what
    [dockerManager.createContainer(dockerOptions)] answers (the
    [dockerId], or an error) and [started] what
    [dockerManager.startContainer(dockerId)] answers. *)
Definition createAndStartContainer (newId : string) (rank : nat)
    (containerData : ContainerData)
    (userId : Z) (created : Js.completion string) (started : Js.completion unit)
    : Js.M World Created :=
  found ← Container.create newId rank (cd_name containerData) (cd_image containerData)
            (cd_folder_path containerData) (cd_startup_script containerData) userId;
  match found with
  | None => mthrow (Js.error "TypeError: Cannot read properties of null")
  | Some container =>
      dockerId ← DockerManager.lift created;
      container ← Container.updateDockerId container dockerId;
      container ← Container.updateStatus container "created";
      Container.addLog container
        ("Container created with image " +:+ cd_image containerData) "info";;
      container ←
        (if autoStart containerData then
           DockerManager.lift started;;
           container ← Container.updateStatus container "running";
           Container.addLog container "Container started automatically" "info";;
           mret container
         else mret container);
      mret (mkCreated container dockerId
              (if autoStart containerData then "running" else "created"))
  end.

(** *** Running a script *)

(** [s.trim()]: white space is taken off both ends. *)
Fixpoint trimStart (s : string) : string :=
  match s with
  | EmptyString => EmptyString
  | String c rest => if LogService.is_white_space c then trimStart rest else s
  end.

Fixpoint trimEnd (s : string) : string :=
  match s with
  | EmptyString => EmptyString
  | String c rest =>
      match trimEnd rest with
      | EmptyString => if LogService.is_white_space c then EmptyString
                       else String c EmptyString
      | kept => String c kept
      end
  end.

Definition trim (s : string) : string := trimEnd (trimStart s).

(** [{success, output, error, container_id}] *)
Record ScriptResult := mkScriptResult {
  success : bool;
  output : string;
  error : string;
  script_container_id : string
}.

(** The test of the ['data'] handler that sends a chunk to [error]:
    [data.includes('stderr') || data.includes('Error') ||
     data.includes('error')]. *)
Definition looksLikeError (data : string) : bool :=
  LogService.includes "stderr" data || LogService.includes "Error" data
  || LogService.includes "error" data.

(** The text gathered from the chunks that pass the test [p]. *)
Definition gathered (p : string -> bool) (chunks : list string) : string :=
  foldr String.append "" (List.filter p chunks).

(** [executeScript] up to the creation of the promise. *)
Definition startScript (engine : DockerManager.Engine) (containerId script : string)
    : Js.M World containers_row :=
  found ← Container.findById containerId;
  match found with
  | None => mthrow (Js.error "Container not found")
  | Some container =>
      if negb (Js.truthy (docker_id container))
      then mthrow (Js.error "Container has no Docker ID")
      else
        Container.addLog container ("Executing script: " +:+ script) "info";;
        DockerManager.executeCommand engine (default "" (docker_id container))
          ["sh"; "-c"; script];;
        mret container
  end.

(** The ['data'] handler, on the variables [output] and [error]; the
    log write is not awaited and its failure is only printed.
    [logOutput] is [options.logOutput !== false]. *)
Definition onData (logOutput : bool) (container : containers_row) (data : string)
    (acc : string * string) : Js.M World (string * string) :=
  let '(output, error) := acc in
  let acc' := if looksLikeError data then (output, error +:+ data)
              else (output +:+ data, error) in
  Js.when logOutput
    (Js.try_catch
       (Container.addLog container (trim data)
          (if LogService.includes "error" data then "error" else "info"))
       (fun _ => mret tt));;
  mret acc'.

Fixpoint onChunks (logOutput : bool) (container : containers_row) (chunks : list string)
    (acc : string * string) : Js.M World (string * string) :=
  match chunks with
  | [] => mret acc
  | data :: rest =>
      acc' ← onData logOutput container data acc;
      onChunks logOutput container rest acc'
  end.

(** The ['end'] handler: the promise resolves with the same value
    whether or not the log writes succeed. *)
Definition onEnd (container : containers_row) (acc : string * string)
    : Js.M World ScriptResult :=
  let '(output, error) := acc in
  let result := mkScriptResult (negb (Js.truthy (Some (trim error))))
                               (trim output) (trim error) (id container) in
  Js.try_catch
    (Container.addLog container ("Script completed. Output: " +:+ trim output) "info";;
     Js.when (Js.truthy (Some (trim error)))
       (Container.addLog container ("Script errors: " +:+ trim error) "error");;
     mret result)
    (fun _ => mret result).

(** The ['error'] handler: the promise is rejected with the error of
    the stream. *)
Definition onStreamError (container : containers_row) (streamError : Js.Error)
    : Js.M World ScriptResult :=
  Js.try_catch
    (Container.addLog container
       ("Script execution failed: " +:+ Js.message streamError) "error")
    (fun _ => mret tt);;
  mthrow streamError.

(** [executeScript(containerId, script, options)] on a stream that
    delivers [chunks] and then ends, or fails with [failure]. *)
Definition executeScript (engine : DockerManager.Engine) (containerId script : string)
    (logOutput : bool) (chunks : list string) (failure : option Js.Error)
    : Js.M World ScriptResult :=
  container ← startScript engine containerId script;
  acc ← onChunks logOutput container chunks ("", "");
  match failure with
  | None => onEnd container acc
  | Some streamError => onStreamError container streamError
  end.

End DockerTasks.

(** ** The WebSocket service (services/websocketService.js) *)

Module WebSocketService.

Import Wire.

(** [Map.prototype.set] and [Map.prototype.delete] on [this.clients] *)
Fixpoint map_set (k : string) (v : Client) (m : list (string * Client))
    : list (string * Client) :=
  match m with
  | [] => [(k, v)]
  | (k', v') :: rest =>
      if bool_decide (k' = k) then (k, v) :: rest else (k', v') :: map_set k v rest
  end.

Definition map_delete (k : string) (m : list (string * Client)) : list (string * Client) :=
  List.filter (fun kv => negb (bool_decide (kv.1 = k))) m.

(** [ws.readyState === ws.OPEN] *)
Definition isOpen (w : World) (ws : nat) : bool :=
  match sockets w !! ws with
  | Some s => bool_decide (readyState s = OPEN)
  | None => false
  end.

Definition sendMessage (ws : nat) (message : Message) : Js.M World unit :=
  w ← Js.get;
  if isOpen w ws then
    Js.modify (set_sockets (alter (fun s => mkSocket (readyState s) (sent s ++ [message])) ws))
  else mret tt.

Definition sendError (now : string) (ws : nat) (err : string) : Js.M World unit :=
  sendMessage ws (error err now).

Definition subscribeToContainerLogs (containerId : string) (ws : nat) : Js.M World unit :=
  Js.modify (set_containerStreams (fun m =>
    let m := match m !! containerId with
             | Some _ => m
             | None => <[containerId := ∅]> m
             end in
    alter (fun subscribers => subscribers ∪ {[ws]}) containerId m)).

Definition unsubscribeFromContainerLogs (containerId : string) (ws : nat)
    : Js.M World unit :=
  Js.modify (set_containerStreams (fun m =>
    match m !! containerId with
    | Some subscribers =>
        let subscribers := subscribers ∖ {[ws]} in
        if bool_decide (size subscribers = 0%nat) then delete containerId m
        else <[containerId := subscribers]> m
    | None => m
    end)).

(** The iteration of [broadcastLogEntry] over the elements of the
    subscriber set. *)
Fixpoint broadcastToSubscribers (containerId : string) (logEntry : LogEntry)
    (subscribers : list nat) : Js.M World unit :=
  match subscribers with
  | [] => mret tt
  | ws :: rest =>
      w ← Js.get;
      (if isOpen w ws
       then sendMessage ws (log_entry containerId logEntry)
       else Js.modify (set_containerStreams
            (alter (fun subscribers => subscribers ∖ {[ws]}) containerId)));;
      broadcastToSubscribers containerId logEntry rest
  end.

Definition broadcastLogEntry (containerId : string) (logEntry : LogEntry)
    : Js.M World unit :=
  w ← Js.get;
  match containerStreams w !! containerId with
  | Some subscribers => broadcastToSubscribers containerId logEntry (elements subscribers)
  | None => mret tt
  end.

(** The iteration of [broadcastContainerStatus] over [this.clients]. *)
Fixpoint broadcastToClients (now : string) (containerId status : string)
    (cs : list (string * Client)) : Js.M World unit :=
  match cs with
  | [] => mret tt
  | (_, client) :: rest =>
      w ← Js.get;
      Js.when (isOpen w (Wire.ws client))
        (sendMessage (Wire.ws client) (container_status_change containerId status now));;
      broadcastToClients now containerId status rest
  end.

Definition broadcastContainerStatus (now : string) (containerId status : string)
    : Js.M World unit :=
  w ← Js.get;
  broadcastToClients now containerId status (clients w).

(** The closure variables of a connection; a socket on which
    [setupConnection] has not run has none. *)
Definition connection (w : World) (ws : nat) : Connection :=
  default (mkConnection None None false ∅) (connections w !! ws).

Definition set_connection (ws : nat) (f : Connection -> Connection) : Js.M World unit :=
  w ← Js.get;
  Js.modify (set_connections (<[ws := f (connection w ws)]>)).

(** [Array.from(this.clients.values()).find(c => c.ws === ws)] *)
Definition clientOf (w : World) (ws : nat) : option Client :=
  snd <$> List.find (fun kv => bool_decide (Wire.ws kv.2 = ws)) (clients w).

(** [client && client.role !== 'admin' && container.created_by !== userId] *)
Definition accessDenied (w : World) (ws : nat) (container : Schema.containers_row)
    (userId : option Z) : bool :=
  match clientOf w ws with
  | Some client =>
      negb (bool_decide (role client = "admin"))
      && negb (bool_decide (userId = Some (Schema.created_by container)))
  | None => false
  end.

Section Handlers.

(** [jwt.verify(token, secret)]: the decoded [userId], [username]
    and [role], or a thrown error. *)
Variable jwt_verify : string -> Js.completion (Z * string * string).
Variable Date_parse : string -> option Z.
Variable engine : DockerManager.Engine.
(** whether [this.logService] is set *)
Variable hasLogService : bool.
(** the clock reading, as [toISOString()] *)
Variable now : string.

(** [newClientId] is the value of the
    [client_${Date.now()}_${Math.random()...}] template. *)
Definition handleAuthentication (newClientId : string) (ws : nat)
    (message : ClientMessage) : Js.M World unit :=
  Js.try_catch
    (if negb (Js.truthy (token message))
     then sendError now ws "Token required for authentication"
     else
       '(uid, uname, urole) ← DockerManager.lift (jwt_verify (default "" (token message)));
       Js.modify (set_clients (map_set newClientId (mkClient ws uid uname urole)));;
       set_connection ws (fun c =>
         mkConnection (Some newClientId) (Some uid) true (subscribedContainers c));;
       sendMessage ws (authenticated newClientId uid uname urole now))
    (fun _ => sendError now ws "Authentication failed").

Fixpoint sendRecentLogs (ws : nat) (container_id : string) (recentLogs : list LogEntry)
    : Js.M World unit :=
  match recentLogs with
  | [] => mret tt
  | log :: rest =>
      sendMessage ws (log_entry container_id log);;
      sendRecentLogs ws container_id rest
  end.

Definition handleLogSubscription (ws : nat) (message : ClientMessage)
    (userId : option Z) : Js.M World unit :=
  Js.try_catch
    (if negb (Js.truthy (msg_container_id message))
     then sendError now ws "Container ID required"
     else
       let container_id := default "" (msg_container_id message) in
       found ← Container.findById container_id;
       match found with
       | None => sendError now ws "Container not found"
       | Some container =>
           w ← Js.get;
           if accessDenied w ws container userId
           then sendError now ws "Access denied"
           else
             subscribeToContainerLogs container_id ws;;
             set_connection ws (fun c =>
               mkConnection (clientId c) (conn_userId c) (is_authenticated c)
                 (subscribedContainers c ∪ {[container_id]}));;
             sendMessage ws
               (log_subscription_success container_id (Schema.name container) now);;
             Js.when hasLogService
               (Js.try_catch
                  (recentLogs ← LogService.readLogs Date_parse now container_id
                                  (LogService.mkReadOptions None (Some 50) None);
                   sendRecentLogs ws container_id recentLogs)
                  (fun _ => mret tt))
       end)
    (fun _ => sendError now ws "Failed to subscribe to logs").

Definition handleLogUnsubscription (ws : nat) (message : ClientMessage)
    : Js.M World unit :=
  Js.try_catch
    (if negb (Js.truthy (msg_container_id message))
     then sendError now ws "Container ID required"
     else
       let container_id := default "" (msg_container_id message) in
       unsubscribeFromContainerLogs container_id ws;;
       set_connection ws (fun c =>
         mkConnection (clientId c) (conn_userId c) (is_authenticated c)
           (subscribedContainers c ∖ {[container_id]}));;
       sendMessage ws (log_unsubscription_success container_id now))
    (fun _ => sendError now ws "Failed to unsubscribe from logs").

(** The stream callbacks registered by [handleCommandExecution] run
    when the engine delivers the stream events; they are the three
    definitions after it. *)
Definition handleCommandExecution (ws : nat) (message : ClientMessage)
    (userId : option Z) : Js.M World unit :=
  Js.try_catch
    (if negb (Js.truthy (msg_container_id message)) || negb (Js.truthy (command message))
     then sendError now ws "Container ID and command required"
     else
       let container_id := default "" (msg_container_id message) in
       let cmd := default "" (command message) in
       found ← Container.findById container_id;
       match found with
       | None => sendError now ws "Container not found"
       | Some container =>
           w ← Js.get;
           if accessDenied w ws container userId
           then sendError now ws "Access denied"
           else if negb (Js.truthy (Schema.docker_id container))
           then sendError now ws "Container has no Docker ID"
           else
             DockerManager.executeCommand engine
               (default "" (Schema.docker_id container)) (LogService.split " " cmd);;
             sendMessage ws (command_started container_id cmd now);;
             Container.addLog container
               ("Command executed via WebSocket: " +:+ cmd) "info"
       end)
    (fun _ => sendError now ws "Failed to execute command").

Definition onCommandData (ws : nat) (container_id chunk : string) : Js.M World unit :=
  sendMessage ws (command_output container_id chunk now).

Definition onCommandEnd (ws : nat) (container_id cmd : string) : Js.M World unit :=
  sendMessage ws (command_completed container_id cmd now).

Definition onCommandError (ws : nat) (container_id : string) (e : Js.Error)
    : Js.M World unit :=
  sendMessage ws (command_error container_id (Js.message e) now).

Definition handleContainerStatus (ws : nat) (message : ClientMessage)
    (userId : option Z) : Js.M World unit :=
  Js.try_catch
    (if negb (Js.truthy (msg_container_id message))
     then sendError now ws "Container ID required"
     else
       let container_id := default "" (msg_container_id message) in
       found ← Container.findById container_id;
       match found with
       | None => sendError now ws "Container not found"
       | Some container =>
           w ← Js.get;
           if accessDenied w ws container userId
           then sendError now ws "Access denied"
           else
             dockerStatus ←
               (if Js.truthy (Schema.docker_id container)
                then Js.try_catch
                       (dockerInfo ← DockerManager.getContainer engine
                                       (default "" (Schema.docker_id container));
                        mret (Some (mkDockerStatus (DockerManager.info_status dockerInfo)
                                                   (DockerManager.running dockerInfo))))
                       (fun _ => mret (Some (mkDockerStatus "not_found" false)))
                else mret None);
             sendMessage ws
               (container_status container_id (Schema.name container)
                  (Schema.status container) dockerStatus now)
       end)
    (fun _ => sendError now ws "Failed to get container status").

(** The ['message'] handler installed by [setupConnection]; [data]
    is the result of [JSON.parse], [None] when it throws. *)
Definition onMessage (newClientId : string) (ws : nat) (data : option ClientMessage)
    : Js.M World unit :=
  Js.try_catch
    (match data with
     | None => mthrow (Js.error "Unexpected token in JSON")
     | Some message =>
         w ← Js.get;
         let c := connection w ws in
         let ty := msg_type message in
         if bool_decide (ty = Some "authenticate") then
           handleAuthentication newClientId ws message
         else if bool_decide (ty = Some "subscribe_logs") then
           if is_authenticated c
           then handleLogSubscription ws message (conn_userId c)
           else sendError now ws "Authentication required"
         else if bool_decide (ty = Some "unsubscribe_logs") then
           if is_authenticated c
           then handleLogUnsubscription ws message
           else mret tt
         else if bool_decide (ty = Some "execute_command") then
           if is_authenticated c
           then handleCommandExecution ws message (conn_userId c)
           else sendError now ws "Authentication required"
         else if bool_decide (ty = Some "get_container_status") then
           if is_authenticated c
           then handleContainerStatus ws message (conn_userId c)
           else sendError now ws "Authentication required"
         else sendError now ws "Unknown message type"
     end)
    (fun _ => sendError now ws "Invalid message format").

(** [setupConnection(ws, req)]: fresh closure variables and the
    welcome message. *)
Definition setupConnection (ws : nat) : Js.M World unit :=
  Js.modify (set_connections (<[ws := mkConnection None None false ∅]>));;
  sendMessage ws (welcome "Connected to Nexus Crate Flow WebSocket server" now).

End Handlers.

(** The ['close'] handler installed by [setupConnection]. *)
Fixpoint unsubscribeAll (ws : nat) (subscribed : list string) : Js.M World unit :=
  match subscribed with
  | [] => mret tt
  | containerId :: rest =>
      unsubscribeFromContainerLogs containerId ws;;
      unsubscribeAll ws rest
  end.

Definition onClose (ws : nat) : Js.M World unit :=
  w ← Js.get;
  let c := connection w ws in
  match clientId c with
  | Some k => Js.modify (set_clients (map_delete k))
  | None => mret tt
  end;;
  unsubscribeAll ws (elements (subscribedContainers c)).

(** Observations: what has been sent on a socket, and the subscriber
    set of a container. *)
Definition sentOn (w : World) (ws : nat) : list Message :=
  match sockets w !! ws with
  | Some s => sent s
  | None => []
  end.

Definition subscribersOf (w : World) (containerId : string) : gset nat :=
  default ∅ (containerStreams w !! containerId).

(** The entries of [this.clients] whose socket is [ws]. *)
Definition clientEntriesOn (w : World) (ws : nat) : list (string * Client) :=
  List.filter (fun kv => bool_decide (Wire.ws kv.2 = ws)) (clients w).

(** The parts of the world that sending on sockets leaves alone. *)
Definition same_but_sockets (w w' : World) : Prop :=
  db w' = db w /\ fs w' = fs w /\ logStreams w' = logStreams w /\ streamed w' = streamed w
  /\ clients w' = clients w /\ connections w' = connections w /\ calls w' = calls w.

(** The Channel Service has not been reached: the sockets, with all
    that has been sent on them, the client table, the subscriber sets
    and the connections are as they were. *)
Definition channelUntouched (w w' : World) : Prop :=
  sockets w' = sockets w /\ clients w' = clients w
  /\ containerStreams w' = containerStreams w /\ connections w' = connections w.

(** *** The periodic sweep *)

(** The inner loop of [cleanup()]: [ws] leaves every subscriber set,
    and a set that is empty afterwards leaves the map. *)
Definition dropSubscriber (ws : nat) (m : gmap string (gset nat)) : gmap string (gset nat) :=
  omap (fun subscribers : gset nat =>
          let subscribers := subscribers ∖ {[ws]} in
          if bool_decide (size subscribers = 0%nat) then None else Some subscribers) m.

(** The iteration of [cleanup()] over [this.clients]. *)
Fixpoint cleanupClients (cs : list (string * Client)) : Js.M World unit :=
  match cs with
  | [] => mret tt
  | (clientId, client) :: rest =>
      w ← Js.get;
      Js.when (negb (isOpen w (Wire.ws client)))
        (Js.modify (set_clients (map_delete clientId));;
         Js.modify (set_containerStreams (dropSubscriber (Wire.ws client))));;
      cleanupClients rest
  end.

Definition cleanup : Js.M World unit :=
  w ← Js.get;
  cleanupClients (clients w).

(** From [w] to [w'] nothing but the sockets has changed. *)
Definition onlySockets (w w' : World) : Prop := w' = set_sockets (fun _ => sockets w') w.

(** [parts.join(sep)] *)
Fixpoint join (sep : string) (parts : list string) : string :=
  match parts with
  | [] => ""
  | [part] => part
  | part :: rest => part +:+ sep +:+ join sep rest
  end.

End WebSocketService.

(** ** Sample inputs *)

Module Samples.

Import Schema Wire.

Definition sample_stats : DockerManager.Stats :=
  DockerManager.mkStats (Some 300) (Some 100) (Some 5000) (Some 1000) (Some 4).

Definition reused_name_record : containers_row :=
  mkContainer "r1" "web" (Some "e1") "nginx" "running" "/home/containers/r1" None 1.

Definition renamed_engine_object : DockerManager.Summary :=
  DockerManager.mkSummary "e1" "web-old" "nginx" "running" ∅.

Definition name_reusing_engine_object : DockerManager.Summary :=
  DockerManager.mkSummary "e2" "web" "nginx" "exited" ∅.

Definition status_only_world : World :=
  mkWorld (Schema.mkDatabase [] [] []) ∅ ∅ []
          {[ 1%nat := mkSocket OPEN [] ]}
          [("client_a", mkClient 1 7 "alice" "user")]
          ∅ ∅ [].

(** An engine that knows no container and accepts every command. *)
Definition idle_engine : DockerManager.Engine :=
  DockerManager.mkEngine true (fun _ => Js.Normal [])
    (fun _ => Js.Abrupt (Js.error "No such container"))
    (fun _ _ => Js.Normal tt) (fun _ _ => Js.Normal tt).

(** A token verifier that rejects every token. *)
Definition reject_all : string -> Js.completion (Z * string * string) :=
  fun _ => Js.Abrupt (Js.error "invalid token").

Definition no_dates : string -> option Z := fun _ => None.

(** One open socket on which [setupConnection] has run; nobody has
    authenticated. *)
Definition fresh_connection_world : World :=
  mkWorld (Schema.mkDatabase [] [] []) ∅ ∅ []
          {[ 1%nat := mkSocket OPEN [welcome "Connected to Nexus Crate Flow WebSocket server"
                                             "2024-05-01T10:00:00.000Z"] ]}
          [] ∅ {[ 1%nat := mkConnection None None false ∅ ]} [].

(** An engine that reports every container as exited and refuses to
    restart it. *)
Definition refusing_engine : DockerManager.Engine :=
  DockerManager.mkEngine true (fun _ => Js.Normal [])
    (fun d => Js.Normal (DockerManager.mkInfo d "web" "exited" false))
    (fun _ _ => Js.Abrupt (Js.error "engine timeout")) (fun _ _ => Js.Normal tt).

(** One running container [c1] whose settings row turns auto-restart
    off, and one running container [c2] with auto-restart on. *)
Definition monitored_world : World :=
  mkWorld (Schema.mkDatabase
             [mkContainer "c1" "web" (Some "e1") "nginx" "running" "/home/containers/c1" None 1;
              mkContainer "c2" "db" (Some "e2") "postgres" "running" "/home/containers/c2"
                          (Some "pg_ctl start") 1]
             []
             [mkSettings "c1" 0 0 None; mkSettings "c2" 1 0 None])
          ∅ ∅ [] ∅ [] ∅ ∅ [].

(** A world with nothing in it. *)
Definition empty_world : World :=
  mkWorld (Schema.mkDatabase [] [] []) ∅ ∅ [] ∅ [] ∅ ∅ [].

(** The two appends of the start-up scenario. *)
Definition boot_appends : list LogService.Append :=
  [LogService.mkAppend 1714557600000 "2024-05-01T10:00:00.000Z" "boot ok";
   LogService.mkAppend 1714557601000 "2024-05-01T10:00:01.000Z" "listening"].

(** Container [c1] with a registry record and a log directory whose
    application log has two lines and whose info log is empty. *)
Definition logged_world : World :=
  mkWorld (Schema.mkDatabase
             [mkContainer "c1" "web" (Some "e1") "nginx" "running" "/home/containers/c1" None 1]
             [] [])
          {[ "container-c1" :=
               {[ "application.log" :=
                    Fs.mkFile 1714557601000
                              ("[2024-05-01T10:00:00.000Z] boot ok" +:+ String "010"
                               ("[2024-05-01T10:00:01.000Z] listening" +:+ String "010" ""));
                  "info.log" := Fs.mkFile 1714557600000 "" ]} ]}
          ∅ [] ∅ [] ∅ ∅ [].

(** A registry of two records and an engine list of three objects:
    [r1] is matched by its [docker_id], [r2] (no [docker_id] yet) by
    its name, and the third object carries the ownership label and has
    no record. *)
Definition sync_world : World :=
  mkWorld (Schema.mkDatabase
             [mkContainer "r1" "web" (Some "e1") "nginx" "running" "/home/containers/r1" None 1;
              mkContainer "r2" "db" None "postgres" "created" "/home/containers/r2" None 1]
             [] [])
          ∅ ∅ [] ∅ [] ∅ ∅ [].

Definition sync_listing : list DockerManager.Summary :=
  [DockerManager.mkSummary "e1" "web" "nginx" "exited" ∅;
   DockerManager.mkSummary "e2" "db" "postgres" "running" ∅;
   DockerManager.mkSummary "e3" "cache" "redis" "running" {[ "nexus-crate-flow" := "true" ]}].

Definition sync_engine : DockerManager.Engine :=
  DockerManager.mkEngine true (fun _ => Js.Normal sync_listing)
    (fun _ => Js.Abrupt (Js.error "No such container"))
    (fun _ _ => Js.Normal tt) (fun _ _ => Js.Normal tt).

(** An identifier generator: ["id0"], ["id1"], ... (one digit). *)
Definition sample_uuid (n : nat) : string :=
  "id" +:+ String (ascii_of_nat (48 + n)) "".

(** The rank of the rows imported by one tick, which fall within one
    second: each is listed after those imported before it. *)
Definition sample_rank (n : nat) : nat := n.









(** An engine whose manager is not connected. *)
Definition stopped_engine : DockerManager.Engine :=
  DockerManager.mkEngine false (fun _ => Js.Normal [])
    (fun _ => Js.Abrupt (Js.error "connect ECONNREFUSED"))
    (fun _ _ => Js.Normal tt) (fun _ _ => Js.Normal tt).

(** A request for a container that is to be started at once. *)
Definition cache_data : DockerTasks.ContainerData :=
  DockerTasks.mkContainerData "cache" "redis" None None true.

(** A token verifier that knows one token. *)
Definition accept_alice : string -> Js.completion (Z * string * string) :=
  fun t => if String.eqb t "token-a" then Js.Normal (7, "alice", "user")
           else Js.Abrupt (Js.error "invalid token").

(** Container [c1], created by user 7, with the log directory of
    [logged_world], container [c2], created by user 1, and one open
    socket on which user 7 has authenticated. *)
Definition served_world : World :=
  mkWorld (Schema.mkDatabase
             [mkContainer "c1" "web" (Some "e1") "nginx" "running" "/home/containers/c1" None 7;
              mkContainer "c2" "db" (Some "e2") "postgres" "running" "/home/containers/c2"
                          None 1]
             [] [])
          (fs logged_world) ∅ []
          {[ 1%nat := mkSocket OPEN [] ]}
          [("client_a", mkClient 1 7 "alice" "user")]
          ∅ {[ 1%nat := mkConnection (Some "client_a") (Some 7) true ∅ ]} [].

(** The world of [served_world] with a second connection, of user 1,
    whose socket has closed without its ['close'] handler having run:
    socket 1 has subscribed to [c1], socket 2 to [c1] and [c2]. *)
Definition stale_world : World :=
  mkWorld (db served_world) (fs logged_world) ∅ []
          (<[ 1%nat := mkSocket OPEN [] ]> (<[ 2%nat := mkSocket CLOSED [] ]> ∅))
          [("client_a", mkClient 1 7 "alice" "user");
           ("client_b", mkClient 2 1 "bob" "admin")]
          (<[ "c1" := {[ 1%nat; 2%nat ]} ]> (<[ "c2" := {[ 2%nat ]} ]> ∅))
          (<[ 1%nat := mkConnection (Some "client_a") (Some 7) true {[ "c1" ]} ]>
             (<[ 2%nat := mkConnection (Some "client_b") (Some 1) true {[ "c1"; "c2" ]} ]> ∅))
          [].

(** The clock readings of a rotation on 1 June 2024. *)
Definition rotation_clock : string -> LogService.RotationClock :=
  fun _ => LogService.mkRotationClock "2024-06-01T00:00:00.000Z" 1717200000000
                                      1717200000001 "2024-06-01T00:00:00.001Z".

End Samples.

(* ===================================================================== *)
(** * Part II: properties *)
(* ===================================================================== *)

Import Samples.

(** ** Double-precision arithmetic *)

Section Doubles.

Import DockerManager.

Lemma digits2_pos_log2 (p : positive) : Zpos (digits2_pos p) = Z.log2 (Zpos p) + 1.
Proof.
  induction p as [p IH|p IH|]; cbn [digits2_pos].
  - rewrite Pos2Z.inj_succ, IH. change (Zpos p~1) with (2 * Zpos p + 1).
    rewrite Z.log2_succ_double by lia. lia.
  - rewrite Pos2Z.inj_succ, IH. change (Zpos p~0) with (2 * Zpos p).
    rewrite Z.log2_double by lia. lia.
  - reflexivity.
Qed.

Lemma digits2_pos_le (p : positive) (k : Z) :
  0 <= k -> Zpos p <= 2 ^ k -> Zpos (digits2_pos p) <= k + 1.
Proof.
  intros Hk Hp. rewrite digits2_pos_log2.
  assert (Z.log2 (Zpos p) <= Z.log2 (2 ^ k)) by (apply Z.log2_le_mono; exact Hp).
  rewrite Z.log2_pow2 in H by exact Hk. lia.
Qed.

Lemma digits2_pos_lt (p : positive) (k : Z) :
  0 <= k -> Zpos p < 2 ^ k -> Zpos (digits2_pos p) <= k.
Proof.
  intros Hk Hp. rewrite digits2_pos_log2.
  assert (Z.log2 (Zpos p) < k) by (apply Z.log2_lt_pow2; lia). lia.
Qed.

Lemma Zdigits2_le (m k : Z) : 0 <= k -> 0 <= m <= 2 ^ k -> Zdigits2 m <= k + 1.
Proof.
  intros Hk [H0 Hm]. destruct m as [|p|p]; cbn [Zdigits2]; [lia| |lia].
  apply digits2_pos_le; assumption.
Qed.

Lemma digits2_pos_bounds (p : positive) :
  2 ^ (Zpos (digits2_pos p) - 1) <= Zpos p < 2 ^ Zpos (digits2_pos p).
Proof.
  rewrite digits2_pos_log2. replace (Z.log2 (Zpos p) + 1 - 1) with (Z.log2 (Zpos p)) by lia.
  replace (Z.log2 (Zpos p) + 1) with (Z.succ (Z.log2 (Zpos p))) by lia.
  apply Z.log2_spec. lia.
Qed.

Lemma iter_xO_value (p d : positive) : Zpos (Pos.iter xO p d) = Zpos p * 2 ^ Zpos d.
Proof.
  induction d as [|d IH] using Pos.peano_ind.
  - cbn [Pos.iter]. rewrite Pos2Z.inj_xO. change (2 ^ 1) with 2. lia.
  - rewrite Pos.iter_succ, Pos2Z.inj_xO, IH, Pos2Z.inj_succ, Z.pow_succ_r by lia. lia.
Qed.

Lemma iter_xO_digits (p d : positive) :
  digits2_pos (Pos.iter xO p d) = (digits2_pos p + d)%positive.
Proof.
  induction d as [|d IH] using Pos.peano_ind.
  - cbn. lia.
  - rewrite Pos.iter_succ. cbn [digits2_pos]. rewrite IH. lia.
Qed.

Lemma iter_pos_invariant {A} (P : A -> Prop) (f : A -> A) :
  (forall x, P x -> P (f x)) -> forall p x, P x -> P (SpecFloat.iter_pos f p x).
Proof.
  intros Hf. induction p as [p IH|p IH|]; intros x Hx; cbn [SpecFloat.iter_pos]; auto.
Qed.

Lemma iter_pos_nat {A} (f : A -> A) (p : positive) (x : A) :
  SpecFloat.iter_pos f p x = Nat.iter (Pos.to_nat p) f x.
Proof.
  revert x. induction p as [p IH|p IH|]; intros x; cbn [SpecFloat.iter_pos].
  - rewrite !IH, Pos2Nat.inj_xI. 
    replace (S (2 * Pos.to_nat p)) with (Pos.to_nat p + (Pos.to_nat p + 1))%nat by lia.
    rewrite !Nat.iter_add. reflexivity.
  - rewrite !IH, Pos2Nat.inj_xO.
    replace (2 * Pos.to_nat p)%nat with (Pos.to_nat p + Pos.to_nat p)%nat by lia.
    rewrite Nat.iter_add. reflexivity.
  - reflexivity.
Qed.

Lemma shr_1_nonneg (bound : Z) (mrs : shr_record) :
  0 <= shr_m mrs <= bound -> 0 <= shr_m (shr_1 mrs) <= bound.
Proof.
  destruct mrs as [m r s]. cbn [shr_m]. intros [H0 Hb].
  destruct m as [|[p|p|]|p]; cbn [shr_1 shr_m]; lia.
Qed.

Lemma shr_1_exact (m : Z) :
  0 <= m -> shr_1 (Build_shr_record (2 * m) false false) = Build_shr_record m false false.
Proof. intros Hm. destruct m as [|p|p]; [reflexivity|reflexivity|lia]. Qed.

Lemma shr_exact (m : Z) (n : nat) :
  0 <= m ->
  Nat.iter n shr_1 (Build_shr_record (m * 2 ^ Z.of_nat n) false false)
  = Build_shr_record m false false.
Proof.
  intros Hm. revert m Hm. induction n as [|n IH]; intros m Hm.
  - change (Z.of_nat 0) with 0. rewrite Z.pow_0_r, Z.mul_1_r. reflexivity.
  - rewrite Nat.iter_succ_r.
    replace (m * 2 ^ Z.of_nat (S n)) with (2 * (m * 2 ^ Z.of_nat n))
      by (rewrite Nat2Z.inj_succ, Z.pow_succ_r by lia; lia).
    rewrite shr_1_exact by (apply Z.mul_nonneg_nonneg; [exact Hm|apply Z.pow_nonneg; lia]).
    apply IH, Hm.
Qed.

Lemma shr_fexp_spec (m e : Z) (l : location) (bound : Z) :
  0 <= m <= bound ->
  0 <= shr_m (shr_fexp 53 1024 m e l).1 <= bound
  /\ (shr_fexp 53 1024 m e l).2 = Z.max e (fexp 53 1024 (Zdigits2 m + e)).
Proof.
  intros Hm. unfold shr_fexp, shr.
  assert (Hrec : shr_m (shr_record_of_loc m l) = m) by (destruct l as [|[]]; reflexivity).
  destruct (fexp 53 1024 (Zdigits2 m + e) - e) as [|p|p] eqn:En; cbn [fst snd].
  - split; [rewrite Hrec; exact Hm|lia].
  - split; [|lia].
    apply (iter_pos_invariant (fun mrs => 0 <= shr_m mrs <= bound));
      [apply shr_1_nonneg|rewrite Hrec; exact Hm].
  - split; [rewrite Hrec; exact Hm|lia].
Qed.

Lemma round_nearest_even_bounds (m : Z) (l : location) :
  m <= round_nearest_even m l <= m + 1.
Proof. destruct l as [|[]]; cbn [round_nearest_even]; try destruct (Z.even m); lia. Qed.

Lemma fexp_mono (a b : Z) : a <= b -> fexp 53 1024 a <= fexp 53 1024 b.
Proof. unfold fexp, emin. lia. Qed.

Lemma Zdigits2_lt (m k : Z) : 0 <= k -> 0 <= m < 2 ^ k -> Zdigits2 m <= k.
Proof.
  intros Hk [H0 Hm]. destruct m as [|p|p]; cbn [Zdigits2]; [lia| |lia].
  apply digits2_pos_lt; assumption.
Qed.

(** Rounding a non-negative mantissa gives a number of the sign
    asked for, never [NaN]. *)
Lemma binary_round_aux_sign (s : bool) (m e : Z) (l : location) :
  0 <= m -> signedAs s (binary_round_aux 53 1024 s m e l).
Proof.
  intros Hm. unfold binary_round_aux.
  pose proof (shr_fexp_spec m e l m ltac:(lia)) as [H1 _].
  destruct (shr_fexp 53 1024 m e l) as [mrs' e'] eqn:E1. cbn [fst snd] in H1.
  pose proof (round_nearest_even_bounds (shr_m mrs') (loc_of_shr_record mrs')) as Hr.
  set (m1 := round_nearest_even (shr_m mrs') (loc_of_shr_record mrs')) in *.
  pose proof (shr_fexp_spec m1 e' loc_Exact m1 ltac:(lia)) as [H2 _].
  destruct (shr_fexp 53 1024 m1 e' loc_Exact) as [mrs'' e''] eqn:E2. cbn [fst snd] in H2.
  destruct (shr_m mrs'') as [|q|q]; [reflexivity| |lia].
  destruct (e'' <=? 1024 - 53); reflexivity.
Qed.

(** Rounding a mantissa below [2^k] whose exponent is small enough
    gives a zero or a finite number, with these bounds. *)
Lemma binary_round_aux_within (s : bool) (m e : Z) (l : location) (k emx : Z) :
  0 <= k -> 0 <= m < 2 ^ k -> e <= emx -> roundedExp k emx <= 971 ->
  within k (roundedExp k emx) s (binary_round_aux 53 1024 s m e l).
Proof.
  intros Hk Hm He HB. unfold binary_round_aux.
  pose proof (shr_fexp_spec m e l (2 ^ k - 1) ltac:(lia)) as [H1 He1].
  destruct (shr_fexp 53 1024 m e l) as [mrs' e'] eqn:E1. cbn [fst snd] in H1, He1.
  pose proof (round_nearest_even_bounds (shr_m mrs') (loc_of_shr_record mrs')) as Hr.
  set (m1 := round_nearest_even (shr_m mrs') (loc_of_shr_record mrs')) in *.
  pose proof (shr_fexp_spec m1 e' loc_Exact (2 ^ k) ltac:(lia)) as [H2 He2].
  destruct (shr_fexp 53 1024 m1 e' loc_Exact) as [mrs'' e''] eqn:E2.
  cbn [fst snd] in H2, He2.
  pose proof (Zdigits2_lt m k Hk Hm) as Hd.
  pose proof (Zdigits2_le m1 k Hk ltac:(lia)) as Hd1.
  assert (He' : e' <= Z.max emx (fexp 53 1024 (k + emx))).
  { rewrite He1. pose proof (fexp_mono (Zdigits2 m + e) (k + emx) ltac:(lia)). lia. }
  assert (He'' : e'' <= roundedExp k emx).
  { rewrite He2. unfold roundedExp. cbv zeta.
    pose proof (fexp_mono (Zdigits2 m1 + e')
                  (k + 1 + Z.max emx (fexp 53 1024 (k + emx))) ltac:(lia)). lia. }
  destruct (shr_m mrs'') as [|q|q] eqn:Eq; [left; reflexivity| |lia].
  right. destruct (Z.leb_spec e'' (1024 - 53)); [|lia].
  exists q, e''. split; [reflexivity|]. split; [lia|exact He''].
Qed.

Lemma binary_round_aux_canonical (s : bool) (mz : positive) (ez : Z) :
  fexp 53 1024 (Zpos (digits2_pos mz) + ez) = ez -> ez <= 971 ->
  binary_round_aux 53 1024 s (Zpos mz) ez loc_Exact = S754_finite s mz ez.
Proof.
  intros Hc He. unfold binary_round_aux, shr_fexp, shr.
  cbn [Zdigits2 shr_record_of_loc]. rewrite Hc, Z.sub_diag.
  cbn [shr_m loc_of_shr_record round_nearest_even Zdigits2 shr_record_of_loc].
  rewrite Hc, Z.sub_diag. cbn [shr_m].
  destruct (Z.leb_spec ez (1024 - 53)); [reflexivity|lia].
Qed.

Lemma digits2_pos_shift (p m : positive) (K : Z) :
  0 <= K -> Zpos m = Zpos p * 2 ^ K ->
  Zpos (digits2_pos m) = Zpos (digits2_pos p) + K.
Proof.
  intros HK Hm. rewrite !digits2_pos_log2, Hm, Z.log2_mul_pow2 by lia. lia.
Qed.

Lemma digits2_pos_range (p : positive) :
  Zpos p < 2 ^ 53 -> 1 <= Zpos (digits2_pos p) <= 53.
Proof. intros Hp. pose proof (digits2_pos_lt p 53 ltac:(lia) Hp). lia. Qed.

Lemma shl_align_value (mx : positive) (ex ez : Z) :
  ez <= ex ->
  Zpos (shl_align mx ex ez).1 = Zpos mx * 2 ^ (ex - ez)
  /\ (shl_align mx ex ez).2 = ez.
Proof.
  intros He. unfold shl_align. destruct (ez - ex) as [|d|d] eqn:Ed; cbn [fst snd].
  - replace (ex - ez) with 0 by lia. rewrite Z.pow_0_r. lia.
  - lia.
  - rewrite iter_xO_value. replace (ex - ez) with (Zpos d) by lia. lia.
Qed.

(** The double nearest to [p * 2^K * 2^-K], for [p] below [2^53],
    is the double of [p], reached without rounding. *)
Lemma binary_round_exact (s : bool) (p m : positive) (K : Z) :
  Zpos p < 2 ^ 53 -> 0 <= K -> Zpos m = Zpos p * 2 ^ K ->
  binary_round 53 1024 s m (- K)
  = S754_finite s (normal p) (Zpos (digits2_pos p) - 53).
Proof.
  intros Hp HK Hm.
  pose proof (digits2_pos_range p Hp) as Hd.
  pose proof (digits2_pos_shift p m K HK Hm) as Hdm.
  set (d := Zpos (digits2_pos p)) in *.
  assert (Hpow : 0 < 2 ^ (53 - d)) by (apply Z.pow_pos_nonneg; lia).
  assert (Hnormal : Zpos (normal p) = Zpos p * 2 ^ (53 - d)).
  { unfold normal. fold d. rewrite Z2Pos.id; [reflexivity|lia]. }
  assert (Hdn : Zpos (digits2_pos (normal p)) = 53).
  { rewrite (digits2_pos_shift p (normal p) (53 - d)); [fold d; lia|lia|exact Hnormal]. }
  assert (Hfexp : fexp 53 1024 d = d - 53) by (unfold fexp, emin; lia).
  unfold binary_round. rewrite Hdm. replace (d + K + - K) with d by lia. rewrite Hfexp.
  unfold shl_align. destruct (d - 53 - - K) as [|n|j] eqn:En.
  - (* the mantissa has 53 digits already *)
    assert (m = normal p) as ->.
    { apply Pos2Z.inj. rewrite Hm, Hnormal. f_equal. f_equal. lia. }
    replace (- K) with (d - 53) by lia.
    apply binary_round_aux_canonical; [|lia].
    rewrite Hdn. replace (53 + (d - 53)) with d by lia. exact Hfexp.
  - (* too many digits: the shift to the right is exact *)
    unfold binary_round_aux, shr_fexp, shr.
    cbn [Zdigits2 shr_record_of_loc]. rewrite Hdm.
    replace (d + K + - K) with d by lia. rewrite Hfexp.
    replace (d - 53 - - K) with (Zpos n) by lia.
    rewrite iter_pos_nat.
    replace (Zpos m) with (Zpos (normal p) * 2 ^ Z.of_nat (Pos.to_nat n)).
    2:{ rewrite positive_nat_Z, Hm, Hnormal, <- Z.mul_assoc, <- Z.pow_add_r by lia.
        f_equal. f_equal. lia. }
    rewrite shr_exact by lia.
    cbn [shr_m loc_of_shr_record round_nearest_even Zdigits2 shr_record_of_loc].
    rewrite Hdn. replace (- K + Zpos n) with (d - 53) by lia.
    replace (53 + (d - 53)) with d by lia. rewrite Hfexp, Z.sub_diag. cbn [shr_m].
    destruct (Z.leb_spec (d - 53) (1024 - 53)); [reflexivity|lia].
  - (* too few digits: the mantissa is shifted to the left *)
    assert (Pos.iter xO m j = normal p) as ->.
    { apply Pos2Z.inj. rewrite iter_xO_value, Hm, Hnormal, <- Z.mul_assoc, <- Z.pow_add_r by lia.
      f_equal. f_equal. lia. }
    apply binary_round_aux_canonical; [|lia].
    rewrite Hdn. replace (53 + (d - 53)) with d by lia. exact Hfexp.
Qed.

Lemma ofZ_pos (p : positive) :
  Zpos p < 2 ^ 53 ->
  ofZ (Zpos p) = S754_finite false (normal p) (Zpos (digits2_pos p) - 53).
Proof.
  intros Hp. unfold ofZ, binary_normalize. change 0 with (- 0).
  apply binary_round_exact; [exact Hp|lia|rewrite Z.pow_0_r; lia].
Qed.

Lemma ofZ_neg (p : positive) :
  Zpos p < 2 ^ 53 ->
  ofZ (Zneg p) = S754_finite true (normal p) (Zpos (digits2_pos p) - 53).
Proof.
  intros Hp. unfold ofZ, binary_normalize. change 0 with (- 0).
  apply binary_round_exact; [exact Hp|lia|rewrite Z.pow_0_r; lia].
Qed.

Lemma normal_value (p : positive) :
  Zpos p < 2 ^ 53 -> Zpos (normal p) = Zpos p * 2 ^ (53 - Zpos (digits2_pos p)).
Proof.
  intros Hp. pose proof (digits2_pos_range p Hp) as Hd. unfold normal.
  assert (0 < 2 ^ (53 - Zpos (digits2_pos p))) by (apply Z.pow_pos_nonneg; lia).
  rewrite Z2Pos.id; [reflexivity|lia].
Qed.

Lemma normal_range (p : positive) :
  Zpos p < 2 ^ 53 -> 2 ^ 52 <= Zpos (normal p) < 2 ^ 53.
Proof.
  intros Hp. pose proof (digits2_pos_range p Hp) as Hd.
  pose proof (normal_value p Hp) as Hv.
  pose proof (digits2_pos_shift p (normal p) (53 - Zpos (digits2_pos p)) ltac:(lia) Hv) as Hdn.
  pose proof (digits2_pos_bounds (normal p)) as Hb.
  replace (Zpos (digits2_pos (normal p))) with 53 in Hb by lia. exact Hb.
Qed.

(** The double of a positive integer below [2^53] is a positive
    normal number. *)
Lemma ofZ_normalIn (c : Z) : 0 < c < 2 ^ 53 -> normalIn (-52) 0 (ofZ c).
Proof.
  intros [H0 Hc]. destruct c as [|p|p]; [lia| |lia].
  rewrite (ofZ_pos p Hc). exists (normal p), (Zpos (digits2_pos p) - 53).
  split; [reflexivity|]. split; [apply normal_range, Hc|].
  pose proof (digits2_pos_range p Hc). lia.
Qed.

(** [(c * 2^K) * 2^-K] reads as the double of [c]. *)
Lemma binary_normalize_shifted (c K : Z) :
  Z.abs c < 2 ^ 53 -> 0 <= K ->
  binary_normalize 53 1024 (c * 2 ^ K) (- K) false = ofZ c.
Proof.
  intros Hc HK.
  assert (Hpow : 0 < 2 ^ K) by (apply Z.pow_pos_nonneg; lia).
  destruct c as [|p|p].
  - reflexivity.
  - rewrite (ofZ_pos p) by lia.
    destruct (Zpos p * 2 ^ K) as [|m|m] eqn:Em; [lia| |lia].
    cbn [binary_normalize]. apply binary_round_exact; [lia|exact HK|symmetry; exact Em].
  - rewrite (ofZ_neg p) by lia.
    destruct (Zneg p * 2 ^ K) as [|m|m] eqn:Em; [lia|lia|].
    cbn [binary_normalize]. apply binary_round_exact; [lia|exact HK|lia].
Qed.

(** The mantissa of the double of [c], aligned on a smaller
    exponent. *)
Lemma ofZ_aligned (c : Z) :
  c <> 0 -> Z.abs c < 2 ^ 53 ->
  exists s m e,
    ofZ c = S754_finite s m e /\ -52 <= e <= 0
    /\ forall ez, ez <= e -> ez <= 0 ->
         cond_Zopp s (Zpos (shl_align m e ez).1) = c * 2 ^ (- ez).
Proof.
  intros Hc0 Hc. destruct c as [|p|p]; [contradiction| |].
  - pose proof (digits2_pos_range p ltac:(lia)) as Hd.
    exists false, (normal p), (Zpos (digits2_pos p) - 53).
    split; [apply ofZ_pos; lia|]. split; [lia|]. intros ez Hez Hez0.
    destruct (shl_align_value (normal p) (Zpos (digits2_pos p) - 53) ez Hez) as [Hv _].
    cbn [cond_Zopp]. rewrite Hv, normal_value, <- Z.mul_assoc, <- Z.pow_add_r by lia.
    f_equal. f_equal. lia.
  - pose proof (digits2_pos_range p ltac:(lia)) as Hd.
    exists true, (normal p), (Zpos (digits2_pos p) - 53).
    split; [apply ofZ_neg; lia|]. split; [lia|]. intros ez Hez Hez0.
    destruct (shl_align_value (normal p) (Zpos (digits2_pos p) - 53) ez Hez) as [Hv _].
    cbn [cond_Zopp]. rewrite Hv, normal_value, <- Z.mul_assoc, <- Z.pow_add_r by lia.
    replace (53 - Zpos (digits2_pos p) + (Zpos (digits2_pos p) - 53 - ez)) with (- ez) by lia.
    lia.
Qed.

(** Integers below [2^53] are added without rounding. *)
Lemma add_exact (a b : Z) :
  Z.abs a < 2 ^ 53 -> Z.abs b < 2 ^ 53 -> Z.abs (a + b) < 2 ^ 53 ->
  add (ofZ a) (ofZ b) = ofZ (a + b).
Proof.
  intros Ha Hb Hab. unfold add.
  destruct (Z.eq_dec a 0) as [->|Ha0].
  { rewrite Z.add_0_l. change (ofZ 0) with (S754_zero false).
    destruct (Z.eq_dec b 0) as [->|Hb0]; [reflexivity|].
    destruct (ofZ_aligned b Hb0 Hb) as (s & m & e & E & _). rewrite E. reflexivity. }
  destruct (Z.eq_dec b 0) as [->|Hb0].
  { rewrite Z.add_0_r. change (ofZ 0) with (S754_zero false).
    destruct (ofZ_aligned a Ha0 Ha) as (s & m & e & E & _). rewrite E. reflexivity. }
  destruct (ofZ_aligned a Ha0 Ha) as (sa & ma & ea & Ea & Hea & Hva).
  destruct (ofZ_aligned b Hb0 Hb) as (sb & mb & eb & Eb & Heb & Hvb).
  rewrite Ea, Eb. cbn [SFadd]. cbv zeta.
  rewrite (Hva (Z.min ea eb)), (Hvb (Z.min ea eb)) by lia.
  rewrite <- Z.mul_add_distr_r.
  pose proof (binary_normalize_shifted (a + b) (- Z.min ea eb) Hab ltac:(lia)) as H.
  rewrite Z.opp_involutive in H. exact H.
Qed.


Lemma gt0_ofZ (c : Z) : Z.abs c < 2 ^ 53 -> gt0 (ofZ c) = (0 <? c).
Proof.
  intros Hc. destruct c as [|p|p].
  - reflexivity.
  - rewrite (ofZ_pos p) by lia. reflexivity.
  - rewrite (ofZ_neg p) by lia. reflexivity.
Qed.

Lemma normalIn_digits (m : positive) :
  2 ^ 52 <= Zpos m < 2 ^ 53 -> Zpos (digits2_pos m) = 53.
Proof.
  intros Hm. rewrite digits2_pos_log2.
  rewrite (Z.log2_unique (Zpos m) 52); [reflexivity|lia|].
  change (Z.succ 52) with 53. exact Hm.
Qed.

(** The quotient of two positive normal numbers of moderate exponents
    is finite and not negative. *)
Lemma div_within (x y : number) :
  normalIn (-52) 0 x -> normalIn (-52) 0 y -> within 54 2 false (div x y).
Proof.
  intros (mx & ex & -> & Hmx & Hex) (my & ey & -> & Hmy & Hey).
  unfold div. cbn [SFdiv xorb]. unfold SFdiv_core_binary. cbn [Zdigits2].
  rewrite (normalIn_digits mx Hmx), (normalIn_digits my Hmy).
  assert (He' : Z.min (fexp 53 1024 (53 + ex - (53 + ey))) (ex - ey) = ex - ey - 53)
    by (unfold fexp, emin; lia).
  rewrite He'. replace (ex - ey - (ex - ey - 53)) with 53 by lia.
  rewrite Z.shiftl_mul_pow2 by lia.
  destruct (Z.div_eucl (Zpos mx * 2 ^ 53) (Zpos my)) as [q r] eqn:Eq.
  assert (Hq : q = Zpos mx * 2 ^ 53 / Zpos my) by (unfold Z.div; rewrite Eq; reflexivity).
  assert (Hq0 : 0 <= q) by (rewrite Hq; apply Z.div_pos; lia).
  assert (Hq1 : q < 2 ^ 54).
  { rewrite Hq. apply Z.div_lt_upper_bound; [lia|].
    change (2 ^ 54) with (2 ^ 53 * 2) at 1. nia. }
  apply (binary_round_aux_within false q (ex - ey - 53) (new_location (Zpos my) r) 54 (-1));
    [lia|lia|lia|vm_compute; discriminate].
Qed.

(** The product of a bounded non-negative number and a positive
    normal number is bounded and not negative. *)
Lemma mul_within (k emx hi : Z) (x y : number) :
  0 <= k -> within k emx false x -> normalIn (-52) hi y ->
  roundedExp (k + 53) (emx + hi) <= 971 ->
  within (k + 53) (roundedExp (k + 53) (emx + hi)) false (mul x y).
Proof.
  intros Hk [->|(mx & ex & -> & Hmx & Hex)] (my & ey & -> & Hmy & Hey) HB.
  - left. reflexivity.
  - unfold mul. cbn [SFmul xorb].
    apply binary_round_aux_within; [lia| |lia|exact HB].
    rewrite Pos2Z.inj_mul, Z.pow_add_r by lia.
    assert (0 < 2 ^ k) by (apply Z.pow_pos_nonneg; lia). nia.
Qed.

Lemma within_finiteNonNegative (k emx : Z) (x : number) :
  within k emx false x -> finiteNonNegative x.
Proof. intros [->|(m & e & -> & _)]; [left; reflexivity|right; eauto]. Qed.






End Doubles.

(** ** CPU percentage *)

Section CpuPercent.

Import DockerManager.







(** One third of one CPU: three roundings give
    [4691249611844266 * 2^-47], that is 33.33333333333333, one unit in
    the last place below the double nearest to [100/3]. *)
Example cpu_percent_of_one_third :
  calculateCpuPercent (mkStats (Some 1) (Some 0) (Some 3) (Some 0) (Some 1))
  = S754_finite false 4691249611844266 (-47)
  /\ ofZ 100 = S754_finite false 7036874417766400 (-46)
  /\ div (ofZ 100) (ofZ 3) = S754_finite false 4691249611844267 (-47).
Proof. repeat split; vm_compute; reflexivity. Qed.

End CpuPercent.

(** ** Matching engine objects to registry records *)

Section Matching.

Import Schema.

Lemma matchesRecord_docker_id (r : containers_row) (d : DockerManager.Summary) :
  docker_id r = Some (DockerManager.dockerId d) -> DockerService.matchesRecord r d = true.
Proof.
  intros H. unfold DockerService.matchesRecord, Js.strict_eq.
  rewrite bool_decide_eq_true_2 by assumption. reflexivity.
Qed.

Lemma matchesRecord_false (r : containers_row) (d : DockerManager.Summary) :
  docker_id r <> Some (DockerManager.dockerId d) ->
  DockerManager.name d <> name r ->
  DockerService.matchesRecord r d = false.
Proof.
  intros H1 H2. unfold DockerService.matchesRecord, Js.strict_eq.
  rewrite !bool_decide_eq_false_2 by assumption. reflexivity.
Qed.

Lemma find_app_skip {A} (f : A -> bool) (pre post : list A) (x : A) :
  Forall (fun y => f y = false) pre -> f x = true ->
  List.find f (pre ++ x :: post) = Some x.
Proof.
  induction 1 as [|y pre Hy _ IH]; intros Hx; simpl.
  - rewrite Hx. reflexivity.
  - rewrite Hy. apply IH, Hx.
Qed.

(** C2, as stated, fails: the record's [docker_id] is the id of
    [renamed_engine_object], yet with the name-equal object listed
    first [find] returns the name-equal object. *)
Lemma engineRef_match_loses_to_earlier_name_match :
  docker_id reused_name_record = Some (DockerManager.dockerId renamed_engine_object)
  /\ renamed_engine_object ∈ [name_reusing_engine_object; renamed_engine_object]
  /\ List.find (DockerService.matchesRecord reused_name_record)
               [name_reusing_engine_object; renamed_engine_object]
     = Some name_reusing_engine_object
  /\ name_reusing_engine_object <> renamed_engine_object.
Proof.
  split; [reflexivity|]. split; [|split].
  - apply list_elem_of_In. right. left. reflexivity.
  - reflexivity.
  - discriminate.
Qed.

Lemma find_split {A} (f : A -> bool) (l : list A) (x : A) :
  List.find f l = Some x ->
  exists pre post, l = pre ++ x :: post /\ Forall (fun y => f y = false) pre /\ f x = true.
Proof.
  induction l as [|y l IH]; [discriminate|]. cbn [List.find].
  destruct (f y) eqn:Hy.
  - intros [= ->]. exists [], l. split; [reflexivity|]. split; [constructor|exact Hy].
  - intros H. destruct (IH H) as (pre & post & -> & Hpre & Hx).
    exists (y :: pre), post. split; [reflexivity|]. split; [|exact Hx].
    constructor; assumption.
Qed.

Lemma matchesRecord_false_inv (o : containers_row) (d : DockerManager.Summary) :
  DockerService.matchesRecord o d = false ->
  docker_id o <> Some (DockerManager.dockerId d) /\ DockerManager.name d <> name o.
Proof.
  unfold DockerService.matchesRecord, Js.strict_eq. intros H. apply orb_false_iff in H as [H1 H2].
  apply bool_decide_eq_false_1 in H1. apply bool_decide_eq_false_1 in H2. tauto.
Qed.

Lemma NoDup_map_app_head {A B} (f : A -> B) (pre post : list A) (x y : A) :
  NoDup (map f (pre ++ x :: post)) -> y ∈ pre -> f y <> f x.
Proof.
  rewrite map_app. cbn [map]. intros H Hy E.
  apply NoDup_app in H as (_ & Hdisj & _).
  apply (Hdisj (f y)).
  - apply list_elem_of_In, in_map, list_elem_of_In, Hy.
  - rewrite E. apply elem_of_cons. left. reflexivity.
Qed.

Lemma matchesRecord_true_inv (o : containers_row) (d : DockerManager.Summary) :
  DockerService.matchesRecord o d = true ->
  docker_id o = Some (DockerManager.dockerId d) \/ DockerManager.name d = name o.
Proof.
  unfold DockerService.matchesRecord, Js.strict_eq. intros H.
  apply orb_true_iff in H as [H|H]; apply bool_decide_eq_true_1 in H; tauto.
Qed.

Lemma matchesRecord_name (r : containers_row) (d : DockerManager.Summary) :
  DockerManager.name d = name r -> DockerService.matchesRecord r d = true.
Proof.
  intros H. unfold DockerService.matchesRecord.
  rewrite (bool_decide_eq_true_2 _ H). apply orb_true_r.
Qed.

(** [find] stops at or before an element that satisfies the
    predicate. *)
Lemma find_app_hit {A} (f : A -> bool) (pre rest : list A) (x : A) :
  f x = true ->
  exists y, List.find f (pre ++ x :: rest) = Some y /\ y ∈ pre ++ [x] /\ f y = true.
Proof.
  intros Hx. induction pre as [|z pre IH]; cbn [app List.find].
  - rewrite Hx. exists x. split; [reflexivity|]. split; [|exact Hx].
    apply elem_of_cons. left. reflexivity.
  - destruct (f z) eqn:Hz.
    + exists z. split; [reflexivity|]. split; [|exact Hz].
      apply elem_of_cons. left. reflexivity.
    + destruct IH as (y & E & Hin & Hy). exists y. split; [exact E|].
      split; [|exact Hy]. apply elem_of_cons. right. exact Hin.
Qed.

(** C2, amended.  A record is matched to the first engine object, in
    the order of the engine's list, whose id equals the record's
    [docker_id] or whose name equals the record's name, and to that
    one only.  So the object whose id is the record's [docker_id] is
    the match whenever no object listed before it has that id or the
    record's name; and whenever an object with the record's name is
    listed before it, in a list of unique ids, the match is an object
    with the record's name that is not the object of the record's
    [docker_id]. *)
Theorem match_is_first_by_id_or_name (r : containers_row)
    (dcs : list DockerManager.Summary) :
  (forall d,
      List.find (DockerService.matchesRecord r) dcs = Some d <->
      exists pre post,
        dcs = pre ++ d :: post
        /\ (docker_id r = Some (DockerManager.dockerId d) \/ DockerManager.name d = name r)
        /\ Forall (fun d' => docker_id r <> Some (DockerManager.dockerId d')
                             /\ DockerManager.name d' <> name r) pre)
  /\ (forall pre d post,
        dcs = pre ++ d :: post ->
        docker_id r = Some (DockerManager.dockerId d) ->
        Forall (fun d' => DockerManager.dockerId d' <> DockerManager.dockerId d
                          /\ DockerManager.name d' <> name r) pre ->
        List.find (DockerService.matchesRecord r) dcs = Some d)
  /\ (forall pre d' mid d post,
        dcs = pre ++ d' :: mid ++ d :: post ->
        NoDup (map DockerManager.dockerId dcs) ->
        docker_id r = Some (DockerManager.dockerId d) ->
        DockerManager.name d' = name r ->
        exists d'',
          List.find (DockerService.matchesRecord r) dcs = Some d''
          /\ d'' ∈ pre ++ [d'] /\ DockerManager.name d'' = name r /\ d'' <> d).
Proof.
  split; [|split].
  - intros d. split.
    + intros Hfind. destruct (find_split _ _ _ Hfind) as (pre & post & -> & Hpre & Hd).
      exists pre, post. split; [reflexivity|].
      split; [apply matchesRecord_true_inv, Hd|].
      eapply Forall_impl; [exact Hpre|]. intros d'. apply matchesRecord_false_inv.
    + intros (pre & post & -> & Hd & Hpre). apply find_app_skip.
      * eapply Forall_impl; [exact Hpre|]. intros d' [H1 H2].
        apply matchesRecord_false; assumption.
      * destruct Hd as [Hd|Hd];
          [apply matchesRecord_docker_id, Hd|apply matchesRecord_name, Hd].
  - intros pre d post -> Hid Hpre. apply find_app_skip.
    + eapply Forall_impl; [exact Hpre|]. intros d' [Hne Hname]. simpl in *.
      apply matchesRecord_false; [|assumption].
      rewrite Hid. intros [= E]. apply Hne. symmetry. exact E.
    + apply matchesRecord_docker_id, Hid.
  - intros pre d' mid d post -> Hnd Hid Hname.
    destruct (find_app_hit (DockerService.matchesRecord r) pre (mid ++ d :: post) d'
                (matchesRecord_name r d' Hname)) as (y & Efind & Hin & Hy).
    assert (Hne : DockerManager.dockerId y <> DockerManager.dockerId d).
    { apply (NoDup_map_app_head DockerManager.dockerId ((pre ++ [d']) ++ mid) post d y).
      - rewrite <- !app_assoc. cbn [app]. exact Hnd.
      - apply elem_of_app. left. exact Hin. }
    exists y. split; [exact Efind|]. split; [exact Hin|]. split.
    + destruct (matchesRecord_true_inv r y Hy) as [E|E]; [|exact E].
      rewrite Hid in E. injection E as E. symmetry in E. contradiction.
    + intros ->. apply Hne. reflexivity.
Qed.

Lemma match_is_first_by_id_or_name_witness :
  List.find (DockerService.matchesRecord reused_name_record)
            ([DockerManager.mkSummary "e3" "db" "postgres" "running" ∅]
             ++ renamed_engine_object :: [name_reusing_engine_object])
  = Some renamed_engine_object
  /\ exists d'',
      List.find (DockerService.matchesRecord reused_name_record)
                ([DockerManager.mkSummary "e3" "db" "postgres" "running" ∅]
                 ++ name_reusing_engine_object :: [] ++ renamed_engine_object :: [])
      = Some d''
      /\ d'' ∈ [DockerManager.mkSummary "e3" "db" "postgres" "running" ∅]
               ++ [name_reusing_engine_object]
      /\ DockerManager.name d'' = name reused_name_record
      /\ d'' <> renamed_engine_object.
Proof.
  split.
  - apply (proj1 (proj2 (match_is_first_by_id_or_name reused_name_record _))
             [DockerManager.mkSummary "e3" "db" "postgres" "running" ∅]
             renamed_engine_object [name_reusing_engine_object]).
    + reflexivity.
    + reflexivity.
    + repeat constructor; simpl; discriminate.
  - apply (proj2 (proj2 (match_is_first_by_id_or_name reused_name_record _))
             [DockerManager.mkSummary "e3" "db" "postgres" "running" ∅]
             name_reusing_engine_object [] renamed_engine_object []).
    + reflexivity.
    + apply (bool_decide_unpack _). vm_compute. exact I.
    + reflexivity.
    + reflexivity.
Defined.

End Matching.

(** ** Retention cleanup *)

Section Cleanup.

Import LogService.

Lemma cleanupFiles_lookup (cutoffDate : Z) (files : list (string * Fs.File))
    (dir : gmap string Fs.File) (n : nat) (file : string) :
  (cleanupFiles cutoffDate files dir n).1 !! file = dir !! file
  \/ ((cleanupFiles cutoffDate files dir n).1 !! file = None
      /\ includes ".log." file = true).
Proof.
  revert dir n. induction files as [|[f st] files IH]; intros dir n; simpl.
  - left. reflexivity.
  - destruct ((Fs.mtime st <? cutoffDate) && includes ".log." f) eqn:E.
    + apply andb_true_iff in E as [_ Hinc].
      destruct (IH (delete f dir) (S n)) as [H|H].
      * destruct (decide (f = file)) as [->|Hne].
        -- right. rewrite H, lookup_delete_eq. split; [reflexivity|assumption].
        -- left. rewrite H. apply lookup_delete_ne. assumption.
      * right. exact H.
    + apply IH.
Qed.

Lemma cleanupDirs_lookup (cutoffDate : Z) (init : gmap string (gmap string Fs.File))
    (containerDirs : list (string * gmap string Fs.File)) :
  (forall d fl, (d, fl) ∈ containerDirs -> init !! d = Some fl) ->
  forall (tree : gmap string (gmap string Fs.File)) (n : nat),
    (forall dir file, file_at tree dir file = file_at init dir file
                      \/ (file_at tree dir file = None /\ includes ".log." file = true)) ->
    forall dir file,
      file_at (cleanupDirs cutoffDate containerDirs tree n).1 dir file = file_at init dir file
      \/ (file_at (cleanupDirs cutoffDate containerDirs tree n).1 dir file = None
          /\ includes ".log." file = true).
Proof.
  induction containerDirs as [|[d fl] rest IH]; intros Hin tree n Htree dir file; simpl.
  - apply Htree.
  - assert (Hrest : forall d' fl', (d', fl') ∈ rest -> init !! d' = Some fl').
    { intros d' fl' H. apply Hin. apply list_elem_of_In. right. apply list_elem_of_In, H. }
    destruct (String.prefix "container-" d); [|apply IH; assumption].
    destruct (cleanupFiles cutoffDate (map_to_list fl) fl n) as [files' n'] eqn:E.
    apply IH; [assumption|].
    intros dir' file'. unfold file_at.
    destruct (decide (d = dir')) as [<-|Hne].
    + rewrite lookup_insert_eq. simpl.
      rewrite (Hin d fl) by (apply list_elem_of_In; left; reflexivity). simpl.
      pose proof (cleanupFiles_lookup cutoffDate (map_to_list fl) fl n file') as H.
      rewrite E in H. exact H.
    + rewrite lookup_insert_ne by assumption. apply Htree.
Qed.

(** C10.  [cleanupOldLogs] always completes, and every file of the log
    tree is either left as it was or removed, and it can be removed
    only when its name contains [".log."]; a file whose name does not
    contain [".log."] is therefore untouched whatever its modification
    time, and so are the four active category files of every
    container. *)
Theorem cleanupOldLogs_keeps_active_files (now retentionDays : Z) (w : World) :
  (exists cleaned, (cleanupOldLogs now retentionDays w).1 = Js.Normal cleaned)
  /\ (forall dir file,
        file_at (fs (cleanupOldLogs now retentionDays w).2) dir file = file_at (fs w) dir file
        \/ (file_at (fs (cleanupOldLogs now retentionDays w).2) dir file = None
            /\ includes ".log." file = true))
  /\ (forall dir file,
        includes ".log." file = false ->
        file_at (fs (cleanupOldLogs now retentionDays w).2) dir file = file_at (fs w) dir file)
  /\ (forall containerId logType,
        logType ∈ ["application"; "startup"; "error"; "info"] ->
        file_at (fs (cleanupOldLogs now retentionDays w).2)
                (getLogFilePath containerId logType).1 (getLogFilePath containerId logType).2
        = file_at (fs w) (getLogFilePath containerId logType).1
                  (getLogFilePath containerId logType).2).
Proof.
  assert (Hmain : forall dir file,
        file_at (fs (cleanupOldLogs now retentionDays w).2) dir file = file_at (fs w) dir file
        \/ (file_at (fs (cleanupOldLogs now retentionDays w).2) dir file = None
            /\ includes ".log." file = true)).
  { intros dir file. unfold cleanupOldLogs, mbind, Js.M_bind, Js.get, Js.modify, mret, Js.M_ret.
    pose proof (cleanupDirs_lookup (now - retentionDays * 86400000) (fs w)
                  (map_to_list (fs w))) as H.
    destruct (cleanupDirs (now - retentionDays * 86400000) (map_to_list (fs w)) (fs w) 0)
      as [tree cleaned] eqn:E.
    simpl. specialize (H (fun d fl Hd => proj1 (elem_of_map_to_list _ _ _) Hd) (fs w) 0%nat).
    rewrite E in H. simpl in H. apply H. intros; left; reflexivity. }
  assert (Hkeep : forall dir file,
        includes ".log." file = false ->
        file_at (fs (cleanupOldLogs now retentionDays w).2) dir file = file_at (fs w) dir file).
  { intros dir file Hinc. destruct (Hmain dir file) as [H|[_ H]]; [exact H|congruence]. }
  split; [|split; [exact Hmain|split; [exact Hkeep|]]].
  - unfold cleanupOldLogs, mbind, Js.M_bind, Js.get, Js.modify, mret, Js.M_ret.
    destruct (cleanupDirs _ _ _ _) as [tree cleaned]. simpl. eauto.
  - intros containerId logType Hin. apply Hkeep.
    repeat (apply elem_of_cons in Hin as [->|Hin]; [reflexivity|]).
    apply elem_of_nil in Hin. contradiction.
Qed.

Lemma cleanupOldLogs_keeps_active_files_witness :
  file_at (fs (cleanupOldLogs 4000000000 30
                 (mkWorld (Schema.mkDatabase [] [] [])
                    {[ "container-c1" :=
                         {[ "application.log" := Fs.mkFile 0 "old but active";
                            "application.log.2024-01-01T00-00-00-000Z" := Fs.mkFile 0 "rotated" ]} ]}
                    ∅ [] ∅ [] ∅ ∅ [])).2)
          "container-c1" "application.log"
  = Some (Fs.mkFile 0 "old but active").
Proof.
  rewrite (proj1 (proj2 (proj2 (cleanupOldLogs_keeps_active_files 4000000000 30 _)))
             "container-c1" "application.log" eq_refl).
  reflexivity.
Defined.

End Cleanup.

(** ** Frame reasoning for effectful code *)

Section Preservation.

Context {S : Type} (I : S -> Prop) (R : S -> S -> Prop).
Hypothesis R_refl : forall s, R s s.
Hypothesis R_trans : forall s1 s2 s3, R s1 s2 -> R s2 s3 -> R s1 s3.
Hypothesis I_stable : forall s s', I s -> R s s' -> I s'.

Lemma preserves_ret {A} (a : A) : Js.preserves I R (mret a : Js.M S A).
Proof using R_refl. intros s _. apply R_refl. Qed.

Lemma preserves_throw {A} (e : Js.Error) : Js.preserves I R (mthrow e : Js.M S A).
Proof using R_refl. intros s _. apply R_refl. Qed.

Lemma preserves_get : Js.preserves I R (Js.get : Js.M S S).
Proof using R_refl. intros s _. apply R_refl. Qed.

Lemma preserves_bind {A B} (m : Js.M S A) (k : A -> Js.M S B) :
  Js.preserves I R m -> (forall a, Js.preserves I R (k a)) ->
  Js.preserves I R (m ≫= k).
Proof using R_trans I_stable.
  intros Hm Hk s Hs. unfold mbind, Js.M_bind.
  specialize (Hm s Hs). destruct (m s) as [[a|e] s1]; simpl in *.
  - eapply R_trans; [exact Hm|]. apply Hk. eapply I_stable; eassumption.
  - exact Hm.
Qed.

Lemma preserves_try_catch {A} (m : Js.M S A) (h : Js.Error -> Js.M S A) :
  Js.preserves I R m -> (forall e, Js.preserves I R (h e)) ->
  Js.preserves I R (Js.try_catch m h).
Proof using R_trans I_stable.
  intros Hm Hh s Hs. unfold Js.try_catch.
  specialize (Hm s Hs). destruct (m s) as [[a|e] s1]; simpl in *.
  - exact Hm.
  - eapply R_trans; [exact Hm|]. apply Hh. eapply I_stable; eassumption.
Qed.

Lemma preserves_when (c : bool) (m : Js.M S unit) :
  Js.preserves I R m -> Js.preserves I R (Js.when c m).
Proof using R_refl. intros Hm. destruct c; simpl; [exact Hm|apply preserves_ret]. Qed.

End Preservation.

(** ** Broadcast *)

Ltac munfold :=
  unfold mbind, mret, mthrow, Js.M_bind, Js.M_ret, Js.M_throw,
         Js.get, Js.modify, Js.when, Js.try_catch, DockerManager.lift in *.

Section Broadcast.

Import Wire WebSocketService.

Lemma same_but_sockets_refl (w : World) : same_but_sockets w w.
Proof. repeat split. Qed.

Lemma same_but_sockets_trans (w1 w2 w3 : World) :
  same_but_sockets w1 w2 -> same_but_sockets w2 w3 -> same_but_sockets w1 w3.
Proof.
  unfold same_but_sockets. intros (?&?&?&?&?&?&?) (?&?&?&?&?&?&?).
  repeat split; congruence.
Qed.

Lemma sendMessage_spec (ws : nat) (m : Message) (w : World) :
  (sendMessage ws m w).1 = Js.Normal tt
  /\ same_but_sockets w (sendMessage ws m w).2
  /\ containerStreams (sendMessage ws m w).2 = containerStreams w
  /\ (forall x, isOpen (sendMessage ws m w).2 x = isOpen w x)
  /\ (forall x, sentOn (sendMessage ws m w).2 x =
                if bool_decide (x = ws) && isOpen w ws then sentOn w x ++ [m] else sentOn w x).
Proof.
  unfold sendMessage. munfold. destruct (isOpen w ws) eqn:Hopen; simpl.
  - split; [reflexivity|]. split; [repeat split|]. split; [reflexivity|]. split.
    + intros x. unfold isOpen. simpl. rewrite lookup_alter.
      case_decide; [subst|reflexivity]. destruct (sockets w !! x); reflexivity.
    + intros x. unfold sentOn. simpl. rewrite lookup_alter.
      case_bool_decide; case_decide; simpl; try congruence.
      subst. unfold isOpen in Hopen. destruct (sockets w !! ws); [reflexivity|discriminate].
  - split; [reflexivity|]. split; [repeat split|]. split; [reflexivity|]. split.
    + reflexivity.
    + intros x. rewrite andb_false_r. reflexivity.
Qed.

Lemma broadcastToSubscribers_cons (containerId : string) (logEntry : LogEntry)
    (ws : nat) (l : list nat) (w : World) :
  broadcastToSubscribers containerId logEntry (ws :: l) w =
  if isOpen w ws
  then broadcastToSubscribers containerId logEntry l
         (sendMessage ws (log_entry containerId logEntry) w).2
  else broadcastToSubscribers containerId logEntry l
         (set_containerStreams
            (alter (fun subscribers => subscribers ∖ {[ws]}) containerId) w).
Proof.
  simpl. unfold mbind at 1, Js.M_bind at 1, Js.get at 1. cbv beta iota.
  unfold mbind at 1, Js.M_bind at 1.
  destruct (isOpen w ws) eqn:Hopen.
  - pose proof (sendMessage_spec ws (log_entry containerId logEntry) w) as [Hn _].
    destruct (sendMessage ws (log_entry containerId logEntry) w) as [r w1].
    simpl in Hn. subst r. reflexivity.
  - reflexivity.
Qed.

Lemma broadcastToSubscribers_spec (containerId : string) (logEntry : LogEntry)
    (l : list nat) : NoDup l -> forall w : World,
  (broadcastToSubscribers containerId logEntry l w).1 = Js.Normal tt
  /\ same_but_sockets w (broadcastToSubscribers containerId logEntry l w).2
  /\ (forall x, isOpen (broadcastToSubscribers containerId logEntry l w).2 x = isOpen w x)
  /\ (forall x, sentOn (broadcastToSubscribers containerId logEntry l w).2 x =
                if bool_decide (x ∈ l) && isOpen w x
                then sentOn w x ++ [log_entry containerId logEntry] else sentOn w x)
  /\ containerStreams (broadcastToSubscribers containerId logEntry l w).2 =
     alter (fun s => s ∖ list_to_set (List.filter (fun x => negb (isOpen w x)) l))
           containerId (containerStreams w).
Proof.
  induction 1 as [|ws l Hnotin Hnd IH]; intros w.
  - simpl. split; [reflexivity|]. split; [apply same_but_sockets_refl|].
    split; [reflexivity|]. split; [reflexivity|].
    apply map_eq. intros c. rewrite lookup_alter. case_decide as Hc; [|reflexivity].
    subst c. destruct (containerStreams w !! containerId) as [s|]; simpl; [|reflexivity].
    f_equal. set_solver.
  - rewrite broadcastToSubscribers_cons.
    destruct (isOpen w ws) eqn:Hopen.
    + pose proof (sendMessage_spec ws (log_entry containerId logEntry) w)
        as (_ & Hsame & Hcs & Hop & Hsent).
      set (w1 := (sendMessage ws (log_entry containerId logEntry) w).2) in *.
      specialize (IH w1) as (IHn & IHsame & IHop & IHsent & IHcs).
      split; [exact IHn|]. split; [eapply same_but_sockets_trans; eassumption|].
      split; [intros x; rewrite IHop; apply Hop|]. split.
      * intros x. rewrite IHsent, Hop, Hsent. rewrite Hopen.
        destruct (decide (x = ws)) as [->|Hne].
        -- rewrite (bool_decide_eq_false_2 (ws ∈ l)) by assumption.
           rewrite !bool_decide_eq_true_2 by (try reflexivity; apply elem_of_cons; auto).
           simpl. rewrite Hopen. reflexivity.
        -- rewrite (bool_decide_eq_false_2 (x = ws)) by assumption. simpl.
           rewrite (bool_decide_ext (x ∈ ws :: l) (x ∈ l)); [reflexivity|].
           rewrite elem_of_cons. tauto.
      * rewrite IHcs, Hcs. simpl. rewrite Hopen. simpl.
        apply map_eq. intros c. rewrite !lookup_alter. case_decide as Hc; [|reflexivity].
        subst c. destruct (containerStreams w !! containerId); simpl; [|reflexivity].
        f_equal. f_equal. f_equal. apply List.filter_ext. intros x. rewrite Hop. reflexivity.
    + set (w1 := set_containerStreams _ w).
      specialize (IH w1) as (IHn & IHsame & IHop & IHsent & IHcs).
      split; [exact IHn|]. split; [exact IHsame|].
      split; [exact IHop|]. split.
      * intros x. rewrite IHsent. change (isOpen w1 x) with (isOpen w x).
        change (sentOn w1 x) with (sentOn w x).
        destruct (decide (x = ws)) as [->|Hne].
        -- rewrite Hopen, !andb_false_r. reflexivity.
        -- rewrite (bool_decide_ext (x ∈ ws :: l) (x ∈ l)); [reflexivity|].
           rewrite elem_of_cons. tauto.
      * rewrite IHcs.
        change (containerStreams w1)
          with (alter (fun subscribers : gset nat => subscribers ∖ {[ws]}) containerId
                      (containerStreams w)).
        rewrite alter_alter_eq. apply alter_ext. intros s _. simpl.
        change (isOpen w1) with (isOpen w). rewrite Hopen. simpl. set_solver.
Qed.

Lemma broadcastToClients_spec (now containerId status : string)
    (cs : list (string * Client)) : forall w : World,
  (broadcastToClients now containerId status cs w).1 = Js.Normal tt
  /\ same_but_sockets w (broadcastToClients now containerId status cs w).2
  /\ containerStreams (broadcastToClients now containerId status cs w).2 = containerStreams w
  /\ (forall x, isOpen (broadcastToClients now containerId status cs w).2 x = isOpen w x)
  /\ (forall x, sentOn (broadcastToClients now containerId status cs w).2 x =
                if isOpen w x
                then sentOn w x
                     ++ replicate
                          (length (List.filter (fun kv => bool_decide (Wire.ws kv.2 = x)) cs))
                          (container_status_change containerId status now)
                else sentOn w x).
Proof.
  induction cs as [|[k client] cs IH]; intros w.
  - simpl. split; [reflexivity|]. split; [apply same_but_sockets_refl|].
    split; [reflexivity|]. split; [reflexivity|].
    intros x. rewrite app_nil_r. destruct (isOpen w x); reflexivity.
  - assert (E : broadcastToClients now containerId status ((k, client) :: cs) w =
                broadcastToClients now containerId status cs
                  (sendMessage (Wire.ws client)
                     (container_status_change containerId status now) w).2).
    { simpl. unfold mbind at 1, Js.M_bind at 1, Js.get at 1. cbv beta iota.
      unfold mbind at 1, Js.M_bind at 1, Js.when.
      pose proof (sendMessage_spec (Wire.ws client)
                    (container_status_change containerId status now) w) as (Hn & _).
      unfold sendMessage in *. munfold.
      destruct (isOpen w (Wire.ws client)) eqn:Ho; cbv beta iota; rewrite ?Ho; reflexivity. }
    rewrite E.
    pose proof (sendMessage_spec (Wire.ws client)
                  (container_status_change containerId status now) w)
      as (_ & Hsame & Hcs & Hop & Hsent).
    set (w1 := (sendMessage (Wire.ws client)
                  (container_status_change containerId status now) w).2) in *.
    specialize (IH w1) as (IHn & IHsame & IHcs & IHop & IHsent).
    split; [exact IHn|]. split; [eapply same_but_sockets_trans; eassumption|].
    split; [congruence|]. split; [intros x; rewrite IHop; apply Hop|].
    intros x. rewrite IHsent, Hop, Hsent. simpl.
    destruct (isOpen w x) eqn:Hx.
    + case_bool_decide as Hc; case_bool_decide as Hc'; try congruence; simpl.
      * subst x. rewrite Hx. rewrite <- app_assoc. reflexivity.
      * reflexivity.
    + case_bool_decide as Hc; [subst x; rewrite Hx|]; reflexivity.
Qed.

(** *** The producers of log entries and status changes

    None of them reaches the Channel Service: what they write goes to
    the database, to the log directory and to the streams registered
    with the log service. *)

Section Producers.

Import Schema.

Lemma channelUntouched_refl (w : World) : channelUntouched w w.
Proof. repeat split. Qed.

Lemma channelUntouched_trans (w1 w2 w3 : World) :
  channelUntouched w1 w2 -> channelUntouched w2 w3 -> channelUntouched w1 w3.
Proof.
  unfold channelUntouched. intros (?&?&?&?) (?&?&?&?). repeat split; congruence.
Qed.

Local Abbreviation silent := (Js.preserves (fun _ : World => True) channelUntouched).

Lemma silent_ret {A} (a : A) : silent (mret a).
Proof. apply preserves_ret, channelUntouched_refl. Qed.

Lemma silent_throw {A} (e : Js.Error) : silent (mthrow e : Js.M World A).
Proof. apply preserves_throw, channelUntouched_refl. Qed.

Lemma silent_get : silent Js.get.
Proof. apply preserves_get, channelUntouched_refl. Qed.

Lemma silent_lift {A} (r : Js.completion A) : silent (DockerManager.lift r).
Proof. intros w _. apply channelUntouched_refl. Qed.

Lemma silent_bind {A B} (m : Js.M World A) (k : A -> Js.M World B) :
  silent m -> (forall a, silent (k a)) -> silent (m ≫= k).
Proof. apply preserves_bind; [apply channelUntouched_trans|auto]. Qed.

Lemma silent_try_catch {A} (m : Js.M World A) (h : Js.Error -> Js.M World A) :
  silent m -> (forall e, silent (h e)) -> silent (Js.try_catch m h).
Proof. apply preserves_try_catch; [apply channelUntouched_trans|auto]. Qed.

Lemma silent_when (b : bool) (m : Js.M World unit) : silent m -> silent (Js.when b m).
Proof. apply preserves_when, channelUntouched_refl. Qed.

(** A write to the database, to the log directory, to the streams of
    the log service or to the record of outside calls. *)
Lemma silent_modify (f : World -> World) :
  (forall w, channelUntouched w (f w)) -> silent (Js.modify f).
Proof. intros Hf w _. apply Hf. Qed.

Ltac silent_step :=
  match goal with
  | |- Js.preserves _ _ (mret _) => apply silent_ret
  | |- Js.preserves _ _ (mthrow _) => apply silent_throw
  | |- Js.preserves _ _ Js.get => apply silent_get
  | |- Js.preserves _ _ (DockerManager.lift _) => apply silent_lift
  | |- Js.preserves _ _ (Js.modify _) => apply silent_modify; intros ?; repeat split
  | |- Js.preserves _ _ (Js.when _ _) => apply silent_when
  | |- Js.preserves _ _ (_ ≫= _) => apply silent_bind; [|intros ?]
  | |- Js.preserves _ _ (Js.try_catch _ _) => apply silent_try_catch; [|intros ?]
  | |- Js.preserves _ _ (match ?x with _ => _ end) => destruct x
  end.

Lemma silent_findById (cid : string) : silent (Container.findById cid).
Proof. unfold Container.findById. repeat silent_step. Qed.

Lemma silent_list (limit : nat) (wanted : option string) :
  silent (Container.list limit wanted).
Proof. unfold Container.list. repeat silent_step. Qed.

Lemma silent_getSettings (self : containers_row) : silent (Container.getSettings self).
Proof. unfold Container.getSettings. repeat silent_step. Qed.

Lemma silent_updateStatus (self : containers_row) (s : string) :
  silent (Container.updateStatus self s).
Proof. unfold Container.updateStatus. repeat silent_step. Qed.

Lemma silent_updateDockerId (self : containers_row) (d : string) :
  silent (Container.updateDockerId self d).
Proof. unfold Container.updateDockerId. repeat silent_step. Qed.

Lemma silent_addLog (self : containers_row) (text ty : string) :
  silent (Container.addLog self text ty).
Proof. unfold Container.addLog. repeat silent_step. Qed.

Lemma silent_create (newId : string) (rank : nat) (cname cimage : string)
    (cfolder_path cstartup_script : option string) (uid : Z) :
  silent (Container.create newId rank cname cimage cfolder_path cstartup_script uid).
Proof. unfold Container.create. repeat (silent_step || apply silent_findById). Qed.

Ltac silent_call :=
  first
    [ apply silent_findById | apply silent_list | apply silent_getSettings
    | apply silent_updateStatus | apply silent_updateDockerId | apply silent_addLog
    | apply silent_create | silent_step ].

Lemma silent_engine_listContainers (engine : DockerManager.Engine) (all : bool) :
  silent (DockerManager.listContainers engine all).
Proof. unfold DockerManager.listContainers. repeat silent_call. Qed.

Lemma silent_engine_getContainer (engine : DockerManager.Engine) (d : string) :
  silent (DockerManager.getContainer engine d).
Proof. unfold DockerManager.getContainer. repeat silent_call. Qed.

Lemma silent_engine_restartContainer (engine : DockerManager.Engine) (d : string)
    (timeout : Z) :
  silent (DockerManager.restartContainer engine d timeout).
Proof. unfold DockerManager.restartContainer. repeat silent_call. Qed.

Lemma silent_createDefaultFiles (now : Z) (dir : string) (logFiles : list string) :
  silent (LogService.createDefaultFiles now dir logFiles).
Proof.
  induction logFiles as [|logFile rest IH]; cbn [LogService.createDefaultFiles].
  - apply silent_ret.
  - unfold LogService.exists_file, LogService.writeFile.
    repeat (apply IH || silent_call).
Qed.

Lemma silent_writeLog (now : Z) (stamp containerId text logType : string) :
  silent (LogService.writeLog now stamp containerId text logType).
Proof.
  unfold LogService.writeLog, LogService.createContainerLogDirectory, LogService.mkdir,
    LogService.appendFile, LogService.notifyLogUpdate.
  repeat (apply silent_createDefaultFiles || silent_call).
Qed.

Lemma silent_syncRecord (dcs : list DockerManager.Summary) (o : containers_row)
    (counts : nat * nat) :
  silent (DockerService.syncRecord dcs o counts).
Proof. unfold DockerService.syncRecord. repeat silent_call. Qed.

Lemma silent_syncRecords (dcs : list DockerManager.Summary) (objs : list containers_row) :
  forall counts, silent (DockerService.syncRecords dcs objs counts).
Proof.
  induction objs as [|o objs IH]; intros counts; cbn [DockerService.syncRecords].
  - apply silent_ret.
  - repeat (apply silent_syncRecord || apply IH || silent_call).
Qed.

Lemma silent_importContainer (uuid : nat -> string) (rank : nat -> nat)
    (objs : list containers_row) (d : DockerManager.Summary) (st : nat * nat) :
  silent (DockerService.importContainer uuid rank objs d st).
Proof. unfold DockerService.importContainer. repeat silent_call. Qed.

Lemma silent_importContainers (uuid : nat -> string) (rank : nat -> nat)
    (objs : list containers_row) (dcs : list DockerManager.Summary) :
  forall st, silent (DockerService.importContainers uuid rank objs dcs st).
Proof.
  induction dcs as [|d dcs IH]; intros st; cbn [DockerService.importContainers].
  - apply silent_ret.
  - repeat (apply silent_importContainer || apply IH || silent_call).
Qed.

Lemma silent_syncContainers (uuid : nat -> string) (rank : nat -> nat)
    (engine : DockerManager.Engine) :
  silent (DockerService.syncContainers uuid rank engine).
Proof.
  unfold DockerService.syncContainers.
  repeat (apply silent_engine_listContainers || apply silent_syncRecords
          || apply silent_importContainers || silent_call).
Qed.

Lemma silent_restartContainer (engine : DockerManager.Engine) (containerId : string)
    (timeout : Z) :
  silent (DockerService.restartContainer engine containerId timeout).
Proof.
  unfold DockerService.restartContainer.
  repeat (apply silent_engine_restartContainer || silent_call).
Qed.

Lemma silent_checkContainer (engine : DockerManager.Engine) (container : containers_row) :
  silent (DockerService.checkContainer engine container).
Proof.
  unfold DockerService.checkContainer.
  repeat (apply silent_engine_getContainer || apply silent_restartContainer || silent_call).
Qed.

Lemma silent_checkContainers (engine : DockerManager.Engine) (objs : list containers_row) :
  silent (DockerService.checkContainers engine objs).
Proof.
  induction objs as [|o objs IH]; cbn [DockerService.checkContainers].
  - apply silent_ret.
  - repeat (apply silent_checkContainer || apply IH || silent_call).
Qed.

Lemma silent_monitorContainerHealth (engine : DockerManager.Engine) :
  silent (DockerService.monitorContainerHealth engine).
Proof.
  unfold DockerService.monitorContainerHealth.
  repeat (apply silent_checkContainers || silent_call).
Qed.

End Producers.

(** C6, as stated, fails twice over.  A log entry that the log
    service writes for a container reaches no connection, although an
    open connection is in the subscriber set of the container; and a
    status change, when it is broadcast, reaches a connection that is
    in no subscriber set of the container. *)
Lemma channel_push_ignores_subscriber_set :
  (1%nat ∈ subscribersOf stale_world "c1"
   /\ isOpen stale_world 1 = true
   /\ (LogService.writeLog 1714557700000 "2024-05-01T10:01:40.000Z" "c1" "ready"
         "application" stale_world).1 = Js.Normal tt
   /\ Schema.container_logs
        (db (LogService.writeLog 1714557700000 "2024-05-01T10:01:40.000Z" "c1" "ready"
               "application" stale_world).2)
      = [Schema.mkLog "c1" "ready" "application"]
   /\ sentOn (LogService.writeLog 1714557700000 "2024-05-01T10:01:40.000Z" "c1" "ready"
                "application" stale_world).2 1%nat = [])
  /\ (1%nat ∉ subscribersOf status_only_world "c1")
  /\ sentOn (broadcastContainerStatus "2024-05-01T10:00:00.000Z" "c1" "running"
               status_only_world).2 1%nat
     = [container_status_change "c1" "running" "2024-05-01T10:00:00.000Z"].
Proof.
  split; [|split].
  - split; [apply (bool_decide_unpack _); vm_compute; exact I|].
    split; [reflexivity|]. split; [vm_compute; reflexivity|].
    split; vm_compute; reflexivity.
  - unfold subscribersOf. simpl. rewrite lookup_empty. simpl. set_solver.
  - vm_compute. reflexivity.
Qed.

(** C6, amended.  [broadcastLogEntry] never raises; it sends the log
    entry once to every connection of the container's subscriber set
    whose transport is open and to no other connection, and it removes
    from the set the subscribers whose transport is not open (the sets
    of other containers are left as they were).
    [broadcastContainerStatus] never raises; it sends the status change
    to every entry of the client table whose transport is open,
    whatever the subscriber sets say, once per entry, and changes
    neither the subscriber sets nor the client table.  The producers
    of log entries and status changes call neither: [writeLog],
    [addLog] and [updateStatus], a tick of Sync, a run of the health
    monitor and a restart, whether they complete or fail, leave every
    socket with what has been sent on it, the client table, the
    subscriber sets and the connections as they were. *)
Theorem broadcast_delivery (w : World) (containerId : string) :
  (forall logEntry,
      (broadcastLogEntry containerId logEntry w).1 = Js.Normal tt
      /\ (forall x, sentOn (broadcastLogEntry containerId logEntry w).2 x =
                    if bool_decide (x ∈ subscribersOf w containerId) && isOpen w x
                    then sentOn w x ++ [log_entry containerId logEntry]
                    else sentOn w x)
      /\ (forall x, x ∈ subscribersOf (broadcastLogEntry containerId logEntry w).2 containerId
                    <-> x ∈ subscribersOf w containerId /\ isOpen w x = true)
      /\ (forall other, other <> containerId ->
                        containerStreams (broadcastLogEntry containerId logEntry w).2 !! other
                        = containerStreams w !! other)
      /\ (forall x, isOpen (broadcastLogEntry containerId logEntry w).2 x = isOpen w x))
  /\ (forall now status,
      (broadcastContainerStatus now containerId status w).1 = Js.Normal tt
      /\ (forall x, sentOn (broadcastContainerStatus now containerId status w).2 x =
                    if isOpen w x
                    then sentOn w x
                         ++ replicate (length (clientEntriesOn w x))
                                      (container_status_change containerId status now)
                    else sentOn w x)
      /\ containerStreams (broadcastContainerStatus now containerId status w).2
         = containerStreams w
      /\ clients (broadcastContainerStatus now containerId status w).2 = clients w)
  /\ (forall now timestamp content logType,
        channelUntouched w
          (LogService.writeLog now timestamp containerId content logType w).2)
  /\ (forall self content logType,
        channelUntouched w (Container.addLog self content logType w).2)
  /\ (forall self status,
        channelUntouched w (Container.updateStatus self status w).2)
  /\ (forall uuid rank engine,
        channelUntouched w (DockerService.syncContainers uuid rank engine w).2)
  /\ (forall engine,
        channelUntouched w (DockerService.monitorContainerHealth engine w).2)
  /\ (forall engine timeout,
        channelUntouched w (DockerService.restartContainer engine containerId timeout w).2).
Proof.
  split; [|split; [|split; [|split; [|split; [|split; [|split]]]]]].
  - intros logEntry. unfold broadcastLogEntry, subscribersOf.
    unfold mbind at 1 2 3 4 5, Js.M_bind at 1 2 3 4 5, Js.get at 1 2 3 4 5. cbv beta iota.
    destruct (containerStreams w !! containerId) as [subscribers|] eqn:Hs; simpl.
    + pose proof (broadcastToSubscribers_spec containerId logEntry (elements subscribers)
                    (NoDup_elements subscribers) w) as (Hn & Hsame & Hop & Hsent & Hcs).
      split; [exact Hn|]. split; [|split; [|split; [|exact Hop]]].
      * intros x. rewrite Hsent.
        rewrite (bool_decide_ext (x ∈ elements subscribers) (x ∈ subscribers));
          [reflexivity|apply elem_of_elements].
      * intros x. rewrite Hcs, lookup_alter, decide_True by reflexivity.
        rewrite Hs. simpl. rewrite elem_of_difference, elem_of_list_to_set.
        rewrite list_elem_of_In, List.filter_In, <- list_elem_of_In, elem_of_elements.
        rewrite negb_true_iff. destruct (isOpen w x); intuition congruence.
      * intros other Hne. rewrite Hcs, lookup_alter, decide_False by congruence. reflexivity.
    + split; [reflexivity|]. split; [|split; [|split; reflexivity]].
      * intros x. rewrite bool_decide_eq_false_2 by set_solver. reflexivity.
      * intros x. rewrite Hs. simpl. set_solver.
  - intros now status. unfold broadcastContainerStatus, clientEntriesOn.
    unfold mbind at 1 2 3 4, Js.M_bind at 1 2 3 4, Js.get at 1 2 3 4. cbv beta iota.
    pose proof (broadcastToClients_spec now containerId status (clients w) w)
      as (Hn & Hsame & Hcs & Hop & Hsent).
    split; [exact Hn|]. split; [exact Hsent|]. split; [exact Hcs|].
    apply Hsame.
  - intros now timestamp content logType. apply silent_writeLog. exact I.
  - intros self content logType. apply silent_addLog. exact I.
  - intros self status. apply silent_updateStatus. exact I.
  - intros uuid rank engine. apply silent_syncContainers. exact I.
  - intros engine. apply silent_monitorContainerHealth. exact I.
  - intros engine timeout. apply silent_restartContainer. exact I.
Qed.

End Broadcast.

(** ** Unauthenticated requests *)

Section Unauthenticated.

Import Wire WebSocketService.

Variable jwt_verify : string -> Js.completion (Z * string * string).
Variable Date_parse : string -> option Z.
Variable engine : DockerManager.Engine.
Variable hasLogService : bool.
Variable now : string.

Lemma try_catch_normal {A} (m : Js.M World A) (h : Js.Error -> Js.M World A)
    (w : World) (a : A) :
  (m w).1 = Js.Normal a -> Js.try_catch m h w = m w.
Proof. unfold Js.try_catch. destruct (m w) as [[|] ?]; simpl; [reflexivity|discriminate]. Qed.

Lemma sendError_normal (ws : nat) (err : string) (w : World) :
  (sendError now ws err w).1 = Js.Normal tt.
Proof. apply sendMessage_spec. Qed.

(** The three guarded requests that do answer: an unauthenticated
    [subscribe_logs], [execute_command] or [get_container_status] is
    answered by the error event and changes nothing else. *)
Lemma unauthenticated_request_gets_error (newClientId : string) (ws : nat)
    (message : ClientMessage) (w : World) :
  is_authenticated (connection w ws) = false ->
  msg_type message ∈ [Some "subscribe_logs"; Some "execute_command";
                      Some "get_container_status"] ->
  onMessage jwt_verify Date_parse engine hasLogService now newClientId ws (Some message) w
  = sendError now ws "Authentication required" w.
Proof.
  intros Hauth Hty.
  assert (E : forall h, Js.try_catch (sendError now ws "Authentication required") h w
                        = sendError now ws "Authentication required" w).
  { intros h. eapply try_catch_normal, sendError_normal. }
  unfold onMessage. rewrite <- (E (fun _ => sendError now ws "Invalid message format")).
  unfold Js.try_catch, mbind, Js.M_bind, Js.get. rewrite Hauth.
  repeat (apply elem_of_cons in Hty as [->|Hty]; [reflexivity|]).
  apply elem_of_nil in Hty. contradiction.
Qed.

(** C7, at the input where the code departs from it: an
    unauthenticated [unsubscribe_logs] message is dropped; no event
    at all is sent and the world is left exactly as it was. *)
Theorem unauthenticated_unsubscribe_is_silent (newClientId : string) (ws : nat)
    (message : ClientMessage) (w : World) :
  is_authenticated (connection w ws) = false ->
  msg_type message = Some "unsubscribe_logs" ->
  onMessage jwt_verify Date_parse engine hasLogService now newClientId ws (Some message) w
  = (Js.Normal tt, w).
Proof.
  intros Hauth Hty. unfold onMessage.
  unfold Js.try_catch, mbind, Js.M_bind, Js.get. rewrite Hauth, Hty. reflexivity.
Qed.

End Unauthenticated.

Lemma unauthenticated_unsubscribe_is_silent_witness :
  WebSocketService.onMessage reject_all no_dates idle_engine true "2024-05-01T10:00:05.000Z"
    "client_1" 1%nat
    (Some (Wire.mkClientMessage (Some "unsubscribe_logs") None (Some "c1") None None))
    fresh_connection_world
  = (Js.Normal tt, fresh_connection_world).
Proof.
  apply unauthenticated_unsubscribe_is_silent; reflexivity.
Defined.

(** ** The restart operation *)

Section Restart.

Import Schema DockerService.

Lemma find_by_id_id (cid : string) (rows : list containers_row) (row : containers_row) :
  List.find (fun r => bool_decide (id r = cid)) rows = Some row -> id row = cid.
Proof.
  intros H. apply List.find_some in H as [_ H]. apply bool_decide_eq_true_1 in H. exact H.
Qed.

Lemma findById_run (cid : string) (w : World) :
  Container.findById cid w
  = (Js.Normal (Container.new <$> List.find (fun r => bool_decide (id r = cid))
                                            (containers (db w))), w).
Proof. reflexivity. Qed.

(** C4.  When the engine restart call fails (the manager is not
    connected, or the engine rejects the call), [restartContainer]
    re-raises that very error, leaves every row of [containers] as it
    was (so the status is not changed), and appends to the container's
    log the entry written before the call and the error entry
    ["Container restart failed: ..."]; no startup script is scheduled.
    When the call succeeds the row's status is ["running"]. *)
Theorem restartContainer_failure_is_atomic (engine : DockerManager.Engine)
    (containerId : string) (timeout : Z) (w : World) (row : containers_row) :
  List.find (fun r => bool_decide (id r = containerId)) (containers (db w)) = Some row ->
  Js.truthy (docker_id row) = true ->
  (forall e,
      (DockerManager.isConnected engine = false /\ e = Js.error "Docker not connected")
      \/ (DockerManager.isConnected engine = true
          /\ DockerManager.docker_restart engine (default "" (docker_id row)) timeout
             = Js.Abrupt e) ->
      (restartContainer engine containerId timeout w).1 = Js.Abrupt e
      /\ containers (db (restartContainer engine containerId timeout w).2) = containers (db w)
      /\ container_logs (db (restartContainer engine containerId timeout w).2)
         = container_logs (db w)
           ++ [mkLog containerId "Container restart initiated" "info";
               mkLog containerId ("Container restart failed: " +:+ Js.message e) "error"]
      /\ (forall ms cid script,
             SetTimeout ms cid script ∈ calls (restartContainer engine containerId timeout w).2
             -> SetTimeout ms cid script ∈ calls w))
  /\ (DockerManager.isConnected engine = true ->
      DockerManager.docker_restart engine (default "" (docker_id row)) timeout = Js.Normal tt ->
      (restartContainer engine containerId timeout w).1 = Js.Normal (true, "running")
      /\ containers (db (restartContainer engine containerId timeout w).2)
         = map (fun r => if bool_decide (id r = containerId) then set_status "running" r else r)
               (containers (db w))).
Proof.
  intros Hfind Htruthy.
  pose proof (find_by_id_id _ _ _ Hfind) as Hid.
  assert (Hex : existsb (fun r => bool_decide (id r = containerId)) (containers (db w)) = true).
  { apply existsb_exists. exists row. split.
    - apply List.find_some in Hfind. tauto.
    - apply bool_decide_eq_true_2. exact Hid. }
  split.
  - intros e He. unfold restartContainer, DockerManager.restartContainer, Container.addLog.
    munfold. rewrite !findById_run. cbn -[String.append]. rewrite Hfind.
    cbn -[String.append]. rewrite Htruthy. cbn -[String.append].
    destruct He as [[Hc ->]|[Hc Hr]]; rewrite Hc; cbn -[String.append].
    + rewrite findById_run. cbn -[String.append]. rewrite Hfind. cbn -[String.append].
      rewrite Hid.
      split; [reflexivity|]. split; [reflexivity|]. split.
      * rewrite <- app_assoc. reflexivity.
      * intros ms cid script Hin. apply elem_of_app in Hin as [Hin|Hin]; [exact Hin|].
        apply list_elem_of_singleton in Hin. discriminate.
    + rewrite Hr. cbn -[String.append]. rewrite findById_run. cbn -[String.append].
      rewrite Hfind. cbn -[String.append]. rewrite Hid.
      split; [reflexivity|]. split; [reflexivity|]. split.
      * rewrite <- app_assoc. reflexivity.
      * intros ms cid script Hin.
        apply elem_of_app in Hin as [Hin|Hin];
          [|apply list_elem_of_singleton in Hin; discriminate].
        apply elem_of_app in Hin as [Hin|Hin]; [exact Hin|].
        apply list_elem_of_singleton in Hin. discriminate.
  - intros Hc Hr. unfold restartContainer, DockerManager.restartContainer, Container.addLog,
      Container.updateStatus.
    munfold. rewrite !findById_run. cbn -[String.append]. rewrite Hfind.
    cbn -[String.append]. rewrite Htruthy. cbn -[String.append].
    rewrite Hc. cbn -[String.append]. rewrite Hr. cbn -[String.append].
    rewrite Hid, Hex. cbn -[String.append].
    destruct (Js.truthy (startup_script row)); cbn -[String.append];
      (split; [reflexivity|reflexivity]).
Qed.

Lemma restartContainer_failure_is_atomic_witness :
  (restartContainer refusing_engine "c2" 10 monitored_world).1
  = Js.Abrupt (Js.error "engine timeout")
  /\ containers (db (restartContainer refusing_engine "c2" 10 monitored_world).2)
     = containers (db monitored_world).
Proof.
  pose proof (proj1 (restartContainer_failure_is_atomic refusing_engine "c2" 10 monitored_world
                       (mkContainer "c2" "db" (Some "e2") "postgres" "running"
                                    "/home/containers/c2" (Some "pg_ctl start") 1)
                       eq_refl eq_refl)
                (Js.error "engine timeout") (or_intror (conj eq_refl eq_refl)))
    as (H1 & H2 & _).
  split; assumption.
Defined.

End Restart.

(** ** The health monitor *)

Section HealthMonitor.

Import Schema DockerService.

Lemma noRestartOf_refl (c : string) (w : World) : noRestartOf c w w.
Proof.
  split; [reflexivity|]. exists []. split; [symmetry; apply app_nil_r|].
  apply not_elem_of_nil.
Qed.

Lemma noRestartOf_trans (c : string) (w1 w2 w3 : World) :
  noRestartOf c w1 w2 -> noRestartOf c w2 w3 -> noRestartOf c w1 w3.
Proof.
  intros [Hs1 (e1 & Hc1 & Hn1)] [Hs2 (e2 & Hc2 & Hn2)].
  split; [congruence|]. exists (e1 ++ e2). split.
  - rewrite Hc2, Hc1, app_assoc. reflexivity.
  - rewrite elem_of_app. tauto.
Qed.

Lemma autoRestartOff_stable (c : string) (w w' : World) :
  autoRestartOff w c -> noRestartOf c w w' -> autoRestartOff w' c.
Proof. intros H [Hs _]. unfold autoRestartOff. rewrite Hs. exact H. Qed.

Section Steps.

Variable c : string.

Local Abbreviation keeps := (Js.preserves (fun w => autoRestartOff w c) (noRestartOf c)).

Lemma keeps_ret {A} (a : A) : keeps (mret a).
Proof. apply preserves_ret, noRestartOf_refl. Qed.

Lemma keeps_throw {A} (e : Js.Error) : keeps (mthrow e : Js.M World A).
Proof. apply preserves_throw, noRestartOf_refl. Qed.

Lemma keeps_get : keeps Js.get.
Proof. apply preserves_get, noRestartOf_refl. Qed.

Lemma keeps_bind {A B} (m : Js.M World A) (k : A -> Js.M World B) :
  keeps m -> (forall a, keeps (k a)) -> keeps (m ≫= k).
Proof.
  apply preserves_bind; [apply noRestartOf_trans|].
  intros w w'. apply autoRestartOff_stable.
Qed.

Lemma keeps_try_catch {A} (m : Js.M World A) (h : Js.Error -> Js.M World A) :
  keeps m -> (forall e, keeps (h e)) -> keeps (Js.try_catch m h).
Proof.
  apply preserves_try_catch; [apply noRestartOf_trans|].
  intros w w'. apply autoRestartOff_stable.
Qed.

Lemma keeps_when (b : bool) (m : Js.M World unit) : keeps m -> keeps (Js.when b m).
Proof. apply preserves_when, noRestartOf_refl. Qed.

Lemma db_step_noRestartOf (rows : list containers_row) (logs : list container_logs_row)
    (w : World) :
  noRestartOf c w (set_db (fun d => mkDatabase rows logs (container_settings d)) w).
Proof.
  split; [reflexivity|]. exists []. split; [symmetry; apply app_nil_r|].
  apply not_elem_of_nil.
Qed.

Lemma keeps_findById (cid : string) : keeps (Container.findById cid).
Proof. intros w _. apply noRestartOf_refl. Qed.

Lemma keeps_list (limit : nat) (wanted : option string) : keeps (Container.list limit wanted).
Proof. intros w _. apply noRestartOf_refl. Qed.

Lemma keeps_updateStatus (self : containers_row) (s : string) :
  keeps (Container.updateStatus self s).
Proof.
  intros w _. unfold Container.updateStatus. munfold.
  destruct (Container.has_id _ _); simpl; [apply db_step_noRestartOf|apply noRestartOf_refl].
Qed.

Lemma keeps_addLog (self : containers_row) (content ty : string) :
  keeps (Container.addLog self content ty).
Proof. intros w _. unfold Container.addLog. munfold. simpl. apply db_step_noRestartOf. Qed.

Lemma keeps_record_call (x : Call) :
  x <> RestartInvoked c -> keeps (Js.modify (record_call x)).
Proof.
  intros Hx w _. split; [reflexivity|]. exists [x]. split; [reflexivity|].
  intros Hin. apply list_elem_of_singleton in Hin. congruence.
Qed.

Lemma keeps_lift {A} (r : Js.completion A) : keeps (DockerManager.lift r).
Proof. intros w _. apply noRestartOf_refl. Qed.

(** Reading the settings of a record: when the record is [c], the row
    read has the flag off. *)
Lemma keeps_getSettings_bind {B} (self : containers_row)
    (k : option container_settings_row -> Js.M World B) :
  (forall s, (id self = c -> match s with
                             | Some r => auto_restart r = 0
                             | None => True
                             end) -> keeps (k s)) ->
  keeps (Container.getSettings self ≫= k).
Proof.
  intros Hk w Hw. unfold mbind, Js.M_bind, Container.getSettings, Js.get, mret, Js.M_ret.
  apply Hk; [|exact Hw].
  intros <-. exact Hw.
Qed.

Ltac keeps_step :=
  first
    [ apply keeps_ret | apply keeps_throw | apply keeps_get | apply keeps_findById
    | apply keeps_list | apply keeps_updateStatus | apply keeps_addLog | apply keeps_lift
    | apply keeps_record_call; congruence
    | apply keeps_when
    | apply keeps_bind; [|intros ?]
    | apply keeps_try_catch; [|intros ?]
    | match goal with
      | |- Js.preserves _ _ (match ?x with _ => _ end) => destruct x
      end ].

Lemma keeps_restartContainer (engine : DockerManager.Engine) (containerId : string)
    (timeout : Z) :
  containerId <> c -> keeps (restartContainer engine containerId timeout).
Proof.
  intros Hne. unfold restartContainer, DockerManager.restartContainer.
  repeat keeps_step.
Qed.

Lemma keeps_getContainer (engine : DockerManager.Engine) (d : string) :
  keeps (DockerManager.getContainer engine d).
Proof. unfold DockerManager.getContainer. repeat keeps_step. Qed.

Lemma keeps_checkContainer (engine : DockerManager.Engine) (container : containers_row) :
  keeps (checkContainer engine container).
Proof.
  unfold checkContainer.
  destruct (Js.truthy (docker_id container)); [|apply keeps_ret].
  apply keeps_try_catch; [|intros ?; apply keeps_ret].
  apply keeps_bind; [apply keeps_getContainer|intros dockerInfo].
  apply keeps_bind; [|intros ?; apply keeps_ret].
  destruct (negb (DockerManager.running dockerInfo) && bool_decide (status container = "running"));
    [|apply keeps_ret].
  apply keeps_bind; [apply keeps_updateStatus|intros container'].
  apply keeps_bind; [apply keeps_addLog|intros _].
  apply keeps_getSettings_bind. intros settings Hs.
  apply keeps_bind; [|intros ?; apply keeps_ret].
  destruct settings as [s|]; [|apply keeps_ret].
  destruct (decide (id container' = c)) as [Hc|Hc].
  - rewrite (Hs Hc). apply keeps_ret.
  - apply keeps_when. apply keeps_bind; [apply keeps_addLog|intros _].
    apply keeps_try_catch; [|intros ?; apply keeps_addLog].
    apply keeps_bind; [|intros ?; apply keeps_ret].
    apply keeps_restartContainer, Hc.
Qed.

Lemma keeps_checkContainers (engine : DockerManager.Engine)
    (dbContainers : list containers_row) :
  keeps (checkContainers engine dbContainers).
Proof.
  induction dbContainers as [|container rest IH]; simpl; [apply keeps_ret|].
  apply keeps_bind; [apply keeps_checkContainer|intros h].
  apply keeps_bind; [exact IH|intros hs]. apply keeps_ret.
Qed.

Lemma keeps_monitorContainerHealth (engine : DockerManager.Engine) :
  keeps (monitorContainerHealth engine).
Proof.
  unfold monitorContainerHealth.
  apply keeps_bind; [apply keeps_list|intros ?]. apply keeps_checkContainers.
Qed.

End Steps.

(** The monitor task always completes: no exception leaves it. *)
Lemma checkContainers_normal (engine : DockerManager.Engine)
    (dbContainers : list containers_row) (w : World) :
  exists hs, (checkContainers engine dbContainers w).1 = Js.Normal hs.
Proof.
  revert w. induction dbContainers as [|container rest IH]; intros w; simpl.
  - eexists. reflexivity.
  - unfold mbind at 1, Js.M_bind at 1.
    assert (Hc : exists h, (checkContainer engine container w).1 = Js.Normal h).
    { unfold checkContainer. destruct (Js.truthy (docker_id container)); [|eexists; reflexivity].
      unfold Js.try_catch.
      match goal with |- context [match ?m w with _ => _ end] =>
        destruct (m w) as [[h|e] w1] end; simpl; eexists; reflexivity. }
    destruct Hc as [h Hh]. destruct (checkContainer engine container w) as [r w1].
    simpl in Hh. subst r. unfold mbind at 1, Js.M_bind at 1.
    destruct (IH w1) as [hs Hhs]. destruct (checkContainers engine rest w1) as [r w2].
    simpl in Hhs. subst r. simpl. eexists. reflexivity.
Qed.

(** C3.  Over any number of monitor ticks, whatever the engine answers
    at each tick, a container whose settings row is absent or has
    auto-restart off is never handed to the restart operation: the
    calls made during the ticks contain no [RestartInvoked c], and the
    settings table is as it was.  Each tick completes normally. *)
Theorem monitor_never_restarts_when_auto_restart_off (c : string)
    (engines : list DockerManager.Engine) (w : World) :
  autoRestartOff w c ->
  noRestartOf c w (monitorTicks engines w)
  /\ Forall (fun engine => forall w0, exists hs,
                 (monitorContainerHealth engine w0).1 = Js.Normal hs) engines.
Proof.
  intros Hoff. split.
  - revert w Hoff. induction engines as [|engine rest IH]; intros w Hoff; simpl.
    + apply noRestartOf_refl.
    + pose proof (keeps_monitorContainerHealth c engine w Hoff) as Hstep.
      eapply noRestartOf_trans; [exact Hstep|].
      apply IH. eapply autoRestartOff_stable; eassumption.
  - apply Forall_forall. intros engine _ w0. unfold monitorContainerHealth.
    unfold mbind, Js.M_bind, Container.list, Js.get, mret, Js.M_ret.
    apply checkContainers_normal.
Qed.

End HealthMonitor.

Lemma monitor_never_restarts_when_auto_restart_off_witness :
  DockerService.noRestartOf "c1" monitored_world
    (DockerService.monitorTicks [refusing_engine; refusing_engine] monitored_world).
Proof.
  apply (monitor_never_restarts_when_auto_restart_off "c1"
           [refusing_engine; refusing_engine] monitored_world).
  reflexivity.
Defined.

(** The same two ticks do hand [c2], whose flag is on, to the restart
    operation, once: after the first tick both rows are ["stopped"] and
    the second tick, which lists the running rows only, sees neither. *)
Example monitor_restarts_when_auto_restart_on :
  calls (DockerService.monitorTicks [refusing_engine; refusing_engine] monitored_world)
  = [RestartInvoked "c2"; EngineRestart "e2" 10]
  /\ map Schema.status
         (Schema.containers
            (db (DockerService.monitorTicks [refusing_engine; refusing_engine] monitored_world)))
     = ["stopped"; "stopped"].
Proof. split; vm_compute; reflexivity. Qed.

(** ** Appending and tailing *)

Section Tail.

Import LogService.

Lemma app_cons (c : ascii) (s t : string) : String c s +:+ t = String c (s +:+ t).
Proof. reflexivity. Qed.

Lemma app_nil_l (t : string) : "" +:+ t = t.
Proof. reflexivity. Qed.

Lemma string_app_assoc (a b c : string) : (a +:+ b) +:+ c = a +:+ (b +:+ c).
Proof. induction a as [|x a IH]; [reflexivity|]. rewrite !app_cons, IH. reflexivity. Qed.

Lemma string_app_nil_r (a : string) : a +:+ "" = a.
Proof. induction a as [|x a IH]; [reflexivity|]. rewrite app_cons, IH. reflexivity. Qed.

(** Splitting text that starts with a separator-free piece followed by
    the separator. *)
Lemma split_piece (sep : ascii) (piece rest : string) :
  allChars (fun c => negb (Ascii.eqb c sep)) piece = true ->
  split sep (piece +:+ String sep rest) = piece :: split sep rest.
Proof.
  induction piece as [|c piece IH]; intros H.
  - rewrite app_nil_l. simpl. rewrite Ascii.eqb_refl. reflexivity.
  - simpl in H. apply andb_true_iff in H as [Hc H].
    rewrite app_cons. simpl. apply negb_true_iff in Hc. rewrite Hc.
    rewrite (IH H). reflexivity.
Qed.

Lemma allChars_impl (p q : ascii -> bool) (s : string) :
  (forall c, p c = true -> q c = true) -> allChars p s = true -> allChars q s = true.
Proof.
  intros Hpq. induction s as [|c s IH]; simpl; [reflexivity|].
  intros H. apply andb_true_iff in H as [Hc H]. rewrite (Hpq c Hc), (IH H). reflexivity.
Qed.

Lemma dot_star_allChars (s : string) :
  dot_star_matches s = true ->
  allChars (fun c => negb (Ascii.eqb c "010")) s = true.
Proof.
  induction s as [|c s IH]; simpl; [reflexivity|].
  intros H. apply andb_true_iff in H as [H Hs]. apply andb_true_iff in H as [H1 _].
  rewrite H1, (IH Hs). reflexivity.
Qed.

Lemma allChars_app (p : ascii -> bool) (a b : string) :
  allChars p (a +:+ b) = allChars p a && allChars p b.
Proof.
  induction a as [|c a IH]; [reflexivity|].
  rewrite app_cons. simpl. rewrite IH, andb_assoc. reflexivity.
Qed.

Lemma span_timestamp_app (t rest : string) :
  allChars (fun c => negb (Ascii.eqb c "]")) t = true ->
  span_timestamp (t +:+ String "]" rest) = (t, String "]" rest).
Proof.
  induction t as [|c t IH]; intros H.
  - reflexivity.
  - simpl in H. apply andb_true_iff in H as [Hc H].
    rewrite app_cons. simpl. apply negb_true_iff in Hc. rewrite Hc.
    rewrite (IH H). reflexivity.
Qed.

Lemma isTimestamp_facts (t : string) :
  isTimestamp t = true ->
  t <> "" /\ allChars (fun c => negb (Ascii.eqb c "]")) t = true
  /\ allChars (fun c => negb (Ascii.eqb c "010")) t = true.
Proof.
  unfold isTimestamp. intros H. apply andb_true_iff in H as [H1 H2].
  apply negb_true_iff, bool_decide_eq_false_1 in H1. split; [exact H1|].
  split; (eapply allChars_impl; [|exact H2]); intros c Hc;
    destruct c as [[] [] [] [] [] [] [] []]; try discriminate Hc; reflexivity.
Qed.

Lemma match_timestamp_bracket (r : string) :
  match_timestamp (String "[" r)
  = match span_timestamp r with
    | (String c t, String "]" after) => Some (String c t, after)
    | _ => None
    end.
Proof. reflexivity. Qed.

Lemma match_entry_lineOf (a : Append) :
  wellFormed a -> match_entry (lineOf a) = Some (at_iso a, text a).
Proof.
  intros [Ht Hc]. apply isTimestamp_facts in Ht as (Hne & Hb & _).
  unfold match_entry, lineOf.
  change ("[" +:+ at_iso a +:+ "] " +:+ text a)
    with (String "[" (at_iso a +:+ String "]" (String " " (text a)))).
  rewrite match_timestamp_bracket, span_timestamp_app by exact Hb.
  destruct (at_iso a) as [|c t]; [contradiction|].
  rewrite Hc. reflexivity.
Qed.

Lemma trim_is_truthy_lineOf (a : Append) : trim_is_truthy (lineOf a) = true.
Proof. reflexivity. Qed.

Lemma lineOf_no_line_feed (a : Append) :
  wellFormed a -> allChars (fun c => negb (Ascii.eqb c "010")) (lineOf a) = true.
Proof.
  intros [Ht Hc]. apply isTimestamp_facts in Ht as (_ & _ & Hn).
  unfold lineOf. rewrite !allChars_app, Hn, (dot_star_allChars _ Hc). reflexivity.
Qed.

Lemma split_lines_fileOf (appends : list Append) :
  Forall wellFormed appends ->
  split_lines (fileOf appends) = map lineOf appends ++ [""].
Proof.
  unfold split_lines. induction 1 as [|a rest Ha _ IH]; simpl; [reflexivity|].
  rewrite split_piece by (apply lineOf_no_line_feed, Ha). rewrite IH. reflexivity.
Qed.

Lemma filter_lines_fileOf (appends : list Append) :
  Forall wellFormed appends ->
  List.filter trim_is_truthy (split_lines (fileOf appends)) = map lineOf appends.
Proof.
  intros H. rewrite split_lines_fileOf by exact H. clear H.
  induction appends as [|a rest IH]; [reflexivity|].
  cbn [map app List.filter]. rewrite trim_is_truthy_lineOf, IH. reflexivity.
Qed.

Lemma last_n_drop {A} (n : nat) (l : list A) : last_n n l = drop (length l - n) l.
Proof. unfold last_n. rewrite firstn_rev, rev_involutive. reflexivity. Qed.

End Tail.

Section LogFiles.

Import LogService.

Lemma file_at_insert (t : gmap string (gmap string Fs.File)) (d f : string)
    (dd : gmap string Fs.File) (x : Fs.File) (d' f' : string) :
  file_at (<[d := <[f := x]> dd]> t) d' f'
  = if decide (d = d') then (if decide (f = f') then Some x else dd !! f')
    else file_at t d' f'.
Proof.
  unfold file_at. destruct (decide (d = d')) as [<-|Hd].
  - rewrite lookup_insert_eq. simpl. destruct (decide (f = f')) as [<-|Hf].
    + apply lookup_insert_eq.
    + apply lookup_insert_ne, Hf.
  - rewrite lookup_insert_ne by exact Hd. reflexivity.
Qed.

Lemma mkdir_spec (dir : string) (w : World) :
  (mkdir dir w).1 = Js.Normal tt
  /\ is_Some (fs (mkdir dir w).2 !! dir)
  /\ db (mkdir dir w).2 = db w
  /\ (forall d f, file_at (fs (mkdir dir w).2) d f = file_at (fs w) d f).
Proof.
  unfold mkdir, Js.modify. simpl. split; [reflexivity|].
  destruct (fs w !! dir) as [dd|] eqn:E.
  - split; [rewrite E; eauto|]. split; reflexivity.
  - split; [rewrite lookup_insert_eq; eauto|]. split; [reflexivity|].
    intros d f. unfold file_at. destruct (decide (dir = d)) as [<-|Hd].
    + rewrite lookup_insert_eq, E. reflexivity.
    + rewrite lookup_insert_ne by exact Hd. reflexivity.
Qed.

Lemma createDefaultFiles_cons (now : Z) (dir logFile : string) (rest : list string)
    (w : World) (dd : gmap string Fs.File) :
  fs w !! dir = Some dd ->
  createDefaultFiles now dir (logFile :: rest) w
  = createDefaultFiles now dir rest
      (match dd !! logFile with
       | Some _ => w
       | None => set_fs (<[dir := <[logFile := Fs.mkFile now ""]> dd]>) w
       end).
Proof.
  intros Hdd. simpl. unfold exists_file, writeFile. munfold. cbn [fst snd].
  rewrite Hdd. destruct (dd !! logFile) as [f|] eqn:Hf.
  - rewrite bool_decide_eq_true_2 by eauto. reflexivity.
  - rewrite bool_decide_eq_false_2 by (intros [? ?]; discriminate).
    cbn [negb]. rewrite Hdd. reflexivity.
Qed.

Lemma createDefaultFiles_spec (now : Z) (dir : string) (logFiles : list string) :
  forall w : World, is_Some (fs w !! dir) ->
  (createDefaultFiles now dir logFiles w).1 = Js.Normal tt
  /\ is_Some (fs (createDefaultFiles now dir logFiles w).2 !! dir)
  /\ db (createDefaultFiles now dir logFiles w).2 = db w
  /\ (forall p, contentAt (createDefaultFiles now dir logFiles w).2 p = contentAt w p).
Proof.
  induction logFiles as [|logFile rest IH]; intros w [dd Hdd].
  - simpl. split; [reflexivity|]. split; [eauto|]. split; reflexivity.
  - rewrite (createDefaultFiles_cons now dir logFile rest w dd Hdd).
    destruct (dd !! logFile) as [f|] eqn:Hf; [apply IH; eauto|].
    set (w1 := set_fs _ w).
    assert (H1 : is_Some (fs w1 !! dir)) by (subst w1; simpl; rewrite lookup_insert_eq; eauto).
    destruct (IH w1 H1) as (Hn & Hs & Hdb & Hc).
    split; [exact Hn|]. split; [exact Hs|]. split; [exact Hdb|].
    intros p. rewrite Hc. subst w1. unfold contentAt. simpl.
    rewrite file_at_insert. destruct (decide (dir = p.1)) as [Hd|Hd]; [|reflexivity].
    destruct (decide (logFile = p.2)) as [Hl|Hl].
    + unfold file_at. rewrite <- Hd, Hdd. simpl. rewrite <- Hl, Hf. reflexivity.
    + unfold file_at. rewrite <- Hd, Hdd. reflexivity.
Qed.

Lemma createContainerLogDirectory_spec (now : Z) (containerId : string) (w : World) :
  (createContainerLogDirectory now containerId w).1 = Js.Normal tt
  /\ is_Some (fs (createContainerLogDirectory now containerId w).2
              !! getContainerLogPath containerId)
  /\ db (createContainerLogDirectory now containerId w).2 = db w
  /\ (forall p, contentAt (createContainerLogDirectory now containerId w).2 p = contentAt w p).
Proof.
  assert (E : createContainerLogDirectory now containerId w
              = createDefaultFiles now (getContainerLogPath containerId)
                  ["application.log"; "startup.log"; "error.log"]
                  (mkdir (getContainerLogPath containerId) w).2) by reflexivity.
  rewrite E. clear E.
  pose proof (mkdir_spec (getContainerLogPath containerId) w) as (Hn & Hs & Hdb & Hc).
  set (w1 := (mkdir (getContainerLogPath containerId) w).2) in *.
  destruct (createDefaultFiles_spec now (getContainerLogPath containerId)
              ["application.log"; "startup.log"; "error.log"] w1 Hs) as (Hn' & Hs' & Hdb' & Hc').
  split; [exact Hn'|]. split; [exact Hs'|]. split; [congruence|].
  intros p. rewrite Hc'. unfold contentAt. rewrite Hc. reflexivity.
Qed.

Lemma bind_normal {A B} (m : Js.M World A) (k : A -> Js.M World B) (w w1 : World) (a : A) :
  m w = (Js.Normal a, w1) -> (m ≫= k) w = k a w1.
Proof. intros H. unfold mbind, Js.M_bind. rewrite H. reflexivity. Qed.

Lemma appendFile_run (now : Z) (path : string * string) (data : string) (w : World)
    (dd : gmap string Fs.File) :
  fs w !! path.1 = Some dd ->
  appendFile now path data w
  = (Js.Normal tt,
     set_fs (<[path.1 := <[path.2 := Fs.mkFile now (contentAt w path +:+ data)]> dd]>) w).
Proof.
  intros Hdd. unfold appendFile, contentAt, file_at. munfold. rewrite Hdd. reflexivity.
Qed.

Lemma notifyLogUpdate_run (containerId : string) (logEntry : Wire.LogEntry) (w : World) :
  exists w', notifyLogUpdate containerId logEntry w = (Js.Normal tt, w')
             /\ fs w' = fs w /\ db w' = db w.
Proof.
  unfold notifyLogUpdate. munfold. destruct (logStreams w !! containerId);
    eexists; (split; [reflexivity|split; reflexivity]).
Qed.

(** What one [writeLog] does to the log tree and to the store. *)
Lemma writeLog_spec (now : Z) (timestamp containerId content logType : string) (w : World) :
  (writeLog now timestamp containerId content logType w).1 = Js.Normal tt
  /\ contentAt (writeLog now timestamp containerId content logType w).2
               (getLogFilePath containerId logType)
     = contentAt w (getLogFilePath containerId logType)
       +:+ "[" +:+ timestamp +:+ "] " +:+ content +:+ String "010" ""
  /\ (forall p, p <> getLogFilePath containerId logType ->
                contentAt (writeLog now timestamp containerId content logType w).2 p
                = contentAt w p)
  /\ Schema.containers (db (writeLog now timestamp containerId content logType w).2)
     = Schema.containers (db w).
Proof.
  unfold writeLog.
  pose proof (createContainerLogDirectory_spec now containerId w) as (Hn & [dd Hdd] & Hdb & Hc).
  destruct (createContainerLogDirectory now containerId w) as [r w1] eqn:E1.
  cbn [fst snd] in Hn, Hdd, Hdb, Hc. subst r.
  rewrite (bind_normal _ _ _ _ _ E1).
  set (line := "[" +:+ timestamp +:+ "] " +:+ content +:+ String "010" "").
  rewrite (bind_normal _ _ _ _ _
             (appendFile_run now (getLogFilePath containerId logType) line w1 dd Hdd)).
  set (w2 := set_fs _ w1).
  rewrite (bind_normal _ _ _ _ _ (findById_run containerId w2)).
  assert (H2 : contentAt w2 (getLogFilePath containerId logType)
               = contentAt w (getLogFilePath containerId logType) +:+ line
               /\ (forall p, p <> getLogFilePath containerId logType ->
                             contentAt w2 p = contentAt w p)).
  { split.
    - unfold contentAt at 1. subst w2. cbn [fs set_fs]. rewrite file_at_insert.
      rewrite !decide_True by reflexivity. cbn [Fs.content]. rewrite Hc. reflexivity.
    - intros [d f] Hp. rewrite <- Hc. unfold contentAt. subst w2. cbn [fs set_fs].
      rewrite file_at_insert. cbn [fst snd getLogFilePath].
      destruct (decide (getContainerLogPath containerId = d)) as [<-|Hd]; [|reflexivity].
      destruct (decide (logType +:+ ".log" = f)) as [<-|Hf]; [contradiction Hp; reflexivity|].
      unfold file_at. rewrite Hdd. reflexivity. }
  destruct H2 as [H2a H2b].
  assert (Hstep : exists w3,
             (match Container.new <$> List.find (fun r => bool_decide (Schema.id r = containerId))
                                                (Schema.containers (db w2)) with
              | Some c => Container.addLog c content logType
              | None => mret tt
              end) w2 = (Js.Normal tt, w3)
             /\ fs w3 = fs w2
             /\ Schema.containers (db w3) = Schema.containers (db w2)).
  { destruct (List.find _ _); eexists; (split; [reflexivity|split; reflexivity]). }
  destruct Hstep as (w3 & E3 & Hfs3 & Hrows3).
  rewrite (bind_normal _ _ _ _ _ E3).
  destruct (notifyLogUpdate_run containerId
              (Wire.mkLogEntry timestamp content "application" logType) w3)
    as (w4 & E4 & Hfs4 & Hdb4).
  rewrite E4. cbn [fst snd].
  assert (Hcont : forall p, contentAt w4 p = contentAt w2 p).
  { intros p. unfold contentAt. rewrite Hfs4, Hfs3. reflexivity. }
  split; [reflexivity|]. split; [rewrite Hcont; exact H2a|].
  split; [intros p Hp; rewrite Hcont; apply H2b, Hp|].
  rewrite Hdb4, Hrows3. subst w2. cbn [db set_fs]. rewrite Hdb. reflexivity.
Qed.

Lemma writeLogs_spec (containerId logType : string) (appends : list Append) :
  forall w : World,
  (writeLogs containerId logType appends w).1 = Js.Normal tt
  /\ contentAt (writeLogs containerId logType appends w).2 (getLogFilePath containerId logType)
     = contentAt w (getLogFilePath containerId logType) +:+ fileOf appends.
Proof.
  induction appends as [|a rest IH]; intros w.
  - simpl. rewrite string_app_nil_r. split; reflexivity.
  - cbn [writeLogs fileOf].
    pose proof (writeLog_spec (at_ms a) (at_iso a) containerId (text a) logType w)
      as (Hn & Hc & _).
    destruct (writeLog (at_ms a) (at_iso a) containerId (text a) logType w) as [r w1] eqn:E.
    cbn [fst snd] in Hn, Hc. subst r.
    rewrite (bind_normal _ _ _ _ _ E).
    destruct (IH w1) as [IHn IHc]. split; [exact IHn|].
    rewrite IHc, Hc. unfold lineOf. rewrite !string_app_assoc. reflexivity.
Qed.

Section Reading.

Variable Date_parse : string -> option Z.

(** [readLogs] without [since] is a function of the file content, a
    missing file reading as an empty one. *)
Lemma readLogs_content (now containerId logType : string) (n : Z) (w : World) :
  readLogs Date_parse now containerId (mkReadOptions (Some logType) (Some n) None) w
  = (Js.Normal
       (map (parseLine now logType)
            (let lines := List.filter trim_is_truthy
                            (split_lines (contentAt w (getLogFilePath containerId logType))) in
             if 0 <? n then slice_last n lines else lines)),
     w).
Proof.
  unfold readLogs, readFile, contentAt, file_at, parseLine. munfold.
  cbn [opt_logType opt_tail opt_since default Js.truthy fst snd getLogFilePath].
  destruct (fs w !! getContainerLogPath containerId) as [dd|]; cbn -[String.append];
    [destruct (dd !! (logType +:+ ".log")) as [f|]; cbn -[String.append]|];
    try reflexivity; destruct (0 <? n); reflexivity.
Qed.

End Reading.

Lemma Forall_drop {A} (P : A -> Prop) (k : nat) (l : list A) :
  Forall P l -> Forall P (drop k l).
Proof.
  intros H. apply Forall_forall. intros x Hx.
  rewrite Forall_forall in H. apply H.
  apply list_elem_of_In. apply list_elem_of_In in Hx.
  rewrite <- (take_drop k l). apply in_or_app. right. exact Hx.
Qed.

Lemma map_parse_lineOf (now logType : string) (appends : list Append) :
  Forall wellFormed appends ->
  map (parseLine now logType) (map lineOf appends) = map (entryOf logType) appends.
Proof.
  induction 1 as [|a rest Ha _ IH]; [reflexivity|].
  cbn [map]. rewrite IH. unfold parseLine at 1. rewrite (match_entry_lineOf a Ha). reflexivity.
Qed.

(** C5, amended.  Start from a category log that is absent or empty
    and make any run of appends whose contents hold no line break (the
    timestamps are the clock's ISO strings).  Every append completes,
    and reading with a tail limit [n > 0] returns exactly the last [n]
    appended entries, all of them when fewer were appended, in append
    order; reading with a limit [n <= 0] returns every appended entry. *)
Theorem tail_returns_last_appends (Date_parse : string -> option Z)
    (now containerId logType : string) (appends : list Append) (w : World) (n : Z) :
  Forall wellFormed appends ->
  contentAt w (getLogFilePath containerId logType) = "" ->
  (writeLogs containerId logType appends w).1 = Js.Normal tt
  /\ readLogs Date_parse now containerId (mkReadOptions (Some logType) (Some n) None)
              (writeLogs containerId logType appends w).2
     = (Js.Normal (map (entryOf logType)
                       (if 0 <? n then last_n (Z.to_nat n) appends else appends)),
        (writeLogs containerId logType appends w).2).
Proof.
  intros Hwf Hempty.
  destruct (writeLogs_spec containerId logType appends w) as [Hn Hc].
  split; [exact Hn|].
  rewrite readLogs_content, Hc, Hempty, app_nil_l.
  rewrite (filter_lines_fileOf appends Hwf). cbv zeta.
  f_equal. f_equal. destruct (0 <? n).
  - unfold slice_last. rewrite length_map, skipn_map, last_n_drop.
    apply map_parse_lineOf, Forall_drop, Hwf.
  - apply map_parse_lineOf, Hwf.
Qed.

(** The start-up scenario: ["boot ok"] then ["listening"] appended to
    the [startup] log of [c1]; the tail with limit 1 is exactly the
    entry ["listening"]. *)
Lemma tail_returns_last_appends_witness :
  (readLogs no_dates "2024-05-01T10:00:02.000Z" "c1"
            (mkReadOptions (Some "startup") (Some 1) None)
            (writeLogs "c1" "startup" boot_appends empty_world).2).1
  = Js.Normal [Wire.mkLogEntry "2024-05-01T10:00:01.000Z" "listening" "file" "startup"].
Proof.
  rewrite (proj2 (tail_returns_last_appends no_dates "2024-05-01T10:00:02.000Z" "c1" "startup"
                    boot_appends empty_world 1
                    ltac:(repeat constructor) eq_refl)).
  reflexivity.
Defined.

(** C5, as stated, fails at limit 0: the tail is not the last 0
    entries (none) but every entry. *)
Lemma tail_zero_returns_every_entry :
  (readLogs no_dates "2024-05-01T10:00:02.000Z" "c1"
            (mkReadOptions (Some "startup") (Some 0) None)
            (writeLogs "c1" "startup" boot_appends empty_world).2).1
  = Js.Normal [Wire.mkLogEntry "2024-05-01T10:00:00.000Z" "boot ok" "file" "startup";
               Wire.mkLogEntry "2024-05-01T10:00:01.000Z" "listening" "file" "startup"]
  /\ last_n 0 boot_appends = [].
Proof. split; vm_compute; reflexivity. Qed.

(** C8, as stated, fails: clearing the application log of [c1]
    empties that file and records the action in the durable store, but
    the info log file is left as it was (empty): the audit entry is not
    written through [writeLog]. *)
Lemma clear_audit_entry_not_in_info_file :
  (clearLogs 1714557700000 "c1" "application" logged_world).1 = Js.Normal tt
  /\ contentAt (clearLogs 1714557700000 "c1" "application" logged_world).2
               (getLogFilePath "c1" "application") = ""
  /\ file_at (fs (clearLogs 1714557700000 "c1" "application" logged_world).2)
             "container-c1" "info.log"
     = Some (Fs.mkFile 1714557600000 "")
  /\ Schema.container_logs (db (clearLogs 1714557700000 "c1" "application" logged_world).2)
     = [Schema.mkLog "c1" "application logs cleared" "info"].
Proof. repeat split; vm_compute; reflexivity. Qed.

(** C8, amended.  When the container's log directory exists,
    [clearLogs] completes, leaves the category's file empty (creating
    it when absent), changes no other file, and, when the container has
    a registry record, appends to the durable store one [info] entry
    ["<category> logs cleared"]; with no record it writes no entry.
    The registry rows are untouched.  When the directory does not exist
    the call fails with [ENOENT] and changes nothing. *)
Theorem clearLogs_truncates_and_audits_in_store (now : Z) (containerId logType : string)
    (w : World) :
  (forall dd, fs w !! getContainerLogPath containerId = Some dd ->
     (clearLogs now containerId logType w).1 = Js.Normal tt
     /\ file_at (fs (clearLogs now containerId logType w).2)
                (getLogFilePath containerId logType).1 (getLogFilePath containerId logType).2
        = Some (Fs.mkFile now "")
     /\ (forall d f, (d, f) <> getLogFilePath containerId logType ->
                     file_at (fs (clearLogs now containerId logType w).2) d f
                     = file_at (fs w) d f)
     /\ Schema.containers (db (clearLogs now containerId logType w).2)
        = Schema.containers (db w)
     /\ Schema.container_logs (db (clearLogs now containerId logType w).2)
        = Schema.container_logs (db w)
          ++ match List.find (fun r => bool_decide (Schema.id r = containerId))
                             (Schema.containers (db w)) with
             | Some _ => [Schema.mkLog containerId (logType +:+ " logs cleared") "info"]
             | None => []
             end)
  /\ (fs w !! getContainerLogPath containerId = None ->
      clearLogs now containerId logType w = (Js.Abrupt ENOENT, w)).
Proof.
  split.
  - intros dd Hdd. unfold clearLogs.
    assert (E : writeFile now (getLogFilePath containerId logType) "" w
                = (Js.Normal tt,
                   set_fs (<[getContainerLogPath containerId :=
                               <[logType +:+ ".log" := Fs.mkFile now ""]> dd]>) w)).
    { unfold writeFile. munfold. cbn [fst snd getLogFilePath]. rewrite Hdd. reflexivity. }
    rewrite (bind_normal _ _ _ _ _ E).
    set (w1 := set_fs _ w).
    rewrite (bind_normal _ _ _ _ _ (findById_run containerId w1)).
    assert (Hfiles : file_at (fs w1) (getLogFilePath containerId logType).1
                             (getLogFilePath containerId logType).2 = Some (Fs.mkFile now "")
                     /\ (forall d f, (d, f) <> getLogFilePath containerId logType ->
                                     file_at (fs w1) d f = file_at (fs w) d f)).
    { subst w1. cbn [fs set_fs fst snd getLogFilePath]. split.
      - rewrite file_at_insert, !decide_True by reflexivity. reflexivity.
      - intros d f Hp. rewrite file_at_insert.
        destruct (decide (getContainerLogPath containerId = d)) as [<-|Hd]; [|reflexivity].
        destruct (decide (logType +:+ ".log" = f)) as [<-|Hf];
          [contradiction Hp; reflexivity|].
        unfold file_at. rewrite Hdd. reflexivity. }
    destruct Hfiles as [Hf1 Hf2].
    change (Schema.containers (db w1)) with (Schema.containers (db w)).
    destruct (List.find _ (Schema.containers (db w))) as [row|] eqn:Hfind.
    + cbn [fmap option_fmap option_map]. unfold Container.addLog, Js.modify.
      cbn [fst snd db set_db fs]. cbn [Schema.id Container.new Schema.set_status].
      rewrite (find_by_id_id _ _ _ Hfind).
      split; [reflexivity|]. split; [exact Hf1|]. split; [exact Hf2|].
      split; reflexivity.
    + cbn [fmap option_fmap option_map]. unfold mret, Js.M_ret. cbn [fst snd].
      split; [reflexivity|]. split; [exact Hf1|]. split; [exact Hf2|].
      split; [reflexivity|]. rewrite app_nil_r. reflexivity.
  - intros Hnone. unfold clearLogs, writeFile. munfold.
    cbn [fst snd getLogFilePath]. rewrite Hnone. reflexivity.
Qed.

End LogFiles.

Lemma clearLogs_truncates_and_audits_in_store_witness :
  (LogService.clearLogs 1714557700000 "c1" "application" logged_world).1 = Js.Normal tt
  /\ LogService.clearLogs 1714557700000 "c9" "application" logged_world
     = (Js.Abrupt LogService.ENOENT, logged_world).
Proof.
  split.
  - refine (proj1 (proj1 (clearLogs_truncates_and_audits_in_store 1714557700000 "c1"
                            "application" logged_world)
                         {[ "application.log" :=
                              Fs.mkFile 1714557601000
                                ("[2024-05-01T10:00:00.000Z] boot ok" +:+ String "010"
                                 ("[2024-05-01T10:00:01.000Z] listening" +:+ String "010" ""));
                            "info.log" := Fs.mkFile 1714557600000 "" ]} _)).
    vm_compute. reflexivity.
  - apply (proj2 (clearLogs_truncates_and_audits_in_store 1714557700000 "c9"
                    "application" logged_world)).
    vm_compute. reflexivity.
Defined.

(** ** Sync *)

Section Sync.

Import Schema DockerService.

(** *** A settled state is a fixed point *)






Lemma list_run (limit : nat) (w : World) :
  Container.list limit None w
  = (Js.Normal (map Container.new (take limit (containers (db w)))), w).
Proof. reflexivity. Qed.


(** *** One tick, step by step *)

Lemma updateStatus_run_found (self : containers_row) (s : string) (w : World) :
  Container.has_id (id self) (containers (db w)) = true ->
  Container.updateStatus self s w
  = (Js.Normal (set_status s self),
     set_db (fun d => set_containers
               (map (fun r => if bool_decide (id r = id self) then set_status s r else r)
                    (containers d)) d) w).
Proof.
  intros H. unfold Container.updateStatus.
  unfold mbind, Js.M_bind, Js.get, Js.modify, mret, Js.M_ret.
  cbv beta iota. fold (Container.has_id (id self) (containers (db w))). rewrite H.
  reflexivity.
Qed.











Lemma has_id_elem (r : containers_row) (rows : list containers_row) :
  r ∈ rows -> Container.has_id (id r) rows = true.
Proof.
  intros H. apply existsb_exists. exists r. split; [apply list_elem_of_In, H|].
  apply bool_decide_eq_true_2. reflexivity.
Qed.

(** Updating by primary key touches one row when keys are unique. *)
Lemma map_update_by_id (f : containers_row -> containers_row) (done todo : list containers_row)
    (r : containers_row) :
  NoDup (map id (done ++ r :: todo)) ->
  map (fun x => if bool_decide (id x = id r) then f x else x) (done ++ r :: todo)
  = done ++ f r :: todo.
Proof.
  intros Hnd. rewrite map_app. cbn [map]. rewrite bool_decide_eq_true_2 by reflexivity.
  rewrite map_app in Hnd. cbn [map] in Hnd.
  apply NoDup_app in Hnd as (_ & Hdisj & Hnd). apply NoDup_cons in Hnd as [Hnot _].
  f_equal; [|f_equal].
  - rewrite <- (map_id done) at 2. apply map_ext_in. intros x Hx.
    rewrite bool_decide_eq_false_2; [reflexivity|].
    intros E. apply (Hdisj (id x)).
    + apply list_elem_of_In, in_map, Hx.
    + rewrite E. apply elem_of_cons. left. reflexivity.
  - rewrite <- (map_id todo) at 2. apply map_ext_in. intros x Hx.
    rewrite bool_decide_eq_false_2; [reflexivity|].
    intros E. apply Hnot. rewrite <- E. apply list_elem_of_In, in_map, Hx.
Qed.


Lemma addLog_run (self : containers_row) (content ty : string) (w : World) :
  Container.addLog self content ty w
  = (Js.Normal tt,
     set_db (fun d => set_container_logs
               (container_logs d ++ [mkLog (id self) content ty]) d) w).
Proof. reflexivity. Qed.

Lemma try_catch_run_normal {A} (m : Js.M World A) (h : Js.Error -> Js.M World A)
    (w w' : World) (a : A) :
  m w = (Js.Normal a, w') -> Js.try_catch m h w = (Js.Normal a, w').
Proof. intros H. unfold Js.try_catch. rewrite H. reflexivity. Qed.

(** *** A row inserted at some rank *)


Lemma map_insert_at (f : containers_row -> containers_row) (k : nat) (row : containers_row)
    (rows : list containers_row) :
  map f (Container.insert_at k row rows) = Container.insert_at k (f row) (map f rows).
Proof.
  unfold Container.insert_at. revert k.
  induction rows as [|r rows IH]; intros [|k]; cbn [take drop map app]; try reflexivity.
  f_equal. apply IH.
Qed.

Lemma existsb_insert_at (p : containers_row -> bool) (k : nat) (row : containers_row)
    (rows : list containers_row) :
  existsb p (Container.insert_at k row rows) = p row || existsb p rows.
Proof.
  unfold Container.insert_at. rewrite <- (take_drop k rows) at 3.
  rewrite !existsb_app. cbn [existsb].
  destruct (existsb p (take k rows)), (p row), (existsb p (drop k rows)); reflexivity.
Qed.

Lemma find_insert_at_fresh (cid : string) (k : nat) (row : containers_row)
    (rows : list containers_row) :
  id row = cid ->
  Container.has_id cid rows = false ->
  List.find (fun r => bool_decide (id r = cid)) (Container.insert_at k row rows) = Some row.
Proof.
  unfold Container.has_id, Container.insert_at. intros <-. revert k.
  induction rows as [|r rows IH]; intros k Hfresh.
  - destruct k; cbn [take drop app List.find];
      rewrite bool_decide_eq_true_2 by reflexivity; reflexivity.
  - cbn [existsb] in Hfresh. apply orb_false_iff in Hfresh as [Hr Hfresh].
    destruct k as [|k]; cbn [take drop app List.find].
    + rewrite bool_decide_eq_true_2 by reflexivity. reflexivity.
    + rewrite Hr. apply IH, Hfresh.
Qed.

Lemma map_fresh_id (f : containers_row -> containers_row) (newId : string)
    (rows : list containers_row) :
  Container.has_id newId rows = false ->
  map (fun r => if bool_decide (id r = newId) then f r else r) rows = rows.
Proof.
  unfold Container.has_id. induction rows as [|r rows IH]; [reflexivity|].
  cbn [existsb map]. intros H. apply orb_false_iff in H as [Hr H].
  rewrite Hr, (IH H). reflexivity.
Qed.

(** Updating the row of a fresh identifier touches the inserted row
    only. *)
Lemma map_update_insert_at (f : containers_row -> containers_row) (k : nat)
    (row : containers_row) (rows : list containers_row) :
  Container.has_id (id row) rows = false ->
  map (fun r => if bool_decide (id r = id row) then f r else r)
      (Container.insert_at k row rows)
  = Container.insert_at k (f row) rows.
Proof.
  intros Hfresh. rewrite map_insert_at, (map_fresh_id f (id row) rows Hfresh).
  rewrite bool_decide_eq_true_2 by reflexivity. reflexivity.
Qed.





(** *** The state after a tick is settled *)











(** *** The tick as a whole *)





(** *** Completion

    The only step of a tick that can fail once the engine has answered
    is the backfill of a [docker_id] that another row already holds:
    [updateStatus] and [addLog] do not fail, and an import that fails
    is caught inside the loop.  So a tick on a registry whose records
    all have their [docker_id] completes. *)

Lemma updateStatus_completes (self : containers_row) (s : string) (w : World) :
  exists w', Container.updateStatus self s w
             = (Js.Normal (if Container.has_id (id self) (containers (db w))
                           then set_status s self else self), w').
Proof.
  unfold Container.updateStatus, mbind, Js.M_bind, Js.get, Js.modify, mret, Js.M_ret.
  cbv beta iota. destruct (Container.has_id _ _); eexists; reflexivity.
Qed.







End Sync.



(** The first tick of the sample does work: one status update on
    [r1], a status update and a backfill on [r2], and one import. *)
Example first_tick_of_sample :
  (DockerService.syncContainers sample_uuid sample_rank sync_engine sync_world).1
  = Js.Normal (DockerService.mkSyncResult 2 3 1 3 2)
  /\ map Schema.status
         (Schema.containers
            (db (DockerService.syncContainers sample_uuid sample_rank sync_engine
                   sync_world).2))
     = ["running"; "exited"; "running"].
Proof. split; vm_compute; reflexivity. Qed.

(* ===================================================================== *)
(** * Part III: properties of the surrounding code *)
(* ===================================================================== *)

(** ** docker.js: resource strings and usage figures *)

Section Resources.

Import DockerManager.

Section ResourceStrings.

Lemma is_digit_pretty_N_char (x : N) : is_digit (pretty_N_char x) = true.
Proof. unfold pretty_N_char. repeat case_match; reflexivity. Qed.

Lemma digit_value_pretty_N_char (x : N) :
  (x < 10)%N -> Z.of_nat (nat_of_ascii (pretty_N_char x)) - 48 = Z.of_N x.
Proof.
  intros H.
  assert (Hx : (x = 0 \/ x = 1 \/ x = 2 \/ x = 3 \/ x = 4 \/ x = 5 \/ x = 6 \/ x = 7
                \/ x = 8 \/ x = 9)%N) by lia.
  repeat (destruct Hx as [->|Hx]; [reflexivity|]). subst x. reflexivity.
Qed.

(** The value of a run of digits put in front of another. *)
Lemma parseInt_digits_acc (ds : string) :
  forall acc, parseInt_digits acc ds
              = acc * 10 ^ Z.of_nat (String.length ds) + parseInt_digits 0 ds.
Proof.
  induction ds as [|c ds IH]; intros acc.
  - cbn [parseInt_digits String.length]. change (10 ^ Z.of_nat 0) with 1. lia.
  - cbn [parseInt_digits String.length]. rewrite (IH (acc * 10 + _)), (IH (0 * 10 + _)).
    rewrite Nat2Z.inj_succ, Z.pow_succ_r by lia. lia.
Qed.

Lemma pretty_N_go_digits (x : N) :
  forall s, allDigits s = true ->
    allDigits (pretty_N_go x s) = true
    /\ parseInt_digits 0 (pretty_N_go x s)
       = Z.of_N x * 10 ^ Z.of_nat (String.length s) + parseInt_digits 0 s.
Proof.
  induction (N.lt_wf_0 x) as [x _ IH]. intros s Hs.
  destruct (decide (0 < x)%N) as [Hx|Hx].
  - rewrite pretty_N_go_step by exact Hx.
    destruct (IH (x `div` 10)%N (N.div_lt x 10 Hx eq_refl)
                 (String (pretty_N_char (x `mod` 10)) s)) as [Hd Hv].
    { cbn [allDigits]. rewrite is_digit_pretty_N_char. exact Hs. }
    split; [exact Hd|]. rewrite Hv. cbn [parseInt_digits String.length].
    rewrite (parseInt_digits_acc s (0 * 10 + _)).
    rewrite digit_value_pretty_N_char by (apply N.mod_lt; discriminate).
    rewrite Nat2Z.inj_succ, Z.pow_succ_r by lia.
    pose proof (N.div_mod x 10 ltac:(discriminate)) as E.
    assert (E' : Z.of_N x = 10 * Z.of_N (x `div` 10) + Z.of_N (x `mod` 10)) by lia.
    rewrite E'. ring.
  - assert (x = 0%N) as -> by lia. rewrite pretty_N_go_0. split; [exact Hs|]. lia.
Qed.

Lemma pretty_N_digits (n : N) :
  allDigits (pretty n) = true /\ parseInt_digits 0 (pretty n) = Z.of_N n
  /\ pretty n <> "".
Proof.
  unfold pretty, pretty_N. destruct (decide (n = 0%N)) as [->|Hn].
  - repeat split. discriminate.
  - destruct (pretty_N_go_digits n "" eq_refl) as [Hd Hv].
    cbn [String.length parseInt_digits] in Hv.
    split; [exact Hd|]. split; [lia|].
    intros E. rewrite E in Hv. cbn [parseInt_digits] in Hv. lia.
Qed.

Lemma toLowerCase_unit_digit (c : ascii) : is_digit c = true -> toLowerCase_unit c = c.
Proof.
  unfold is_digit, toLowerCase_unit. intros H. apply andb_true_iff in H as [H1 H2].
  apply Nat.leb_le in H1, H2.
  destruct (65 <=? nat_of_ascii c)%nat eqn:E1; [apply Nat.leb_le in E1; lia|].
  destruct (192 <=? nat_of_ascii c)%nat eqn:E2; [apply Nat.leb_le in E2; lia|].
  reflexivity.
Qed.

Lemma toLowerCase_digits (ds rest : string) :
  allDigits ds = true -> toLowerCase (ds +:+ rest) = ds +:+ toLowerCase rest.
Proof.
  induction ds as [|c ds IH]; [reflexivity|]. cbn [allDigits]. intros H.
  apply andb_true_iff in H as [Hc H].
  change (String c ds +:+ rest) with (String c (ds +:+ rest)).
  cbn [toLowerCase]. rewrite (toLowerCase_unit_digit c Hc), (IH H). reflexivity.
Qed.

Lemma span_digits_app (ds rest : string) :
  allDigits ds = true ->
  match rest with String c _ => is_digit c = false | EmptyString => True end ->
  span_digits (ds +:+ rest) = (ds, rest).
Proof.
  intros Hd Hrest. induction ds as [|c ds IH].
  - change ("" +:+ rest) with rest. destruct rest as [|c r]; [reflexivity|].
    cbn [span_digits]. rewrite Hrest. reflexivity.
  - cbn [allDigits] in Hd. apply andb_true_iff in Hd as [Hc Hd].
    change (String c ds +:+ rest) with (String c (ds +:+ rest)).
    cbn [span_digits]. rewrite Hc, (IH Hd). reflexivity.
Qed.

Lemma span_digits_spec (s ds rest : string) :
  span_digits s = (ds, rest) -> s = ds +:+ rest /\ allDigits ds = true.
Proof.
  revert ds rest. induction s as [|c s IH]; intros ds rest.
  - intros [= <- <-]. split; reflexivity.
  - cbn [span_digits]. destruct (is_digit c) eqn:Hc.
    + destruct (span_digits s) as [ds0 r0]. intros [= <- <-].
      destruct (IH ds0 r0 eq_refl) as [-> Hd]. split; [reflexivity|].
      cbn [allDigits]. rewrite Hc. exact Hd.
    + intros [= <- <-]. split; reflexivity.
Qed.

(** X1.  A decimal numeral up to [2^53], alone or followed by one unit
    letter in either case, is read as the number times the unit:
    bytes for no letter and for [b], and powers of 1024 for [k], [m]
    and [g]. *)
Theorem parseMemory_decimal (n : N) :
  (n <= 2 ^ 53)%N ->
  parseMemory (Some (pretty n)) = Z.of_N n
  /\ (forall u, u ∈ ["b"; "B"] -> parseMemory (Some (pretty n +:+ u)) = Z.of_N n)
  /\ (forall u, u ∈ ["k"; "K"] -> parseMemory (Some (pretty n +:+ u)) = Z.of_N n * 1024)
  /\ (forall u, u ∈ ["m"; "M"] ->
        parseMemory (Some (pretty n +:+ u)) = Z.of_N n * (1024 * 1024))
  /\ (forall u, u ∈ ["g"; "G"] ->
        parseMemory (Some (pretty n +:+ u)) = Z.of_N n * (1024 * 1024 * 1024)).
Proof.
  intros _. destruct (pretty_N_digits n) as (Hd & Hv & Hne).
  assert (Hrun : forall rest : string,
             parseMemory (Some (pretty n +:+ rest))
             = match match_memory (pretty n +:+ toLowerCase rest) with
               | Some (ds, u) => parseInt_digits 0 ds * default 1 (units u)
               | None => 0
               end).
  { intros rest. unfold parseMemory. cbn [Js.truthy default from_option Datatypes.id].
    rewrite bool_decide_eq_false_2.
    - cbn [negb]. rewrite (toLowerCase_digits _ _ Hd). reflexivity.
    - intros E. apply Hne. destruct (pretty n); [reflexivity|discriminate E]. }
  assert (Hunit : forall c : ascii,
             is_digit c = false -> c ∈ ["b"; "k"; "m"; "g"]%char ->
             match_memory (pretty n +:+ String c "") = Some (pretty n, String c "")).
  { intros c Hc Hin. unfold match_memory.
    rewrite (span_digits_app _ (String c "") Hd Hc).
    rewrite (bool_decide_eq_false_2 _ Hne), (bool_decide_eq_true_2 _ Hin). reflexivity. }
  split; [|repeat split]; try (intros u Hu;
    repeat (apply elem_of_cons in Hu as [->|Hu];
            [rewrite Hrun; cbn [toLowerCase]; rewrite Hunit;
             [rewrite Hv;
              match goal with
              | |- context [units ?x] =>
                  let v := eval vm_compute in (units x) in change (units x) with v
              end; cbn [default from_option Datatypes.id]; lia
             |reflexivity|vm_compute; set_solver]|]);
    apply elem_of_nil in Hu; contradiction).
  replace (pretty n) with (pretty n +:+ "") at 1.
  - rewrite Hrun. cbn [toLowerCase]. unfold match_memory.
    rewrite (span_digits_app _ "" Hd I), (bool_decide_eq_false_2 _ Hne).
    rewrite Hv. change (units "") with (@None Z). cbn [default from_option Datatypes.id]. lia.
  - clear. induction (pretty n) as [|c s IH]; [reflexivity|].
    change (String c s +:+ "") with (String c (s +:+ "")). rewrite IH. reflexivity.
Qed.

(** X2.  Everything else reads as [0]: the result is not [0] only
    when the lower-cased text is a non-empty run of digits followed by
    at most one of [b], [k], [m], [g]; a missing or empty text, a
    fraction, a sign, a space or a longer suffix such as [mb] give [0]. *)
Theorem parseMemory_rejects (memory : option string) :
  parseMemory memory <> 0 ->
  exists s ds u,
    memory = Some s /\ toLowerCase s = ds +:+ u
    /\ allDigits ds = true /\ ds <> ""
    /\ u ∈ [""; "b"; "k"; "m"; "g"].
Proof.
  unfold parseMemory. destruct memory as [s|]; [|intros H; contradiction H; reflexivity].
  cbn [Js.truthy default from_option Datatypes.id].
  destruct (negb (negb _)); [intros H; contradiction H; reflexivity|].
  unfold match_memory.
  destruct (span_digits (toLowerCase s)) as [ds rest] eqn:Hspan.
  apply span_digits_spec in Hspan as [Hs Hd].
  destruct (bool_decide (ds = "")) eqn:Hne; [intros H; contradiction H; reflexivity|].
  apply bool_decide_eq_false_1 in Hne.
  destruct rest as [|c [|c' r]].
  - intros _. exists s, ds, "". repeat split; try assumption. set_solver.
  - destruct (bool_decide (c ∈ _)) eqn:Hc; [|intros H; contradiction H; reflexivity].
    apply bool_decide_eq_true_1 in Hc.
    intros _. exists s, ds, (String c ""). repeat split; try assumption.
    repeat (apply elem_of_cons in Hc as [->|Hc]; [set_solver|]).
    apply elem_of_nil in Hc. contradiction.
  - intros H; contradiction H; reflexivity.
Qed.

End ResourceStrings.

Lemma parseMemory_decimal_witness :
  parseMemory (Some (pretty 512%N)) = 512
  /\ (forall u, u ∈ ["b"; "B"] -> parseMemory (Some (pretty 512%N +:+ u)) = 512)
  /\ (forall u, u ∈ ["k"; "K"] -> parseMemory (Some (pretty 512%N +:+ u)) = 512 * 1024)
  /\ (forall u, u ∈ ["m"; "M"] ->
        parseMemory (Some (pretty 512%N +:+ u)) = 512 * (1024 * 1024))
  /\ (forall u, u ∈ ["g"; "G"] ->
        parseMemory (Some (pretty 512%N +:+ u)) = 512 * (1024 * 1024 * 1024)).
Proof. apply (parseMemory_decimal 512%N). vm_compute. discriminate. Defined.

Lemma parseMemory_rejects_witness :
  exists s ds u,
    Some "512M" = Some s /\ toLowerCase s = ds +:+ u
    /\ allDigits ds = true /\ ds <> ""
    /\ u ∈ [""; "b"; "k"; "m"; "g"].
Proof. apply (parseMemory_rejects (Some "512M")). vm_compute. discriminate. Defined.

Section UsageFigures.

Lemma gt0_ofZ_nonpos (l : Z) : l <= 0 -> gt0 (ofZ l) = false.
Proof.
  intros Hl. destruct l as [|p|p]; [reflexivity|lia|].
  unfold ofZ, binary_normalize, binary_round.
  destruct (shl_align p 0 _) as [mz ez].
  pose proof (binary_round_aux_sign true (Zpos mz) ez loc_Exact ltac:(lia)) as Hs.
  destruct (binary_round_aux 53 1024 true (Zpos mz) ez loc_Exact) as [s|s| |s m e];
    cbn [signedAs] in Hs; subst; try contradiction; reflexivity.
Qed.

(** X3.  The memory percentage is [0] when the limit is missing, zero
    or negative; for a limit and a usage that are integers below
    [2^53], the limit positive and the usage not negative, it is
    [usage / limit * 100] computed in double precision, a finite
    number that is not negative, and [0] when nothing is used (a
    missing usage counts as [0]). *)
Theorem calculateMemoryUsage_percent (stats : MemoryStats) :
  ((forall l, mem_limit stats = Some l -> l <= 0) ->
   percent (calculateMemoryUsage stats) = ofZ 0)
  /\ (forall l,
        mem_limit stats = Some l -> 0 < l < 2 ^ 53 ->
        0 <= default 0 (mem_usage stats) < 2 ^ 53 ->
        percent (calculateMemoryUsage stats)
        = mul (div (ofZ (default 0 (mem_usage stats))) (ofZ l)) (ofZ 100)
        /\ finiteNonNegative (percent (calculateMemoryUsage stats))
        /\ (default 0 (mem_usage stats) = 0 ->
            percent (calculateMemoryUsage stats) = ofZ 0)).
Proof.
  unfold calculateMemoryUsage. cbn [percent].
  assert (Husage : orZero (mem_usage stats) = ofZ (default 0 (mem_usage stats)))
    by (destruct (mem_usage stats); reflexivity).
  split.
  - intros Hl. destruct (mem_limit stats) as [l|]; [|reflexivity].
    cbn [orZero]. rewrite (gt0_ofZ_nonpos l (Hl l eq_refl)). reflexivity.
  - intros l Hl Bl Bu. rewrite Hl, Husage. cbn [orZero].
    rewrite gt0_ofZ by lia. destruct (Z.ltb_spec 0 l); [|lia].
    split; [reflexivity|].
    destruct (Z.eq_dec (default 0 (mem_usage stats)) 0) as [E|E].
    + rewrite E. change (ofZ 0) with (S754_zero false).
      destruct (ofZ_normalIn l Bl) as (m & e & -> & _).
      split; [left; reflexivity|]. intros _. reflexivity.
    + split; [|intros E'; contradiction].
      pose proof (div_within (ofZ (default 0 (mem_usage stats))) (ofZ l)
                    (ofZ_normalIn (default 0 (mem_usage stats)) ltac:(lia))
                    (ofZ_normalIn l Bl)) as Hr.
      pose proof (mul_within 54 2 0 _ (ofZ 100) ltac:(lia) Hr
                    (ofZ_normalIn 100 ltac:(lia)) ltac:(vm_compute; discriminate)) as Hp.
      exact (within_finiteNonNegative _ _ _ Hp).
Qed.

Lemma calculateMemoryUsage_percent_witness :
  percent (calculateMemoryUsage (mkMemoryStats (Some 512) None)) = ofZ 0
  /\ percent (calculateMemoryUsage (mkMemoryStats (Some 1) (Some 3)))
     = mul (div (ofZ 1) (ofZ 3)) (ofZ 100)
  /\ finiteNonNegative (percent (calculateMemoryUsage (mkMemoryStats (Some 1) (Some 3)))).
Proof.
  split.
  - apply (proj1 (calculateMemoryUsage_percent (mkMemoryStats (Some 512) None))).
    intros l [=].
  - destruct (proj2 (calculateMemoryUsage_percent (mkMemoryStats (Some 1) (Some 3)))
                3 eq_refl ltac:(lia)
                ltac:(cbn [default from_option mem_usage Datatypes.id]; lia)) as (H1 & H2 & _).
    split; [exact H1|exact H2].
Defined.

Lemma orZero_rx (n : Network) : orZero (rx_bytes n) = ofZ (rxOf n).
Proof. unfold rxOf. destruct (rx_bytes n); reflexivity. Qed.

Lemma orZero_tx (n : Network) : orZero (tx_bytes n) = ofZ (txOf n).
Proof. unfold txOf. destruct (tx_bytes n); reflexivity. Qed.

Lemma foldr_add_nonneg (l : list Z) : Forall (fun x => 0 <= x) l -> 0 <= foldr Z.add 0 l.
Proof. induction 1; cbn [foldr]; lia. Qed.

Lemma sumNetworks_exact (networks : list Network) :
  forall a b,
    0 <= a -> 0 <= b ->
    Forall (fun n => 0 <= rxOf n /\ 0 <= txOf n) networks ->
    a + foldr Z.add 0 (map rxOf networks) < 2 ^ 53 ->
    b + foldr Z.add 0 (map txOf networks) < 2 ^ 53 ->
    sumNetworks networks (ofZ a) (ofZ b)
    = (ofZ (a + foldr Z.add 0 (map rxOf networks)),
       ofZ (b + foldr Z.add 0 (map txOf networks))).
Proof.
  induction networks as [|n rest IH]; intros a b Ha Hb Hall Hrx Htx.
  - cbn. rewrite !Z.add_0_r. reflexivity.
  - apply Forall_cons in Hall as [[Hn1 Hn2] Hall]. cbn [sumNetworks map foldr] in *.
    assert (Hr : 0 <= foldr Z.add 0 (map rxOf rest)).
    { apply foldr_add_nonneg, Forall_map. eapply Forall_impl; [exact Hall|].
      intros x [H _]. exact H. }
    assert (Ht : 0 <= foldr Z.add 0 (map txOf rest)).
    { apply foldr_add_nonneg, Forall_map. eapply Forall_impl; [exact Hall|].
      intros x [_ H]. exact H. }
    rewrite orZero_rx, orZero_tx, !add_exact by lia.
    rewrite IH by (try assumption; lia). f_equal; f_equal; lia.
Qed.

Lemma foldr_add_perm (l l' : list Z) : l ≡ₚ l' -> foldr Z.add 0 l = foldr Z.add 0 l'.
Proof.
  induction 1 as [|x l l' _ IH|x y l|l l' l'' _ IH1 _ IH2]; cbn [foldr]; lia.
Qed.

(** X4.  When the byte counters of the interfaces are not negative
    and each total stays below [2^53], the network totals are the
    exact sums of the counters, a missing counter counting as [0]; so
    they do not depend on the order of the interfaces.  They are [0]
    when [networks] is missing. *)
Theorem calculateNetworkUsage_sums (networks networks' : list Network) :
  Forall (fun n => 0 <= rxOf n /\ 0 <= txOf n) networks ->
  foldr Z.add 0 (map rxOf networks) < 2 ^ 53 ->
  foldr Z.add 0 (map txOf networks) < 2 ^ 53 ->
  calculateNetworkUsage (Some networks)
  = (ofZ (foldr Z.add 0 (map rxOf networks)), ofZ (foldr Z.add 0 (map txOf networks)))
  /\ (networks ≡ₚ networks' ->
      calculateNetworkUsage (Some networks') = calculateNetworkUsage (Some networks))
  /\ calculateNetworkUsage None = (ofZ 0, ofZ 0).
Proof.
  intros Hall Hrx Htx.
  assert (Hsum : forall l,
             Forall (fun n => 0 <= rxOf n /\ 0 <= txOf n) l ->
             foldr Z.add 0 (map rxOf l) < 2 ^ 53 ->
             foldr Z.add 0 (map txOf l) < 2 ^ 53 ->
             calculateNetworkUsage (Some l)
             = (ofZ (foldr Z.add 0 (map rxOf l)), ofZ (foldr Z.add 0 (map txOf l)))).
  { intros l H1 H2 H3. unfold calculateNetworkUsage. cbn [default from_option Datatypes.id].
    rewrite (sumNetworks_exact l 0 0) by (try assumption; lia). reflexivity. }
  split; [apply Hsum; assumption|]. split; [|reflexivity].
  intros Hp.
  assert (Erx : foldr Z.add 0 (map rxOf networks') = foldr Z.add 0 (map rxOf networks))
    by (apply foldr_add_perm, fmap_Permutation; symmetry; exact Hp).
  assert (Etx : foldr Z.add 0 (map txOf networks') = foldr Z.add 0 (map txOf networks))
    by (apply foldr_add_perm, fmap_Permutation; symmetry; exact Hp).
  rewrite (Hsum networks Hall Hrx Htx), (Hsum networks'); [rewrite Erx, Etx; reflexivity|..].
  - rewrite <- Hp. exact Hall.
  - rewrite Erx. exact Hrx.
  - rewrite Etx. exact Htx.
Qed.

Lemma calculateNetworkUsage_sums_witness :
  calculateNetworkUsage (Some [mkNetwork (Some 10) None; mkNetwork (Some 5) (Some 7)])
  = (ofZ 15, ofZ 7)
  /\ calculateNetworkUsage (Some [mkNetwork (Some 5) (Some 7); mkNetwork (Some 10) None])
     = calculateNetworkUsage (Some [mkNetwork (Some 10) None; mkNetwork (Some 5) (Some 7)]).
Proof.
  destruct (calculateNetworkUsage_sums
              [mkNetwork (Some 10) None; mkNetwork (Some 5) (Some 7)]
              [mkNetwork (Some 5) (Some 7); mkNetwork (Some 10) None])
    as (H1 & H2 & _).
  - repeat constructor; cbn [rxOf txOf rx_bytes tx_bytes default from_option Datatypes.id]; lia.
  - cbn [map foldr rxOf rx_bytes default from_option Datatypes.id]. lia.
  - cbn [map foldr txOf tx_bytes default from_option Datatypes.id]. lia.
  - split; [exact H1|]. apply H2. apply Permutation_swap.
Defined.

(** Beyond [2^53] the totals are rounded, and then the order of the
    interfaces matters: [2^53 + 1 + 1] stays at [2^53], while
    [1 + 1 + 2^53] is [2^53 + 2]. *)
Example network_totals_round_beyond_2_53 :
  calculateNetworkUsage
    (Some [mkNetwork (Some (2 ^ 53)) None; mkNetwork (Some 1) None; mkNetwork (Some 1) None])
  = (ofZ (2 ^ 53), ofZ 0)
  /\ calculateNetworkUsage
       (Some [mkNetwork (Some 1) None; mkNetwork (Some 1) None; mkNetwork (Some (2 ^ 53)) None])
     = (ofZ (2 ^ 53 + 2), ofZ 0)
  /\ ofZ (2 ^ 53) <> ofZ (2 ^ 53 + 2).
Proof. repeat split; vm_compute; (reflexivity || discriminate). Qed.

End UsageFigures.

End Resources.

(** ** Container.js: paging, deletion, settings *)

Section Registry.

Import Schema Container.

Section Paging.

Lemma concat_pages {A} (n : nat) (l : Datatypes.list A) :
  forall k : nat,
    concat (map (fun p : nat => take n (drop ((p - 1) * n) l)) (seq 1 k)) = take (k * n) l.
Proof.
  induction k as [|k IH].
  - reflexivity.
  - rewrite seq_S, map_app, concat_app, IH. cbn [map concat Nat.add].
    rewrite app_nil_r. replace (S k - 1)%nat with k by lia.
    rewrite take_take_drop. f_equal. lia.
Qed.

Lemma ceil_div_bounds (total limit : Z) :
  0 <= total -> 0 < limit ->
  0 <= - (- total / limit)
  /\ total <= - (- total / limit) * limit
  /\ (- (- total / limit) - 1) * limit < total.
Proof.
  intros Ht Hl. pose proof (Z.div_mod (- total) limit ltac:(lia)) as E.
  pose proof (Z.mod_pos_bound (- total) limit Hl) as Hr. nia.
Qed.

(** X5.  Paging with a positive [limit]: every page reports the same
    [total] (the number of rows that pass the filters) and the same
    [pages], the total divided by the limit and rounded up; no page
    holds more than [limit] rows; and the pages 1 to [pages], put end
    to end, are exactly the rows that pass the filters, each once and
    in the order of the table. *)
Theorem listPage_partition (limit : Z) (wanted : option string) (userId : option Z)
    (w : World) :
  0 < limit ->
  let rows := selected wanted userId (containers (db w)) in
  exists n : nat,
    (Z.of_nat n - 1) * limit < Z.of_nat (length rows) <= Z.of_nat n * limit
    /\ (forall p,
          exists prow,
            listPage (mkListOptions (Some p) (Some limit) wanted userId) w
            = (Js.Normal (prow, mkPagination p limit (Z.of_nat (length rows))
                                             (Some (Z.of_nat n))), w)
            /\ Z.of_nat (length prow) <= limit)
    /\ concat (map (fun p : nat => pageRows limit wanted userId w (Z.of_nat p)) (seq 1 n))
       = map new rows.
Proof.
  intros Hlimit rows.
  destruct (ceil_div_bounds (Z.of_nat (length rows)) limit ltac:(lia) Hlimit)
    as (H0 & Hup & Hlow).
  exists (Z.to_nat (- (- Z.of_nat (length rows) / limit))).
  rewrite Z2Nat.id by exact H0.
  assert (Hrun : forall p,
             listPage (mkListOptions (Some p) (Some limit) wanted userId) w
             = (Js.Normal (map new (take (Z.to_nat limit)
                                         (drop (Z.to_nat ((p - 1) * limit)) rows)),
                           mkPagination p limit (Z.of_nat (length rows))
                             (Some (- (- Z.of_nat (length rows) / limit)))), w)).
  { intros p. unfold listPage, limit_offset, mbind, Js.M_bind, Js.get, mret, Js.M_ret.
    cbn [opt_page opt_limit opt_status opt_userId default from_option Datatypes.id].
    fold rows.
    destruct (Z.ltb_spec limit 0); [lia|]. destruct (Z.eqb_spec limit 0); [lia|].
    reflexivity. }
  split; [lia|]. split.
  - intros p. eexists. split; [apply Hrun|].
    rewrite length_map, length_take. lia.
  - erewrite map_ext_in.
    2:{ intros p Hp. apply in_seq in Hp. unfold pageRows. rewrite Hrun. cbn [fst].
        replace (Z.to_nat ((Z.of_nat p - 1) * limit)) with ((p - 1) * Z.to_nat limit)%nat
          by nia.
        reflexivity. }
    rewrite <- (map_map (fun p : nat => take (Z.to_nat limit)
                                          (drop ((p - 1) * Z.to_nat limit) rows))
                        (map new)).
    rewrite <- List.concat_map, concat_pages, take_ge; [reflexivity|]. nia.
Qed.

End Paging.

Lemma listPage_partition_witness :
  exists n : nat,
    (Z.of_nat n - 1) * 1
    < Z.of_nat (length (selected None None (containers (db Samples.sync_world))))
    <= Z.of_nat n * 1
    /\ (forall p,
          exists prow,
            listPage (mkListOptions (Some p) (Some 1) None None) Samples.sync_world
            = (Js.Normal (prow, mkPagination p 1
                             (Z.of_nat (length (selected None None
                                                  (containers (db Samples.sync_world)))))
                             (Some (Z.of_nat n))), Samples.sync_world)
            /\ Z.of_nat (length prow) <= 1)
    /\ concat (map (fun p : nat => pageRows 1 None None Samples.sync_world (Z.of_nat p))
                   (seq 1 n))
       = map new (selected None None (containers (db Samples.sync_world))).
Proof. apply (listPage_partition 1 None None Samples.sync_world). lia. Defined.

Section Deletion.

Lemma filter_other_ids (cid : string) (rows : Datatypes.list containers_row) :
  has_id cid rows = false ->
  List.filter (fun r => negb (bool_decide (id r = cid))) rows = rows.
Proof.
  unfold has_id. induction rows as [|r rows IH]; [reflexivity|].
  cbn [existsb List.filter]. intros H. apply orb_false_iff in H as [Hr H].
  rewrite Hr. cbn [negb]. rewrite (IH H). reflexivity.
Qed.

Lemma find_filtered_out (cid : string) (rows : Datatypes.list containers_row) :
  List.find (fun r => bool_decide (id r = cid))
            (List.filter (fun r => negb (bool_decide (id r = cid))) rows) = None.
Proof.
  induction rows as [|r rows IH]; [reflexivity|]. cbn [List.filter].
  destruct (bool_decide (id r = cid)) eqn:E; cbn [negb]; [exact IH|].
  cbn [List.find]. rewrite E. exact IH.
Qed.

Lemma filter_insert_at_fresh (cid : string) (k : nat) (row : containers_row)
    (rows : Datatypes.list containers_row) :
  id row = cid ->
  has_id cid rows = false ->
  List.filter (fun r => negb (bool_decide (id r = cid))) (insert_at k row rows) = rows.
Proof.
  unfold has_id, insert_at. intros <-. revert k.
  induction rows as [|r rows IH]; intros k Hfresh.
  - destruct k; cbn [take drop app List.filter];
      rewrite bool_decide_eq_true_2 by reflexivity; reflexivity.
  - cbn [existsb] in Hfresh. apply orb_false_iff in Hfresh as [Hr Hfresh].
    destruct k as [|k]; cbn [take drop app List.filter].
    + rewrite bool_decide_eq_true_2 by reflexivity. cbn [negb].
      rewrite Hr. cbn [negb]. f_equal. apply filter_other_ids. exact Hfresh.
    + rewrite Hr. cbn [negb]. f_equal. apply IH, Hfresh.
Qed.

(** X6.  Insert, look up, delete: creating a container under an
    identifier that no row has, at whatever rank the new row is
    listed, makes [findById] return the new object; deleting it then
    answers [true], puts the [containers] table back as it was and
    makes [findById] return [null]; deleting it once more answers
    [false] and changes nothing. *)
Theorem create_findById_delete (newId : string) (rank : nat) (cname cimage : string)
    (cfolder_path cstartup_script : option string) (userId : Z) (w : World) :
  has_id newId (containers (db w)) = false ->
  exists c w1 w2,
    create newId rank cname cimage cfolder_path cstartup_script userId w
    = (Js.Normal (Some c), w1)
    /\ id c = newId /\ name c = cname /\ status c = "created" /\ created_by c = userId
    /\ findById newId w1 = (Js.Normal (Some c), w1)
    /\ delete newId w1 = (Js.Normal true, w2)
    /\ containers (db w2) = containers (db w)
    /\ findById newId w2 = (Js.Normal None, w2)
    /\ delete newId w2 = (Js.Normal false, w2).
Proof.
  intros Hfresh.
  set (row := mkContainer newId cname None cimage "created"
                (if Js.truthy cfolder_path then default "" cfolder_path
                 else "/home/containers/" +:+ newId)
                (if Js.truthy cstartup_script then cstartup_script else None) userId).
  set (w1 := set_db (fun d => set_containers (insert_at rank row (containers d)) d) w).
  set (w2 := set_db (fun d => set_containers
                       (List.filter (fun r => negb (bool_decide (id r = newId)))
                                    (containers d)) d) w1).
  assert (Hfind1 : findById newId w1 = (Js.Normal (Some row), w1)).
  { unfold findById, mbind, Js.M_bind, Js.get, mret, Js.M_ret. subst w1.
    cbn [db set_db containers set_containers].
    rewrite (find_insert_at_fresh newId rank row (containers (db w)) eq_refl Hfresh).
    reflexivity. }
  assert (Hrows2 : containers (db w2) = containers (db w)).
  { subst w2 w1. cbn [db set_db containers set_containers].
    apply (filter_insert_at_fresh newId rank row (containers (db w)) eq_refl Hfresh). }
  exists row, w1, w2. repeat split.
  - unfold create, mbind, Js.M_bind, Js.get, Js.modify. rewrite Hfresh. exact Hfind1.
  - exact Hfind1.
  - unfold delete, mbind, Js.M_bind, Js.get, Js.modify, mret, Js.M_ret.
    replace (has_id newId (containers (db w1))) with true; [reflexivity|].
    subst w1. cbn [db set_db containers set_containers]. unfold has_id.
    rewrite existsb_insert_at. subst row. cbn [id].
    rewrite bool_decide_eq_true_2 by reflexivity. reflexivity.
  - exact Hrows2.
  - unfold findById, mbind, Js.M_bind, Js.get, mret, Js.M_ret.
    subst w2. cbn [db set_db containers set_containers]. rewrite find_filtered_out.
    reflexivity.
  - unfold delete, mbind, Js.M_bind, Js.get, Js.modify, mret, Js.M_ret.
    rewrite Hrows2, Hfresh. reflexivity.
Qed.

End Deletion.

Lemma create_findById_delete_witness :
  exists c w1 w2,
    create "c9" 0 "cache" "redis" None None 7 Samples.sync_world = (Js.Normal (Some c), w1)
    /\ id c = "c9" /\ name c = "cache" /\ status c = "created" /\ created_by c = 7
    /\ findById "c9" w1 = (Js.Normal (Some c), w1)
    /\ delete "c9" w1 = (Js.Normal true, w2)
    /\ containers (db w2) = containers (db Samples.sync_world)
    /\ findById "c9" w2 = (Js.Normal None, w2)
    /\ delete "c9" w2 = (Js.Normal false, w2).
Proof.
  apply (create_findById_delete "c9" 0 "cache" "redis" None None 7 Samples.sync_world).
  reflexivity.
Defined.

Section Settings.

Import DockerService.

Lemma getSettings_run (self : containers_row) (w : World) :
  getSettings self w
  = (Js.Normal (List.find (fun r => bool_decide (settings_container_id r = id self))
                          (container_settings (db w))), w).
Proof. reflexivity. Qed.

Lemma find_map_updated (cid : string) (f : container_settings_row -> container_settings_row)
    (rows : Datatypes.list container_settings_row) (r : container_settings_row) :
  (forall x, settings_container_id (f x) = settings_container_id x) ->
  List.find (fun r => bool_decide (settings_container_id r = cid)) rows = Some r ->
  List.find (fun r => bool_decide (settings_container_id r = cid))
            (map (fun r => if bool_decide (settings_container_id r = cid) then f r else r) rows)
  = Some (f r).
Proof.
  intros Hf. induction rows as [|x rows IH]; [discriminate|].
  cbn [List.find map]. destruct (bool_decide (settings_container_id x = cid)) eqn:E.
  - intros [= ->]. rewrite Hf, E. reflexivity.
  - rewrite E. exact IH.
Qed.

Lemma find_app_none {A} (p : A -> bool) (l : Datatypes.list A) (x : A) :
  List.find p l = None -> p x = true -> List.find p (l ++ [x]) = Some x.
Proof.
  induction l as [|y l IH]; cbn [List.find app]; intros H Hx.
  - rewrite Hx. reflexivity.
  - destruct (p y); [discriminate|]. apply IH; assumption.
Qed.

(** The outcome of [updateSettings] in each of its three cases. *)
Lemma updateSettings_run (self : containers_row) (sd : SettingsData) (w : World) :
  match List.find (fun r => bool_decide (settings_container_id r = id self))
                  (container_settings (db w)) with
  | Some r =>
      if no_keys sd
      then exists e, updateSettings self sd w = (Js.Abrupt e, w)
      else exists w',
          updateSettings self sd w = (Js.Normal (Some (updated_settings sd r)), w')
          /\ containers (db w') = containers (db w)
          /\ container_logs (db w') = container_logs (db w)
          /\ List.find (fun r => bool_decide (settings_container_id r = id self))
                       (container_settings (db w')) = Some (updated_settings sd r)
  | None =>
      exists w',
        updateSettings self sd w = (Js.Normal (Some (inserted_settings (id self) sd)), w')
        /\ containers (db w') = containers (db w)
        /\ container_logs (db w') = container_logs (db w)
        /\ List.find (fun r => bool_decide (settings_container_id r = id self))
                     (container_settings (db w')) = Some (inserted_settings (id self) sd)
  end.
Proof.
  unfold updateSettings, mbind, Js.M_bind. rewrite getSettings_run.
  destruct (List.find _ (container_settings (db w))) as [r|] eqn:Hfind.
  - destruct (no_keys sd); [eexists; reflexivity|].
    unfold Js.modify. rewrite getSettings_run.
    cbn [db set_db container_settings set_container_settings containers container_logs].
    rewrite (find_map_updated (id self) (updated_settings sd) _ r (fun _ => eq_refl) Hfind).
    eexists. repeat split.
    cbn [db set_db container_settings set_container_settings].
    apply (find_map_updated (id self) (updated_settings sd) _ r (fun _ => eq_refl) Hfind).
  - unfold Js.modify. rewrite getSettings_run.
    cbn [db set_db container_settings set_container_settings containers container_logs].
    rewrite (find_app_none _ _ (inserted_settings (id self) sd) Hfind)
      by (cbn [inserted_settings settings_container_id]; apply bool_decide_eq_true_2;
          reflexivity).
    eexists. repeat split.
    cbn [db set_db container_settings set_container_settings].
    apply (find_app_none _ _ (inserted_settings (id self) sd) Hfind).
    cbn [inserted_settings settings_container_id]. apply bool_decide_eq_true_2. reflexivity.
Qed.

(** X7.  The first settings of a container: when the container has
    no settings row and the request does not name [auto_restart], the
    row created has auto-restart on (and the tunnel off unless asked
    for); when it has a row and the request names no key at all, the
    call fails and changes nothing. *)
Theorem updateSettings_defaults (self : containers_row) (sd : SettingsData) (w : World) :
  (getSettings self w = (Js.Normal None, w) ->
   sd_auto_restart sd = None ->
   exists row w',
     updateSettings self sd w = (Js.Normal (Some row), w')
     /\ getSettings self w' = (Js.Normal (Some row), w')
     /\ settings_container_id row = id self
     /\ auto_restart row = 1
     /\ (sd_tunnel_enabled sd = None -> tunnel_enabled row = 0))
  /\ (forall r, getSettings self w = (Js.Normal (Some r), w) ->
      no_keys sd = true ->
      exists e, updateSettings self sd w = (Js.Abrupt e, w)).
Proof.
  pose proof (updateSettings_run self sd w) as Hrun. rewrite getSettings_run. split.
  - intros [= Hnone] Hauto. rewrite Hnone in Hrun.
    destruct Hrun as (w' & E & _ & _ & Hfind).
    exists (inserted_settings (id self) sd), w'. split; [exact E|].
    rewrite getSettings_run, Hfind. split; [reflexivity|]. split; [reflexivity|].
    unfold inserted_settings. cbn [auto_restart tunnel_enabled]. rewrite Hauto.
    split; [reflexivity|]. intros ->. reflexivity.
  - intros r [= Hsome] Hno. rewrite Hsome, Hno in Hrun. exact Hrun.
Qed.

Lemma monitorTicks_noRestartOf (c : string) (engines : Datatypes.list DockerManager.Engine) :
  forall w, autoRestartOff w c -> noRestartOf c w (monitorTicks engines w).
Proof.
  induction engines as [|engine rest IH]; intros w Hoff; cbn [monitorTicks].
  - apply noRestartOf_refl.
  - pose proof (keeps_monitorContainerHealth c engine w Hoff) as Hstep.
    eapply noRestartOf_trans; [exact Hstep|].
    apply IH. eapply autoRestartOff_stable; eassumption.
Qed.

(** X8.  Turning auto-restart off takes effect: a call of
    [updateSettings] that sets [auto_restart] to [false] completes,
    whether or not the container had a settings row, the row read
    back holds [0], no row of [containers] changes, and from then on
    no number of health-monitor ticks, whatever the engine answers,
    invokes the restart operation on the container. *)
Theorem updateSettings_auto_restart_off (self : containers_row) (sd : SettingsData)
    (w : World) (engines : Datatypes.list DockerManager.Engine) :
  sd_auto_restart sd = Some false ->
  exists row w',
    updateSettings self sd w = (Js.Normal (Some row), w')
    /\ getSettings self w' = (Js.Normal (Some row), w')
    /\ auto_restart row = 0
    /\ containers (db w') = containers (db w)
    /\ noRestartOf (id self) w' (monitorTicks engines w').
Proof.
  intros Hoff. pose proof (updateSettings_run self sd w) as Hrun.
  assert (Hkeys : no_keys sd = false).
  { unfold no_keys. rewrite Hoff. destruct (sd_tunnel_enabled sd); reflexivity. }
  assert (Hgoal : forall row w',
             updateSettings self sd w = (Js.Normal (Some row), w') ->
             containers (db w') = containers (db w) ->
             List.find (fun r => bool_decide (settings_container_id r = id self))
                       (container_settings (db w')) = Some row ->
             auto_restart row = 0 ->
             exists row w',
               updateSettings self sd w = (Js.Normal (Some row), w')
               /\ getSettings self w' = (Js.Normal (Some row), w')
               /\ auto_restart row = 0
               /\ containers (db w') = containers (db w)
               /\ noRestartOf (id self) w' (monitorTicks engines w')).
  { intros row w' E Hrows Hfind H0. exists row, w'. split; [exact E|].
    rewrite getSettings_run, Hfind. split; [reflexivity|]. split; [exact H0|].
    split; [exact Hrows|]. apply monitorTicks_noRestartOf.
    unfold autoRestartOff. rewrite Hfind. exact H0. }
  destruct (List.find _ (container_settings (db w))) as [r|].
  - rewrite Hkeys in Hrun. destruct Hrun as (w' & E & Hrows & _ & Hfind).
    apply (Hgoal _ _ E Hrows Hfind). unfold updated_settings. cbn [auto_restart].
    rewrite Hoff. reflexivity.
  - destruct Hrun as (w' & E & Hrows & _ & Hfind).
    apply (Hgoal _ _ E Hrows Hfind). unfold inserted_settings. cbn [auto_restart].
    rewrite Hoff. reflexivity.
Qed.

End Settings.

Lemma updateSettings_defaults_witness :
  (exists row w',
     updateSettings Samples.reused_name_record (mkSettingsData None None None 1)
                    Samples.empty_world
     = (Js.Normal (Some row), w')
     /\ getSettings Samples.reused_name_record w' = (Js.Normal (Some row), w')
     /\ settings_container_id row = id Samples.reused_name_record
     /\ auto_restart row = 1
     /\ (sd_tunnel_enabled (mkSettingsData None None None 1) = None -> tunnel_enabled row = 0))
  /\ (exists e,
        updateSettings (mkContainer "c1" "web" (Some "e1") "nginx" "running"
                                    "/home/containers/c1" None 1)
                       (mkSettingsData None None None 0) Samples.monitored_world
        = (Js.Abrupt e, Samples.monitored_world)).
Proof.
  split.
  - apply (proj1 (updateSettings_defaults Samples.reused_name_record
                    (mkSettingsData None None None 1) Samples.empty_world));
      reflexivity.
  - apply (proj2 (updateSettings_defaults
                    (mkContainer "c1" "web" (Some "e1") "nginx" "running"
                                 "/home/containers/c1" None 1)
                    (mkSettingsData None None None 0) Samples.monitored_world)
                 (mkSettings "c1" 0 0 None)); reflexivity.
Defined.

Lemma updateSettings_auto_restart_off_witness :
  exists row w',
    updateSettings (mkContainer "c2" "db" (Some "e2") "postgres" "running"
                                "/home/containers/c2" (Some "pg_ctl start") 1)
                   (mkSettingsData None (Some false) None 0) Samples.monitored_world
    = (Js.Normal (Some row), w')
    /\ getSettings (mkContainer "c2" "db" (Some "e2") "postgres" "running"
                                "/home/containers/c2" (Some "pg_ctl start") 1) w'
       = (Js.Normal (Some row), w')
    /\ auto_restart row = 0
    /\ containers (db w') = containers (db Samples.monitored_world)
    /\ DockerService.noRestartOf "c2" w'
         (DockerService.monitorTicks [Samples.refusing_engine; Samples.refusing_engine] w').
Proof.
  apply (updateSettings_auto_restart_off
           (mkContainer "c2" "db" (Some "e2") "postgres" "running"
                        "/home/containers/c2" (Some "pg_ctl start") 1)
           (mkSettingsData None (Some false) None 0) Samples.monitored_world
           [Samples.refusing_engine; Samples.refusing_engine]).
  reflexivity.
Defined.

End Registry.

(** ** dockerService.js: orphans, creation, scripts *)

Section Orphans.

Import Schema DockerTasks.

Lemma cleanupOrphan_run (engine : DockerManager.Engine) (o : containers_row) (n : nat)
    (w : World) :
  cleanupOrphan engine o n w
  = if isOrphan engine o
    then (Js.Normal (S n),
          (Container.addLog o "Container removed from Docker, status updated" "warning"
             (Container.updateStatus o "removed" w).2).2)
    else (Js.Normal n, w).
Proof.
  unfold cleanupOrphan, isOrphan. destruct (Js.truthy (docker_id o)); [|reflexivity].
  cbn [andb]. unfold DockerManager.getContainer, Js.try_catch, mbind, Js.M_bind.
  destruct (DockerManager.isConnected engine); cbn [negb andb].
  - unfold DockerManager.lift.
    destruct (DockerManager.docker_inspect engine _) as [info|e]; [reflexivity|].
    destruct (LogService.includes _ _); [|reflexivity].
    destruct (updateStatus_completes o "removed" w) as [w1 E]. rewrite E. cbn [snd].
    unfold Container.addLog, Js.modify.
    destruct (Container.has_id _ _); reflexivity.
  - reflexivity.
Qed.

Lemma onlyDb_refl (w : World) : onlyDb w w.
Proof. unfold onlyDb. destruct w. reflexivity. Qed.

Lemma onlyDb_trans (w1 w2 w3 : World) : onlyDb w1 w2 -> onlyDb w2 w3 -> onlyDb w1 w3.
Proof. unfold onlyDb. intros H12 H23. rewrite H23 at 1. rewrite H12 at 1. reflexivity. Qed.

Lemma onlyDb_set_db (f : Database -> Database) (w : World) : onlyDb w (set_db f w).
Proof. reflexivity. Qed.

Lemma isOrphan_new (engine : DockerManager.Engine) (r : containers_row) :
  isOrphan engine (Container.new r) = isOrphan engine r.
Proof. reflexivity. Qed.

(** The loop, from a table [done ++ todo] whose rows [todo] are still
    to be visited. *)
Lemma cleanupOrphans_run (engine : DockerManager.Engine) :
  forall (todo done : list containers_row) (n : nat) (w : World),
    containers (db w) = done ++ todo ->
    NoDup (map id (done ++ todo)) ->
    exists w',
      cleanupOrphans engine (map Container.new todo) n w
      = (Js.Normal (n + length (List.filter (isOrphan engine) todo))%nat, w')
      /\ containers (db w') = done ++ map (markRemoved engine) todo
      /\ container_logs (db w')
         = container_logs (db w) ++ map removalLog (List.filter (isOrphan engine) todo)
      /\ container_settings (db w') = container_settings (db w)
      /\ onlyDb w w'.
Proof.
  induction todo as [|r todo IH]; intros done n w Hrows Hnd.
  - exists w. cbn [map cleanupOrphans List.filter length]. rewrite Nat.add_0_r, !app_nil_r.
    rewrite app_nil_r in Hrows. repeat split; [exact Hrows|apply onlyDb_refl].
  - cbn [map cleanupOrphans List.filter].
    unfold mbind at 1, Js.M_bind at 1. rewrite cleanupOrphan_run, isOrphan_new.
    unfold markRemoved at 1.
    destruct (isOrphan engine r) eqn:Horphan.
    + rewrite (updateStatus_run_found (Container.new r) "removed" w)
        by (rewrite Hrows; apply (has_id_elem r); apply elem_of_app; right; left).
      cbn [snd]. rewrite addLog_run. cbn [snd].
      set (w1 := set_db _ (set_db _ w)).
      destruct (IH (done ++ [set_status "removed" r]) (S n) w1) as (w' & E & Hr & Hl & Hs & Ho).
      { subst w1. cbn [db set_db containers set_containers set_container_logs].
        rewrite Hrows. change (id (Container.new r)) with (id r).
        rewrite (map_update_by_id (set_status "removed") done todo r Hnd).
        rewrite <- app_assoc. reflexivity. }
      { rewrite <- app_assoc. cbn [app]. rewrite map_app in *. cbn [map] in *. exact Hnd. }
      exists w'. rewrite E. cbn [length]. split; [f_equal; f_equal; lia|].
      rewrite Hr, Hl, Hs, <- !app_assoc. cbn [app map].
      split; [reflexivity|]. split.
      { subst w1. cbn [db set_db container_logs set_containers set_container_logs].
        rewrite <- app_assoc. reflexivity. }
      split; [reflexivity|].
      eapply onlyDb_trans; [|exact Ho]. subst w1. reflexivity.
    + destruct (IH (done ++ [r]) n w) as (w' & E & Hr & Hl & Hs & Ho).
      { rewrite <- app_assoc. exact Hrows. }
      { rewrite <- app_assoc. exact Hnd. }
      exists w'. rewrite E, Hr, Hl, Hs, <- app_assoc. repeat split. exact Ho.
Qed.

Lemma cleanupOrphanedContainers_run (engine : DockerManager.Engine) (w : World) :
  NoDup (map id (containers (db w))) ->
  (length (containers (db w)) <= 1000)%nat ->
  exists w',
    cleanupOrphanedContainers engine w
    = (Js.Normal (length (List.filter (isOrphan engine) (containers (db w)))), w')
    /\ containers (db w') = map (markRemoved engine) (containers (db w))
    /\ container_logs (db w')
       = container_logs (db w)
         ++ map removalLog (List.filter (isOrphan engine) (containers (db w)))
    /\ container_settings (db w') = container_settings (db w)
    /\ onlyDb w w'.
Proof.
  intros Hnd Hlen. unfold cleanupOrphanedContainers.
  rewrite (bind_normal _ _ _ _ _ (list_run 1000 w)).
  rewrite firstn_all2 by exact Hlen.
  destruct (cleanupOrphans_run engine (containers (db w)) [] 0%nat w eq_refl Hnd)
    as (w' & E & H). exists w'. split; [exact E|exact H].
Qed.

Lemma cleanupOrphans_spares (engine : DockerManager.Engine) :
  forall (objs : list containers_row) (n : nat) (w : World),
    Forall (fun o => isOrphan engine o = false) objs ->
    cleanupOrphans engine objs n w = (Js.Normal n, w).
Proof.
  induction objs as [|o objs IH]; intros n w Hall; [reflexivity|].
  apply Forall_cons in Hall as [Ho Hall]. cbn [cleanupOrphans].
  unfold mbind, Js.M_bind. rewrite cleanupOrphan_run, Ho. apply IH, Hall.
Qed.

(** X9.  With unique record identifiers and at most 1000 records, the
    task marks exactly the orphans: a record whose [docker_id] the
    engine answers with a [No such container] error gets the status
    [removed] and one warning in its log, every other record is left
    as it is, the count returned is the number of orphans, and nothing
    outside the database changes. *)
Theorem cleanupOrphanedContainers_marks_orphans (engine : DockerManager.Engine)
    (w : World) :
  NoDup (map id (containers (db w))) ->
  (length (containers (db w)) <= 1000)%nat ->
  exists w',
    cleanupOrphanedContainers engine w
    = (Js.Normal (length (List.filter (isOrphan engine) (containers (db w)))), w')
    /\ containers (db w')
       = map (fun r => if isOrphan engine r then set_status "removed" r else r)
             (containers (db w))
    /\ container_logs (db w')
       = container_logs (db w)
         ++ map (fun r => mkLog (id r) "Container removed from Docker, status updated"
                                "warning")
                (List.filter (isOrphan engine) (containers (db w)))
    /\ container_settings (db w') = container_settings (db w)
    /\ onlyDb w w'.
Proof. apply cleanupOrphanedContainers_run. Qed.

(** X10.  An outage is not mistaken for removal: when the manager is
    not connected, or when no error of the engine mentions
    [No such container], the task changes nothing at all and reports
    [0], whatever the registry holds. *)
Theorem cleanupOrphanedContainers_spares_on_outage (engine : DockerManager.Engine)
    (w : World) :
  DockerManager.isConnected engine = false
  \/ (forall d e, DockerManager.docker_inspect engine d = Js.Abrupt e ->
                  LogService.includes "No such container" (Js.message e) = false) ->
  cleanupOrphanedContainers engine w = (Js.Normal 0%nat, w).
Proof.
  intros Hengine. unfold cleanupOrphanedContainers.
  rewrite (bind_normal _ _ _ _ _ (list_run 1000 w)).
  apply cleanupOrphans_spares. apply Forall_forall. intros o _. unfold isOrphan.
  destruct Hengine as [Hdown|Herr].
  - rewrite Hdown, andb_false_r. reflexivity.
  - destruct (DockerManager.docker_inspect engine _) as [info|e] eqn:E.
    + apply andb_false_r.
    + rewrite (Herr _ _ E). apply andb_false_r.
Qed.

Lemma filter_map_markRemoved (engine : DockerManager.Engine) (rows : list containers_row) :
  List.filter (isOrphan engine) (map (markRemoved engine) rows)
  = map (markRemoved engine) (List.filter (isOrphan engine) rows).
Proof.
  induction rows as [|r rows IH]; [reflexivity|]. cbn [map List.filter].
  assert (E : isOrphan engine (markRemoved engine r) = isOrphan engine r)
    by (unfold markRemoved; destruct (isOrphan engine r) eqn:E; exact E).
  rewrite E. destruct (isOrphan engine r); cbn [map]; rewrite IH; reflexivity.
Qed.

(** X11.  The task does not remember what it has marked: run again on
    the state it left, with the same engine answers, it reports the
    same number of orphans, leaves the [containers] table as it is,
    and appends the same warnings to the log once more. *)
Theorem cleanupOrphanedContainers_repeats (engine : DockerManager.Engine) (w : World) :
  NoDup (map id (containers (db w))) ->
  (length (containers (db w)) <= 1000)%nat ->
  exists n w1 w2,
    cleanupOrphanedContainers engine w = (Js.Normal n, w1)
    /\ cleanupOrphanedContainers engine w1 = (Js.Normal n, w2)
    /\ n = length (List.filter (isOrphan engine) (containers (db w)))
    /\ containers (db w2) = containers (db w1)
    /\ container_logs (db w2)
       = container_logs (db w1)
         ++ map (fun r => mkLog (id r) "Container removed from Docker, status updated"
                                "warning")
                (List.filter (isOrphan engine) (containers (db w))).
Proof.
  intros Hnd Hlen.
  destruct (cleanupOrphanedContainers_run engine w Hnd Hlen) as (w1 & E1 & Hr1 & Hl1 & _).
  assert (Hid : map id (containers (db w1)) = map id (containers (db w))).
  { rewrite Hr1, map_map. apply map_ext. intros r. unfold markRemoved.
    destruct (isOrphan engine r); reflexivity. }
  destruct (cleanupOrphanedContainers_run engine w1) as (w2 & E2 & Hr2 & Hl2 & _).
  { rewrite Hid. exact Hnd. }
  { rewrite Hr1, length_map. exact Hlen. }
  exists (length (List.filter (isOrphan engine) (containers (db w)))), w1, w2.
  split; [exact E1|]. split.
  - rewrite E2, Hr1, filter_map_markRemoved, length_map. reflexivity.
  - split; [reflexivity|]. split.
    + rewrite Hr2, Hr1, map_map. apply map_ext. intros r. unfold markRemoved.
      destruct (isOrphan engine r) eqn:E; [|rewrite E; reflexivity].
      change (isOrphan engine (set_status "removed" r)) with (isOrphan engine r).
      rewrite E. reflexivity.
    + rewrite Hl2, Hr1, filter_map_markRemoved, map_map. f_equal.
      apply map_ext. intros r. unfold markRemoved, removalLog.
      destruct (isOrphan engine r); reflexivity.
Qed.

End Orphans.


Lemma cleanupOrphanedContainers_marks_orphans_witness :
  exists w',
    DockerTasks.cleanupOrphanedContainers Samples.idle_engine Samples.sync_world
    = (Js.Normal 1%nat, w')
    /\ Schema.containers (db w')
       = [Schema.mkContainer "r1" "web" (Some "e1") "nginx" "removed" "/home/containers/r1"
                             None 1;
          Schema.mkContainer "r2" "db" None "postgres" "created" "/home/containers/r2"
                             None 1]
    /\ Schema.container_logs (db w')
       = [Schema.mkLog "r1" "Container removed from Docker, status updated" "warning"]
    /\ Schema.container_settings (db w') = []
    /\ DockerTasks.onlyDb Samples.sync_world w'.
Proof.
  apply (cleanupOrphanedContainers_marks_orphans Samples.idle_engine Samples.sync_world).
  - apply (bool_decide_unpack _). vm_compute. exact I.
  - cbn. lia.
Defined.

Lemma cleanupOrphanedContainers_spares_on_outage_witness :
  DockerTasks.cleanupOrphanedContainers Samples.stopped_engine Samples.sync_world
  = (Js.Normal 0%nat, Samples.sync_world).
Proof.
  apply (cleanupOrphanedContainers_spares_on_outage Samples.stopped_engine Samples.sync_world).
  left. reflexivity.
Defined.

Lemma cleanupOrphanedContainers_repeats_witness :
  exists n w1 w2,
    DockerTasks.cleanupOrphanedContainers Samples.idle_engine Samples.sync_world
    = (Js.Normal n, w1)
    /\ DockerTasks.cleanupOrphanedContainers Samples.idle_engine w1 = (Js.Normal n, w2)
    /\ n = 1%nat
    /\ Schema.containers (db w2) = Schema.containers (db w1)
    /\ Schema.container_logs (db w2)
       = Schema.container_logs (db w1)
         ++ [Schema.mkLog "r1" "Container removed from Docker, status updated" "warning"].
Proof.
  apply (cleanupOrphanedContainers_repeats Samples.idle_engine Samples.sync_world).
  - apply (bool_decide_unpack _). vm_compute. exact I.
  - cbn. lia.
Defined.

Section CreateAndStart.

Import Schema DockerTasks.

Lemma bind_abrupt {A B} (m : Js.M World A) (k : A -> Js.M World B) (w w1 : World)
    (e : Js.Error) :
  m w = (Js.Abrupt e, w1) -> (m ≫= k) w = (Js.Abrupt e, w1).
Proof. intros H. unfold mbind, Js.M_bind. rewrite H. reflexivity. Qed.

Lemma lift_run {A} (c : Js.completion A) (w : World) : DockerManager.lift c w = (c, w).
Proof. reflexivity. Qed.

(** The row that [Container.create] inserts. *)
Lemma create_fresh (newId : string) (rank : nat) (cname cimage : string)
    (cfolder_path cstartup_script : option string) (userId : Z) (w : World) :
  Container.has_id newId (containers (db w)) = false ->
  exists row,
    Container.create newId rank cname cimage cfolder_path cstartup_script userId w
    = (Js.Normal (Some row),
       set_db (fun d => set_containers (Container.insert_at rank row (containers d)) d) w)
    /\ id row = newId /\ name row = cname /\ image row = cimage
    /\ docker_id row = None /\ status row = "created" /\ created_by row = userId.
Proof.
  intros Hfresh.
  exists (mkContainer newId cname None cimage "created"
            (if Js.truthy cfolder_path then default "" cfolder_path
             else "/home/containers/" +:+ newId)
            (if Js.truthy cstartup_script then cstartup_script else None) userId).
  split.
  - unfold Container.create, mbind, Js.M_bind, Js.get, Js.modify. rewrite Hfresh.
    rewrite findById_run. cbn [db set_db containers set_containers].
    rewrite find_insert_at_fresh; [reflexivity|reflexivity|exact Hfresh].
  - repeat split.
Qed.

Lemma has_id_inserted (k : nat) (row : containers_row) (rows : list containers_row) :
  Container.has_id (id row) (Container.insert_at k row rows) = true.
Proof.
  unfold Container.has_id. rewrite existsb_insert_at.
  rewrite bool_decide_eq_true_2 by reflexivity. reflexivity.
Qed.

Lemma updateStatus_inserted (k : nat) (row : containers_row) (s : string)
    (rows : list containers_row) (w : World) :
  containers (db w) = Container.insert_at k row rows ->
  Container.has_id (id row) rows = false ->
  Container.updateStatus row s w
  = (Js.Normal (set_status s row),
     set_db (fun d => set_containers (Container.insert_at k (set_status s row) rows) d) w).
Proof.
  intros Hrows Hfresh. rewrite updateStatus_run_found.
  - f_equal. unfold set_db. rewrite Hrows. f_equal. unfold set_containers. f_equal.
    apply map_update_insert_at, Hfresh.
  - rewrite Hrows. apply has_id_inserted.
Qed.

Lemma updateDockerId_inserted (k : nat) (row : containers_row) (d : string)
    (rows : list containers_row) (w : World) :
  containers (db w) = Container.insert_at k row rows ->
  Container.has_id (id row) rows = false ->
  Forall (fun r => docker_id r <> Some d) rows ->
  Container.updateDockerId row d w
  = (Js.Normal (set_docker_id (Some d) row),
     set_db (fun db0 => set_containers
               (Container.insert_at k (set_docker_id (Some d) row) rows) db0) w).
Proof.
  intros Hrows Hfresh Hdid. unfold Container.updateDockerId.
  unfold mbind, Js.M_bind, Js.get, Js.modify, mret, Js.M_ret, mthrow, Js.M_throw.
  rewrite Hrows, has_id_inserted.
  replace (existsb _ (Container.insert_at k row rows)) with false.
  - f_equal. unfold set_db. rewrite Hrows. f_equal. unfold set_containers. f_equal.
    apply map_update_insert_at, Hfresh.
  - symmetry. rewrite existsb_insert_at.
    rewrite bool_decide_eq_true_2 by reflexivity. cbn [negb andb orb].
    apply not_true_iff_false. intros H. apply existsb_exists in H as (r & Hr & H).
    apply andb_true_iff in H as [_ H]. apply bool_decide_eq_true_1 in H.
    rewrite Forall_forall in Hdid. apply (Hdid r); [apply list_elem_of_In, Hr|exact H].
Qed.

(** X12.  No rollback: when the engine refuses to create the
    container, [createAndStartContainer] fails with the engine's
    error and the record it has just inserted stays in the registry,
    at the rank at which it was listed, with the status [created] and
    no [docker_id]; when the engine
    creates the container but refuses to start it, the call fails as
    well and the record stays with the [docker_id] and the status
    [created]. *)
Theorem createAndStartContainer_leaves_record (newId : string) (rank : nat)
    (containerData : ContainerData) (userId : Z)
    (created : Js.completion string) (started : Js.completion unit) (w : World) :
  Container.has_id newId (containers (db w)) = false ->
  (forall e,
      created = Js.Abrupt e ->
      exists row w',
        createAndStartContainer newId rank containerData userId created started w
        = (Js.Abrupt e, w')
        /\ containers (db w') = Container.insert_at rank row (containers (db w))
        /\ Container.findById newId w' = (Js.Normal (Some row), w')
        /\ id row = newId /\ docker_id row = None /\ status row = "created"
        /\ container_logs (db w') = container_logs (db w))
  /\ (forall d e,
      created = Js.Normal d -> started = Js.Abrupt e -> autoStart containerData = true ->
      Forall (fun r => docker_id r <> Some d) (containers (db w)) ->
      exists row w',
        createAndStartContainer newId rank containerData userId created started w
        = (Js.Abrupt e, w')
        /\ containers (db w') = Container.insert_at rank row (containers (db w))
        /\ Container.findById newId w' = (Js.Normal (Some row), w')
        /\ id row = newId /\ docker_id row = Some d /\ status row = "created").
Proof.
  intros Hfresh.
  destruct (create_fresh newId rank (cd_name containerData) (cd_image containerData)
              (cd_folder_path containerData) (cd_startup_script containerData) userId w Hfresh)
    as (row & Ecreate & Hid & _ & _ & Hdid & Hst & _).
  set (w1 := set_db (fun d => set_containers (Container.insert_at rank row (containers d)) d)
                    w) in *.
  assert (Hfind : forall (r : containers_row) (w' : World),
             containers (db w') = Container.insert_at rank r (containers (db w)) -> id r = newId ->
             status r <> "" ->
             Container.findById newId w' = (Js.Normal (Some r), w')).
  { intros r w' Hrows Hr Hs. rewrite findById_run, Hrows.
    rewrite (find_insert_at_fresh newId rank r (containers (db w)) Hr Hfresh).
    cbn [fmap option_fmap option_map].
    unfold Container.new, Js.or_else. rewrite (bool_decide_eq_false_2 _ Hs).
    destruct r. reflexivity. }
  split.
  - intros e ->. exists row, w1. unfold createAndStartContainer.
    rewrite (bind_normal _ _ _ _ _ Ecreate). cbv beta iota.
    split; [apply bind_abrupt; reflexivity|].
    split; [reflexivity|]. split.
    { apply Hfind; [reflexivity|exact Hid|rewrite Hst; discriminate]. }
    repeat split; assumption.
  - intros d e -> -> Hauto Hnone.
    assert (E1 : Container.updateDockerId row d w1
                 = (Js.Normal (set_docker_id (Some d) row),
                    set_db (fun db0 => set_containers
                              (Container.insert_at rank (set_docker_id (Some d) row)
                                 (containers (db w))) db0) w1)).
    { apply updateDockerId_inserted; [reflexivity|rewrite Hid; exact Hfresh|exact Hnone]. }
    set (w2 := set_db _ w1) in E1.
    assert (E2 : Container.updateStatus (set_docker_id (Some d) row) "created" w2
                 = (Js.Normal (set_status "created" (set_docker_id (Some d) row)),
                    set_db (fun db0 => set_containers
                              (Container.insert_at rank
                                 (set_status "created" (set_docker_id (Some d) row))
                                 (containers (db w))) db0) w2)).
    { apply updateStatus_inserted; [reflexivity|]. cbn [id set_docker_id]. rewrite Hid.
      exact Hfresh. }
    set (w3 := set_db _ w2) in E2.
    eexists (set_status "created" (set_docker_id (Some d) row)), _.
    split.
    { unfold createAndStartContainer.
      rewrite (bind_normal _ _ _ _ _ Ecreate). cbv beta iota.
      rewrite (bind_normal _ _ _ _ _ (lift_run (Js.Normal d) w1)).
      rewrite (bind_normal _ _ _ _ _ E1), (bind_normal _ _ _ _ _ E2).
      rewrite (bind_normal _ _ _ _ _ (addLog_run _ _ _ w3)).
      rewrite Hauto.
      apply bind_abrupt, bind_abrupt. reflexivity. }
    split; [reflexivity|]. split.
    { apply Hfind; [reflexivity|exact Hid|discriminate]. }
    repeat split. exact Hid.
Qed.

(** X13.  When the engine creates the container (and starts it, if
    asked), the call completes, the registry is the one before the
    call with the new record listed at its rank, it answers
    [findById] with that record, which carries the engine's [docker_id] and the
    status [running] if [autoStart] was set and [created] otherwise,
    the same status is reported to the caller, and nothing but the
    database has changed. *)
Theorem createAndStartContainer_success (newId : string) (rank : nat)
    (containerData : ContainerData) (userId : Z) (d : string) (w : World) :
  Container.has_id newId (containers (db w)) = false ->
  Forall (fun r => docker_id r <> Some d) (containers (db w)) ->
  exists row w',
    createAndStartContainer newId rank containerData userId (Js.Normal d) (Js.Normal tt) w
    = (Js.Normal (mkCreated row d (status row)), w')
    /\ Container.findById newId w' = (Js.Normal (Some row), w')
    /\ containers (db w') = Container.insert_at rank row (containers (db w))
    /\ id row = newId /\ name row = cd_name containerData
    /\ docker_id row = Some d /\ created_by row = userId
    /\ status row = (if autoStart containerData then "running" else "created")
    /\ onlyDb w w'.
Proof.
  intros Hfresh Hnone.
  destruct (create_fresh newId rank (cd_name containerData) (cd_image containerData)
              (cd_folder_path containerData) (cd_startup_script containerData) userId w Hfresh)
    as (row & Ecreate & Hid & Hname & _ & Hdid & Hst & Hby).
  set (w1 := set_db (fun d => set_containers (Container.insert_at rank row (containers d)) d)
                    w) in *.
  assert (E1 : Container.updateDockerId row d w1
               = (Js.Normal (set_docker_id (Some d) row),
                  set_db (fun db0 => set_containers
                              (Container.insert_at rank (set_docker_id (Some d) row)
                                 (containers (db w))) db0) w1)).
  { apply updateDockerId_inserted; [reflexivity|rewrite Hid; exact Hfresh|exact Hnone]. }
  set (w2 := set_db _ w1) in E1.
  set (row2 := set_status "created" (set_docker_id (Some d) row)).
  assert (E2 : Container.updateStatus (set_docker_id (Some d) row) "created" w2
               = (Js.Normal row2,
                  set_db (fun db0 => set_containers
                              (Container.insert_at rank row2
                                 (containers (db w))) db0) w2)).
  { apply updateStatus_inserted; [reflexivity|]. cbn [id set_docker_id]. rewrite Hid.
    exact Hfresh. }
  set (w3 := set_db _ w2) in E2.
  pose proof (addLog_run row2 ("Container created with image " +:+ cd_image containerData)
                "info" w3) as E3.
  set (w4 := set_db _ w3) in E3.
  assert (Hprefix :
             createAndStartContainer newId rank containerData userId (Js.Normal d) (Js.Normal tt) w
             = (container ←
                  (if autoStart containerData then
                     DockerManager.lift (Js.Normal tt);;
                     container ← Container.updateStatus row2 "running";
                     Container.addLog container "Container started automatically" "info";;
                     mret container
                   else mret row2);
                mret (mkCreated container d
                        (if autoStart containerData then "running" else "created"))) w4).
  { unfold createAndStartContainer.
    rewrite (bind_normal _ _ _ _ _ Ecreate). cbv beta iota.
    rewrite (bind_normal _ _ _ _ _ (lift_run (Js.Normal d) w1)).
    rewrite (bind_normal _ _ _ _ _ E1), (bind_normal _ _ _ _ _ E2).
    rewrite (bind_normal _ _ _ _ _ E3). reflexivity. }
  rewrite Hprefix. clear Hprefix.
  assert (Hfind : forall (r : containers_row) (w' : World),
             containers (db w') = Container.insert_at rank r (containers (db w)) -> id r = newId ->
             status r <> "" ->
             Container.findById newId w' = (Js.Normal (Some r), w')).
  { intros r w' Hrows Hr Hs. rewrite findById_run, Hrows.
    rewrite (find_insert_at_fresh newId rank r (containers (db w)) Hr Hfresh).
    cbn [fmap option_fmap option_map].
    unfold Container.new, Js.or_else. rewrite (bool_decide_eq_false_2 _ Hs).
    destruct r. reflexivity. }
  destruct (autoStart containerData).
  - assert (E5 : Container.updateStatus row2 "running" w4
                 = (Js.Normal (set_status "running" row2),
                    set_db (fun db0 => set_containers
                              (Container.insert_at rank (set_status "running" row2)
                                 (containers (db w))) db0) w4)).
    { apply updateStatus_inserted; [reflexivity|]. cbn [id set_docker_id set_status row2].
      rewrite Hid. exact Hfresh. }
    set (w5 := set_db _ w4) in E5.
    eexists (set_status "running" row2), _. split.
    { erewrite bind_normal; [reflexivity|].
      rewrite (bind_normal _ _ _ _ _ (lift_run (Js.Normal tt) w4)).
      rewrite (bind_normal _ _ _ _ _ E5).
      rewrite (bind_normal _ _ _ _ _ (addLog_run _ _ _ w5)). reflexivity. }
    split; [apply Hfind; [reflexivity|exact Hid|discriminate]|].
    repeat split; assumption.
  - eexists row2, _. split; [reflexivity|].
    split; [apply Hfind; [reflexivity|exact Hid|discriminate]|].
    repeat split; assumption.
Qed.

End CreateAndStart.


Lemma createAndStartContainer_leaves_record_witness :
  (exists row w',
     DockerTasks.createAndStartContainer "c9" 0 Samples.cache_data 7
       (Js.Abrupt (Js.error "no such image")) (Js.Normal tt) Samples.sync_world
     = (Js.Abrupt (Js.error "no such image"), w')
     /\ Schema.containers (db w')
        = Container.insert_at 0 row (Schema.containers (db Samples.sync_world))
     /\ Container.findById "c9" w' = (Js.Normal (Some row), w')
     /\ Schema.id row = "c9" /\ Schema.docker_id row = None
     /\ Schema.status row = "created"
     /\ Schema.container_logs (db w') = Schema.container_logs (db Samples.sync_world))
  /\ (exists row w',
        DockerTasks.createAndStartContainer "c9" 0 Samples.cache_data 7
          (Js.Normal "e9") (Js.Abrupt (Js.error "port is already allocated"))
          Samples.sync_world
        = (Js.Abrupt (Js.error "port is already allocated"), w')
        /\ Schema.containers (db w')
        = Container.insert_at 0 row (Schema.containers (db Samples.sync_world))
        /\ Container.findById "c9" w' = (Js.Normal (Some row), w')
        /\ Schema.id row = "c9" /\ Schema.docker_id row = Some "e9"
        /\ Schema.status row = "created").
Proof.
  split.
  - apply (proj1 (createAndStartContainer_leaves_record "c9" 0 Samples.cache_data 7
                    (Js.Abrupt (Js.error "no such image")) (Js.Normal tt)
                    Samples.sync_world eq_refl)).
    reflexivity.
  - apply (proj2 (createAndStartContainer_leaves_record "c9" 0 Samples.cache_data 7
                    (Js.Normal "e9") (Js.Abrupt (Js.error "port is already allocated"))
                    Samples.sync_world eq_refl) "e9");
      [reflexivity..|].
    repeat constructor; discriminate.
Defined.

Lemma createAndStartContainer_success_witness :
  exists row w',
    DockerTasks.createAndStartContainer "c9" 1 Samples.cache_data 7
      (Js.Normal "e9") (Js.Normal tt) Samples.sync_world
    = (Js.Normal (DockerTasks.mkCreated row "e9" (Schema.status row)), w')
    /\ Container.findById "c9" w' = (Js.Normal (Some row), w')
    /\ Schema.containers (db w')
       = Container.insert_at 1 row (Schema.containers (db Samples.sync_world))
    /\ Schema.id row = "c9" /\ Schema.name row = "cache"
    /\ Schema.docker_id row = Some "e9" /\ Schema.created_by row = 7
    /\ Schema.status row = "running"
    /\ DockerTasks.onlyDb Samples.sync_world w'.
Proof.
  apply (createAndStartContainer_success "c9" 1 Samples.cache_data 7 "e9" Samples.sync_world).
  - reflexivity.
  - repeat constructor; discriminate.
Defined.

Section Scripts.

Import Schema DockerTasks.

Lemma trim_is_truthy_app (a b : string) :
  LogService.trim_is_truthy (a +:+ b)
  = LogService.trim_is_truthy a || LogService.trim_is_truthy b.
Proof.
  induction a as [|c a IH]; [reflexivity|].
  change (String c a +:+ b) with (String c (a +:+ b)).
  cbn [LogService.trim_is_truthy]. rewrite IH, orb_assoc. reflexivity.
Qed.

Lemma trimStart_empty (s : string) :
  trimStart s = "" <-> LogService.trim_is_truthy s = false.
Proof.
  induction s as [|c s IH]; cbn [trimStart LogService.trim_is_truthy]; [tauto|].
  destruct (LogService.is_white_space c); cbn [negb orb]; [exact IH|].
  split; discriminate.
Qed.

Lemma trim_is_truthy_trimStart (s : string) :
  LogService.trim_is_truthy (trimStart s) = LogService.trim_is_truthy s.
Proof.
  induction s as [|c s IH]; cbn [trimStart LogService.trim_is_truthy]; [reflexivity|].
  destruct (LogService.is_white_space c) eqn:E; cbn [negb orb]; [exact IH|].
  cbn [LogService.trim_is_truthy]. rewrite E. reflexivity.
Qed.

Lemma trimEnd_empty (s : string) :
  trimEnd s = "" <-> LogService.trim_is_truthy s = false.
Proof.
  induction s as [|c s IH]; cbn [trimEnd LogService.trim_is_truthy]; [tauto|].
  destruct (trimEnd s) eqn:E.
  - destruct (LogService.is_white_space c); cbn [negb orb].
    + split; [intros _; apply IH; reflexivity|reflexivity].
    + split; discriminate.
  - split; [discriminate|]. intros H. apply orb_false_iff in H as [_ H].
    apply IH in H. discriminate H.
Qed.

(** [s.trim()] is empty exactly when [s] is white space throughout. *)
Lemma trim_empty (s : string) : trim s = "" <-> LogService.trim_is_truthy s = false.
Proof. unfold trim. rewrite trimEnd_empty, trim_is_truthy_trimStart. reflexivity. Qed.

Lemma prefix_trim_is_truthy (needle hay : string) :
  String.prefix needle hay = true -> LogService.trim_is_truthy needle = true ->
  LogService.trim_is_truthy hay = true.
Proof.
  revert hay. induction needle as [|c needle IH]; intros hay; [discriminate 2|].
  destruct hay as [|c' hay]; [discriminate|]. cbn [String.prefix].
  destruct (Ascii.ascii_dec c c') as [<-|]; [|discriminate].
  cbn [LogService.trim_is_truthy]. intros Hp Hn.
  apply orb_true_iff in Hn as [Hn|Hn]; [rewrite Hn; reflexivity|].
  rewrite (IH hay Hp Hn). apply orb_true_r.
Qed.

Lemma includes_trim_is_truthy (needle hay : string) :
  LogService.includes needle hay = true -> LogService.trim_is_truthy needle = true ->
  LogService.trim_is_truthy hay = true.
Proof.
  intros Hi Hn. induction hay as [|c hay IH].
  - cbn [LogService.includes] in Hi. rewrite orb_false_r in Hi.
    exact (prefix_trim_is_truthy _ _ Hi Hn).
  - cbn [LogService.includes] in Hi. apply orb_true_iff in Hi as [Hi|Hi].
    + exact (prefix_trim_is_truthy _ _ Hi Hn).
    + cbn [LogService.trim_is_truthy]. rewrite (IH Hi). apply orb_true_r.
Qed.

Lemma looksLikeError_truthy (data : string) :
  looksLikeError data = true -> LogService.trim_is_truthy data = true.
Proof.
  unfold looksLikeError. intros H.
  apply orb_true_iff in H as [H|H]; [apply orb_true_iff in H as [H|H]|];
    exact (includes_trim_is_truthy _ _ H eq_refl).
Qed.

Lemma gathered_cons (p : string -> bool) (data : string) (chunks : list string) :
  gathered p (data :: chunks)
  = if p data then data +:+ gathered p chunks else gathered p chunks.
Proof. unfold gathered. cbn [List.filter]. destruct (p data); reflexivity. Qed.

Lemma gathered_truthy (chunks : list string) :
  LogService.trim_is_truthy (gathered looksLikeError chunks)
  = existsb looksLikeError chunks.
Proof.
  induction chunks as [|data chunks IH]; [reflexivity|].
  rewrite gathered_cons. cbn [existsb].
  destruct (looksLikeError data) eqn:E; [|exact IH].
  rewrite trim_is_truthy_app, (looksLikeError_truthy data E). reflexivity.
Qed.

Lemma onData_run (logOutput : bool) (container : containers_row) (data : string)
    (out err : string) (w : World) :
  exists w',
    onData logOutput container data (out, err) w
    = (Js.Normal (if looksLikeError data then (out, err +:+ data) else (out +:+ data, err)),
       w')
    /\ onlyDb w w' /\ calls w' = calls w.
Proof.
  unfold onData. destruct logOutput; cbn [Js.when].
  - eexists. split; [reflexivity|]. split; reflexivity.
  - exists w. split; [reflexivity|]. split; [apply onlyDb_refl|reflexivity].
Qed.

Lemma onChunks_run (logOutput : bool) (container : containers_row) :
  forall (chunks : list string) (out err : string) (w : World),
    exists w',
      onChunks logOutput container chunks (out, err) w
      = (Js.Normal (out +:+ gathered (fun c => negb (looksLikeError c)) chunks,
                    err +:+ gathered looksLikeError chunks), w')
      /\ onlyDb w w' /\ calls w' = calls w.
Proof.
  induction chunks as [|data chunks IH]; intros out err w.
  - exists w. cbn [onChunks]. unfold gathered. cbn [List.filter foldr].
    rewrite !string_app_nil_r. split; [reflexivity|]. split; [apply onlyDb_refl|reflexivity].
  - cbn [onChunks].
    destruct (onData_run logOutput container data out err w) as (w1 & E1 & Ho1 & Hc1).
    rewrite (bind_normal _ _ _ _ _ E1). rewrite !gathered_cons.
    destruct (looksLikeError data); cbn [negb].
    + destruct (IH out (err +:+ data) w1) as (w' & E & Ho & Hc).
      exists w'. rewrite E, string_app_assoc. split; [reflexivity|].
      split; [exact (onlyDb_trans _ _ _ Ho1 Ho)|congruence].
    + destruct (IH (out +:+ data) err w1) as (w' & E & Ho & Hc).
      exists w'. rewrite E, string_app_assoc. split; [reflexivity|].
      split; [exact (onlyDb_trans _ _ _ Ho1 Ho)|congruence].
Qed.

(** X14.  The verdict of a script.  For a container that has a
    [docker_id], on a connected engine that accepts the command, and a
    stream that ends normally: the engine is asked to run
    [sh -c script] in the container; [output] is the trimmed text of
    the chunks that mention none of [stderr], [Error], [error], and
    [error] the trimmed text of the chunks that mention one of them;
    and [success] holds exactly when no chunk mentions one of them,
    whatever the process wrote and on whichever stream.  For a
    container that is unknown or has no [docker_id] the call fails
    before anything is written or run. *)
Theorem executeScript_verdict (engine : DockerManager.Engine) (containerId script : string)
    (logOutput : bool) (chunks : list string) (failure : option Js.Error) (w : World) :
  (forall row d,
      List.find (fun r => bool_decide (id r = containerId)) (containers (db w)) = Some row ->
      docker_id row = Some d -> d <> "" ->
      DockerManager.isConnected engine = true ->
      DockerManager.docker_exec engine d ["sh"; "-c"; script] = Js.Normal tt ->
      failure = None ->
      exists w',
        executeScript engine containerId script logOutput chunks failure w
        = (Js.Normal (mkScriptResult
                        (negb (existsb looksLikeError chunks))
                        (trim (gathered (fun c => negb (looksLikeError c)) chunks))
                        (trim (gathered looksLikeError chunks))
                        containerId), w')
        /\ calls w' = calls w ++ [EngineExec d ["sh"; "-c"; script]])
  /\ (Container.findById containerId w = (Js.Normal None, w) ->
      executeScript engine containerId script logOutput chunks failure w
      = (Js.Abrupt (Js.error "Container not found"), w))
  /\ (forall row,
      Container.findById containerId w = (Js.Normal (Some row), w) ->
      Js.truthy (docker_id row) = false ->
      executeScript engine containerId script logOutput chunks failure w
      = (Js.Abrupt (Js.error "Container has no Docker ID"), w)).
Proof.
  split; [|split].
  - intros row d Hfind Hd Hne Hconn Hexec ->.
    assert (Hid : id row = containerId) by exact (find_by_id_id _ _ _ Hfind).
    assert (Htruthy : Js.truthy (docker_id (Container.new row)) = true).
    { cbn [Container.new docker_id set_status]. rewrite Hd. cbn [Js.truthy].
      rewrite (bool_decide_eq_false_2 _ Hne). reflexivity. }
    assert (Estart : exists w1,
               startScript engine containerId script w = (Js.Normal (Container.new row), w1)
               /\ calls w1 = calls w ++ [EngineExec d ["sh"; "-c"; script]]).
    { unfold startScript. rewrite (bind_normal _ _ _ _ _ (findById_run containerId w)).
      rewrite Hfind. cbn [fmap option_fmap option_map]. rewrite Htruthy. cbn [negb].
      rewrite (bind_normal _ _ _ _ _ (addLog_run _ _ _ w)).
      unfold DockerManager.executeCommand. rewrite Hconn. cbn [negb].
      cbn [Container.new docker_id set_status]. rewrite Hd.
      cbn [default from_option Datatypes.id].
      unfold mbind, Js.M_bind, Js.modify, DockerManager.lift. rewrite Hexec.
      eexists. split; reflexivity. }
    destruct Estart as (w1 & Estart & Hcalls1).
    destruct (onChunks_run logOutput (Container.new row) chunks "" "" w1)
      as (w2 & Echunks & _ & Hcalls2).
    unfold executeScript.
    rewrite (bind_normal _ _ _ _ _ Estart), (bind_normal _ _ _ _ _ Echunks).
    rewrite !app_nil_l. unfold onEnd.
    assert (Hsuccess : negb (Js.truthy (Some (trim (gathered looksLikeError chunks))))
                       = negb (existsb looksLikeError chunks)).
    { cbn [Js.truthy]. f_equal. rewrite <- gathered_truthy.
      destruct (LogService.trim_is_truthy (gathered looksLikeError chunks)) eqn:E.
      - apply negb_true_iff, bool_decide_eq_false_2. intros Hempty.
        apply trim_empty in Hempty. congruence.
      - apply negb_false_iff, bool_decide_eq_true_2, trim_empty, E. }
    rewrite Hsuccess. change (id (Container.new row)) with (id row). rewrite Hid.
    unfold Js.try_catch, mbind, Js.M_bind, Container.addLog, Js.modify, Js.when.
    destruct (Js.truthy (Some (trim (gathered looksLikeError chunks))));
      (eexists; split; [reflexivity|]); cbn [calls set_db]; congruence.
  - intros Hnone. unfold executeScript, startScript.
    apply bind_abrupt. rewrite (bind_normal _ _ _ _ _ Hnone). reflexivity.
  - intros row Hsome Hfalsy. unfold executeScript, startScript.
    apply bind_abrupt. rewrite (bind_normal _ _ _ _ _ Hsome). rewrite Hfalsy. reflexivity.
Qed.

End Scripts.


Lemma executeScript_verdict_witness :
  exists w',
    DockerTasks.executeScript Samples.idle_engine "r1" "make test" true
      ["compiling" +:+ String "010" ""; "0 errors" +:+ String "010" ""] None
      Samples.sync_world
    = (Js.Normal (DockerTasks.mkScriptResult false "compiling" "0 errors" "r1"), w')
    /\ calls w' = [EngineExec "e1" ["sh"; "-c"; "make test"]].
Proof.
  apply (proj1 (executeScript_verdict Samples.idle_engine "r1" "make test" true
                  ["compiling" +:+ String "010" ""; "0 errors" +:+ String "010" ""] None
                  Samples.sync_world)
               (Schema.mkContainer "r1" "web" (Some "e1") "nginx" "running"
                                   "/home/containers/r1" None 1) "e1");
    [reflexivity|reflexivity|discriminate|reflexivity|reflexivity|reflexivity].
Defined.

(** ** logService.js: streams, clearing, the log directory, rotation *)

Section Logs.

Import LogService.

Section Streams.

Lemma streamsOf_addLogStream (containerId : string) (stream : nat) (w : World)
    (other : string) :
  streamsOf (addLogStream containerId stream w).2 other
  = if bool_decide (other = containerId) then streamsOf w other ∪ {[stream]}
    else streamsOf w other.
Proof.
  unfold streamsOf, addLogStream, Js.modify. cbn [snd logStreams set_logStreams].
  case_bool_decide as Hc.
  - subst other. destruct (logStreams w !! containerId) as [s|] eqn:E.
    + rewrite lookup_alter, decide_True by reflexivity. rewrite E. reflexivity.
    + rewrite lookup_alter, decide_True by reflexivity. rewrite lookup_insert.
      rewrite decide_True by reflexivity. reflexivity.
  - destruct (logStreams w !! containerId) as [s|] eqn:E.
    + rewrite lookup_alter, decide_False by congruence. reflexivity.
    + rewrite lookup_alter, decide_False by congruence.
      rewrite lookup_insert, decide_False by congruence. reflexivity.
Qed.

Lemma streamsOf_removeLogStream (containerId : string) (stream : nat) (w : World)
    (other : string) :
  streamsOf (removeLogStream containerId stream w).2 other
  = if bool_decide (other = containerId) then streamsOf w other ∖ {[stream]}
    else streamsOf w other.
Proof.
  unfold streamsOf, removeLogStream, Js.modify. cbn [snd logStreams set_logStreams].
  destruct (logStreams w !! containerId) as [s|] eqn:E.
  - case_bool_decide as Hsize; case_bool_decide as Hc.
    + subst other. rewrite lookup_delete, decide_True by reflexivity. rewrite E.
      cbn [default from_option Datatypes.id]. apply size_empty_inv in Hsize.
      unfold_leibniz. set_solver.
    + rewrite lookup_delete, decide_False by congruence. reflexivity.
    + subst other. rewrite lookup_insert, decide_True by reflexivity. rewrite E. reflexivity.
    + rewrite lookup_insert, decide_False by congruence. reflexivity.
  - case_bool_decide as Hc; [|reflexivity]. subst other. rewrite E.
    cbn [default from_option Datatypes.id]. set_solver.
Qed.

Lemma notifyLogUpdate_streamed (containerId : string) (logEntry : Wire.LogEntry)
    (w : World) :
  notifyLogUpdate containerId logEntry w
  = (Js.Normal tt,
     match logStreams w !! containerId with
     | Some streams =>
         set_streamed (fun l => l ++ map (fun stream => (stream, logEntry))
                                         (elements streams)) w
     | None => w
     end).
Proof.
  unfold notifyLogUpdate, mbind, Js.M_bind, Js.get, Js.modify, mret, Js.M_ret.
  destruct (logStreams w !! containerId); reflexivity.
Qed.

Lemma filter_stream_elements (stream : nat) (logEntry : Wire.LogEntry) (l : list nat) :
  NoDup l ->
  map snd (List.filter (fun d : nat * Wire.LogEntry => bool_decide (d.1 = stream))
                       (map (fun s => (s, logEntry)) l))
  = if bool_decide (stream ∈ l) then [logEntry] else [].
Proof.
  induction 1 as [|x l Hnot Hnd IH]; [reflexivity|].
  cbn [map List.filter fst]. destruct (decide (x = stream)) as [Hx|Hx].
  - subst x. rewrite (bool_decide_eq_true_2 (stream = stream)) by reflexivity.
    cbn [map snd]. rewrite IH.
    rewrite (bool_decide_eq_false_2 _ Hnot).
    rewrite bool_decide_eq_true_2 by (apply elem_of_cons; left; reflexivity). reflexivity.
  - rewrite (bool_decide_eq_false_2 (x = stream)) by exact Hx. rewrite IH.
    rewrite (bool_decide_ext (stream ∈ l) (stream ∈ x :: l)); [reflexivity|].
    rewrite elem_of_cons. split; [tauto|]. intros [E|H]; [congruence|exact H].
Qed.

(** What [notifyLogUpdate] writes to one stream. *)
Lemma writtenSince_notify (containerId : string) (logEntry : Wire.LogEntry) (w : World)
    (stream : nat) :
  writtenSince w (notifyLogUpdate containerId logEntry w).2 stream
  = if bool_decide (stream ∈ streamsOf w containerId) then [logEntry] else [].
Proof.
  rewrite notifyLogUpdate_streamed. cbn [snd]. unfold writtenSince, streamsOf.
  destruct (logStreams w !! containerId) as [streams|].
  - cbn [streamed set_streamed default from_option Datatypes.id].
    rewrite drop_app_length, (filter_stream_elements _ _ _ (NoDup_elements streams)).
    rewrite (bool_decide_ext _ _ (elem_of_elements streams stream)). reflexivity.
  - rewrite drop_all. cbn. rewrite bool_decide_eq_false_2 by set_solver. reflexivity.
Qed.

(** X15.  Log streams.  A notification for a container writes the
    entry once to every stream registered for that container and
    nothing to any other stream; [addLogStream] registers a stream and
    [removeLogStream] takes it off, both leaving every other
    registration alone; so a stream receives the entries notified
    after it was added and none after it was removed. *)
Theorem log_streams_deliver (containerId : string) (stream : nat)
    (logEntry : Wire.LogEntry) (w : World) :
  (forall c s,
      writtenSince w (notifyLogUpdate c logEntry w).2 s
      = if bool_decide (s ∈ streamsOf w c) then [logEntry] else [])
  /\ (forall c s, s ∈ streamsOf (addLogStream containerId stream w).2 c
                  <-> s ∈ streamsOf w c \/ (c = containerId /\ s = stream))
  /\ (forall c s, s ∈ streamsOf (removeLogStream containerId stream w).2 c
                  <-> s ∈ streamsOf w c /\ ~ (c = containerId /\ s = stream))
  /\ writtenSince (addLogStream containerId stream w).2
       (notifyLogUpdate containerId logEntry (addLogStream containerId stream w).2).2 stream
     = [logEntry]
  /\ writtenSince (removeLogStream containerId stream w).2
       (notifyLogUpdate containerId logEntry (removeLogStream containerId stream w).2).2
       stream
     = [].
Proof.
  split; [intros c s; apply writtenSince_notify|].
  split; [intros c s; rewrite streamsOf_addLogStream; case_bool_decide; set_solver|].
  split; [intros c s; rewrite streamsOf_removeLogStream; case_bool_decide; set_solver|].
  split.
  - rewrite writtenSince_notify, streamsOf_addLogStream.
    rewrite (bool_decide_eq_true_2 (containerId = containerId)) by reflexivity.
    rewrite bool_decide_eq_true_2 by set_solver. reflexivity.
  - rewrite writtenSince_notify, streamsOf_removeLogStream.
    rewrite (bool_decide_eq_true_2 (containerId = containerId)) by reflexivity.
    rewrite bool_decide_eq_false_2 by set_solver. reflexivity.
Qed.

End Streams.

Section StreamsOnAppend.

(** From [w] to [w'] the registered streams and what was written to
    them are unchanged. *)
Local Abbreviation sameStreams :=
  (fun w w' : World => logStreams w' = logStreams w /\ streamed w' = streamed w).

Local Abbreviation keepsStreams := (Js.preserves (fun _ : World => True) sameStreams).

Lemma sameStreams_refl (w : World) : sameStreams w w.
Proof. split; reflexivity. Qed.

Lemma sameStreams_trans (w1 w2 w3 : World) :
  sameStreams w1 w2 -> sameStreams w2 w3 -> sameStreams w1 w3.
Proof. intros [? ?] [? ?]. split; congruence. Qed.

Lemma keepsStreams_bind {A B} (m : Js.M World A) (k : A -> Js.M World B) :
  keepsStreams m -> (forall a, keepsStreams (k a)) -> keepsStreams (m ≫= k).
Proof. apply preserves_bind; [exact sameStreams_trans|auto]. Qed.

Lemma keepsStreams_set_fs (f : gmap string (gmap string Fs.File) -> gmap string (gmap string Fs.File)) :
  keepsStreams (Js.modify (set_fs f)).
Proof. intros w _. split; reflexivity. Qed.

Lemma keepsStreams_set_db (f : Schema.Database -> Schema.Database) :
  keepsStreams (Js.modify (set_db f)).
Proof. intros w _. split; reflexivity. Qed.

Lemma keepsStreams_writeFile (now : Z) (path : string * string) (data : string) :
  keepsStreams (writeFile now path data).
Proof.
  intros w _. unfold writeFile, mbind, Js.M_bind, Js.get.
  destruct (fs w !! path.1); split; reflexivity.
Qed.

Lemma keepsStreams_appendFile (now : Z) (path : string * string) (data : string) :
  keepsStreams (appendFile now path data).
Proof.
  intros w _. unfold appendFile, mbind, Js.M_bind, Js.get.
  destruct (fs w !! path.1); split; reflexivity.
Qed.

Lemma keepsStreams_createDefaultFiles (now : Z) (dir : string) (logFiles : list string) :
  keepsStreams (createDefaultFiles now dir logFiles).
Proof.
  induction logFiles as [|logFile rest IH]; cbn [createDefaultFiles].
  - apply preserves_ret, sameStreams_refl.
  - apply keepsStreams_bind; [intros w _; apply sameStreams_refl|intros present].
    apply keepsStreams_bind; [|intros _; exact IH].
    apply preserves_when; [exact sameStreams_refl|apply keepsStreams_writeFile].
Qed.

Lemma keepsStreams_createContainerLogDirectory (now : Z) (containerId : string) :
  keepsStreams (createContainerLogDirectory now containerId).
Proof.
  unfold createContainerLogDirectory.
  apply keepsStreams_bind; [apply keepsStreams_set_fs|intros _].
  apply keepsStreams_createDefaultFiles.
Qed.

(** X16.  Every append is announced: [writeLog] completes, and it
    writes to each stream registered for the container, once, the
    entry made of its timestamp, the content and the category, with
    the source [application], and nothing to any other stream. *)
Theorem writeLog_notifies_streams (now : Z) (timestamp containerId content logType : string)
    (w : World) (stream : nat) :
  (writeLog now timestamp containerId content logType w).1 = Js.Normal tt
  /\ writtenSince w (writeLog now timestamp containerId content logType w).2 stream
     = (if bool_decide (stream ∈ streamsOf w containerId)
        then [Wire.mkLogEntry timestamp content "application" logType] else [])
  /\ logStreams (writeLog now timestamp containerId content logType w).2 = logStreams w.
Proof.
  pose proof (createContainerLogDirectory_spec now containerId w) as (Hn & [dd Hdd] & _ & _).
  pose proof (keepsStreams_createContainerLogDirectory now containerId w I) as [Hls Hst].
  destruct (createContainerLogDirectory now containerId w) as [r w1] eqn:E1.
  cbn [fst snd] in Hn, Hdd, Hls, Hst. subst r.
  set (entry := Wire.mkLogEntry timestamp content "application" logType).
  assert (Erun : exists w3,
             writeLog now timestamp containerId content logType w
             = notifyLogUpdate containerId entry w3
             /\ logStreams w3 = logStreams w /\ streamed w3 = streamed w).
  { unfold writeLog. rewrite (bind_normal _ _ _ _ _ E1).
    rewrite (bind_normal _ _ _ _ _
               (appendFile_run now (getLogFilePath containerId logType) _ w1 dd Hdd)).
    rewrite (bind_normal _ _ _ _ _ (findById_run containerId _)).
    destruct (Container.new <$> List.find _ _) as [c|].
    - rewrite (bind_normal _ _ _ _ _ (addLog_run _ _ _ _)).
      eexists. split; [reflexivity|]. split; [exact Hls|exact Hst].
    - eexists. split; [reflexivity|]. split; [exact Hls|exact Hst]. }
  destruct Erun as (w3 & -> & Hls3 & Hst3).
  rewrite notifyLogUpdate_streamed. cbn [fst snd]. split; [reflexivity|].
  pose proof (writtenSince_notify containerId entry w3 stream) as Hw.
  rewrite notifyLogUpdate_streamed in Hw. cbn [snd] in Hw.
  unfold writtenSince, streamsOf in *. rewrite Hst3, Hls3 in Hw. rewrite Hls3.
  split; [exact Hw|].
  destruct (logStreams w !! containerId); exact Hls3.
Qed.

End StreamsOnAppend.

Section ClearThenRead.

Variable Date_parse : string -> option Z.

Lemma readLogs_empty_file (timestamp containerId : string) (options : ReadOptions)
    (w : World) (f : Fs.File) :
  file_at (fs w) (getContainerLogPath containerId)
          (default "application" (opt_logType options) +:+ ".log") = Some f ->
  Fs.content f = "" ->
  readLogs Date_parse timestamp containerId options w = (Js.Normal [], w).
Proof.
  intros Hfile Hempty.
  assert (Eread : readFile (getLogFilePath containerId
                              (default "application" (opt_logType options))) w
                  = (Js.Normal "", w)).
  { unfold readFile, getLogFilePath. unfold mbind at 1, Js.M_bind at 1, Js.get at 1.
    cbv beta iota. cbn [fst snd]. unfold file_at in Hfile. rewrite Hfile, Hempty.
    reflexivity. }
  unfold readLogs, Js.try_catch. cbv zeta. rewrite (bind_normal _ _ _ _ _ Eread).
  cbn [split_lines split List.filter trim_is_truthy].
  destruct (Js.truthy (opt_since options)); cbn [List.filter];
    destruct (0 <? default 100 (opt_tail options)); reflexivity.
Qed.

(** X17.  Clearing, then reading: after [clearLogs] on a category of
    a container whose log directory exists, [readLogs] of that
    category returns no entry, whatever [tail] and [since] are. *)
Theorem clearLogs_then_readLogs (now : Z) (timestamp containerId logType : string)
    (tail : option Z) (since : option string) (w : World) (dd : gmap string Fs.File) :
  fs w !! getContainerLogPath containerId = Some dd ->
  exists w1,
    clearLogs now containerId logType w = (Js.Normal tt, w1)
    /\ readLogs Date_parse timestamp containerId
         (mkReadOptions (Some logType) tail since) w1
       = (Js.Normal [], w1).
Proof.
  intros Hdd.
  set (w0 := set_fs (<[getContainerLogPath containerId
                       := <[logType +:+ ".log" := Fs.mkFile now ""]> dd]>) w).
  assert (E0 : writeFile now (getLogFilePath containerId logType) "" w = (Js.Normal tt, w0)).
  { unfold writeFile, mbind, Js.M_bind, Js.get, Js.modify. cbn [fst snd getLogFilePath].
    rewrite Hdd. reflexivity. }
  assert (Hfs : forall w1, fs w1 = fs w0 ->
                readLogs Date_parse timestamp containerId
                  (mkReadOptions (Some logType) tail since) w1 = (Js.Normal [], w1)).
  { intros w1 Hfs. apply (readLogs_empty_file _ _ _ _ (Fs.mkFile now "")); [|reflexivity].
    rewrite Hfs. subst w0. cbn [fs set_fs opt_logType default from_option Datatypes.id].
    rewrite file_at_insert. rewrite !decide_True by reflexivity. reflexivity. }
  unfold clearLogs. rewrite (bind_normal _ _ _ _ _ E0).
  rewrite (bind_normal _ _ _ _ _ (findById_run containerId w0)).
  destruct (Container.new <$> List.find _ _) as [c|].
  - rewrite addLog_run. eexists. split; [reflexivity|]. apply Hfs. reflexivity.
  - exists w0. split; [reflexivity|]. apply Hfs. reflexivity.
Qed.

End ClearThenRead.


Lemma clearLogs_then_readLogs_witness :
  exists w1,
    LogService.clearLogs 1714557700000 "c1" "application" Samples.logged_world
    = (Js.Normal tt, w1)
    /\ LogService.readLogs Samples.no_dates "2024-05-01T10:01:45.000Z" "c1"
         (LogService.mkReadOptions (Some "application") (Some 100) None) w1
       = (Js.Normal [], w1).
Proof.
  apply (clearLogs_then_readLogs Samples.no_dates 1714557700000 "2024-05-01T10:01:45.000Z"
           "c1" "application" (Some 100) None Samples.logged_world
           {[ "application.log" :=
                Fs.mkFile 1714557601000
                          ("[2024-05-01T10:00:00.000Z] boot ok" +:+ String "010"
                           ("[2024-05-01T10:00:01.000Z] listening" +:+ String "010" ""));
              "info.log" := Fs.mkFile 1714557600000 "" ]}).
  reflexivity.
Defined.

Section LogDirectory.

Lemma createDefaultFiles_files (now : Z) (dir : string) (logFiles : list string) :
  forall (w : World) (dd : gmap string Fs.File),
    fs w !! dir = Some dd ->
    exists dd',
      createDefaultFiles now dir logFiles w = (Js.Normal tt, set_fs (<[dir := dd']>) w)
      /\ (forall f file, dd !! f = Some file -> dd' !! f = Some file)
      /\ (forall f, f ∈ logFiles -> is_Some (dd' !! f))
      /\ (forall f, dd !! f = None -> f ∉ logFiles -> dd' !! f = None)
      /\ (forall f, dd !! f = None -> f ∈ logFiles -> dd' !! f = Some (Fs.mkFile now "")).
Proof.
  induction logFiles as [|logFile rest IH]; intros w dd Hdd.
  - exists dd. split.
    + cbn [createDefaultFiles]. unfold mret, Js.M_ret. f_equal.
      destruct w. unfold set_fs. cbn in *. f_equal. symmetry. apply insert_id, Hdd.
    + split; [auto|]. split; [intros f Hf; apply elem_of_nil in Hf; contradiction|].
      split; [auto|]. intros f _ Hf. apply elem_of_nil in Hf. contradiction.
  - rewrite (createDefaultFiles_cons now dir logFile rest w dd Hdd).
    destruct (dd !! logFile) as [file0|] eqn:Hfile.
    + destruct (IH w dd Hdd) as (dd' & E & Hkeep & Hdef & Hnone & Hnew).
      exists dd'. split; [exact E|]. split; [exact Hkeep|]. split; [|split].
      * intros f Hf. apply elem_of_cons in Hf as [->|Hf]; [|apply Hdef, Hf].
        exists file0. apply Hkeep, Hfile.
      * intros f Hf Hnot. apply Hnone; [exact Hf|]. intros Hin. apply Hnot.
        apply elem_of_cons. right. exact Hin.
      * intros f Hf Hin. apply elem_of_cons in Hin as [->|Hin]; [congruence|].
        apply Hnew; assumption.
    + set (w1 := set_fs _ w).
      destruct (IH w1 (<[logFile := Fs.mkFile now ""]> dd)) as (dd' & E & Hkeep & Hdef & Hnone & Hnew).
      { subst w1. cbn [fs set_fs]. rewrite lookup_insert, decide_True by reflexivity.
        reflexivity. }
      exists dd'. split.
      { rewrite E. f_equal. subst w1. unfold set_fs. cbn [db fs logStreams streamed sockets
          clients containerStreams connections calls]. f_equal. apply insert_insert_eq. }
      split; [|split; [|split]].
      * intros f file Hf. apply Hkeep. rewrite lookup_insert_ne; [exact Hf|congruence].
      * intros f Hf. apply elem_of_cons in Hf as [->|Hf]; [|apply Hdef, Hf].
        exists (Fs.mkFile now ""). apply Hkeep. rewrite lookup_insert.
        rewrite decide_True by reflexivity. reflexivity.
      * intros f Hf Hnot. apply Hnone.
        -- rewrite lookup_insert_ne; [exact Hf|]. intros ->. apply Hnot.
           apply elem_of_cons. left. reflexivity.
        -- intros Hin. apply Hnot. apply elem_of_cons. right. exact Hin.
      * intros f Hf Hin. destruct (decide (f = logFile)) as [->|Hne].
        -- apply Hkeep. rewrite lookup_insert, decide_True by reflexivity. reflexivity.
        -- apply elem_of_cons in Hin as [->|Hin]; [contradiction|].
           apply Hnew; [|exact Hin]. rewrite lookup_insert_ne; [exact Hf|congruence].
Qed.

Lemma createContainerLogDirectory_run (now : Z) (containerId : string) (w : World) :
  exists dd',
    createContainerLogDirectory now containerId w
    = (Js.Normal tt,
       set_fs (fun t => <[getContainerLogPath containerId := dd']> t) w)
    /\ (forall f file,
          file_at (fs w) (getContainerLogPath containerId) f = Some file ->
          dd' !! f = Some file)
    /\ (forall f, f ∈ ["application.log"; "startup.log"; "error.log"] -> is_Some (dd' !! f))
    /\ (forall f, file_at (fs w) (getContainerLogPath containerId) f = None ->
                  dd' !! f = if bool_decide (f ∈ ["application.log"; "startup.log";
                                                  "error.log"])
                             then Some (Fs.mkFile now "") else None).
Proof.
  set (dir := getContainerLogPath containerId).
  set (dd0 := default ∅ (fs w !! dir)).
  set (w0 := set_fs (fun t => match t !! dir with
                              | Some _ => t
                              | None => <[dir := ∅]> t
                              end) w).
  assert (Hdd0 : fs w0 !! dir = Some dd0).
  { subst w0 dd0. cbn [fs set_fs]. destruct (fs w !! dir) as [d|] eqn:E.
    - rewrite E. reflexivity.
    - rewrite lookup_insert, decide_True by reflexivity. reflexivity. }
  destruct (createDefaultFiles_files now dir ["application.log"; "startup.log"; "error.log"]
              w0 dd0 Hdd0) as (dd' & E & Hkeep & Hdef & Hnone & Hnew).
  assert (Hfile : forall f, file_at (fs w) dir f = dd0 !! f).
  { intros f. unfold file_at. subst dd0. destruct (fs w !! dir); [reflexivity|].
    cbn. rewrite lookup_empty. reflexivity. }
  exists dd'. split.
  { unfold createContainerLogDirectory. fold dir.
    erewrite bind_normal; [|unfold mkdir, Js.modify; reflexivity].
    fold w0. rewrite E. f_equal. subst w0. unfold set_fs.
    cbn [db fs logStreams streamed sockets clients containerStreams connections calls].
    f_equal. destruct (fs w !! dir); [reflexivity|]. apply insert_insert_eq. }
  split; [intros f file Hf; apply Hkeep; rewrite <- Hfile; exact Hf|].
  split; [exact Hdef|].
  intros f Hf. rewrite Hfile in Hf. case_bool_decide as Hin.
  - apply Hnew; assumption.
  - apply Hnone; assumption.
Qed.

(** X18.  The log directory of a container.  Creating it never
    raises, leaves every file that was there exactly as it was
    (content and modification time), creates the three default files
    empty when they are missing and nothing else, and leaves the
    other directories alone; doing it again, at any later time,
    changes nothing. *)
Theorem createContainerLogDirectory_idempotent (now now' : Z) (containerId : string)
    (w : World) :
  exists w1,
    createContainerLogDirectory now containerId w = (Js.Normal tt, w1)
    /\ (forall f file,
          file_at (fs w) (getContainerLogPath containerId) f = Some file ->
          file_at (fs w1) (getContainerLogPath containerId) f = Some file)
    /\ (forall f,
          file_at (fs w) (getContainerLogPath containerId) f = None ->
          file_at (fs w1) (getContainerLogPath containerId) f
          = if bool_decide (f ∈ ["application.log"; "startup.log"; "error.log"])
            then Some (Fs.mkFile now "") else None)
    /\ (forall d, d <> getContainerLogPath containerId -> fs w1 !! d = fs w !! d)
    /\ createContainerLogDirectory now' containerId w1 = (Js.Normal tt, w1).
Proof.
  destruct (createContainerLogDirectory_run now containerId w)
    as (dd' & E & Hkeep & Hdef & Hnew).
  set (dir := getContainerLogPath containerId) in *.
  set (w1 := set_fs (fun t => <[dir := dd']> t) w) in *.
  assert (Hat : forall f, file_at (fs w1) dir f = dd' !! f).
  { intros f. unfold file_at. subst w1. cbn [fs set_fs].
    rewrite lookup_insert, decide_True by reflexivity. reflexivity. }
  exists w1. split; [exact E|].
  split; [intros f file Hf; rewrite Hat; apply Hkeep, Hf|].
  split; [intros f Hf; rewrite Hat; apply Hnew, Hf|].
  split.
  { intros d Hd. subst w1. cbn [fs set_fs]. apply lookup_insert_ne. congruence. }
  destruct (createContainerLogDirectory_run now' containerId w1)
    as (dd'' & E' & Hkeep' & Hdef' & Hnew').
  fold dir in E', Hkeep', Hnew'. rewrite E'. f_equal.
  assert (Hsame : dd'' = dd').
  { apply map_eq. intros f. destruct (dd' !! f) as [file|] eqn:Hf.
    - apply Hkeep'. rewrite Hat. exact Hf.
    - rewrite (Hnew' f) by (rewrite Hat; exact Hf).
      rewrite bool_decide_eq_false_2; [reflexivity|].
      intros Hin. destruct (Hdef f Hin) as [x Hx]. congruence. }
  rewrite Hsame. subst w1. unfold set_fs.
  cbn [db fs logStreams streamed sockets clients containerStreams connections calls].
  f_equal. apply insert_insert_eq.
Qed.

End LogDirectory.

Section Rotation.

Lemma rename_run (dir from to : string) (w : World) (d : gmap string Fs.File)
    (f : Fs.File) :
  fs w !! dir = Some d -> d !! from = Some f ->
  rename dir from to w
  = (Js.Normal tt, set_fs (<[dir := <[to := f]> (delete from d)]>) w).
Proof.
  intros Hd Hf. unfold rename, mbind, Js.M_bind, Js.get, Js.modify.
  rewrite Hd, Hf. reflexivity.
Qed.

Lemma writeFile_run (now : Z) (path : string * string) (data : string) (w : World)
    (d : gmap string Fs.File) :
  fs w !! path.1 = Some d ->
  writeFile now path data w
  = (Js.Normal tt, set_fs (<[path.1 := <[path.2 := Fs.mkFile now data]> d]>) w).
Proof.
  intros Hd. unfold writeFile, mbind, Js.M_bind, Js.get, Js.modify. rewrite Hd. reflexivity.
Qed.

(** Files are never lost by [writeLog]. *)
Lemma writeLog_keeps_files (now : Z) (timestamp containerId content logType : string)
    (w : World) (d g : string) :
  is_Some (file_at (fs w) d g) ->
  is_Some (file_at (fs (writeLog now timestamp containerId content logType w).2) d g).
Proof.
  intros Hg.
  destruct (createContainerLogDirectory_run now containerId w)
    as (dd' & E1 & Hkeep & _ & _).
  set (dir := getContainerLogPath containerId) in *.
  set (w1 := set_fs (fun t => <[dir := dd']> t) w) in *.
  assert (Hdd : fs w1 !! (getLogFilePath containerId logType).1 = Some dd').
  { subst w1. cbn [fs set_fs getLogFilePath fst]. fold dir.
    rewrite lookup_insert, decide_True by reflexivity. reflexivity. }
  assert (Hfs : exists x,
             fs (writeLog now timestamp containerId content logType w).2
             = <[dir := <[logType +:+ ".log" := x]> dd']> (fs w1)).
  { unfold writeLog. rewrite (bind_normal _ _ _ _ _ E1).
    rewrite (bind_normal _ _ _ _ _
               (appendFile_run now (getLogFilePath containerId logType) _ w1 dd' Hdd)).
    rewrite (bind_normal _ _ _ _ _ (findById_run containerId _)).
    destruct (Container.new <$> List.find _ _) as [c|].
    - rewrite (bind_normal _ _ _ _ _ (addLog_run _ _ _ _)).
      rewrite notifyLogUpdate_streamed. cbn [snd]. eexists.
      destruct (logStreams _ !! containerId); reflexivity.
    - rewrite (bind_normal (mret tt) _ _ _ tt eq_refl).
      rewrite notifyLogUpdate_streamed. cbn [snd]. eexists.
      destruct (logStreams _ !! containerId); reflexivity. }
  destruct Hfs as [x ->]. rewrite file_at_insert.
  destruct (decide (dir = d)) as [<-|Hd].
  - destruct (decide (logType +:+ ".log" = g)) as [_|_]; [eauto|].
    destruct Hg as [file Hfile]. exists file. apply Hkeep, Hfile.
  - subst w1. cbn [fs set_fs]. unfold file_at in *.
    rewrite lookup_insert_ne by exact Hd. exact Hg.
Qed.

(** What the loop of [rotateLogs] does with one entry of the
    directory. *)
Lemma rotateFile_spec (clock : string -> RotationClock) (containerId : string)
    (maxSize : Z) (f : string) (w : World) (fileStat : Fs.File) :
  let dir := getContainerLogPath containerId in
  let r := rotatedName f (rotated_iso (clock f)) in
  file_at (fs w) dir f = Some fileStat ->
  exists w',
    rotateFile clock containerId maxSize f w = (Js.Normal tt, w')
    /\ Schema.containers (db w') = Schema.containers (db w)
    /\ (forall g, is_Some (file_at (fs w) dir g) -> is_Some (file_at (fs w') dir g))
    /\ if rotates maxSize f (Fs.content fileStat)
       then (r <> f -> r <> "info.log" -> contentAt w' (dir, r) = Fs.content fileStat)
            /\ (f <> "info.log" -> contentAt w' (dir, f) = "")
            /\ (forall p, p <> (dir, f) -> p <> (dir, r) -> p <> (dir, "info.log") ->
                          contentAt w' p = contentAt w p)
       else w' = w.
Proof.
  intros dir r Hf. unfold rotateFile, rotates. fold dir.
  destruct (endsWith ".log" f); cbn [andb];
    [|exists w; repeat split; auto].
  unfold mbind at 1, Js.M_bind at 1, Js.get at 1. cbv beta iota. rewrite Hf.
  unfold stat_size.
  destruct (maxSize <? byteLength (Fs.content fileStat));
    [|exists w; repeat split; auto].
  fold r.
  assert (Hd : exists d, fs w !! dir = Some d /\ d !! f = Some fileStat).
  { unfold file_at in Hf. destruct (fs w !! dir) as [d|]; [|discriminate].
    exists d. split; [reflexivity|exact Hf]. }
  destruct Hd as (d & Hd & Hdf).
  rewrite (bind_normal _ _ _ _ _ (rename_run dir f r w d fileStat Hd Hdf)).
  set (w1 := set_fs _ w).
  set (d1 := <[r := fileStat]> (delete f d)).
  assert (Hd1 : fs w1 !! (dir, f).1 = Some d1).
  { subst w1. cbn [fs set_fs fst]. rewrite lookup_insert, decide_True by reflexivity.
    reflexivity. }
  rewrite (bind_normal _ _ _ _ _
             (writeFile_run (truncated_ms (clock f)) (dir, f) "" w1 d1 Hd1)).
  cbn [fst snd]. set (w2 := set_fs _ w1).
  set (d2 := <[f := Fs.mkFile (truncated_ms (clock f)) ""]> d1).
  assert (Hat2 : forall d' g, file_at (fs w2) d' g
                              = if decide (dir = d') then d2 !! g else file_at (fs w) d' g).
  { intros d' g. subst w2 w1. cbn [fs set_fs]. rewrite file_at_insert.
    destruct (decide (dir = d')) as [<-|Hne].
    - subst d2. destruct (decide (f = g)) as [<-|Hfg].
      + rewrite lookup_insert, decide_True by reflexivity. reflexivity.
      + rewrite lookup_insert_ne by exact Hfg. reflexivity.
    - unfold file_at. rewrite lookup_insert_ne by exact Hne. reflexivity. }
  pose proof (writeLog_spec (logged_ms (clock f)) (logged_iso (clock f)) containerId
                ("Log file rotated: " +:+ f) "info" w2) as (Hn & _ & Hother & Hdb).
  pose proof (writeLog_keeps_files (logged_ms (clock f)) (logged_iso (clock f)) containerId
                ("Log file rotated: " +:+ f) "info" w2) as Hkeep.
  destruct (writeLog _ _ _ _ _ w2) as [res w3] eqn:E3.
  cbn [fst snd] in Hn, Hother, Hdb, Hkeep. subst res.
  change (getLogFilePath containerId "info") with (dir, "info.log") in Hother.
  exists w3. split; [reflexivity|]. split; [exact Hdb|].
  split.
  { intros g Hg. apply Hkeep. rewrite Hat2, decide_True by reflexivity.
    subst d2 d1. destruct (decide (f = g)) as [<-|Hfg].
    - rewrite lookup_insert, decide_True by reflexivity. eauto.
    - rewrite lookup_insert_ne by exact Hfg. destruct (decide (r = g)) as [<-|Hrg].
      + rewrite lookup_insert, decide_True by reflexivity. eauto.
      + rewrite lookup_insert_ne by exact Hrg. rewrite lookup_delete_ne by exact Hfg.
        unfold file_at in Hg. rewrite Hd in Hg. exact Hg. }
  split; [|split].
  - intros Hrf Hri. rewrite Hother by congruence. unfold contentAt. cbn [fst snd].
    rewrite Hat2, decide_True by reflexivity. subst d2 d1.
    rewrite lookup_insert_ne by congruence.
    rewrite lookup_insert, decide_True by reflexivity. reflexivity.
  - intros Hfi. rewrite Hother by congruence. unfold contentAt. cbn [fst snd].
    rewrite Hat2, decide_True by reflexivity. subst d2.
    rewrite lookup_insert, decide_True by reflexivity. reflexivity.
  - intros [pd pf] Hpf Hpr Hpi. rewrite Hother by exact Hpi. unfold contentAt.
    cbn [fst snd]. rewrite Hat2. destruct (decide (dir = pd)) as [<-|Hne]; [|reflexivity].
    subst d2 d1. rewrite lookup_insert_ne by congruence.
    rewrite lookup_insert_ne by congruence. rewrite lookup_delete_ne by congruence.
    unfold file_at. rewrite Hd. reflexivity.
Qed.

Lemma rotateFiles_spec (clock : string -> RotationClock) (containerId : string)
    (maxSize : Z) (w : World) (d : gmap string Fs.File) :
  let dir := getContainerLogPath containerId in
  let r := fun f => rotatedName f (rotated_iso (clock f)) in
  let settled := fun (f : string) (cur : World) =>
    if rotates maxSize f (contentAt w (dir, f))
    then contentAt cur (dir, r f) = contentAt w (dir, f) /\ contentAt cur (dir, f) = ""
    else contentAt cur (dir, f) = contentAt w (dir, f) in
  fs w !! dir = Some d ->
  (forall f, is_Some (d !! f) -> endsWith ".log" f = true ->
             d !! r f = None /\ r f <> "info.log"
             /\ forall f', is_Some (d !! f') -> endsWith ".log" f' = true ->
                           r f' = r f -> f' = f) ->
  forall todo done cur,
    NoDup (done ++ todo) ->
    (forall f, f ∈ done ++ todo -> is_Some (d !! f)) ->
    Schema.containers (db cur) = Schema.containers (db w) ->
    (forall g, g ∈ todo ->
               is_Some (file_at (fs cur) dir g)
               /\ (g <> "info.log" -> contentAt cur (dir, g) = contentAt w (dir, g))) ->
    (forall f, f ∈ done -> f <> "info.log" -> settled f cur) ->
    exists w',
      rotateFiles clock containerId maxSize todo cur = (Js.Normal tt, w')
      /\ Schema.containers (db w') = Schema.containers (db w)
      /\ forall f, f ∈ done ++ todo -> f <> "info.log" -> settled f w'.
Proof.
  intros dir r settled Hd Hfresh.
  induction todo as [|f todo IH]; intros done cur Hnd Hin Hdb Htodo Hdone.
  - exists cur. split; [reflexivity|]. split; [exact Hdb|].
    rewrite app_nil_r. exact Hdone.
  - cbn [rotateFiles].
    destruct (Htodo f) as [[fileStat Hf] Hcontent]; [apply elem_of_cons; left; reflexivity|].
    destruct (rotateFile_spec clock containerId maxSize f cur fileStat Hf)
      as (w1 & E1 & Hdb1 & Hkeep & Hstep).
    fold dir in Hkeep, Hstep. fold (r f) in Hstep.
    rewrite (bind_normal _ _ _ _ _ E1).
    assert (Hcur : contentAt cur (dir, f) = Fs.content fileStat).
    { unfold contentAt. cbn [fst snd]. rewrite Hf. reflexivity. }
    assert (Hf_in : is_Some (d !! f)).
    { apply Hin, elem_of_app. right. apply elem_of_cons. left. reflexivity. }
    assert (Hnd' : NoDup ((done ++ [f]) ++ todo)).
    { rewrite <- app_assoc. exact Hnd. }
    assert (Hf_done : f ∉ done).
    { intros Hx. apply NoDup_app in Hnd as (_ & Hdisj & _). apply (Hdisj f Hx).
      apply elem_of_cons. left. reflexivity. }
    assert (Hf_todo : f ∉ todo).
    { apply NoDup_app in Hnd as (_ & _ & Hnd). apply NoDup_cons in Hnd as [Hx _]. exact Hx. }
    assert (Hsome_ne : forall a b, is_Some (d !! a) -> d !! b = None -> a <> b).
    { intros a b [x Ha] Hb ->. congruence. }
    destruct (IH (done ++ [f]) w1) as (w' & E & Hdb' & Hall).
    + exact Hnd'.
    + intros g Hg. apply Hin. rewrite <- app_assoc in Hg. exact Hg.
    + congruence.
    + intros g Hg.
      assert (Hg_in : is_Some (d !! g)).
      { apply Hin, elem_of_app. right. apply elem_of_cons. right. exact Hg. }
      destruct (Htodo g) as [Hex Hc]; [apply elem_of_cons; right; exact Hg|].
      split; [apply Hkeep, Hex|]. intros Hgi. rewrite <- (Hc Hgi).
      destruct (rotates maxSize f (Fs.content fileStat)) eqn:Hrot; [|subst w1; reflexivity].
      destruct Hstep as (_ & _ & Hother).
      apply andb_true_iff in Hrot as [Hends _].
      destruct (Hfresh f Hf_in Hends) as (Hnone & _ & _).
      apply Hother.
      * intros [= ->]. contradiction.
      * intros [= ->]. exact (Hsome_ne _ _ Hg_in Hnone eq_refl).
      * congruence.
    + intros f0 Hf0 Hf0i. apply elem_of_app in Hf0 as [Hf0|Hf0].
      * (* a file settled before *)
        specialize (Hdone f0 Hf0 Hf0i).
        assert (Hne : f0 <> f) by (intros ->; contradiction).
        assert (Hf0_in : is_Some (d !! f0)).
        { apply Hin, elem_of_app. left. exact Hf0. }
        destruct (rotates maxSize f (Fs.content fileStat)) eqn:Hrot; [|subst w1; exact Hdone].
        destruct Hstep as (_ & _ & Hother).
        apply andb_true_iff in Hrot as [Hends _].
        destruct (Hfresh f Hf_in Hends) as (Hnone & Hinfo & Hinj).
        assert (Hsame : contentAt w1 (dir, f0) = contentAt cur (dir, f0)).
        { apply Hother.
          - congruence.
          - intros [= ->]. exact (Hsome_ne _ _ Hf0_in Hnone eq_refl).
          - congruence. }
        unfold settled in *.
        destruct (rotates maxSize f0 (contentAt w (dir, f0))) eqn:Hrot0.
        -- apply andb_true_iff in Hrot0 as [Hends0 _].
           destruct (Hfresh f0 Hf0_in Hends0) as (Hnone0 & Hinfo0 & _).
           destruct Hdone as [Hr Hempty]. rewrite Hsame. split; [|exact Hempty].
           rewrite <- Hr. apply Hother.
           ++ intros [= Hx]. exact (Hsome_ne _ _ Hf_in Hnone0 (eq_sym Hx)).
           ++ intros [= Hx]. apply Hne. apply Hinj; assumption.
           ++ congruence.
        -- rewrite Hsame. exact Hdone.
      * (* the file of this step *)
        apply list_elem_of_singleton in Hf0. subst f0.
        specialize (Hcontent Hf0i). unfold settled. rewrite <- Hcontent, Hcur.
        destruct (rotates maxSize f (Fs.content fileStat)) eqn:Hrot.
        -- destruct Hstep as (Hr & Hempty & _).
           apply andb_true_iff in Hrot as [Hends _].
           destruct (Hfresh f Hf_in Hends) as (Hnone & Hinfo & _).
           split; [|apply Hempty, Hf0i]. apply Hr; [|exact Hinfo].
           intros Hx. exact (Hsome_ne _ _ Hf_in Hnone (eq_sym Hx)).
        -- subst w1. exact Hcur.
    + exists w'. split; [exact E|]. split; [exact Hdb'|].
      intros f0 Hf0. apply Hall. rewrite <- app_assoc. exact Hf0.
Qed.

(** X19.  Rotation loses no log text.  When the rotated names are free
    (no file of the directory carries one, none is [info.log], and two
    files do not share one), [rotateLogs] completes, and for every
    file of the directory other than [info.log]: if its name ends in
    [.log] and its size exceeds [maxSize], its whole content is found
    under the rotated name and the file itself is empty; otherwise its
    content is unchanged.  The rows of [containers] are unchanged. *)
Theorem rotateLogs_keeps_content (clock : string -> RotationClock) (containerId : string)
    (maxSize : Z) (w : World) (d : gmap string Fs.File) :
  let dir := getContainerLogPath containerId in
  let r := fun f => rotatedName f (rotated_iso (clock f)) in
  fs w !! dir = Some d ->
  (forall f, is_Some (d !! f) -> endsWith ".log" f = true ->
             d !! r f = None /\ r f <> "info.log"
             /\ forall f', is_Some (d !! f') -> endsWith ".log" f' = true ->
                           r f' = r f -> f' = f) ->
  exists w',
    rotateLogs clock containerId maxSize w = (Js.Normal tt, w')
    /\ Schema.containers (db w') = Schema.containers (db w)
    /\ forall f, is_Some (d !! f) -> f <> "info.log" ->
         if rotates maxSize f (contentAt w (dir, f))
         then contentAt w' (dir, r f) = contentAt w (dir, f)
              /\ contentAt w' (dir, f) = ""
         else contentAt w' (dir, f) = contentAt w (dir, f).
Proof.
  intros dir r Hd Hfresh.
  assert (Hmem : forall f, f ∈ map fst (map_to_list d) <-> is_Some (d !! f)).
  { intros f. rewrite list_elem_of_In, in_map_iff. split.
    - intros ([f' x] & <- & Hx). apply list_elem_of_In, elem_of_map_to_list in Hx. eauto.
    - intros [x Hx]. exists (f, x). split; [reflexivity|].
      apply list_elem_of_In, elem_of_map_to_list, Hx. }
  destruct (rotateFiles_spec clock containerId maxSize w d Hd Hfresh
              (map fst (map_to_list d)) [] w) as (w' & E & Hdb & Hall).
  - apply (NoDup_fst_map_to_list d).
  - intros f Hf. apply Hmem, Hf.
  - reflexivity.
  - intros g Hg. apply Hmem in Hg. split; [|reflexivity].
    unfold file_at. fold dir. rewrite Hd. exact Hg.
  - intros f Hf. apply elem_of_nil in Hf. contradiction.
  - exists w'. split; [|split; [exact Hdb|]].
    + unfold rotateLogs. apply try_catch_run_normal.
      unfold mbind, Js.M_bind, Js.get. fold dir. rewrite Hd. exact E.
    + intros f Hf Hfi. apply Hall; [apply Hmem, Hf|exact Hfi].
Qed.

End Rotation.


Lemma rotateLogs_keeps_content_witness :
  exists w',
    LogService.rotateLogs Samples.rotation_clock "c1" 10 Samples.logged_world
    = (Js.Normal tt, w')
    /\ Schema.containers (db w') = Schema.containers (db Samples.logged_world)
    /\ LogService.contentAt w'
         ("container-c1", "application.log.2024-06-01T00-00-00-000Z")
       = LogService.contentAt Samples.logged_world ("container-c1", "application.log")
    /\ LogService.contentAt w' ("container-c1", "application.log") = "".
Proof.
  destruct (rotateLogs_keeps_content Samples.rotation_clock "c1" 10 Samples.logged_world
              {[ "application.log" :=
                   Fs.mkFile 1714557601000
                             ("[2024-05-01T10:00:00.000Z] boot ok" +:+ String "010"
                              ("[2024-05-01T10:00:01.000Z] listening" +:+ String "010" ""));
                 "info.log" := Fs.mkFile 1714557600000 "" ]} eq_refl)
    as (w' & E & Hdb & Hfiles).
  - intros f Hf Hends.
    assert (Hcases : f = "application.log" \/ f = "info.log").
    { destruct (decide (f = "application.log")) as [?|Hne1]; [left; assumption|].
      destruct (decide (f = "info.log")) as [?|Hne2]; [right; assumption|].
      exfalso. destruct Hf as [x Hx].
      rewrite lookup_insert_ne in Hx by congruence.
      rewrite lookup_singleton_ne in Hx by congruence. discriminate. }
    split; [|split].
    + destruct Hcases as [-> | ->]; reflexivity.
    + destruct Hcases as [-> | ->]; discriminate.
    + intros f' Hf' _ Heq.
      assert (Hcases' : f' = "application.log" \/ f' = "info.log").
      { destruct (decide (f' = "application.log")) as [?|Hne1]; [left; assumption|].
        destruct (decide (f' = "info.log")) as [?|Hne2]; [right; assumption|].
        exfalso. destruct Hf' as [x Hx].
        rewrite lookup_insert_ne in Hx by congruence.
        rewrite lookup_singleton_ne in Hx by congruence. discriminate. }
      destruct Hcases as [-> | ->], Hcases' as [-> | ->];
        first [reflexivity | discriminate Heq].
  - exists w'. split; [exact E|]. split; [exact Hdb|].
    apply (Hfiles "application.log"); [eexists; reflexivity|discriminate].
Defined.

End Logs.

(** ** WebSocketService: subscriptions, the sweep, the messages *)

Section Sockets.

Import Wire WebSocketService.

Section Subscriptions.

Lemma subscribersOf_subscribe (containerId : string) (ws : nat) (w : World)
    (other : string) :
  subscribersOf (subscribeToContainerLogs containerId ws w).2 other
  = if bool_decide (other = containerId) then subscribersOf w other ∪ {[ws]}
    else subscribersOf w other.
Proof.
  unfold subscribersOf, subscribeToContainerLogs, Js.modify.
  cbn [snd containerStreams set_containerStreams].
  case_bool_decide as Hc.
  - subst other. destruct (containerStreams w !! containerId) as [s|] eqn:E.
    + rewrite lookup_alter, decide_True by reflexivity. rewrite E. reflexivity.
    + rewrite lookup_alter, decide_True by reflexivity. rewrite lookup_insert.
      rewrite decide_True by reflexivity. reflexivity.
  - destruct (containerStreams w !! containerId) as [s|] eqn:E.
    + rewrite lookup_alter, decide_False by congruence. reflexivity.
    + rewrite lookup_alter, decide_False by congruence.
      rewrite lookup_insert, decide_False by congruence. reflexivity.
Qed.

Lemma containerStreams_unsubscribe (containerId : string) (ws : nat) (w : World) :
  containerStreams (unsubscribeFromContainerLogs containerId ws w).2
  = match containerStreams w !! containerId with
    | Some subscribers =>
        if bool_decide (size (subscribers ∖ {[ws]}) = 0%nat)
        then delete containerId (containerStreams w)
        else <[containerId := subscribers ∖ {[ws]}]> (containerStreams w)
    | None => containerStreams w
    end.
Proof. reflexivity. Qed.

Lemma subscribersOf_unsubscribe (containerId : string) (ws : nat) (w : World)
    (other : string) :
  subscribersOf (unsubscribeFromContainerLogs containerId ws w).2 other
  = if bool_decide (other = containerId) then subscribersOf w other ∖ {[ws]}
    else subscribersOf w other.
Proof.
  unfold subscribersOf. rewrite containerStreams_unsubscribe.
  destruct (containerStreams w !! containerId) as [s|] eqn:E.
  - case_bool_decide as Hsize; case_bool_decide as Hc.
    + subst other. rewrite lookup_delete, decide_True by reflexivity. rewrite E.
      cbn [default from_option Datatypes.id]. apply size_empty_inv in Hsize.
      unfold_leibniz. set_solver.
    + rewrite lookup_delete, decide_False by congruence. reflexivity.
    + subst other. rewrite lookup_insert, decide_True by reflexivity. rewrite E. reflexivity.
    + rewrite lookup_insert, decide_False by congruence. reflexivity.
  - case_bool_decide as Hc; [|reflexivity]. subst other. rewrite E.
    cbn [default from_option Datatypes.id]. set_solver.
Qed.

(** X20.  The subscriber sets.  After [subscribeToContainerLogs] the
    socket is in the set of the container and after
    [unsubscribeFromContainerLogs] it is not, every other membership
    being as before; [unsubscribeFromContainerLogs] never leaves an
    empty set in the map; and when the socket was not subscribed (and
    the map held no empty set for the container), subscribing then
    unsubscribing puts the map back exactly as it was. *)
Theorem subscribe_unsubscribe (containerId : string) (ws : nat) (w : World) :
  (forall other x,
      x ∈ subscribersOf (subscribeToContainerLogs containerId ws w).2 other
      <-> x ∈ subscribersOf w other \/ (other = containerId /\ x = ws))
  /\ (forall other x,
      x ∈ subscribersOf (unsubscribeFromContainerLogs containerId ws w).2 other
      <-> x ∈ subscribersOf w other /\ ~ (other = containerId /\ x = ws))
  /\ containerStreams (unsubscribeFromContainerLogs containerId ws w).2 !! containerId
     <> Some ∅
  /\ (ws ∉ subscribersOf w containerId ->
      containerStreams w !! containerId <> Some ∅ ->
      containerStreams
        (unsubscribeFromContainerLogs containerId ws
           (subscribeToContainerLogs containerId ws w).2).2
      = containerStreams w).
Proof.
  split; [|split; [|split]].
  - intros other x. rewrite subscribersOf_subscribe. case_bool_decide; set_solver.
  - intros other x. rewrite subscribersOf_unsubscribe. case_bool_decide; set_solver.
  - rewrite containerStreams_unsubscribe.
    destruct (containerStreams w !! containerId) as [s|] eqn:E.
    + case_bool_decide as Hsize.
      * rewrite lookup_delete, decide_True by reflexivity. discriminate.
      * rewrite lookup_insert, decide_True by reflexivity. intros [= H].
        apply Hsize. rewrite H. apply size_empty.
    + rewrite E. discriminate.
  - intros Hnot Hne. rewrite containerStreams_unsubscribe.
    unfold subscribersOf in Hnot.
    unfold subscribeToContainerLogs, Js.modify.
    cbn [snd containerStreams set_containerStreams].
    destruct (containerStreams w !! containerId) as [s|] eqn:E.
    + cbn [default from_option Datatypes.id] in Hnot.
      rewrite lookup_alter, decide_True by reflexivity. rewrite E. cbn [fmap option_fmap option_map].
      assert (Hs : (s ∪ {[ws]}) ∖ {[ws]} = s) by (unfold_leibniz; set_solver).
      rewrite Hs. rewrite bool_decide_eq_false_2.
      * apply map_eq. intros c. rewrite lookup_insert. case_decide as Hc.
        -- subst c. symmetry. exact E.
        -- rewrite lookup_alter, decide_False by congruence. reflexivity.
      * intros Hsize. apply size_empty_inv in Hsize. apply Hne. f_equal.
        unfold_leibniz. exact Hsize.
    + rewrite lookup_alter, decide_True by reflexivity.
      rewrite lookup_insert, decide_True by reflexivity. cbn [fmap option_fmap option_map].
      assert (Hs : ((∅ : gset nat) ∪ {[ws]}) ∖ {[ws]} = ∅) by (unfold_leibniz; set_solver).
      rewrite Hs, size_empty, bool_decide_eq_true_2 by reflexivity.
      apply map_eq. intros c. rewrite lookup_delete. case_decide as Hc.
      * subst c. symmetry. exact E.
      * rewrite lookup_alter, decide_False by congruence.
        rewrite lookup_insert, decide_False by congruence. reflexivity.
Qed.

End Subscriptions.


Lemma subscribe_unsubscribe_witness :
  containerStreams
    (WebSocketService.unsubscribeFromContainerLogs "c1" 1
       (WebSocketService.subscribeToContainerLogs "c1" 1 Samples.served_world).2).2
  = containerStreams Samples.served_world.
Proof.
  apply (proj2 (proj2 (proj2 (subscribe_unsubscribe "c1" 1 Samples.served_world)))).
  - unfold WebSocketService.subscribersOf. cbn [containerStreams Samples.served_world].
    rewrite lookup_empty. apply not_elem_of_empty.
  - cbn [containerStreams Samples.served_world]. rewrite lookup_empty. discriminate.
Defined.

Section Sweep.

Lemma subscribersOf_dropSubscriber (ws : nat) (m : gmap string (gset nat)) (c : string) :
  default ∅ (dropSubscriber ws m !! c) = default ∅ (m !! c) ∖ {[ws]}.
Proof.
  unfold dropSubscriber. rewrite lookup_omap. destruct (m !! c) as [s|]; cbn.
  - case_bool_decide as Hsize; cbn; [|reflexivity].
    apply size_empty_inv in Hsize. unfold_leibniz. set_solver.
  - unfold_leibniz. set_solver.
Qed.

Lemma filter_filter_andb {A} (f g : A -> bool) (l : list A) :
  List.filter f (List.filter g l) = List.filter (fun x => g x && f x) l.
Proof.
  induction l as [|x l IH]; [reflexivity|]. cbn [List.filter].
  destruct (g x); cbn [andb List.filter]; [destruct (f x)|]; rewrite IH; reflexivity.
Qed.

Lemma filter_all {A} (l : list A) : List.filter (fun _ => true) l = l.
Proof. induction l as [|x l IH]; [reflexivity|]. cbn [List.filter]. rewrite IH. reflexivity. Qed.

Lemma NoDup_fst_unique {A B} (l : list (A * B)) (k : A) (v v' : B) :
  NoDup (map fst l) -> (k, v) ∈ l -> (k, v') ∈ l -> v = v'.
Proof.
  induction l as [|[k0 v0] l IH]; intros Hnd H1 H2.
  - apply elem_of_nil in H1. contradiction.
  - cbn [map fst] in Hnd. apply NoDup_cons in Hnd as [Hnot Hnd].
    assert (Hin : forall x, (k0, x) ∈ l -> False).
    { intros x Hx. apply Hnot. apply list_elem_of_In.
      change k0 with (fst (k0, x)). apply in_map, list_elem_of_In, Hx. }
    apply elem_of_cons in H1 as [E1|H1]; apply elem_of_cons in H2 as [E2|H2].
    + congruence.
    + exfalso. injection E1 as -> ->. exact (Hin _ H2).
    + exfalso. injection E2 as -> ->. exact (Hin _ H1).
    + exact (IH Hnd H1 H2).
Qed.

Lemma cleanupClients_spec (cs : list (string * Client)) :
  forall w : World,
    (cleanupClients cs w).1 = Js.Normal tt
    /\ sockets (cleanupClients cs w).2 = sockets w
    /\ db (cleanupClients cs w).2 = db w
    /\ connections (cleanupClients cs w).2 = connections w
    /\ clients (cleanupClients cs w).2
       = List.filter
           (fun kv => negb (existsb (fun kv' => bool_decide (kv.1 = kv'.1)
                                                 && negb (isOpen w (Wire.ws kv'.2))) cs))
           (clients w)
    /\ (forall c x,
          x ∈ subscribersOf (cleanupClients cs w).2 c
          <-> x ∈ subscribersOf w c
              /\ ~ (exists kv, kv ∈ cs /\ Wire.ws kv.2 = x /\ isOpen w x = false)).
Proof.
  induction cs as [|[clientId client] cs IH]; intros w.
  - cbn [cleanupClients existsb negb].
    split; [reflexivity|]. split; [reflexivity|]. split; [reflexivity|].
    split; [reflexivity|]. split.
    + cbn [snd mret Js.M_ret]. rewrite filter_all. reflexivity.
    + intros c x. split.
      * intros Hx. split; [exact Hx|].
        intros (kv & Hkv & _). apply elem_of_nil in Hkv. exact Hkv.
      * intros [Hx _]. exact Hx.
  - assert (E : cleanupClients ((clientId, client) :: cs) w
                = cleanupClients cs
                    (if isOpen w (Wire.ws client) then w
                     else set_containerStreams (dropSubscriber (Wire.ws client))
                            (set_clients (map_delete clientId) w))).
    { cbn [cleanupClients]. unfold mbind at 1, Js.M_bind at 1, Js.get at 1. cbv beta iota.
      destruct (isOpen w (Wire.ws client)); reflexivity. }
    rewrite E. clear E.
    destruct (isOpen w (Wire.ws client)) eqn:Hopen.
    + destruct (IH w) as (Hn & Hs & Hd & Hc & Hcl & Hsub).
      split; [exact Hn|]. split; [exact Hs|]. split; [exact Hd|]. split; [exact Hc|]. split.
      * rewrite Hcl. apply List.filter_ext. intros kv. cbn [existsb snd fst].
        rewrite Hopen. cbn [negb]. rewrite andb_false_r. reflexivity.
      * intros c x. rewrite Hsub. split; intros [H1 H2]; (split; [exact H1|]).
        -- intros (kv & Hkv & Hws & Hx). apply elem_of_cons in Hkv as [->|Hkv].
           ++ cbn [snd] in Hws. subst x. congruence.
           ++ apply H2. exists kv. auto.
        -- intros (kv & Hkv & Hws & Hx). apply H2. exists kv.
           split; [apply elem_of_cons; right; exact Hkv|]. auto.
    + set (w1 := set_containerStreams _ _).
      destruct (IH w1) as (Hn & Hs & Hd & Hc & Hcl & Hsub).
      change (isOpen w1) with (isOpen w) in *.
      split; [exact Hn|]. split; [exact Hs|]. split; [exact Hd|]. split; [exact Hc|]. split.
      * rewrite Hcl. subst w1. cbn [clients set_containerStreams set_clients].
        unfold map_delete. rewrite filter_filter_andb. apply List.filter_ext. intros kv.
        cbn [existsb snd fst]. rewrite Hopen. cbn [negb]. rewrite andb_true_r.
        rewrite negb_orb. reflexivity.
      * intros c x. rewrite Hsub.
        assert (Hw1 : subscribersOf w1 c = subscribersOf w c ∖ {[Wire.ws client]})
          by apply subscribersOf_dropSubscriber.
        rewrite Hw1, elem_of_difference, elem_of_singleton.
        split.
        -- intros [[H1 Hne] H2]. split; [exact H1|].
           intros (kv & Hkv & Hws & Hx). apply elem_of_cons in Hkv as [->|Hkv].
           ++ cbn [snd] in Hws. congruence.
           ++ apply H2. exists kv. auto.
        -- intros [H1 H2]. split; [split; [exact H1|]|].
           ++ intros ->. apply H2. exists (clientId, client).
              split; [apply elem_of_cons; left; reflexivity|]. auto.
           ++ intros (kv & Hkv & Hws & Hx). apply H2. exists kv.
              split; [apply elem_of_cons; right; exact Hkv|]. auto.
Qed.

(** X21.  The sweep.  With distinct client identifiers, [cleanup()]
    never raises, keeps exactly the client entries whose socket is
    open, takes the sockets of the entries it drops out of every
    subscriber set, leaves every other membership alone, and touches
    neither the sockets nor the database. *)
Theorem cleanup_sweeps (w : World) :
  NoDup (map fst (clients w)) ->
  (cleanup w).1 = Js.Normal tt
  /\ clients (cleanup w).2 = List.filter (fun kv => isOpen w (Wire.ws kv.2)) (clients w)
  /\ (forall c x,
        x ∈ subscribersOf (cleanup w).2 c
        <-> x ∈ subscribersOf w c
            /\ ~ (exists kv, kv ∈ clients w /\ Wire.ws kv.2 = x /\ isOpen w x = false))
  /\ sockets (cleanup w).2 = sockets w
  /\ db (cleanup w).2 = db w.
Proof.
  intros Hnd. unfold cleanup, mbind, Js.M_bind, Js.get.
  destruct (cleanupClients_spec (clients w) w) as (Hn & Hs & Hd & _ & Hcl & Hsub).
  split; [exact Hn|]. split; [|split; [exact Hsub|split; assumption]].
  rewrite Hcl. apply List.filter_ext_in. intros kv Hkv.
  destruct (isOpen w (Wire.ws kv.2)) eqn:Hopen.
  - apply negb_true_iff, not_true_iff_false. intros H.
    apply existsb_exists in H as (kv' & Hkv' & H).
    apply andb_true_iff in H as [Hk Ho]. apply bool_decide_eq_true_1 in Hk.
    assert (kv' = kv); [|subst kv'; rewrite Hopen in Ho; discriminate].
    apply list_elem_of_In in Hkv, Hkv'.
    destruct kv as [k v], kv' as [k' v']. cbn [fst] in Hk. subst k'.
    f_equal. exact (NoDup_fst_unique _ _ _ _ Hnd Hkv' Hkv).
  - apply negb_false_iff, existsb_exists. exists kv.
    split; [exact Hkv|]. rewrite bool_decide_eq_true_2 by reflexivity.
    rewrite Hopen. reflexivity.
Qed.

End Sweep.


Lemma cleanup_sweeps_witness :
  (WebSocketService.cleanup Samples.stale_world).1 = Js.Normal tt
  /\ clients (WebSocketService.cleanup Samples.stale_world).2
     = [("client_a", Wire.mkClient 1 7 "alice" "user")]
  /\ 1%nat ∈ WebSocketService.subscribersOf
               (WebSocketService.cleanup Samples.stale_world).2 "c1"
  /\ (2%nat ∉ WebSocketService.subscribersOf
                (WebSocketService.cleanup Samples.stale_world).2 "c1")
  /\ (2%nat ∉ WebSocketService.subscribersOf
                (WebSocketService.cleanup Samples.stale_world).2 "c2")
  /\ sockets (WebSocketService.cleanup Samples.stale_world).2 = sockets Samples.stale_world
  /\ db (WebSocketService.cleanup Samples.stale_world).2 = db Samples.stale_world.
Proof.
  destruct (cleanup_sweeps Samples.stale_world) as (Hn & Hcl & Hsub & Hs & Hd).
  { apply (bool_decide_unpack _). vm_compute. exact I. }
  assert (Hclosed : exists kv, kv ∈ clients Samples.stale_world /\ Wire.ws kv.2 = 2%nat
                               /\ WebSocketService.isOpen Samples.stale_world 2 = false).
  { exists ("client_b", Wire.mkClient 2 1 "bob" "admin"). split; [|split; reflexivity].
    apply elem_of_cons. right. apply elem_of_cons. left. reflexivity. }
  split; [exact Hn|]. split; [rewrite Hcl; reflexivity|]. split; [|split; [|split]].
  - apply Hsub. split; [apply (bool_decide_unpack _); vm_compute; exact I|].
    intros (kv & _ & _ & Hopen). discriminate Hopen.
  - intros H. apply Hsub in H as [_ H]. apply H. exact Hclosed.
  - intros H. apply Hsub in H as [_ H]. apply H. exact Hclosed.
  - split; assumption.
Defined.

Section Closing.

Lemma unsubscribeAll_spec (ws : nat) (l : list string) :
  forall w : World,
    (unsubscribeAll ws l w).1 = Js.Normal tt
    /\ sockets (unsubscribeAll ws l w).2 = sockets w
    /\ db (unsubscribeAll ws l w).2 = db w
    /\ clients (unsubscribeAll ws l w).2 = clients w
    /\ connections (unsubscribeAll ws l w).2 = connections w
    /\ (forall c x,
          x ∈ subscribersOf (unsubscribeAll ws l w).2 c
          <-> x ∈ subscribersOf w c /\ ~ (x = ws /\ c ∈ l)).
Proof.
  induction l as [|containerId l IH]; intros w.
  - cbn [unsubscribeAll]. repeat (split; [reflexivity|]).
    intros c x. split; [intros H; split; [exact H|]|intros [H _]; exact H].
    intros [_ Hin]. apply elem_of_nil in Hin. exact Hin.
  - assert (E : unsubscribeAll ws (containerId :: l) w
                = unsubscribeAll ws l (unsubscribeFromContainerLogs containerId ws w).2)
      by reflexivity.
    rewrite E. clear E.
    set (w1 := (unsubscribeFromContainerLogs containerId ws w).2).
    destruct (IH w1) as (Hn & Hs & Hd & Hcl & Hco & Hsub).
    split; [exact Hn|]. split; [exact Hs|]. split; [exact Hd|]. split; [exact Hcl|].
    split; [exact Hco|].
    intros c x. rewrite Hsub. subst w1. rewrite subscribersOf_unsubscribe.
    rewrite elem_of_cons. case_bool_decide as Hc.
    + subst c. rewrite elem_of_difference, elem_of_singleton. tauto.
    + split; [intros [H1 H2]|intros [H1 H2]]; (split; [exact H1|]); intros [-> Hin];
        apply H2; split; try reflexivity; tauto.
Qed.

(** X22.  Closing a connection: the ['close'] handler never raises,
    removes the client entry registered by the connection's last
    authentication, and takes the socket out of the subscriber set of
    every container the connection had subscribed to; every other
    membership, the sockets and the database are as before.  So when
    the connection's own list covers every set that holds the socket,
    the socket is in no subscriber set afterwards. *)
Theorem onClose_unsubscribes (ws : nat) (w : World) :
  (onClose ws w).1 = Js.Normal tt
  /\ clients (onClose ws w).2
     = match clientId (connection w ws) with
       | Some k => map_delete k (clients w)
       | None => clients w
       end
  /\ (forall c x,
        x ∈ subscribersOf (onClose ws w).2 c
        <-> x ∈ subscribersOf w c
            /\ ~ (x = ws /\ c ∈ subscribedContainers (connection w ws)))
  /\ sockets (onClose ws w).2 = sockets w
  /\ db (onClose ws w).2 = db w
  /\ ((forall c, ws ∈ subscribersOf w c -> c ∈ subscribedContainers (connection w ws)) ->
      forall c, ws ∉ subscribersOf (onClose ws w).2 c).
Proof.
  set (l := elements (subscribedContainers (connection w ws))).
  set (w1 := match clientId (connection w ws) with
             | Some k => set_clients (map_delete k) w
             | None => w
             end).
  assert (E : onClose ws w = unsubscribeAll ws l w1).
  { unfold onClose, mbind, Js.M_bind, Js.get, Js.modify. subst w1 l.
    destruct (clientId (connection w ws)); reflexivity. }
  rewrite E. destruct (unsubscribeAll_spec ws l w1) as (Hn & Hs & Hd & Hcl & Hco & Hsub).
  assert (Hsub' : forall c x,
             x ∈ subscribersOf (unsubscribeAll ws l w1).2 c
             <-> x ∈ subscribersOf w c
                 /\ ~ (x = ws /\ c ∈ subscribedContainers (connection w ws))).
  { intros c x. rewrite Hsub. subst l. rewrite elem_of_elements.
    replace (subscribersOf w1 c) with (subscribersOf w c); [reflexivity|].
    subst w1. destruct (clientId (connection w ws)); reflexivity. }
  split; [exact Hn|]. split.
  { rewrite Hcl. subst w1. destruct (clientId (connection w ws)); reflexivity. }
  split; [exact Hsub'|]. split.
  { rewrite Hs. subst w1. destruct (clientId (connection w ws)); reflexivity. }
  split.
  { rewrite Hd. subst w1. destruct (clientId (connection w ws)); reflexivity. }
  intros Hcover c Hin. apply Hsub' in Hin as [Hin Hnot]. apply Hnot.
  split; [reflexivity|]. apply Hcover, Hin.
Qed.

End Closing.


Lemma onClose_unsubscribes_witness :
  (WebSocketService.onClose 2 Samples.stale_world).1 = Js.Normal tt
  /\ clients (WebSocketService.onClose 2 Samples.stale_world).2
     = [("client_a", Wire.mkClient 1 7 "alice" "user")]
  /\ 1%nat ∈ WebSocketService.subscribersOf
               (WebSocketService.onClose 2 Samples.stale_world).2 "c1"
  /\ (forall c, 2%nat ∉ WebSocketService.subscribersOf
                          (WebSocketService.onClose 2 Samples.stale_world).2 c)
  /\ sockets (WebSocketService.onClose 2 Samples.stale_world).2 = sockets Samples.stale_world
  /\ db (WebSocketService.onClose 2 Samples.stale_world).2 = db Samples.stale_world.
Proof.
  destruct (onClose_unsubscribes 2 Samples.stale_world) as (Hn & Hcl & Hsub & Hs & Hd & Hall).
  split; [exact Hn|]. split; [rewrite Hcl; reflexivity|]. split; [|split; [|split; assumption]].
  - apply Hsub. split; [apply (bool_decide_unpack _); vm_compute; exact I|].
    intros [Hne _]. discriminate Hne.
  - apply Hall. intros c Hc.
    destruct (decide (c = "c1")) as [->|Hc1];
      [apply (bool_decide_unpack _); vm_compute; exact I|].
    destruct (decide (c = "c2")) as [->|Hc2];
      [apply (bool_decide_unpack _); vm_compute; exact I|].
    exfalso. unfold WebSocketService.subscribersOf in Hc.
    cbn [containerStreams Samples.stale_world] in Hc.
    rewrite !lookup_insert_ne, lookup_empty in Hc by congruence.
    apply elem_of_empty in Hc. exact Hc.
Defined.

Section Messages.

Variable jwt_verify : string -> Js.completion (Z * string * string).
Variable Date_parse : string -> option Z.
Variable engine : DockerManager.Engine.
Variable hasLogService : bool.
Variable now : string.

Lemma onlySockets_refl (w : World) : onlySockets w w.
Proof. unfold onlySockets. destruct w. reflexivity. Qed.

Lemma onlySockets_trans (w1 w2 w3 : World) :
  onlySockets w1 w2 -> onlySockets w2 w3 -> onlySockets w1 w3.
Proof.
  unfold onlySockets. intros H12 H23. rewrite H23 at 1. rewrite H12 at 1. reflexivity.
Qed.

Lemma sendMessage_run (ws : nat) (m : Message) (w : World) :
  sendMessage ws m w
  = (Js.Normal tt,
     if isOpen w ws
     then set_sockets (alter (fun s => mkSocket (readyState s) (sent s ++ [m])) ws) w
     else w).
Proof.
  unfold sendMessage, mbind, Js.M_bind, Js.get, Js.modify, mret, Js.M_ret.
  destruct (isOpen w ws); reflexivity.
Qed.

Lemma sendMessage_onlySockets (ws : nat) (m : Message) (w : World) :
  onlySockets w (sendMessage ws m w).2.
Proof.
  rewrite sendMessage_run. cbn [snd]. destruct (isOpen w ws);
    [reflexivity|apply onlySockets_refl].
Qed.

(** What a reply on [ws] does: nothing but the outbox of [ws] can
    change, by at most the one event. *)
Lemma reply_spec (ws : nat) (m : Message) (w : World) :
  exists w',
    sendMessage ws m w = (Js.Normal tt, w')
    /\ onlySockets w w'
    /\ (forall x, x <> ws -> sentOn w' x = sentOn w x)
    /\ sentOn w' ws = (if isOpen w ws then sentOn w ws ++ [m] else sentOn w ws).
Proof.
  exists (sendMessage ws m w).2.
  destruct (sendMessage_spec ws m w) as (Hn & _ & _ & _ & Hsent).
  split; [destruct (sendMessage ws m w) as [r w']; cbn in Hn; subst r; reflexivity|].
  split; [apply sendMessage_onlySockets|]. split.
  - intros x Hx. rewrite Hsent, bool_decide_eq_false_2 by exact Hx. reflexivity.
  - rewrite Hsent, bool_decide_eq_true_2 by reflexivity. reflexivity.
Qed.

Lemma try_catch_sendError (m : Js.M World unit) (ws : nat) (err err' : string) (w : World) :
  m w = sendError now ws err w ->
  Js.try_catch m (fun _ => sendError now ws err') w = sendError now ws err w.
Proof.
  intros E. unfold Js.try_catch. rewrite E. unfold sendError. rewrite sendMessage_run.
  reflexivity.
Qed.

(** X23.  A connection that has not authenticated cannot change the
    state of the server: whatever it sends (unparsable data, any
    request, an [authenticate] message without a token or with a token
    that does not verify), the handler completes without raising and
    the world is as before but for at most one [error] event added to
    the outbox of that very socket. *)
Theorem unauthenticated_changes_nothing (newClientId : string) (ws : nat)
    (data : option ClientMessage) (w : World) :
  is_authenticated (connection w ws) = false ->
  (forall message t,
      data = Some message -> msg_type message = Some "authenticate" ->
      token message = Some t -> exists e, jwt_verify t = Js.Abrupt e) ->
  exists w',
    onMessage jwt_verify Date_parse engine hasLogService now newClientId ws data w
    = (Js.Normal tt, w')
    /\ onlySockets w w'
    /\ (forall x, x <> ws -> sentOn w' x = sentOn w x)
    /\ (sentOn w' ws = sentOn w ws
        \/ exists err, sentOn w' ws = sentOn w ws ++ [error err now]).
Proof.
  intros Hauth Hverify.
  assert (Hshape :
            onMessage jwt_verify Date_parse engine hasLogService now newClientId ws data w
            = (Js.Normal tt, w)
            \/ exists err,
                onMessage jwt_verify Date_parse engine hasLogService now newClientId ws data w
                = sendError now ws err w).
  { unfold onMessage. destruct data as [message|]; [|right; eexists; reflexivity].
    match goal with |- context [Js.try_catch ?m ?h _] => set (inner := m) end.
    assert (Hinner : inner w = (Js.Normal tt, w)
                     \/ exists err, inner w = sendError now ws err w).
    { subst inner. unfold mbind, Js.M_bind, Js.get. cbv beta iota zeta.
      rewrite Hauth.
      destruct (decide (msg_type message = Some "authenticate")) as [Hty|Hty].
      - right. rewrite (bool_decide_eq_true_2 _ Hty).
        unfold handleAuthentication. destruct (Js.truthy (token message)) eqn:Htok.
        + destruct (token message) as [t|] eqn:Ht; [|discriminate Htok].
          destruct (Hverify message t eq_refl Hty Ht) as [e He].
          exists "Authentication failed". unfold Js.try_catch. cbn [negb].
          cbn [default from_option Datatypes.id].
          unfold mbind at 1, Js.M_bind at 1, DockerManager.lift. rewrite He. reflexivity.
        + exists "Token required for authentication". cbn [negb].
          apply try_catch_sendError. reflexivity.
      - rewrite (bool_decide_eq_false_2 _ Hty).
        repeat case_bool_decide; try (left; reflexivity); right; eexists; reflexivity. }
    destruct Hinner as [E|[err E]].
    - left. unfold Js.try_catch. rewrite E. reflexivity.
    - right. exists err. apply try_catch_sendError. exact E. }
  destruct Hshape as [E|[err E]].
  - exists w. split; [exact E|]. split; [apply onlySockets_refl|].
    split; [reflexivity|]. left. reflexivity.
  - rewrite E. unfold sendError.
    destruct (reply_spec ws (error err now) w) as (w' & Erun & Ho & Hother & Hws).
    exists w'. split; [exact Erun|]. split; [exact Ho|]. split; [exact Hother|].
    rewrite Hws. destruct (isOpen w ws); [right; exists err; reflexivity|left; reflexivity].
Qed.

Lemma map_set_keeps (k k' : string) (v v' : Client) (m : list (string * Client)) :
  k' <> k -> (k', v') ∈ m -> (k', v') ∈ map_set k v m.
Proof.
  intros Hne. induction m as [|[k0 v0] m IH]; intros Hin.
  - apply elem_of_nil in Hin. contradiction.
  - cbn [map_set]. case_bool_decide as Hk.
    + apply elem_of_cons in Hin as [[= <- <-]|Hin]; [congruence|].
      apply elem_of_cons. right. exact Hin.
    + apply elem_of_cons in Hin as [Hin|Hin]; apply elem_of_cons; [left; exact Hin|].
      right. apply IH, Hin.
Qed.

Lemma map_set_holds (k : string) (v : Client) (m : list (string * Client)) :
  (k, v) ∈ map_set k v m.
Proof.
  induction m as [|[k0 v0] m IH]; cbn [map_set]; [apply elem_of_cons; left; reflexivity|].
  case_bool_decide; apply elem_of_cons; [left; reflexivity|right; exact IH].
Qed.

(** X24.  Authentication.  An [authenticate] message whose token
    verifies completes without raising, binds the connection to the
    user of the token, registers a client entry for the socket under
    the fresh client identifier and answers with the [authenticated]
    event; the entries registered under other identifiers stay (also
    one that an earlier authentication of the same connection left),
    and neither the subscriber sets nor the database change. *)
Theorem authenticate_registers (newClientId : string) (ws : nat) (message : ClientMessage)
    (t : string) (uid : Z) (uname urole : string) (w : World) :
  msg_type message = Some "authenticate" ->
  token message = Some t -> t <> "" ->
  jwt_verify t = Js.Normal (uid, uname, urole) ->
  exists w',
    onMessage jwt_verify Date_parse engine hasLogService now newClientId ws (Some message) w
    = (Js.Normal tt, w')
    /\ connection w' ws
       = mkConnection (Some newClientId) (Some uid) true
                      (subscribedContainers (connection w ws))
    /\ (newClientId, mkClient ws uid uname urole) ∈ clients w'
    /\ (forall k c, k <> newClientId -> (k, c) ∈ clients w -> (k, c) ∈ clients w')
    /\ sentOn w' ws
       = (if isOpen w ws
          then sentOn w ws ++ [authenticated newClientId uid uname urole now]
          else sentOn w ws)
    /\ containerStreams w' = containerStreams w
    /\ db w' = db w.
Proof.
  intros Hty Htok Hne Hverify.
  set (w1 := set_connections
               (<[ws := mkConnection (Some newClientId) (Some uid) true
                          (subscribedContainers (connection w ws))]>)
               (set_clients (map_set newClientId (mkClient ws uid uname urole)) w)).
  assert (Hopen : isOpen w1 ws = isOpen w ws) by reflexivity.
  assert (Hsent : sentOn w1 ws = sentOn w ws) by reflexivity.
  destruct (reply_spec ws (authenticated newClientId uid uname urole now) w1)
    as (w' & Erun & Ho & _ & Hws).
  assert (Hhandle : handleAuthentication jwt_verify now newClientId ws message w
                    = (Js.Normal tt, w')).
  { unfold handleAuthentication, Js.try_catch.
    rewrite Htok. cbn [Js.truthy]. rewrite (bool_decide_eq_false_2 _ Hne). cbn [negb].
    cbn [default from_option Datatypes.id].
    unfold mbind at 1, Js.M_bind at 1, DockerManager.lift. rewrite Hverify.
    cbv beta iota.
    unfold mbind at 1, Js.M_bind at 1, Js.modify at 1.
    unfold mbind at 1, Js.M_bind at 1, set_connection, Js.get, Js.modify.
    unfold mbind at 1, Js.M_bind at 1.
    change (set_connections _ (set_clients _ w)) with w1. rewrite Erun. reflexivity. }
  exists w'. split.
  { unfold onMessage, Js.try_catch, mbind, Js.M_bind, Js.get.
    rewrite (bool_decide_eq_true_2 _ Hty), Hhandle. reflexivity. }
  unfold onlySockets in Ho. rewrite Ho.
  split.
  { unfold connection. cbn [connections set_sockets]. subst w1.
    cbn [connections set_connections set_clients]. rewrite lookup_insert.
    rewrite decide_True by reflexivity. reflexivity. }
  split; [apply map_set_holds|].
  split; [intros k c Hk Hin; apply map_set_keeps; assumption|].
  split; [rewrite <- Ho, Hws, Hopen, Hsent; reflexivity|].
  split; reflexivity.
Qed.

(** X25.  Ownership.  For a client that is not an administrator,
    on a container that another user created, the three container
    requests are refused: subscribing to its logs and asking for its
    status are answered with the one event [Access denied], running a
    command with that event (or with the complaint about a missing
    command), and nothing else happens: no subscription, no engine
    call, no log entry, no change outside the outbox of the socket. *)
Theorem non_owner_is_refused (ws : nat) (message : ClientMessage) (userId : option Z)
    (cid : string) (container : Schema.containers_row) (client : Client) (w : World) :
  msg_container_id message = Some cid -> cid <> "" ->
  Container.findById cid w = (Js.Normal (Some container), w) ->
  clientOf w ws = Some client -> role client <> "admin" ->
  userId <> Some (Schema.created_by container) ->
  handleLogSubscription Date_parse hasLogService now ws message userId w
  = sendError now ws "Access denied" w
  /\ handleContainerStatus engine now ws message userId w
     = sendError now ws "Access denied" w
  /\ (exists err, handleCommandExecution engine now ws message userId w
                  = sendError now ws err w)
  /\ (forall err, exists w',
        sendError now ws err w = (Js.Normal tt, w')
        /\ onlySockets w w'
        /\ (forall x, x <> ws -> sentOn w' x = sentOn w x)
        /\ sentOn w' ws
           = (if isOpen w ws then sentOn w ws ++ [error err now] else sentOn w ws)).
Proof.
  intros Hcid Hne Hfind Hclient Hrole Howner.
  assert (Htruthy : Js.truthy (msg_container_id message) = true).
  { rewrite Hcid. cbn [Js.truthy]. rewrite (bool_decide_eq_false_2 _ Hne). reflexivity. }
  assert (Hdenied : accessDenied w ws container userId = true).
  { unfold accessDenied. rewrite Hclient.
    rewrite (bool_decide_eq_false_2 _ Hrole), (bool_decide_eq_false_2 _ Howner).
    reflexivity. }
  split; [|split; [|split]].
  - unfold handleLogSubscription. rewrite Htruthy, Hcid. cbn [negb default from_option Datatypes.id].
    apply try_catch_sendError.
    rewrite (bind_normal _ _ _ _ _ Hfind).
    unfold mbind, Js.M_bind, Js.get. rewrite Hdenied. reflexivity.
  - unfold handleContainerStatus. rewrite Htruthy, Hcid. cbn [negb default from_option Datatypes.id].
    apply try_catch_sendError.
    rewrite (bind_normal _ _ _ _ _ Hfind).
    unfold mbind, Js.M_bind, Js.get. rewrite Hdenied. reflexivity.
  - unfold handleCommandExecution. rewrite Htruthy, Hcid.
    cbn [negb orb default from_option Datatypes.id].
    destruct (Js.truthy (command message)); cbn [negb].
    + exists "Access denied". apply try_catch_sendError.
      rewrite (bind_normal _ _ _ _ _ Hfind).
      unfold mbind, Js.M_bind, Js.get. rewrite Hdenied. reflexivity.
    + exists "Container ID and command required". apply try_catch_sendError. reflexivity.
  - intros err. unfold sendError. apply reply_spec.
Qed.

Lemma sendRecentLogs_spec (ws : nat) (cid : string) (logs : list LogEntry) :
  forall w : World,
    isOpen w ws = true ->
    exists w',
      sendRecentLogs ws cid logs w = (Js.Normal tt, w')
      /\ onlySockets w w'
      /\ sentOn w' ws = sentOn w ws ++ map (log_entry cid) logs.
Proof.
  induction logs as [|log logs IH]; intros w Hopen.
  - exists w. split; [reflexivity|]. split; [apply onlySockets_refl|].
    rewrite app_nil_r. reflexivity.
  - destruct (reply_spec ws (log_entry cid log) w) as (w1 & E1 & Ho1 & _ & Hws1).
    rewrite Hopen in Hws1.
    assert (Hopen1 : isOpen w1 ws = true).
    { destruct (sendMessage_spec ws (log_entry cid log) w) as (_ & _ & _ & Hop & _).
      rewrite E1 in Hop. cbn [snd] in Hop. rewrite Hop. exact Hopen. }
    destruct (IH w1 Hopen1) as (w' & E & Ho & Hws).
    exists w'. cbn [sendRecentLogs]. rewrite (bind_normal _ _ _ _ _ E1).
    split; [exact E|]. split; [exact (onlySockets_trans _ _ _ Ho1 Ho)|].
    rewrite Hws, Hws1, <- app_assoc. reflexivity.
Qed.

(** X26.  Subscribing.  For a container that exists and that the
    client may see, on an open socket and with the log service
    running, [subscribe_logs] completes without raising, puts the
    socket in the subscriber set of the container and the container in
    the connection's own list, touches no other membership, and sends
    the success event followed by the last entries of the container's
    application log, at most 50 of them, oldest first; neither the
    database nor the log files change. *)
Theorem subscription_delivers_recent_logs (ws : nat) (message : ClientMessage)
    (userId : option Z) (cid : string) (container : Schema.containers_row) (w : World) :
  msg_container_id message = Some cid -> cid <> "" ->
  Container.findById cid w = (Js.Normal (Some container), w) ->
  accessDenied w ws container userId = false ->
  isOpen w ws = true ->
  exists w' recent,
    handleLogSubscription Date_parse true now ws message userId w = (Js.Normal tt, w')
    /\ recent
       = map (LogService.parseLine now "application")
             (LogService.slice_last 50
                (List.filter LogService.trim_is_truthy
                   (LogService.split_lines
                      (LogService.contentAt w
                         (LogService.getLogFilePath cid "application")))))
    /\ (length recent <= 50)%nat
    /\ sentOn w' ws
       = sentOn w ws
         ++ log_subscription_success cid (Schema.name container) now
            :: map (log_entry cid) recent
    /\ (forall c x, x ∈ subscribersOf w' c
                    <-> x ∈ subscribersOf w c \/ (c = cid /\ x = ws))
    /\ subscribedContainers (connection w' ws)
       = subscribedContainers (connection w ws) ∪ {[cid]}
    /\ db w' = db w /\ fs w' = fs w.
Proof.
  clear jwt_verify engine hasLogService.
  intros Hcid Hne Hfind Hallowed Hopen.
  assert (Htruthy : Js.truthy (msg_container_id message) = true).
  { rewrite Hcid. cbn [Js.truthy]. rewrite (bool_decide_eq_false_2 _ Hne). reflexivity. }
  set (w1 := (subscribeToContainerLogs cid ws w).2).
  set (w2 := set_connections
               (<[ws := mkConnection (clientId (connection w ws))
                          (conn_userId (connection w ws))
                          (is_authenticated (connection w ws))
                          (subscribedContainers (connection w ws) ∪ {[cid]})]>) w1).
  destruct (reply_spec ws (log_subscription_success cid (Schema.name container) now) w2)
    as (w3 & E3 & Ho3 & _ & Hws3).
  assert (Hopen2 : isOpen w2 ws = true) by exact Hopen.
  rewrite Hopen2 in Hws3.
  assert (Hopen3 : isOpen w3 ws = true).
  { destruct (sendMessage_spec ws (log_subscription_success cid (Schema.name container) now)
                w2) as (_ & _ & _ & Hop & _).
    rewrite E3 in Hop. cbn [snd] in Hop. rewrite Hop. exact Hopen2. }
  set (recent := map (LogService.parseLine now "application")
                     (LogService.slice_last 50
                        (List.filter LogService.trim_is_truthy
                           (LogService.split_lines
                              (LogService.contentAt w
                                 (LogService.getLogFilePath cid "application")))))).
  assert (Eread : LogService.readLogs Date_parse now cid
                    (LogService.mkReadOptions None (Some 50) None) w3
                  = (Js.Normal recent, w3)).
  { change (LogService.readLogs Date_parse now cid
              (LogService.mkReadOptions None (Some 50) None) w3)
      with (LogService.readLogs Date_parse now cid
              (LogService.mkReadOptions (Some "application") (Some 50) None) w3).
    rewrite readLogs_content. cbv zeta. change (0 <? 50) with true. cbv iota.
    replace (LogService.contentAt w3 (LogService.getLogFilePath cid "application"))
      with (LogService.contentAt w (LogService.getLogFilePath cid "application"));
      [reflexivity|].
    unfold onlySockets in Ho3. rewrite Ho3. reflexivity. }
  destruct (sendRecentLogs_spec ws cid recent w3 Hopen3) as (w4 & E4 & Ho4 & Hws4).
  exists w4, recent. split.
  { unfold handleLogSubscription. rewrite Htruthy, Hcid.
    cbn [negb default from_option Datatypes.id].
    apply try_catch_run_normal.
    rewrite (bind_normal _ _ _ _ _ Hfind).
    unfold mbind at 1, Js.M_bind at 1, Js.get at 1. cbv beta iota.
    rewrite Hallowed.
    erewrite bind_normal; [|unfold subscribeToContainerLogs, Js.modify; reflexivity].
    erewrite bind_normal; [|unfold set_connection, mbind, Js.M_bind, Js.get, Js.modify;
                            reflexivity].
    change (set_connections _ _) with w2.
    rewrite (bind_normal _ _ _ _ _ E3). cbn [Js.when].
    apply try_catch_run_normal.
    rewrite (bind_normal _ _ _ _ _ Eread). exact E4. }
  split; [reflexivity|]. split.
  { subst recent. rewrite length_map. unfold LogService.slice_last.
    rewrite length_drop. change (Z.to_nat 50) with 50%nat. lia. }
  split; [rewrite Hws4, Hws3, <- app_assoc; reflexivity|].
  unfold onlySockets in Ho3, Ho4. rewrite Ho4, Ho3.
  split.
  { intros c x. change (subscribersOf (set_sockets _ (set_sockets _ w2)) c)
      with (subscribersOf w1 c). subst w1. rewrite subscribersOf_subscribe.
    case_bool_decide; set_solver. }
  split.
  { unfold connection. cbn [connections set_sockets]. subst w2.
    cbn [connections set_connections]. rewrite lookup_insert.
    rewrite decide_True by reflexivity. reflexivity. }
  split; reflexivity.
Qed.

Lemma split_not_nil (sep : ascii) (s : string) : LogService.split sep s <> [].
Proof.
  destruct s as [|c s]; cbn [LogService.split]; [discriminate|].
  destruct (Ascii.eqb c sep); [discriminate|].
  destruct (LogService.split sep s); discriminate.
Qed.

(** Splitting at a separator loses nothing: joining the pieces with
    the separator gives the text back. *)
Lemma join_split (sep : ascii) (s : string) :
  join (String sep "") (LogService.split sep s) = s.
Proof.
  induction s as [|c s IH]; [reflexivity|]. cbn [LogService.split].
  pose proof (split_not_nil sep s) as Hne.
  destruct (Ascii.eqb c sep) eqn:E.
  - apply Ascii.eqb_eq in E. subst c.
    destruct (LogService.split sep s) as [|p ps] eqn:Hs; [contradiction|].
    change (join (String sep "") ("" :: p :: ps))
      with ("" +:+ String sep "" +:+ join (String sep "") (p :: ps)).
    rewrite IH. reflexivity.
  - destruct (LogService.split sep s) as [|p ps] eqn:Hs; [contradiction|].
    destruct ps as [|q ps].
    + cbn [join] in *. rewrite IH. reflexivity.
    + change (join (String sep "") (String c p :: q :: ps))
        with (String c p +:+ String sep "" +:+ join (String sep "") (q :: ps)).
      change (join (String sep "") (p :: q :: ps))
        with (p +:+ String sep "" +:+ join (String sep "") (q :: ps)) in IH.
      rewrite <- IH. reflexivity.
Qed.

(** X27.  Running a command.  For a container with a [docker_id]
    that the client may use, on an open socket and a connected engine
    that accepts the command, [execute_command] completes without
    raising, asks the engine once to run in that container the
    command text cut at every space (so the pieces, joined with single
    spaces, are the text again, quotes or not), sends the
    [command_started] event and writes one info entry to the
    container's log in the database. *)
Theorem command_is_split_at_spaces (ws : nat) (message : ClientMessage)
    (userId : option Z) (cid cmd d : string) (container : Schema.containers_row)
    (w : World) :
  msg_container_id message = Some cid -> cid <> "" ->
  command message = Some cmd -> cmd <> "" ->
  Container.findById cid w = (Js.Normal (Some container), w) ->
  accessDenied w ws container userId = false ->
  Schema.docker_id container = Some d -> d <> "" ->
  DockerManager.isConnected engine = true ->
  DockerManager.docker_exec engine d (LogService.split " " cmd) = Js.Normal tt ->
  exists w' argv,
    handleCommandExecution engine now ws message userId w = (Js.Normal tt, w')
    /\ calls w' = calls w ++ [EngineExec d argv]
    /\ join " " argv = cmd
    /\ sentOn w' ws
       = (if isOpen w ws then sentOn w ws ++ [command_started cid cmd now]
          else sentOn w ws)
    /\ Schema.container_logs (db w')
       = Schema.container_logs (db w)
         ++ [Schema.mkLog (Schema.id container)
                          ("Command executed via WebSocket: " +:+ cmd) "info"]
    /\ Schema.containers (db w') = Schema.containers (db w)
    /\ containerStreams w' = containerStreams w.
Proof.
  clear jwt_verify Date_parse hasLogService.
  intros Hcid Hne Hcmd Hcne Hfind Hallowed Hd Hdne Hconn Hexec.
  assert (Ht1 : Js.truthy (msg_container_id message) = true).
  { rewrite Hcid. cbn [Js.truthy]. rewrite (bool_decide_eq_false_2 _ Hne). reflexivity. }
  assert (Ht2 : Js.truthy (command message) = true).
  { rewrite Hcmd. cbn [Js.truthy]. rewrite (bool_decide_eq_false_2 _ Hcne). reflexivity. }
  assert (Ht3 : Js.truthy (Schema.docker_id container) = true).
  { rewrite Hd. cbn [Js.truthy]. rewrite (bool_decide_eq_false_2 _ Hdne). reflexivity. }
  set (w1 := record_call (EngineExec d (LogService.split " " cmd)) w).
  assert (E1 : DockerManager.executeCommand engine d (LogService.split " " cmd) w
               = (Js.Normal tt, w1)).
  { unfold DockerManager.executeCommand. rewrite Hconn. cbn [negb].
    unfold mbind, Js.M_bind, Js.modify, DockerManager.lift. rewrite Hexec. reflexivity. }
  destruct (reply_spec ws (command_started cid cmd now) w1) as (w2 & E2 & Ho2 & _ & Hws2).
  exists (Container.addLog container ("Command executed via WebSocket: " +:+ cmd) "info"
            w2).2, (LogService.split " " cmd).
  split.
  { unfold handleCommandExecution. rewrite Ht1, Ht2, Hcid, Hcmd.
    cbn [negb orb default from_option Datatypes.id].
    apply try_catch_run_normal.
    rewrite (bind_normal _ _ _ _ _ Hfind).
    unfold mbind at 1, Js.M_bind at 1, Js.get at 1. cbv beta iota.
    rewrite Hallowed, Ht3, Hd. cbn [negb default from_option Datatypes.id].
    rewrite (bind_normal _ _ _ _ _ E1), (bind_normal _ _ _ _ _ E2). reflexivity. }
  rewrite addLog_run. cbn [snd]. unfold onlySockets in Ho2. rewrite Ho2.
  split; [reflexivity|]. split; [apply (join_split " " cmd)|].
  split; [rewrite <- Ho2; exact Hws2|].
  repeat split.
Qed.

End Messages.


Lemma unauthenticated_changes_nothing_witness :
  exists w',
    WebSocketService.onMessage Samples.reject_all Samples.no_dates Samples.idle_engine true
      "2024-05-01T10:00:05.000Z" "client_1" 1%nat
      (Some (Wire.mkClientMessage (Some "authenticate") (Some "forged") None None None))
      Samples.fresh_connection_world
    = (Js.Normal tt, w')
    /\ WebSocketService.onlySockets Samples.fresh_connection_world w'
    /\ (forall x, x <> 1%nat ->
                  WebSocketService.sentOn w' x
                  = WebSocketService.sentOn Samples.fresh_connection_world x)
    /\ (WebSocketService.sentOn w' 1 = WebSocketService.sentOn Samples.fresh_connection_world 1
        \/ exists err,
            WebSocketService.sentOn w' 1
            = WebSocketService.sentOn Samples.fresh_connection_world 1
              ++ [Wire.error err "2024-05-01T10:00:05.000Z"]).
Proof.
  apply (unauthenticated_changes_nothing Samples.reject_all Samples.no_dates
           Samples.idle_engine true "2024-05-01T10:00:05.000Z" "client_1" 1%nat
           (Some (Wire.mkClientMessage (Some "authenticate") (Some "forged") None None None))
           Samples.fresh_connection_world).
  - reflexivity.
  - intros message t _ _ _. eexists. reflexivity.
Defined.

Lemma authenticate_registers_witness :
  exists w',
    WebSocketService.onMessage Samples.accept_alice Samples.no_dates Samples.idle_engine true
      "2024-05-01T10:00:05.000Z" "client_1" 1%nat
      (Some (Wire.mkClientMessage (Some "authenticate") (Some "token-a") None None None))
      Samples.fresh_connection_world
    = (Js.Normal tt, w')
    /\ WebSocketService.connection w' 1
       = Wire.mkConnection (Some "client_1") (Some 7) true
           (Wire.subscribedContainers
              (WebSocketService.connection Samples.fresh_connection_world 1))
    /\ ("client_1", Wire.mkClient 1 7 "alice" "user") ∈ clients w'
    /\ (forall k c, k <> "client_1" -> (k, c) ∈ clients Samples.fresh_connection_world ->
                    (k, c) ∈ clients w')
    /\ WebSocketService.sentOn w' 1
       = (if WebSocketService.isOpen Samples.fresh_connection_world 1
          then WebSocketService.sentOn Samples.fresh_connection_world 1
               ++ [Wire.authenticated "client_1" 7 "alice" "user" "2024-05-01T10:00:05.000Z"]
          else WebSocketService.sentOn Samples.fresh_connection_world 1)
    /\ containerStreams w' = containerStreams Samples.fresh_connection_world
    /\ db w' = db Samples.fresh_connection_world.
Proof.
  apply (authenticate_registers Samples.accept_alice Samples.no_dates Samples.idle_engine
           true "2024-05-01T10:00:05.000Z" "client_1" 1%nat
           (Wire.mkClientMessage (Some "authenticate") (Some "token-a") None None None)
           "token-a" 7 "alice" "user" Samples.fresh_connection_world);
    [reflexivity|reflexivity|discriminate|reflexivity].
Defined.

Lemma non_owner_is_refused_witness :
  WebSocketService.handleLogSubscription Samples.no_dates true "2024-05-01T10:00:05.000Z"
    1%nat (Wire.mkClientMessage (Some "subscribe_logs") None (Some "c2") None None)
    (Some 7) Samples.served_world
  = WebSocketService.sendError "2024-05-01T10:00:05.000Z" 1%nat "Access denied"
      Samples.served_world
  /\ WebSocketService.handleContainerStatus Samples.idle_engine "2024-05-01T10:00:05.000Z"
       1%nat (Wire.mkClientMessage (Some "subscribe_logs") None (Some "c2") None None)
       (Some 7) Samples.served_world
     = WebSocketService.sendError "2024-05-01T10:00:05.000Z" 1%nat "Access denied"
         Samples.served_world
  /\ (exists err,
        WebSocketService.handleCommandExecution Samples.idle_engine
          "2024-05-01T10:00:05.000Z" 1%nat
          (Wire.mkClientMessage (Some "subscribe_logs") None (Some "c2") None None)
          (Some 7) Samples.served_world
        = WebSocketService.sendError "2024-05-01T10:00:05.000Z" 1%nat err
            Samples.served_world)
  /\ (forall err, exists w',
        WebSocketService.sendError "2024-05-01T10:00:05.000Z" 1%nat err Samples.served_world
        = (Js.Normal tt, w')
        /\ WebSocketService.onlySockets Samples.served_world w'
        /\ (forall x, x <> 1%nat ->
                      WebSocketService.sentOn w' x
                      = WebSocketService.sentOn Samples.served_world x)
        /\ WebSocketService.sentOn w' 1
           = (if WebSocketService.isOpen Samples.served_world 1
              then WebSocketService.sentOn Samples.served_world 1
                   ++ [Wire.error err "2024-05-01T10:00:05.000Z"]
              else WebSocketService.sentOn Samples.served_world 1)).
Proof.
  apply (non_owner_is_refused Samples.no_dates Samples.idle_engine true
           "2024-05-01T10:00:05.000Z" 1%nat
           (Wire.mkClientMessage (Some "subscribe_logs") None (Some "c2") None None)
           (Some 7) "c2"
           (Schema.mkContainer "c2" "db" (Some "e2") "postgres" "running"
                               "/home/containers/c2" None 1)
           (Wire.mkClient 1 7 "alice" "user") Samples.served_world);
    [reflexivity|discriminate|reflexivity|reflexivity|discriminate|discriminate].
Defined.

Lemma subscription_delivers_recent_logs_witness :
  exists w' recent,
    WebSocketService.handleLogSubscription Samples.no_dates true "2024-05-01T10:00:05.000Z"
      1%nat (Wire.mkClientMessage (Some "subscribe_logs") None (Some "c1") None None)
      (Some 7) Samples.served_world
    = (Js.Normal tt, w')
    /\ recent
       = [Wire.mkLogEntry "2024-05-01T10:00:00.000Z" "boot ok" "file" "application";
          Wire.mkLogEntry "2024-05-01T10:00:01.000Z" "listening" "file" "application"]
    /\ (length recent <= 50)%nat
    /\ WebSocketService.sentOn w' 1
       = WebSocketService.sentOn Samples.served_world 1
         ++ Wire.log_subscription_success "c1" "web" "2024-05-01T10:00:05.000Z"
            :: map (Wire.log_entry "c1") recent
    /\ (forall c x, x ∈ WebSocketService.subscribersOf w' c
                    <-> x ∈ WebSocketService.subscribersOf Samples.served_world c
                        \/ (c = "c1" /\ x = 1%nat))
    /\ Wire.subscribedContainers (WebSocketService.connection w' 1)
       = Wire.subscribedContainers (WebSocketService.connection Samples.served_world 1)
         ∪ {["c1"]}
    /\ db w' = db Samples.served_world /\ fs w' = fs Samples.served_world.
Proof.
  apply (subscription_delivers_recent_logs Samples.no_dates "2024-05-01T10:00:05.000Z" 1%nat
           (Wire.mkClientMessage (Some "subscribe_logs") None (Some "c1") None None)
           (Some 7) "c1"
           (Schema.mkContainer "c1" "web" (Some "e1") "nginx" "running"
                               "/home/containers/c1" None 7)
           Samples.served_world);
    [reflexivity|discriminate|reflexivity|reflexivity|reflexivity].
Defined.

Lemma command_is_split_at_spaces_witness :
  exists w' argv,
    WebSocketService.handleCommandExecution Samples.idle_engine "2024-05-01T10:00:05.000Z"
      1%nat
      (Wire.mkClientMessage (Some "execute_command") None (Some "c1")
                            (Some "echo 'a  b'") None)
      (Some 7) Samples.served_world
    = (Js.Normal tt, w')
    /\ calls w' = calls Samples.served_world ++ [EngineExec "e1" argv]
    /\ WebSocketService.join " " argv = "echo 'a  b'"
    /\ WebSocketService.sentOn w' 1
       = (if WebSocketService.isOpen Samples.served_world 1
          then WebSocketService.sentOn Samples.served_world 1
               ++ [Wire.command_started "c1" "echo 'a  b'" "2024-05-01T10:00:05.000Z"]
          else WebSocketService.sentOn Samples.served_world 1)
    /\ Schema.container_logs (db w')
       = Schema.container_logs (db Samples.served_world)
         ++ [Schema.mkLog "c1" "Command executed via WebSocket: echo 'a  b'" "info"]
    /\ Schema.containers (db w') = Schema.containers (db Samples.served_world)
    /\ containerStreams w' = containerStreams Samples.served_world.
Proof.
  apply (command_is_split_at_spaces Samples.idle_engine "2024-05-01T10:00:05.000Z" 1%nat
           (Wire.mkClientMessage (Some "execute_command") None (Some "c1")
                                 (Some "echo 'a  b'") None)
           (Some 7) "c1" "echo 'a  b'" "e1"
           (Schema.mkContainer "c1" "web" (Some "e1") "nginx" "running"
                               "/home/containers/c1" None 7)
           Samples.served_world);
    [reflexivity|discriminate|reflexivity|discriminate|reflexivity|reflexivity
    |reflexivity|discriminate|reflexivity|reflexivity].
Defined.

End Sockets.
